(** * Quarterly simulation engine of the mentor simulator (src/src/App.tsx)

    A shallow embedding of the settlement functions of [App.tsx] and the
    properties the specification states about them.

    Conventions of the embedding.
    - A JavaScript [number] is a rational [Q]: the arithmetic of the source
      is read exactly (no rounding of doubles, no NaN, no infinities).
      [Math.round] and [Math.floor] return integers, injected back into [Q].
    - [Math.random()] reads the next element of an explicit stream of draws;
      code that calls it lives in the state monad [Rand].
    - An optional field [f?: T] is an [option T]; JavaScript truthiness of
      such a field ([undefined], [0], the empty string are falsy) is written
      out where the source relies on it.
    - The text of log entries is kept structurally: one constructor per
      [events.push] site, carrying the values the template interpolates.
    - [data/studentTraits] and [logic/gameState] are not part of the sources
      at hand: the trait table is a parameter and the shape of [MentorStats]
      is read off its uses in [App.tsx]. *)

From Stdlib Require Import QArith Qminmax Qround ZArith List String Bool Lia Lqa.
Import ListNotations.
Open Scope Q_scope.


(* ------------------------------------------------------------------ *)
(** ** Numbers *)

(** [clampValue(value, min, max) = Math.max(min, Math.min(max, value))]. *)
Definition clampValue (value min max : Q) : Q := Qmax min (Qmin max value).

(** [Math.round]: nearest integer, halves towards plus infinity. *)
Definition jsRound (x : Q) : Z := Qfloor (x + (1 # 2)).

(** [Math.floor]. *)
Definition jsFloor (x : Q) : Z := Qfloor x.

(** Truthiness of a number: zero is falsy. *)
Definition truthyQ (x : Q) : bool := negb (Qeq_bool x 0).

(** Truthiness of an optional number ([undefined] and [0] are falsy). *)
Definition truthyOptQ (x : option Q) : bool :=
  match x with
  | Some v => truthyQ v
  | None => false
  end.

(** [x ?? d]. *)
Definition orElse {A : Type} (x : option A) (d : A) : A :=
  match x with
  | Some v => v
  | None => d
  end.

(** Truthiness of a string: the empty string is falsy. *)
Definition truthyStr (s : string) : bool := negb (String.eqb s EmptyString).

Definition truthyOptStr (s : option string) : bool :=
  match s with
  | Some v => truthyStr v
  | None => false
  end.

Definition Qltb (a b : Q) : bool := negb (Qle_bool b a).
Definition Qgeb (a b : Q) : bool := Qle_bool b a.
Definition Qgtb (a b : Q) : bool := negb (Qle_bool a b).

(** Membership in an array of strings ([Array.prototype.includes]). *)
Definition includes (l : list string) (x : string) : bool :=
  existsb (String.eqb x) l.

(* ------------------------------------------------------------------ *)
(** ** Randomness: [Math.random] as a stream of draws *)

(** The state of the platform oracles: the stream [Math.random] reads from
    with the position of the next draw, and the readings of [Date.now()]
    with the position of the next reading. *)
Record Rng : Type := mkRng {
  draws : nat -> Q;
  cursor : nat;
  clock : nat -> Z;
  ticks : nat
}.

Definition Rand (A : Type) : Type := Rng -> A * Rng.

Definition ret {A : Type} (a : A) : Rand A := fun g => (a, g).

Definition bind {A B : Type} (m : Rand A) (k : A -> Rand B) : Rand B :=
  fun g => let (a, g') := m g in k a g'.

Notation "x <- m ;; k" := (bind m (fun x => k))
  (at level 61, m at next level, right associativity).

(** [Math.random()]. *)
Definition random : Rand Q :=
  fun g => (draws g (cursor g), mkRng (draws g) (S (cursor g)) (clock g) (ticks g)).

(** [Date.now()]. *)
Definition dateNow : Rand Z :=
  fun g => (clock g (ticks g), mkRng (draws g) (cursor g) (clock g) (S (ticks g))).

(** Every draw of [Math.random] lies in [0, 1). *)
Definition fairRng (g : Rng) : Prop := forall n, 0 <= draws g n /\ draws g n < 1.

(** [rollInRange(min, max) = Math.round(min + Math.random() * (max - min))]. *)
Definition rollAt (min max r : Q) : Q := inject_Z (jsRound (min + r * (max - min))).

Definition rollInRange (min max : Q) : Rand Q :=
  r <- random ;; ret (rollAt min max r).

(** [array.map(f)] for an [f] that also updates an accumulator (the arrays
    and records the callback pushes to) and draws random numbers. *)
Fixpoint mapAccumM {S A B : Type} (f : S -> A -> Rand (B * S)) (acc : S) (l : list A)
  : Rand (list B * S) :=
  match l with
  | [] => ret ([], acc)
  | x :: xs =>
      r <- f acc x ;;
      rs <- mapAccumM f (snd r) xs ;;
      ret (fst r :: fst rs, snd rs)
  end.

(* ------------------------------------------------------------------ *)
(** ** Quarter stamps *)

Record Stamp : Type := mkStamp { year : Q; quarter : Q }.

Definition toQuarterIndex (y q : Q) : Q := (y - 1) * 4 + (q - 1).

(** Truncation towards zero, and the JavaScript remainder [n % m]
    (the result has the sign of the dividend). *)
Definition jsTrunc (x : Q) : Z := if Qle_bool 0 x then Qfloor x else Qceiling x.

Definition jsRem (n m : Q) : Q := n - m * inject_Z (jsTrunc (n / m)).

Definition addQuarters (stamp : Stamp) (offset : Q) : Stamp :=
  let base := toQuarterIndex (year stamp) (quarter stamp) in
  let next := base + offset in
  mkStamp (inject_Z (jsFloor (next / 4)) + 1) (jsRem next 4 + 1).

Definition isQuarterReached (current target : Stamp) : bool :=
  Qgeb (toQuarterIndex (year current) (quarter current))
       (toQuarterIndex (year target) (quarter target)).

(* ------------------------------------------------------------------ *)
(** ** Mentor statistics and deltas *)

(** Modelled from the spec: the declaration of [MentorStats] is in
    [logic/gameState], which is not among the sources. A gauge is a current
    value with a fixed maximum ([App.tsx] also reads its [color]). *)
Record Gauge : Type := mkGauge { value : Q; max : Q; color : string }.

(** Modelled from the spec: [MentorStats] has the four named gauges, the
    unbounded [funding] and [reputation], and the [year] and [quarter] of the
    current turn, as [App.tsx] reads them. *)
Record MentorStats : Type := mkMentorStats {
  morale : Gauge;
  academia : Gauge;
  admin : Gauge;
  integrity : Gauge;
  funding : Q;
  reputation : Q;
  statsYear : Q;
  statsQuarter : Q
}.

(** [StatDelta]: every field optional. *)
Record StatDelta : Type := mkStatDelta {
  dMorale : option Q;
  dAcademia : option Q;
  dAdmin : option Q;
  dIntegrity : option Q;
  dFunding : option Q;
  dReputation : option Q
}.

Definition emptyStatDelta : StatDelta := mkStatDelta None None None None None None.

(** [StudentDelta]: every field optional. *)
Record StudentDelta : Type := mkStudentDelta {
  dDiligence : option Q;
  dTalent : option Q;
  dLuck : option Q;
  dStress : option Q;
  dMentalState : option Q;
  dContribution : option Q;
  dPendingPapers : option Q;
  dTotalPapers : option Q
}.

Definition emptyStudentDelta : StudentDelta :=
  mkStudentDelta None None None None None None None None.

Record Reactions : Type := mkReactions { success : list string; fail : list string }.

Record StudentPersona : Type := mkStudent {
  id : string;
  name : string;
  studentType : string;
  studentYear : Q;
  diligence : Q;
  stress : Q;
  talent : Q;
  luck : Q;
  hiddenLuck : Q;
  contribution : Q;
  pendingPapers : Q;
  totalPapers : Q;
  mentalState : Q;
  isBeingMentored : bool;
  isGenius : bool;
  recruitedYear : Q;
  isYoungTeacher : bool;
  personality : string;
  bio : string;
  traits : list string;
  whipReactions : Reactions;
  comfortReactions : Reactions;
  department : string;
  mentorId : option string;
  hasWhippedThisQuarter : option bool;
  hasComfortedThisQuarter : option bool;
  isLoadingPersona : option bool
}.

(** [{ ...gauge, value: clampValue(gauge.value + d, 0, gauge.max) }]. *)
Definition bumpGauge (g : Gauge) (d : Q) : Gauge :=
  mkGauge (clampValue (value g + d) 0 (max g)) (max g) (color g).

(** One gauge line of [applyMentorDelta]: [delta.k ? {...} : stats.k]. *)
Definition applyGaugeDelta (g : Gauge) (d : option Q) : Gauge :=
  if truthyOptQ d then bumpGauge g (orElse d 0) else g.

Definition applyMentorDelta (stats : MentorStats) (delta : StatDelta) : MentorStats :=
  mkMentorStats
    (applyGaugeDelta (morale stats) (dMorale delta))
    (applyGaugeDelta (academia stats) (dAcademia delta))
    (applyGaugeDelta (admin stats) (dAdmin delta))
    (applyGaugeDelta (integrity stats) (dIntegrity delta))
    (if truthyOptQ (dFunding delta)
     then Qmax (funding stats + orElse (dFunding delta) 0) 0
     else funding stats)
    (if truthyOptQ (dReputation delta)
     then reputation stats + orElse (dReputation delta) 0
     else reputation stats)
    (statsYear stats)
    (statsQuarter stats).

(** One attribute line of [applyStudentDelta]:
    [delta.k === undefined ? student.k : clampValue(student.k + delta.k, 0, 100)]. *)
Definition applyAttrDelta (v : Q) (d : option Q) : Q :=
  match d with
  | None => v
  | Some x => clampValue (v + x) 0 100
  end.

(** One counter line: [delta.k === undefined ? student.k : Math.max(student.k + delta.k, 0)]. *)
Definition applyCountDelta (v : Q) (d : option Q) : Q :=
  match d with
  | None => v
  | Some x => Qmax (v + x) 0
  end.

Definition applyStudentDelta (student : StudentPersona) (delta : StudentDelta) : StudentPersona :=
  mkStudent
    (id student) (name student) (studentType student) (studentYear student)
    (applyAttrDelta (diligence student) (dDiligence delta))
    (applyAttrDelta (stress student) (dStress delta))
    (applyAttrDelta (talent student) (dTalent delta))
    (applyAttrDelta (luck student) (dLuck delta))
    (hiddenLuck student)
    (applyAttrDelta (contribution student) (dContribution delta))
    (applyCountDelta (pendingPapers student) (dPendingPapers delta))
    (applyCountDelta (totalPapers student) (dTotalPapers delta))
    (applyAttrDelta (mentalState student) (dMentalState delta))
    (isBeingMentored student) (isGenius student) (recruitedYear student)
    (isYoungTeacher student) (personality student) (bio student) (traits student)
    (whipReactions student) (comfortReactions student) (department student)
    (mentorId student) (hasWhippedThisQuarter student)
    (hasComfortedThisQuarter student) (isLoadingPersona student).

(* ------------------------------------------------------------------ *)
(** ** Student traits *)

Inductive TraitCategory : Type := CatMain | CatSub.

Inductive TraitPolarity : Type := PolPositive | PolNegative | PolNeutral.

Inductive StudentStatKey : Type :=
  KDiligence | KTalent | KLuck | KStress | KMentalState.

Definition TraitCategory_eqb (a b : TraitCategory) : bool :=
  match a, b with
  | CatMain, CatMain | CatSub, CatSub => true
  | _, _ => false
  end.

Definition TraitPolarity_eqb (a b : TraitPolarity) : bool :=
  match a, b with
  | PolPositive, PolPositive | PolNegative, PolNegative | PolNeutral, PolNeutral => true
  | _, _ => false
  end.

Definition StudentStatKey_eqb (a b : StudentStatKey) : bool :=
  match a, b with
  | KDiligence, KDiligence | KTalent, KTalent | KLuck, KLuck
  | KStress, KStress | KMentalState, KMentalState => true
  | _, _ => false
  end.

(** Modelled from the spec: the declaration of [StudentTrait] is in
    [data/studentTraits], which is not among the sources; the fields are the
    ones [App.tsx] reads ([id], [name], [category], [polarity], the optional
    [conflicts] and the optional [statBounds], a record from attribute to a
    [min, max] band, kept in key order). *)
Record StudentTrait : Type := mkTrait {
  traitId : string;
  traitName : string;
  category : TraitCategory;
  polarity : TraitPolarity;
  conflicts : option (list string);
  statBounds : option (list (StudentStatKey * (Q * Q)))
}.

(** [Array.from(new Set(l))]: first occurrences, in order. *)
Fixpoint dedupFrom (seen l : list string) : list string :=
  match l with
  | [] => []
  | x :: xs => if includes seen x then dedupFrom seen xs else x :: dedupFrom (x :: seen) xs
  end.

Definition dedup (l : list string) : list string := dedupFrom [] l.

(** [arr[i]] for an integer index: [undefined] outside the array. *)
Definition jsIndex {A : Type} (l : list A) (i : Z) : option A :=
  if (i <? 0)%Z then None else nth_error l (Z.to_nat i).

Record TraitPools : Type := mkPools {
  poolPositive : list string;
  poolNegative : list string;
  poolNeutral : list string
}.

Definition poolOf (pools : TraitPools) (bucket : TraitPolarity) : list string :=
  match bucket with
  | PolPositive => poolPositive pools
  | PolNegative => poolNegative pools
  | PolNeutral => poolNeutral pools
  end.

Section TraitTable.

(** The trait table of [data/studentTraits] (not among the sources). *)
Variable studentTraits : list StudentTrait.

(** [studentTraitById = new Map(studentTraits.map(t => [t.id, t]))]:
    a later entry with the same id replaces an earlier one. *)
Definition studentTraitById (tid : string) : option StudentTrait :=
  find (fun t => String.eqb (traitId t) tid) (rev studentTraits).

Definition studentTraitIds : list string := map traitId studentTraits.

(** [trait.conflicts?.includes(other)], coerced by [Boolean]. *)
Definition conflictsInclude (t : StudentTrait) (other : string) : bool :=
  match conflicts t with
  | Some l => includes l other
  | None => false
  end.

Definition hasTraitConflict (leftId rightId : string) : bool :=
  match studentTraitById leftId, studentTraitById rightId with
  | Some l, Some r => conflictsInclude l rightId || conflictsInclude r leftId
  | _, _ => false
  end.

(** [studentTraitById.get(id)?.category === category]. *)
Definition hasCategory (cat : TraitCategory) (tid : string) : bool :=
  match studentTraitById tid with
  | Some t => TraitCategory_eqb (category t) cat
  | None => false
  end.

Definition hasPolarity (pol : TraitPolarity) (tid : string) : bool :=
  match studentTraitById tid with
  | Some t => TraitPolarity_eqb (polarity t) pol
  | None => false
  end.

Definition getTraitPoolsByCategory (cat : TraitCategory) : TraitPools :=
  mkPools
    (filter (fun i => hasCategory cat i && hasPolarity PolPositive i) studentTraitIds)
    (filter (fun i => hasCategory cat i && hasPolarity PolNegative i) studentTraitIds)
    (filter (fun i => hasCategory cat i && hasPolarity PolNeutral i) studentTraitIds).

(** The inner [weightedPick] of [pickWeightedTrait], on a given roll. *)
Definition weightedPick (cat : TraitCategory) (roll : Q) : TraitPolarity :=
  match cat with
  | CatMain => if Qltb roll 0.8 then PolPositive else PolNegative
  | CatSub =>
      if Qltb roll 0.6 then PolPositive
      else if Qltb roll 0.8 then PolNegative
      else PolNeutral
  end.

(** The fallback after the bounded retries of [pickWeightedTrait]. *)
Definition pickFallbackTrait (cat : TraitCategory) (blocked : list string) : option string :=
  find (fun i => hasCategory cat i && negb (includes blocked i)) studentTraitIds.

(** The [while (safety < 24)] loop of [pickWeightedTrait]; [fuel] is the
    number of iterations left. A [pool[...]] that is [undefined] conflicts
    with nothing and is returned as it is. *)
Fixpoint pickWeightedTraitLoop (fuel : nat) (cat : TraitCategory) (blocked : list string)
  : Rand (option string) :=
  match fuel with
  | O => ret (pickFallbackTrait cat blocked)
  | S fuel' =>
      roll <- random ;;
      let bucket := weightedPick cat roll in
      let pool :=
        filter (fun i => negb (includes blocked i))
               (poolOf (getTraitPoolsByCategory cat) bucket) in
      match pool with
      | [] => pickWeightedTraitLoop fuel' cat blocked
      | _ :: _ =>
          r <- random ;;
          match jsIndex pool (jsFloor (r * inject_Z (Z.of_nat (List.length pool)))) with
          | None => ret None
          | Some i =>
              if existsb (fun selected => hasTraitConflict selected i) blocked
              then pickWeightedTraitLoop fuel' cat blocked
              else ret (Some i)
          end
      end
  end.

Definition pickWeightedTrait (cat : TraitCategory) (blocked : list string)
  : Rand (option string) :=
  pickWeightedTraitLoop 24 cat blocked.

(** The [while (picked.length < count && safety < 24)] loop of
    [pickWeightedTraits]. [!traitId] breaks on [undefined] and on the
    empty string. *)
Fixpoint pickWeightedTraitsLoop (fuel : nat) (cat : TraitCategory) (count : Z)
    (blocked picked : list string) : Rand (list string) :=
  match fuel with
  | O => ret picked
  | S fuel' =>
      if (Z.of_nat (List.length picked) <? count)%Z then
        t <- pickWeightedTrait cat (blocked ++ picked) ;;
        if negb (truthyOptStr t) then ret picked
        else
          let i := orElse t EmptyString in
          if includes picked i then pickWeightedTraitsLoop fuel' cat count blocked picked
          else if existsb (fun selected => hasTraitConflict selected i) blocked
          then pickWeightedTraitsLoop fuel' cat count blocked picked
          else if existsb (fun selected => hasTraitConflict selected i) picked
          then pickWeightedTraitsLoop fuel' cat count blocked picked
          else pickWeightedTraitsLoop fuel' cat count blocked (picked ++ [i])
      else ret picked
  end.

Definition pickWeightedTraits (cat : TraitCategory) (count : Z) (blocked : list string)
  : Rand (list string) :=
  pickWeightedTraitsLoop 24 cat count blocked [].

(** The [subTraits.forEach] of [resolveStudentTraits]: keep a supplied sub
    trait while there is room and it does not conflict with the main one. *)
Definition keepSuppliedSubs (desiredSubCount : Z) (resolvedMain : option string)
    (subTraits : list string) : list string :=
  fold_left
    (fun resolvedSubs i =>
       if (desiredSubCount <=? Z.of_nat (List.length resolvedSubs))%Z then resolvedSubs
       else if truthyOptStr resolvedMain && hasTraitConflict (orElse resolvedMain EmptyString) i
       then resolvedSubs
       else resolvedSubs ++ [i])
    subTraits [].

(** [[resolvedMain, ...resolvedSubs].filter(Boolean)]. *)
Definition truthyTraits (resolvedMain : option string) (resolvedSubs : list string)
  : list string :=
  (if truthyOptStr resolvedMain then [orElse resolvedMain EmptyString] else [])
    ++ filter truthyStr resolvedSubs.

Definition resolveStudentTraits (traits : option (list string)) : Rand (list string) :=
  let uniqueTraits :=
    filter (fun i => match studentTraitById i with Some _ => true | None => false end)
           (dedup (orElse traits [])) in
  let mainTrait := find (hasCategory CatMain) uniqueTraits in
  let subTraits := filter (hasCategory CatSub) uniqueTraits in
  roll <- random ;;
  let desiredSubCount : Z := if Qltb roll 0.5 then 2%Z else 3%Z in
  resolvedMain <-
    match mainTrait with
    | Some m => ret (Some m)
    | None => pickWeightedTrait CatMain []
    end ;;
  let resolvedSubs := keepSuppliedSubs desiredSubCount resolvedMain subTraits in
  resolvedSubs' <-
    (if (Z.of_nat (List.length resolvedSubs) <? desiredSubCount)%Z then
       more <- pickWeightedTraits CatSub
                 (desiredSubCount - Z.of_nat (List.length resolvedSubs))
                 (if truthyOptStr resolvedMain then [orElse resolvedMain EmptyString] else []) ;;
       ret (resolvedSubs ++ more)
     else ret resolvedSubs) ;;
  let picked := truthyTraits resolvedMain resolvedSubs' in
  match picked with
  | [] => pickWeightedTraits CatMain 1 []
  | _ :: _ => ret picked
  end.

(* ---------------------------------------------------------------- *)
(** *** Mentorship influence *)

Definition getTraitDelta (min max : Q) : Q :=
  if Qgeb min 80 then 3
  else if Qgeb min 70 then 2
  else if Qgeb min 60 then 1
  else if Qle_bool max 25 then -3
  else if Qle_bool max 35 then -2
  else if Qle_bool max 50 then -1
  else 0.

(** The accumulator of [collectTraitInfluence]: a partial record from
    attribute to number. *)
Definition TraitDeltas : Type := StudentStatKey -> option Q.

Definition noTraitDeltas : TraitDeltas := fun _ => None.

Definition addTraitDelta (deltas : TraitDeltas) (key : StudentStatKey) (d : Q) : TraitDeltas :=
  fun k => if StudentStatKey_eqb k key then Some (orElse (deltas key) 0 + d) else deltas k.

Definition collectTraitInfluence (ts : list StudentTrait) : TraitDeltas :=
  fold_left
    (fun deltas t =>
       match statBounds t with
       | None => deltas
       | Some bounds =>
           fold_left
             (fun acc entry =>
                let '(key, (lo, hi)) := entry in
                let d := getTraitDelta lo hi in
                if truthyQ d then addTraitDelta acc key d else acc)
             bounds deltas
       end)
    ts noTraitDeltas.

Definition calcMentorDelta (v step minDelta maxDelta : Q) : Q :=
  clampValue (inject_Z (jsRound ((v - 50) / step))) minDelta maxDelta.

(** [mentor.traits.map(id => studentTraitById.get(id)).filter(Boolean)]. *)
Fixpoint lookupTraits (ids : list string) : list StudentTrait :=
  match ids with
  | [] => []
  | i :: rest =>
      match studentTraitById i with
      | Some t => t :: lookupTraits rest
      | None => lookupTraits rest
      end
  end.

Definition applyMentorInfluence (mentee mentor : StudentPersona) : StudentPersona :=
  let mentorTraits :=
    filter (fun t => TraitCategory_eqb (category t) CatSub) (lookupTraits (traits mentor)) in
  let traitDeltas := collectTraitInfluence mentorTraits in
  let diligenceDelta := calcMentorDelta (diligence mentor) 15 (-2) 3 in
  let talentDelta := calcMentorDelta (talent mentor) 15 (-2) 3 in
  let luckDelta := calcMentorDelta (luck mentor) 18 (-1) 2 in
  let mentalDelta := calcMentorDelta (mentalState mentor) 15 (-2) 2 in
  let stressDelta := calcMentorDelta (stress mentor) 18 (-2) 2 in
  mkStudent
    (id mentee) (name mentee) (studentType mentee) (studentYear mentee)
    (clampValue (diligence mentee + diligenceDelta + orElse (traitDeltas KDiligence) 0) 0 100)
    (clampValue (stress mentee + stressDelta + orElse (traitDeltas KStress) 0) 0 100)
    (clampValue (talent mentee + talentDelta + orElse (traitDeltas KTalent) 0) 0 100)
    (clampValue (luck mentee + luckDelta + orElse (traitDeltas KLuck) 0) 0 100)
    (hiddenLuck mentee) (contribution mentee) (pendingPapers mentee) (totalPapers mentee)
    (clampValue (mentalState mentee + mentalDelta + orElse (traitDeltas KMentalState) 0) 0 100)
    (isBeingMentored mentee) (isGenius mentee) (recruitedYear mentee)
    (isYoungTeacher mentee) (personality mentee) (bio mentee) (traits mentee)
    (whipReactions mentee) (comfortReactions mentee) (department mentee)
    (mentorId mentee) (hasWhippedThisQuarter mentee)
    (hasComfortedThisQuarter mentee) (isLoadingPersona mentee).

Record MentorshipPair : Type := mkPair { pairMentorId : string; pairMenteeId : string }.

(** One step of the [students.forEach] of [buildMentorshipPairs]; the state
    is [(pairs, usedMentors)]. *)
Definition claimMentor (studentIds : list string)
    (acc : list MentorshipPair * list string) (mentee : StudentPersona)
  : list MentorshipPair * list string :=
  let (pairs, usedMentors) := acc in
  match mentorId mentee with
  | None => acc
  | Some m =>
      if negb (truthyStr m) then acc
      else if String.eqb m (id mentee) then acc
      else if negb (includes studentIds m) then acc
      else if includes usedMentors m then acc
      else (pairs ++ [mkPair m (id mentee)], usedMentors ++ [m])
  end.

Definition buildMentorshipPairs (students : list StudentPersona) : list MentorshipPair :=
  let studentIds := map id students in
  fst (fold_left (claimMentor studentIds) students ([], [])).

(** A JavaScript [Map] keyed by strings: entries in insertion order;
    [set] on a present key replaces the value where it stands. *)
Definition JsMap (V : Type) : Type := list (string * V).

Fixpoint mapGet {V : Type} (m : JsMap V) (k : string) : option V :=
  match m with
  | [] => None
  | (k', v) :: rest => if String.eqb k' k then Some v else mapGet rest k
  end.

Fixpoint mapSet {V : Type} (m : JsMap V) (k : string) (v : V) : JsMap V :=
  match m with
  | [] => [(k, v)]
  | (k', v') :: rest =>
      if String.eqb k' k then (k', v) :: rest else (k', v') :: mapSet rest k v
  end.

Definition mapOfEntries {V : Type} (entries : list (string * V)) : JsMap V :=
  fold_left (fun m e => mapSet m (fst e) (snd e)) entries [].

Definition mapValues {V : Type} (m : JsMap V) : list V := map snd m.

Definition setMentorship (s : StudentPersona) (mentored : bool) (m : option string)
  : StudentPersona :=
  mkStudent
    (id s) (name s) (studentType s) (studentYear s) (diligence s) (stress s)
    (talent s) (luck s) (hiddenLuck s) (contribution s) (pendingPapers s)
    (totalPapers s) (mentalState s) mentored (isGenius s) (recruitedYear s)
    (isYoungTeacher s) (personality s) (bio s) (traits s) (whipReactions s)
    (comfortReactions s) (department s) m (hasWhippedThisQuarter s)
    (hasComfortedThisQuarter s) (isLoadingPersona s).

(** One step of the [pairs.forEach] of [applyMentorshipInfluence]. *)
Definition influencePair (studentMap : JsMap StudentPersona) (p : MentorshipPair)
  : JsMap StudentPersona :=
  match mapGet studentMap (pairMentorId p), mapGet studentMap (pairMenteeId p) with
  | Some mentor, Some mentee =>
      let updatedMentee := applyMentorInfluence mentee mentor in
      mapSet studentMap (pairMenteeId p)
             (setMentorship updatedMentee true (Some (pairMentorId p)))
  | _, _ => studentMap
  end.

Definition applyMentorshipInfluence (students : list StudentPersona) : list StudentPersona :=
  let pairs := buildMentorshipPairs students in
  let menteeIds := map pairMenteeId pairs in
  let studentMap := mapOfEntries (map (fun s => (id s, s)) students) in
  let studentMap' := fold_left influencePair pairs studentMap in
  map (fun s => if includes menteeIds (id s) then s else setMentorship s false None)
      (mapValues studentMap').

End TraitTable.

(* ------------------------------------------------------------------ *)
(** ** Projects, papers, grants and decisions *)

Record ProjectProgress : Type := mkProgress { literature : Q; experiment : Q; results : Q }.

Record ResearchProject : Type := mkProject {
  projId : string;
  projTitle : string;
  projCategory : string;
  progress : ProjectProgress;
  projAssignedStudentIds : list string;
  projCreatedYear : Q;
  projCreatedQuarter : Q;
  completed : bool
}.

Inductive PaperVenueType : Type := Conference | Journal.

Inductive PaperVenueTier : Type := TierA | TierB | TierC.

Inductive ProjectPaperStatus : Type :=
  AwaitingVenue | UnderReview | AwaitingRevision | Accepted | Rejected.

Inductive RevisionKind : Type := Minor | Major.

Definition ProjectPaperStatus_eqb (a b : ProjectPaperStatus) : bool :=
  match a, b with
  | AwaitingVenue, AwaitingVenue | UnderReview, UnderReview
  | AwaitingRevision, AwaitingRevision | Accepted, Accepted | Rejected, Rejected => true
  | _, _ => false
  end.

Record ProjectPaper : Type := mkPaper {
  paperId : string;
  projectId : string;
  projectTitle : string;
  leadStudentId : option string;
  grantId : option string;
  venueType : option PaperVenueType;
  venueTier : option PaperVenueTier;
  status : ProjectPaperStatus;
  submittedYear : option Q;
  submittedQuarter : option Q;
  decisionDueYear : option Q;
  decisionDueQuarter : option Q;
  revisionRound : Q;
  lastRevisionKind : option RevisionKind
}.

(** A value of type [unknown] in [DecisionOption.meta]. *)
Inductive JsValue : Type :=
| VNum (n : Q)
| VStr (s : string)
| VOther.

Record Effects : Type := mkEffects {
  effStats : option StatDelta;
  effStudent : option StudentDelta
}.

Record DecisionOption : Type := mkOption {
  optId : string;
  label : string;
  hint : option string;
  outcome : string;
  effects : option Effects;
  meta : option (JsMap JsValue)
}.

(** The [kind] tag of a [DecisionEvent] together with its [context]. *)
Inductive DecisionContext : Type :=
| ProjectVenue (projectPaperId projectId : string)
| ProjectRevision (projectPaperId projectId : string) (revisionKind : RevisionKind)
| GrantReviewEvent (grantId : string)
| GrantExecutionEvent (grantId : string)
| StudentPaperEvent (studentId : string)
| QuarterEvent (studentId : option string).

Record DecisionEvent : Type := mkDecision {
  decId : string;
  decTitle : string;
  decPrompt : string;
  options : list DecisionOption;
  createdYear : Q;
  createdQuarter : Q;
  context : DecisionContext
}.

(** The interpolated text of a settlement log entry, one constructor per
    template of the source. *)
Inductive EventDetail : Type :=
| DetailSubmitted (studentName : string) (submittedCount : Z)
| DetailPaperAccepted (title venueLabel : string) (rep fund : Q)
| DetailPaperRevision (title venueLabel : string) (kind : RevisionKind)
| DetailPaperRejected (title venueLabel : string)
| DetailGrantPaperTodo (title : string)
| DetailGrantReviewLetter (title : string)
| DetailGrantRejected (title : string) (finalScore : Q)
| DetailGrantApproved (title : string) (tier : PaperVenueTier) (fund rep : Q)
| DetailGrantOutput (title : string) (draftedCount : Z)
| DetailGrantExecution (title : string)
| DetailGrantClosed (title : string) (submissions accepted : nat)
| DetailGrantFailed (title : string) (submissions : nat) (requiredSubmissions : Q)
    (accepted : nat) (requiredAccepted : Q).

Record LogEvent : Type := mkLogEvent { evTitle : string; evDetail : EventDetail }.

Open Scope string_scope.

Definition statsOnly (d : StatDelta) : option Effects := Some (mkEffects (Some d) None).

Definition fundingMorale (f m : Q) : StatDelta :=
  mkStatDelta (Some m) None None None (Some f) None.

Definition moraleOnly (m : Q) : StatDelta := mkStatDelta (Some m) None None None None None.

Definition buildProjectVenueDecision (projectPaperId projectId projectTitle : string)
    (y q : Q) : DecisionEvent :=
  mkDecision
    ("dec-project-venue-" ++ projectPaperId)
    "成果投稿策略"
    ("课题「" ++ projectTitle ++ "」已形成阶段成果。请选择本次投稿的期刊/会议等级：")
    [ mkOption "conf-a" "投顶会（A）" (Some "风险高 · 收益高 · 出结果快")
        "已锁定顶会赛道，准备冲一把。"
        (statsOnly (fundingMorale (-6000) (-1)))
        (Some [("venueType", VStr "conference"); ("venueTier", VStr "A");
               ("reviewQuarters", VNum 1); ("reputationReward", VNum 3);
               ("fundingReward", VNum 12000)]);
      mkOption "jour-b" "投一区期刊（B）" (Some "稳中求进 · 周期更长")
        "已选择一区期刊，开始按期刊节奏推进。"
        (statsOnly (fundingMorale (-4500) (-1)))
        (Some [("venueType", VStr "journal"); ("venueTier", VStr "B");
               ("reviewQuarters", VNum 2); ("reputationReward", VNum 2);
               ("fundingReward", VNum 8000)]);
      mkOption "safe-c" "投稳妥刊会（C）" (Some "成功率更高 · 收益较低")
        "先把成果稳稳落地，再考虑下一轮冲刺。"
        (statsOnly (fundingMorale (-2000) 0))
        (Some [("venueType", VStr "conference"); ("venueTier", VStr "C");
               ("reviewQuarters", VNum 1); ("reputationReward", VNum 1);
               ("fundingReward", VNum 5000)]) ]
    y q (ProjectVenue projectPaperId projectId).

Definition revisionKindTag (k : RevisionKind) : string :=
  match k with Minor => "minor" | Major => "major" end.

Definition buildProjectRevisionDecision (projectPaperId projectId projectTitle : string)
    (revisionKind : RevisionKind) (y q : Q) : DecisionEvent :=
  mkDecision
    ("dec-project-revision-" ++ projectPaperId ++ "-" ++ revisionKindTag revisionKind)
    (match revisionKind with Minor => "外审意见：小修" | Major => "外审意见：大修" end)
    (match revisionKind with
     | Minor => "课题「" ++ projectTitle ++ "」收到小修意见。你打算怎么处理？"
     | Major => "课题「" ++ projectTitle ++ "」收到大修意见。你打算怎么处理？"
     end)
    (match revisionKind with
     | Minor =>
         [ mkOption "revise" "按意见小修并回投" (Some "成本低 · 通过率高")
             "已安排小修回投，等待编辑确认。"
             (statsOnly (fundingMorale (-800) (-1)))
             (Some [("action", VStr "revise"); ("reviewQuarters", VNum 1);
                    ("acceptBonus", VNum 0.12)]);
           mkOption "downgrade" "小改后降档改投" (Some "更稳 · 收益下降")
             "已调整策略，选择更稳的刊会。"
             (statsOnly (fundingMorale (-1200) (-1)))
             (Some [("action", VStr "downgrade"); ("reviewQuarters", VNum 1)]);
           mkOption "withdraw" "暂时撤稿，先补实验" (Some "短期止损 · 课题士气下降")
             "已撤稿，课题组需要重新规划。"
             (statsOnly (moraleOnly (-3)))
             (Some [("action", VStr "withdraw")]) ]
     | Major =>
         [ mkOption "major" "硬刚大修并回投" (Some "成本高 · 仍有不确定性")
             "已开启大修冲刺，团队进入加班模式。"
             (statsOnly (fundingMorale (-2600) (-2)))
             (Some [("action", VStr "revise"); ("reviewQuarters", VNum 2);
                    ("acceptBonus", VNum 0.18)]);
           mkOption "downgrade" "降档改投（换赛道）" (Some "更稳 · 但浪费部分周期")
             "已选择降档改投，重新进入外审。"
             (statsOnly (fundingMorale (-1800) (-1)))
             (Some [("action", VStr "downgrade"); ("reviewQuarters", VNum 1)]);
           mkOption "withdraw" "放弃当前稿件" (Some "止损 · 但士气受挫")
             "已放弃当前稿件，准备把经验投入下一题。"
             (statsOnly (moraleOnly (-4)))
             (Some [("action", VStr "withdraw")]) ]
     end)
    y q (ProjectRevision projectPaperId projectId revisionKind).

Definition tierLetter (t : PaperVenueTier) : string :=
  match t with TierA => "A" | TierB => "B" | TierC => "C" end.

Definition formatVenueLabel (vt : option PaperVenueType) (tier : option PaperVenueTier) : string :=
  let typeLabel :=
    match vt with
    | Some Journal => "期刊"
    | Some Conference => "会议"
    | None => "刊会"
    end in
  let tierLabel := match tier with Some t => tierLetter t | None => "?" end in
  typeLabel ++ " " ++ tierLabel.

Close Scope string_scope.

(* ------------------------------------------------------------------ *)
(** ** Paper pipeline: progress accrual *)

(** [counts.set(id, (counts.get(id) ?? 0) + 1)] over the students of every
    project that is not completed. *)
Definition buildActiveProjectCountByStudentId (projects : list ResearchProject) : JsMap Q :=
  fold_left
    (fun counts project =>
       if completed project then counts
       else fold_left
              (fun c studentId => mapSet c studentId (orElse (mapGet c studentId) 0 + 1))
              (projAssignedStudentIds project) counts)
    projects [].

(** The deterministic part of [calcPaperProgressGain] before the jitter. *)
Definition progressBase (student : StudentPersona) (activeProjectCount : Q) : Q :=
  let talent' := clampValue (talent student) 0 100 in
  let diligence' := clampValue (diligence student) 0 100 in
  let luck' := clampValue (luck student) 0 100 in
  let stress' := clampValue (stress student) 0 100 in
  let mental := clampValue (mentalState student) 0 100 in
  let core := diligence' * 0.45 + talent' * 0.4 + luck' * 0.15 in
  let base := 20 + (core - 50) * 0.6 in
  let base := base + Qmin activeProjectCount 2 * 2 in
  let base := if isBeingMentored student then base + 2 else base in
  let base := if Qgeb mental 85 then base + 1 else base in
  let base := if Qgeb stress' 70 then base - 6 else base in
  let base := if Qltb mental 50 then base - 6 else base in
  base.

Definition burstEligible (student : StudentPersona) : bool :=
  Qgeb (clampValue (talent student) 0 100) 90
  && Qgeb (clampValue (luck student) 0 100) 85
  && Qgeb (clampValue (mentalState student) 0 100) 75
  && Qle_bool (clampValue (stress student) 0 100) 60.

Definition burstChance (student : StudentPersona) : Q :=
  clampValue (0.06 + (clampValue (luck student) 0 100 - 85) / 220) 0.06 0.18.

Definition calcPaperProgressGain (student : StudentPersona) (activeProjectCount : Q) : Rand Q :=
  let base := progressBase student activeProjectCount in
  luckJitter <- rollInRange (-2) 2 ;;
  roll4 <- rollInRange (-4) 4 ;;
  let jitter := roll4 + luckJitter in
  let regular := clampValue (inject_Z (jsRound (base + jitter))) 20 40 in
  if burstEligible student then
    r <- random ;;
    if Qltb r (burstChance student) then
      b <- rollInRange (-20) 20 ;;
      ret (clampValue (80 + b) 60 100)
    else ret regular
  else ret regular.

Definition calcPaperDecisionChance (mentorStats : MentorStats) : Q :=
  clampValue (0.25 + value (admin mentorStats) / 250) 0.25 0.75.

Definition setPaperProgress (s : StudentPersona)
    (contribution' pendingPapers' mentalState' stress' : Q) : StudentPersona :=
  mkStudent
    (id s) (name s) (studentType s) (studentYear s) (diligence s) stress'
    (talent s) (luck s) (hiddenLuck s) contribution' pendingPapers'
    (totalPapers s) mentalState' (isBeingMentored s) (isGenius s) (recruitedYear s)
    (isYoungTeacher s) (personality s) (bio s) (traits s) (whipReactions s)
    (comfortReactions s) (department s) (mentorId s) (hasWhippedThisQuarter s)
    (hasComfortedThisQuarter s) (isLoadingPersona s).

(** The body of the [students.map] of [settleResearchPapers], once the
    progress gain of the quarter is known. *)
Definition accrueProgress (student : StudentPersona) (progressGain : Q)
  : StudentPersona * list LogEvent :=
  let combinedProgress := clampValue (contribution student + progressGain) 0 100 in
  let submittedCount := jsFloor (combinedProgress / 100) in
  let remainder := combinedProgress - inject_Z submittedCount * 100 in
  if (submittedCount =? 0)%Z then
    (setPaperProgress student remainder (pendingPapers student)
       (mentalState student) (stress student), [])
  else
    (setPaperProgress student remainder
       (pendingPapers student + inject_Z submittedCount)
       (clampValue (mentalState student - 2 * inject_Z submittedCount) 0 100)
       (clampValue (stress student + 3 * inject_Z submittedCount) 0 100),
     [mkLogEvent "论文投稿" (DetailSubmitted (name student) submittedCount)]).

(** [decisionCandidates]: the filter draws a random number only for a
    student with pending papers. *)
Fixpoint filterCandidates (decisionChance : Q) (l : list StudentPersona)
  : Rand (list StudentPersona) :=
  match l with
  | [] => ret []
  | s :: rest =>
      if Qgtb (pendingPapers s) 0 then
        r <- random ;;
        rest' <- filterCandidates decisionChance rest ;;
        ret (if Qltb r decisionChance then s :: rest' else rest')
      else filterCandidates decisionChance rest
  end.

(** The [for ... of decisionCandidates] loop walking the weighted cursor. *)
Fixpoint walkCursor (cur : Q) (l : list StudentPersona) : option string :=
  match l with
  | [] => None
  | s :: rest =>
      let cur' := cur - pendingPapers s in
      if Qle_bool cur' 0 then Some (id s) else walkCursor cur' rest
  end.

Record ResearchSettlement : Type := mkResearchSettlement {
  rsUpdatedStudents : list StudentPersona;
  rsEvents : list LogEvent;
  rsReputationDelta : Q;
  rsFundingDelta : Q;
  rsDecisionStudentId : option string
}.

Definition settleResearchPapers (students : list StudentPersona) (mentorStats : MentorStats)
    (projects : list ResearchProject) : Rand ResearchSettlement :=
  let activeProjectCounts := buildActiveProjectCountByStudentId projects in
  let decisionChance := calcPaperDecisionChance mentorStats in
  updated <-
    mapAccumM
      (fun (events : list LogEvent) student =>
         let activeProjectCount := orElse (mapGet activeProjectCounts (id student)) 0 in
         progressGain <- calcPaperProgressGain student activeProjectCount ;;
         let r := accrueProgress student progressGain in
         ret (fst r, events ++ snd r))
      [] students ;;
  let updatedStudents := fst updated in
  decisionCandidates <- filterCandidates decisionChance updatedStudents ;;
  decisionStudentId <-
    match decisionCandidates with
    | [] => ret None
    | first :: _ =>
        let totalWeight := fold_left (fun sum s => sum + pendingPapers s) decisionCandidates 0 in
        r <- random ;;
        let found := walkCursor (r * totalWeight) decisionCandidates in
        ret (if truthyOptStr found then found else Some (id first))
    end ;;
  ret (mkResearchSettlement updatedStudents (snd updated) 0 0 decisionStudentId).

(* ------------------------------------------------------------------ *)
(** ** Paper pipeline: verdicts of papers under review *)

Record Reward : Type := mkReward { rewardReputation : Q; rewardFunding : Q }.

Definition rewardsByTier (t : PaperVenueTier) : Reward :=
  match t with
  | TierA => mkReward 3 12000
  | TierB => mkReward 2 8000
  | TierC => mkReward 1 5000
  end.

Definition baseAcceptance (t : PaperVenueTier) : Q :=
  match t with TierA => 0.18 | TierB => 0.28 | TierC => 0.42 end.

Definition baseRevision (t : PaperVenueTier) : Q :=
  match t with TierA => 0.55 | TierB => 0.45 | TierC => 0.35 end.

Definition baseMajorRevision (t : PaperVenueTier) : Q :=
  match t with TierA => 0.65 | TierB => 0.5 | TierC => 0.35 end.

(** The arrays and records the callback of [settleProjectPapers] pushes to. *)
Record PaperAcc : Type := mkPaperAcc {
  paStatDelta : StatDelta;
  paStudentDeltaById : JsMap StudentDelta;
  paDecisions : list DecisionEvent;
  paEvents : list LogEvent
}.

Inductive StatKey : Type := SMorale | SAcademia | SAdmin | SIntegrity | SFunding | SReputation.

(** [statDelta[key] = (statDelta[key] ?? 0) + amount]. *)
Definition bumpStat (d : StatDelta) (key : StatKey) (amount : Q) : StatDelta :=
  match key with
  | SMorale =>
      mkStatDelta (Some (orElse (dMorale d) 0 + amount)) (dAcademia d) (dAdmin d)
                  (dIntegrity d) (dFunding d) (dReputation d)
  | SAcademia =>
      mkStatDelta (dMorale d) (Some (orElse (dAcademia d) 0 + amount)) (dAdmin d)
                  (dIntegrity d) (dFunding d) (dReputation d)
  | SAdmin =>
      mkStatDelta (dMorale d) (dAcademia d) (Some (orElse (dAdmin d) 0 + amount))
                  (dIntegrity d) (dFunding d) (dReputation d)
  | SIntegrity =>
      mkStatDelta (dMorale d) (dAcademia d) (dAdmin d)
                  (Some (orElse (dIntegrity d) 0 + amount)) (dFunding d) (dReputation d)
  | SFunding =>
      mkStatDelta (dMorale d) (dAcademia d) (dAdmin d) (dIntegrity d)
                  (Some (orElse (dFunding d) 0 + amount)) (dReputation d)
  | SReputation =>
      mkStatDelta (dMorale d) (dAcademia d) (dAdmin d) (dIntegrity d) (dFunding d)
                  (Some (orElse (dReputation d) 0 + amount))
  end.

(** The sum [mergeStudentDelta] stores: every field becomes defined. *)
Definition sumStudentDelta (current delta : StudentDelta) : StudentDelta :=
  mkStudentDelta
    (Some (orElse (dDiligence current) 0 + orElse (dDiligence delta) 0))
    (Some (orElse (dTalent current) 0 + orElse (dTalent delta) 0))
    (Some (orElse (dLuck current) 0 + orElse (dLuck delta) 0))
    (Some (orElse (dStress current) 0 + orElse (dStress delta) 0))
    (Some (orElse (dMentalState current) 0 + orElse (dMentalState delta) 0))
    (Some (orElse (dContribution current) 0 + orElse (dContribution delta) 0))
    (Some (orElse (dPendingPapers current) 0 + orElse (dPendingPapers delta) 0))
    (Some (orElse (dTotalPapers current) 0 + orElse (dTotalPapers delta) 0)).

Definition mergeStudentDelta (byId : JsMap StudentDelta) (studentId : string)
    (delta : StudentDelta) : JsMap StudentDelta :=
  let current := orElse (mapGet byId studentId) emptyStudentDelta in
  mapSet byId studentId (sumStudentDelta current delta).

(** [if (paper.leadStudentId) mergeStudentDelta(paper.leadStudentId, delta)]. *)
Definition mergeLeadDelta (byId : JsMap StudentDelta) (paper : ProjectPaper)
    (delta : StudentDelta) : JsMap StudentDelta :=
  if truthyOptStr (leadStudentId paper)
  then mergeStudentDelta byId (orElse (leadStudentId paper) EmptyString) delta
  else byId.

Definition resolveLeadStudent (students : list StudentPersona) (paper : ProjectPaper)
  : option StudentPersona :=
  if truthyOptStr (leadStudentId paper)
  then find (fun s => String.eqb (id s) (orElse (leadStudentId paper) EmptyString)) students
  else None.

(** [isPaperVenueTier(paper.venueTier) ? paper.venueTier : 'C']. *)
Definition venueTierOf (paper : ProjectPaper) : PaperVenueTier := orElse (venueTier paper) TierC.

Definition academiaBoost (mentorStats : MentorStats) : Q := value (academia mentorStats) / 260.

Definition leadBoost (lead : option StudentPersona) : Q :=
  match lead with
  | Some l => (talent l + diligence l) / 650
  | None => 0
  end.

Definition revisionBoost (paper : ProjectPaper) : Q := revisionRound paper * 0.06.

Definition stressPenalty (lead : option StudentPersona) : Q :=
  match lead with
  | Some l => stress l / 650
  | None => 0
  end.

Definition acceptChanceOf (mentorStats : MentorStats) (lead : option StudentPersona)
    (paper : ProjectPaper) : Q :=
  clampValue
    (baseAcceptance (venueTierOf paper) + academiaBoost mentorStats + leadBoost lead
     + revisionBoost paper - stressPenalty lead)
    0.06 0.85.

(** [revisionChance] after the renormalisation against [acceptChance]. *)
Definition revisionChanceOf (acceptChance : Q) (paper : ProjectPaper) : Q :=
  let revisionChance :=
    clampValue (baseRevision (venueTierOf paper) - revisionRound paper * 0.08) 0.15 0.75 in
  if Qgtb (acceptChance + revisionChance) 0.95 then 0.95 - acceptChance else revisionChance.

Definition majorChanceOf (paper : ProjectPaper) : Q :=
  clampValue (baseMajorRevision (venueTierOf paper) - revisionRound paper * 0.18) 0.15 0.75.

(** [{ ...paper, status, lastRevisionKind, decisionDueYear: undefined,
       decisionDueQuarter: undefined }]. *)
Definition resolvePaper (paper : ProjectPaper) (st : ProjectPaperStatus)
    (kind : option RevisionKind) : ProjectPaper :=
  mkPaper (paperId paper) (projectId paper) (projectTitle paper) (leadStudentId paper)
          (grantId paper) (venueType paper) (venueTier paper) st
          (submittedYear paper) (submittedQuarter paper) None None
          (revisionRound paper) kind.

Definition acceptedDelta : StudentDelta :=
  mkStudentDelta None None None (Some (-5)) (Some 4) None (Some (-1)) (Some 1).

Definition revisionDelta : StudentDelta :=
  mkStudentDelta None None None (Some 3) (Some (-2)) None None None.

Definition rejectedDelta : StudentDelta :=
  mkStudentDelta None None None (Some 4) (Some (-5)) None (Some (-1)) None.

(** Is the paper due: under review, with a decision stamp that is set and
    reached (the three early returns of the callback). *)
Definition paperIsDue (currentStamp : Stamp) (paper : ProjectPaper) : bool :=
  ProjectPaperStatus_eqb (status paper) UnderReview
  && truthyOptQ (decisionDueYear paper)
  && truthyOptQ (decisionDueQuarter paper)
  && isQuarterReached currentStamp
       (mkStamp (orElse (decisionDueYear paper) 0) (orElse (decisionDueQuarter paper) 0)).

(** The callback of [projectPapers.map] in [settleProjectPapers]. *)
Definition settlePaper (students : list StudentPersona) (mentorStats : MentorStats)
    (currentStamp decisionStamp : Stamp) (acc : PaperAcc) (paper : ProjectPaper)
  : Rand (ProjectPaper * PaperAcc) :=
  if negb (ProjectPaperStatus_eqb (status paper) UnderReview) then ret (paper, acc)
  else if negb (truthyOptQ (decisionDueYear paper)) || negb (truthyOptQ (decisionDueQuarter paper))
  then ret (paper, acc)
  else if negb (isQuarterReached currentStamp
                  (mkStamp (orElse (decisionDueYear paper) 0)
                           (orElse (decisionDueQuarter paper) 0)))
  then ret (paper, acc)
  else
    let tier := venueTierOf paper in
    let lead := resolveLeadStudent students paper in
    let acceptChance := acceptChanceOf mentorStats lead paper in
    let revisionChance := revisionChanceOf acceptChance paper in
    roll <- random ;;
    let venueLabel := formatVenueLabel (venueType paper) (venueTier paper) in
    if Qltb roll acceptChance then
      let reward := rewardsByTier tier in
      let sd := bumpStat (bumpStat (bumpStat (paStatDelta acc)
                  SReputation (rewardReputation reward))
                  SFunding (rewardFunding reward))
                  SMorale 2 in
      ret (resolvePaper paper Accepted (lastRevisionKind paper),
           mkPaperAcc sd
             (mergeLeadDelta (paStudentDeltaById acc) paper acceptedDelta)
             (paDecisions acc)
             (paEvents acc ++
                [mkLogEvent "课题论文接收"
                   (DetailPaperAccepted (projectTitle paper) venueLabel
                      (rewardReputation reward) (rewardFunding reward))]))
    else if Qltb roll (acceptChance + revisionChance) then
      r <- random ;;
      let revisionKind := if Qltb r (majorChanceOf paper) then Major else Minor in
      ret (resolvePaper paper AwaitingRevision (Some revisionKind),
           mkPaperAcc (paStatDelta acc)
             (mergeLeadDelta (paStudentDeltaById acc) paper revisionDelta)
             (paDecisions acc ++
                [buildProjectRevisionDecision (paperId paper) (projectId paper)
                   (projectTitle paper) revisionKind
                   (year decisionStamp) (quarter decisionStamp)])
             (paEvents acc ++
                [mkLogEvent "课题论文返修"
                   (DetailPaperRevision (projectTitle paper) venueLabel revisionKind)]))
    else
      ret (resolvePaper paper Rejected (lastRevisionKind paper),
           mkPaperAcc (bumpStat (paStatDelta acc) SMorale (-2))
             (mergeLeadDelta (paStudentDeltaById acc) paper rejectedDelta)
             (paDecisions acc)
             (paEvents acc ++
                [mkLogEvent "课题论文拒稿"
                   (DetailPaperRejected (projectTitle paper) venueLabel)])).

Record PaperSettlement : Type := mkPaperSettlement {
  psUpdatedPapers : list ProjectPaper;
  psUpdatedStudents : list StudentPersona;
  psStatDelta : StatDelta;
  psDecisions : list DecisionEvent;
  psEvents : list LogEvent
}.

Definition settleProjectPapers (projectPapers : list ProjectPaper)
    (students : list StudentPersona) (mentorStats : MentorStats)
    (currentStamp decisionStamp : Stamp) : Rand PaperSettlement :=
  r <- mapAccumM (settlePaper students mentorStats currentStamp decisionStamp)
         (mkPaperAcc emptyStatDelta [] [] []) projectPapers ;;
  let acc := snd r in
  let updatedStudents :=
    map (fun student =>
           match mapGet (paStudentDeltaById acc) (id student) with
           | Some delta => applyStudentDelta student delta
           | None => student
           end)
        students in
  ret (mkPaperSettlement (fst r) updatedStudents (paStatDelta acc)
         (paDecisions acc) (paEvents acc)).

(* ------------------------------------------------------------------ *)
(** ** Grant lifecycle *)

Inductive GrantType : Type := GuoZiRan | GuoSheKe.

Definition GrantType_eqb (a b : GrantType) : bool :=
  match a, b with
  | GuoZiRan, GuoZiRan | GuoSheKe, GuoSheKe => true
  | _, _ => false
  end.

(** [GrantFundingTier = 'A' | 'B' | 'C'], the same union as [PaperVenueTier]. *)
Definition GrantFundingTier : Type := PaperVenueTier.

Inductive GrantStatus : Type :=
  Reviewing | Active | Completed | GrantRejected | Failed.

Record GrantRequirement : Type := mkRequirement {
  requiredSubmissions : Q;
  requiredAccepted : Q;
  requiredTopTierAtLeast : option PaperVenueTier
}.

Record GrantState : Type := mkGrant {
  gId : string;
  gType : GrantType;
  gTitle : string;
  appliedYear : Q;
  appliedQuarter : Q;
  reviewEndYear : Q;
  reviewEndQuarter : Q;
  gStatus : GrantStatus;
  baseScore : Q;
  scoreDelta : Q;
  gLuck : Q;
  lastReviewEventYear : option Q;
  lastReviewEventQuarter : option Q;
  lastExecutionEventYear : option Q;
  lastExecutionEventQuarter : option Q;
  gTier : option GrantFundingTier;
  fundingGranted : option Q;
  reputationGranted : option Q;
  activeStartYear : option Q;
  activeStartQuarter : option Q;
  closureDueYear : option Q;
  closureDueQuarter : option Q;
  gAssignedStudentIds : list string;
  paperProgress : Q;
  paperIds : list string
}.

Record ScoreBands : Type := mkBands { rejectBelow : Q; tierB : Q; tierA : Q }.

Record TierConfig : Type := mkTierConfig {
  tcFunding : Q;
  reputationRange : Q * Q;
  requirement : GrantRequirement
}.

Record GrantConfig : Type := mkGrantConfig {
  cfgType : GrantType;
  openQuarter : Q;
  reviewOffsetQuarters : Q;
  executionDurationQuarters : Q;
  scoreBands : ScoreBands;
  tiers : GrantFundingTier -> TierConfig;
  reviewEventChance : Q;
  executionEventChance : Q
}.

Definition grantConfigs : list GrantConfig :=
  [ mkGrantConfig GuoZiRan 1 2 6 (mkBands 55 65 80)
      (fun t =>
         match t with
         | TierA => mkTierConfig 300000 (4, 7) (mkRequirement 3 2 (Some TierB))
         | TierB => mkTierConfig 200000 (2, 4) (mkRequirement 2 1 None)
         | TierC => mkTierConfig 120000 (1, 3) (mkRequirement 1 0 None)
         end)
      0.75 0.6;
    mkGrantConfig GuoSheKe 2 2 6 (mkBands 55 65 80)
      (fun t =>
         match t with
         | TierA => mkTierConfig 240000 (3, 6) (mkRequirement 3 2 (Some TierB))
         | TierB => mkTierConfig 160000 (2, 4) (mkRequirement 2 1 None)
         | TierC => mkTierConfig 90000 (1, 3) (mkRequirement 1 0 None)
         end)
      0.75 0.6 ].

Definition getGrantConfig (t : GrantType) : option GrantConfig :=
  find (fun config => GrantType_eqb (cfgType config) t) grantConfigs.

(** [ids.map(id => students.find(s => s.id === id)).filter(Boolean)]. *)
Fixpoint resolveStudents (students : list StudentPersona) (ids : list string)
  : list StudentPersona :=
  match ids with
  | [] => []
  | i :: rest =>
      match find (fun s => String.eqb (id s) i) students with
      | Some s => s :: resolveStudents students rest
      | None => resolveStudents students rest
      end
  end.

(** [pool.reduce((best, current) => ... currentScore > bestScore ? current : best).id],
    [null] on an empty pool. *)
Definition pickBestId (pool : list StudentPersona) : option string :=
  match pool with
  | [] => None
  | first :: rest =>
      Some (id (fold_left
                  (fun best current =>
                     if Qgtb (diligence current + talent current)
                             (diligence best + talent best)
                     then current else best)
                  rest first))
  end.

Definition pickLeadStudentId (students : list StudentPersona) (candidateIds : list string)
  : option string :=
  pickBestId (resolveStudents students candidateIds).

Definition pickFallbackLeadId (students : list StudentPersona) : option string :=
  pickBestId students.

Definition sumOver {A : Type} (f : A -> Q) (l : list A) : Q :=
  fold_left (fun sum x => sum + f x) l 0.

Definition calcGrantPaperProgressGain (students : list StudentPersona)
    (mentorStats : MentorStats) (tier : option GrantFundingTier) : Rand Q :=
  let mentorBoost :=
    inject_Z (jsRound (value (academia mentorStats) / 30))
    + inject_Z (jsRound (value (admin mentorStats) / 60)) in
  match students with
  | [] => ret (clampValue (2 + mentorBoost) 2 8)
  | _ :: _ =>
      let base := 12 in
      let boost :=
        sumOver (fun s => inject_Z (jsRound (diligence s / 20))
                          + inject_Z (jsRound (talent s / 25))) students in
      let stressPenalty := sumOver (fun s => inject_Z (jsRound (stress s / 50))) students in
      let mentalPenalty :=
        sumOver (fun s => if Qltb (mentalState s) 50 then 1 else 0) students in
      let tierBoost :=
        match tier with
        | Some TierA => 4
        | Some TierB => 2
        | _ => 0
        end in
      jitter <- rollInRange (-2) 2 ;;
      ret (clampValue (base + boost + tierBoost + mentorBoost + jitter
                       - stressPenalty - mentalPenalty) 4 50)
  end.

Definition paperTierRank (t : PaperVenueTier) : Q :=
  match t with TierA => 3 | TierB => 2 | TierC => 1 end.

Definition isVenueTierAtLeast (tier : option PaperVenueTier) (floor : PaperVenueTier) : bool :=
  match tier with
  | Some t => Qgeb (paperTierRank t) (paperTierRank floor)
  | None => false
  end.

Inductive ReviewMode : Type := ModeSubmission | ModeReview.

Inductive GrantDecisionRequest : Type :=
| ReqGrantReview (mode : ReviewMode) (grant : GrantState) (y q : Q)
| ReqGrantExecution (grant : GrantState) (y q : Q).

(** The arrays and the record the callback of [settleGrants] pushes to. *)
Record GrantAcc : Type := mkGrantAcc {
  gaStatDelta : StatDelta;
  gaDecisions : list DecisionEvent;
  gaDecisionRequests : list GrantDecisionRequest;
  gaEvents : list LogEvent;
  gaNewPapers : list ProjectPaper
}.

(** [addStatDelta] of [settleGrants]: a zero amount is dropped. *)
Definition addStatDelta (acc : GrantAcc) (key : StatKey) (delta : Q) : GrantAcc :=
  if negb (truthyQ delta) then acc
  else mkGrantAcc (bumpStat (gaStatDelta acc) key delta) (gaDecisions acc)
                  (gaDecisionRequests acc) (gaEvents acc) (gaNewPapers acc).

Definition pushGrantEvent (acc : GrantAcc) (e : LogEvent) : GrantAcc :=
  mkGrantAcc (gaStatDelta acc) (gaDecisions acc) (gaDecisionRequests acc)
             (gaEvents acc ++ [e]) (gaNewPapers acc).

Definition pushGrantRequest (acc : GrantAcc) (r : GrantDecisionRequest) : GrantAcc :=
  mkGrantAcc (gaStatDelta acc) (gaDecisions acc) (gaDecisionRequests acc ++ [r])
             (gaEvents acc) (gaNewPapers acc).

(** Field updates of a grant ([{ ...grant, field: v }]). *)
Definition setGrantLuck (g : GrantState) (l : Q) : GrantState :=
  mkGrant (gId g) (gType g) (gTitle g) (appliedYear g) (appliedQuarter g) (reviewEndYear g)
    (reviewEndQuarter g) (gStatus g) (baseScore g) (scoreDelta g) l
    (lastReviewEventYear g) (lastReviewEventQuarter g) (lastExecutionEventYear g)
    (lastExecutionEventQuarter g) (gTier g) (fundingGranted g) (reputationGranted g)
    (activeStartYear g) (activeStartQuarter g) (closureDueYear g) (closureDueQuarter g)
    (gAssignedStudentIds g) (paperProgress g) (paperIds g).

Definition setGrantStatus (g : GrantState) (st : GrantStatus) : GrantState :=
  mkGrant (gId g) (gType g) (gTitle g) (appliedYear g) (appliedQuarter g) (reviewEndYear g)
    (reviewEndQuarter g) st (baseScore g) (scoreDelta g) (gLuck g)
    (lastReviewEventYear g) (lastReviewEventQuarter g) (lastExecutionEventYear g)
    (lastExecutionEventQuarter g) (gTier g) (fundingGranted g) (reputationGranted g)
    (activeStartYear g) (activeStartQuarter g) (closureDueYear g) (closureDueQuarter g)
    (gAssignedStudentIds g) (paperProgress g) (paperIds g).

Definition setLastReviewEvent (g : GrantState) (y q : Q) : GrantState :=
  mkGrant (gId g) (gType g) (gTitle g) (appliedYear g) (appliedQuarter g) (reviewEndYear g)
    (reviewEndQuarter g) (gStatus g) (baseScore g) (scoreDelta g) (gLuck g)
    (Some y) (Some q) (lastExecutionEventYear g)
    (lastExecutionEventQuarter g) (gTier g) (fundingGranted g) (reputationGranted g)
    (activeStartYear g) (activeStartQuarter g) (closureDueYear g) (closureDueQuarter g)
    (gAssignedStudentIds g) (paperProgress g) (paperIds g).

Definition setLastExecutionEvent (g : GrantState) (y q : Q) : GrantState :=
  mkGrant (gId g) (gType g) (gTitle g) (appliedYear g) (appliedQuarter g) (reviewEndYear g)
    (reviewEndQuarter g) (gStatus g) (baseScore g) (scoreDelta g) (gLuck g)
    (lastReviewEventYear g) (lastReviewEventQuarter g) (Some y) (Some q)
    (gTier g) (fundingGranted g) (reputationGranted g)
    (activeStartYear g) (activeStartQuarter g) (closureDueYear g) (closureDueQuarter g)
    (gAssignedStudentIds g) (paperProgress g) (paperIds g).

Definition setGrantAssigned (g : GrantState) (ids : list string) : GrantState :=
  mkGrant (gId g) (gType g) (gTitle g) (appliedYear g) (appliedQuarter g) (reviewEndYear g)
    (reviewEndQuarter g) (gStatus g) (baseScore g) (scoreDelta g) (gLuck g)
    (lastReviewEventYear g) (lastReviewEventQuarter g) (lastExecutionEventYear g)
    (lastExecutionEventQuarter g) (gTier g) (fundingGranted g) (reputationGranted g)
    (activeStartYear g) (activeStartQuarter g) (closureDueYear g) (closureDueQuarter g)
    ids (paperProgress g) (paperIds g).

Definition setGrantPaperProgress (g : GrantState) (p : Q) : GrantState :=
  mkGrant (gId g) (gType g) (gTitle g) (appliedYear g) (appliedQuarter g) (reviewEndYear g)
    (reviewEndQuarter g) (gStatus g) (baseScore g) (scoreDelta g) (gLuck g)
    (lastReviewEventYear g) (lastReviewEventQuarter g) (lastExecutionEventYear g)
    (lastExecutionEventQuarter g) (gTier g) (fundingGranted g) (reputationGranted g)
    (activeStartYear g) (activeStartQuarter g) (closureDueYear g) (closureDueQuarter g)
    (gAssignedStudentIds g) p (paperIds g).

Definition setGrantPaperIds (g : GrantState) (ids : list string) : GrantState :=
  mkGrant (gId g) (gType g) (gTitle g) (appliedYear g) (appliedQuarter g) (reviewEndYear g)
    (reviewEndQuarter g) (gStatus g) (baseScore g) (scoreDelta g) (gLuck g)
    (lastReviewEventYear g) (lastReviewEventQuarter g) (lastExecutionEventYear g)
    (lastExecutionEventQuarter g) (gTier g) (fundingGranted g) (reputationGranted g)
    (activeStartYear g) (activeStartQuarter g) (closureDueYear g) (closureDueQuarter g)
    (gAssignedStudentIds g) (paperProgress g) ids.

(** The grant returned on approval. *)
Definition activateGrant (g : GrantState) (tier : GrantFundingTier) (fund repGain : Q)
    (decisionStamp closureDue : Stamp) (resolvedAssigned : list string)
    (firstPaperId : string) : GrantState :=
  mkGrant (gId g) (gType g) (gTitle g) (appliedYear g) (appliedQuarter g) (reviewEndYear g)
    (reviewEndQuarter g) Active (baseScore g) (scoreDelta g) (gLuck g)
    (lastReviewEventYear g) (lastReviewEventQuarter g) (lastExecutionEventYear g)
    (lastExecutionEventQuarter g) (Some tier) (Some fund) (Some repGain)
    (Some (year decisionStamp)) (Some (quarter decisionStamp))
    (Some (year closureDue)) (Some (quarter closureDue))
    resolvedAssigned 0 (paperIds g ++ [firstPaperId]).

(** [finalScore >= tierA ? 'A' : finalScore >= tierB ? 'B' : 'C']. *)
Definition tierForScore (bands : ScoreBands) (finalScore : Q) : GrantFundingTier :=
  if Qgeb finalScore (tierA bands) then TierA
  else if Qgeb finalScore (tierB bands) then TierB
  else TierC.

(** [a === b] for an optional number against a number. *)
Definition optEqQ (a : option Q) (b : Q) : bool :=
  match a with
  | Some v => Qeq_bool v b
  | None => false
  end.

Section Platform.

(** Number formatting of the platform, used only inside generated ids:
    [String(n)] for the reading of [Date.now()] and
    [Number.prototype.toString(36)] for a draw of [Math.random()]. *)
Variable showInt : Z -> string.
Variable showBase36 : Q -> string.

(** [`${prefix}-${Date.now()}-${Math.random().toString(36).slice(2, 2 + n)}`]. *)
Definition freshId (prefix : string) (n : nat) : Rand string :=
  t <- dateNow ;;
  r <- random ;;
  ret (prefix ++ "-" ++ showInt t ++ "-" ++ substring 2 n (showBase36 r))%string.

Definition buildGrantPaper (decisionStamp : Stamp) (acc : GrantAcc) (grant : GrantState)
    (lead : option string) : Rand (ProjectPaper * GrantAcc) :=
  pid <- freshId "pp" 4 ;;
  let paper :=
    mkPaper pid ("grant-" ++ gId grant)%string (gTitle grant) lead (Some (gId grant))
            None None AwaitingVenue None None None None 0 None in
  ret (paper,
       mkGrantAcc (gaStatDelta acc)
         (gaDecisions acc ++
            [buildProjectVenueDecision (paperId paper) (projectId paper) (projectTitle paper)
               (year decisionStamp) (quarter decisionStamp)])
         (gaDecisionRequests acc)
         (gaEvents acc ++ [mkLogEvent "成果投稿待办" (DetailGrantPaperTodo (projectTitle paper))])
         (gaNewPapers acc ++ [paper])).

(** The [reviewing] branch of the callback of [settleGrants]. *)
Definition settleReviewingGrant (config : GrantConfig) (students : list StudentPersona)
    (currentStamp decisionStamp : Stamp) (acc : GrantAcc) (grant : GrantState)
  : Rand (GrantState * GrantAcc) :=
  let reviewEndStamp := mkStamp (reviewEndYear grant) (reviewEndQuarter grant) in
  luckTick <- rollInRange (-3) 3 ;;
  let nextGrant := setGrantLuck grant (gLuck grant + luckTick) in
  if negb (isQuarterReached currentStamp reviewEndStamp) then
    let alreadyQueued :=
      optEqQ (lastReviewEventYear nextGrant) (year decisionStamp)
      && optEqQ (lastReviewEventQuarter nextGrant) (quarter decisionStamp) in
    if alreadyQueued then ret (nextGrant, acc)
    else
      r <- random ;;
      if Qltb r (reviewEventChance config) then
        let acc1 :=
          pushGrantRequest acc
            (ReqGrantReview ModeReview nextGrant (year decisionStamp) (quarter decisionStamp)) in
        let acc2 :=
          pushGrantEvent acc1 (mkLogEvent "课题评审来信" (DetailGrantReviewLetter (gTitle grant))) in
        ret (setLastReviewEvent nextGrant (year decisionStamp) (quarter decisionStamp), acc2)
      else ret (nextGrant, acc)
  else
    let finalScore := baseScore nextGrant + scoreDelta nextGrant + gLuck nextGrant in
    if Qltb finalScore (rejectBelow (scoreBands config)) then
      ret (setGrantStatus nextGrant GrantRejected,
           pushGrantEvent acc
             (mkLogEvent "课题评审结果" (DetailGrantRejected (gTitle grant) finalScore)))
    else
      let tier := tierForScore (scoreBands config) finalScore in
      let tierConfig := tiers config tier in
      repGain <- rollInRange (fst (reputationRange tierConfig)) (snd (reputationRange tierConfig)) ;;
      let acc1 := addStatDelta acc SFunding (tcFunding tierConfig) in
      let acc2 := addStatDelta acc1 SReputation repGain in
      let closureDue := addQuarters decisionStamp (executionDurationQuarters config - 1) in
      let autoLeadId :=
        match gAssignedStudentIds nextGrant with
        | _ :: _ => pickLeadStudentId students (gAssignedStudentIds nextGrant)
        | [] => pickFallbackLeadId students
        end in
      let resolvedAssigned :=
        match gAssignedStudentIds nextGrant with
        | _ :: _ => gAssignedStudentIds nextGrant
        | [] =>
            if negb (truthyOptStr autoLeadId) then gAssignedStudentIds nextGrant
            else [orElse autoLeadId EmptyString]
        end in
      p <- buildGrantPaper decisionStamp acc2
             (setGrantAssigned nextGrant resolvedAssigned) autoLeadId ;;
      let firstPaper := fst p in
      let acc3 :=
        pushGrantEvent (snd p)
          (mkLogEvent "课题获批"
             (DetailGrantApproved (gTitle grant) tier (tcFunding tierConfig) repGain)) in
      ret (activateGrant nextGrant tier (tcFunding tierConfig) repGain decisionStamp closureDue
             resolvedAssigned (paperId firstPaper),
           acc3).

(** The [for (let i = 0; i < draftedCount; i += 1)] loop of the active branch. *)
Fixpoint draftPapers (n : nat) (decisionStamp : Stamp) (lead : option string)
    (acc : GrantAcc) (nextGrant : GrantState) : Rand (GrantState * GrantAcc) :=
  match n with
  | O => ret (nextGrant, acc)
  | S n' =>
      p <- buildGrantPaper decisionStamp acc nextGrant lead ;;
      draftPapers n' decisionStamp lead (snd p)
        (setGrantPaperIds nextGrant (paperIds nextGrant ++ [paperId (fst p)]))
  end.

Definition countIf {A : Type} (f : A -> bool) (l : list A) : nat := List.length (filter f l).

(** The closure evaluation at or after the closure deadline. *)
Definition closeGrant (config : GrantConfig) (projectPapers : list ProjectPaper)
    (acc : GrantAcc) (grant nextGrant : GrantState) : GrantState * GrantAcc :=
  let tier := orElse (gTier nextGrant) TierC in
  let req := requirement (tiers config tier) in
  let papers :=
    filter (fun paper =>
              match grantId paper with
              | Some g => String.eqb g (gId nextGrant)
              | None => false
              end)
           projectPapers in
  let submissions :=
    countIf (fun paper => negb (ProjectPaperStatus_eqb (status paper) AwaitingVenue)) papers in
  let accepted := countIf (fun paper => ProjectPaperStatus_eqb (status paper) Accepted) papers in
  let qualityOk :=
    match requiredTopTierAtLeast req with
    | Some floor =>
        existsb (fun paper =>
                   ProjectPaperStatus_eqb (status paper) Accepted
                   && isVenueTierAtLeast (venueTier paper) floor)
                papers
    | None => true
    end in
  let passed :=
    Qgeb (inject_Z (Z.of_nat submissions)) (requiredSubmissions req)
    && Qgeb (inject_Z (Z.of_nat accepted)) (requiredAccepted req)
    && qualityOk in
  if passed then
    let acc1 :=
      addStatDelta acc SReputation
        (match tier with TierA => 2 | TierB => 1 | TierC => 0 end) in
    (setGrantStatus nextGrant Completed,
     pushGrantEvent acc1
       (mkLogEvent "课题结题" (DetailGrantClosed (gTitle grant) submissions accepted)))
  else
    let acc1 :=
      addStatDelta acc SReputation
        (match tier with TierA => -2 | TierB => -1 | TierC => 0 end) in
    let acc2 := addStatDelta acc1 SMorale (-3) in
    (setGrantStatus nextGrant Failed,
     pushGrantEvent acc2
       (mkLogEvent "课题结题未通过"
          (DetailGrantFailed (gTitle grant) submissions (requiredSubmissions req)
             accepted (requiredAccepted req)))).

(** The [active] branch of the callback of [settleGrants]. *)
Definition settleActiveGrant (config : GrantConfig) (students : list StudentPersona)
    (mentorStats : MentorStats) (projectPapers : list ProjectPaper)
    (currentStamp decisionStamp : Stamp) (acc : GrantAcc) (grant : GrantState)
  : Rand (GrantState * GrantAcc) :=
  let closureDueStamp :=
    if truthyOptQ (closureDueYear grant) && truthyOptQ (closureDueQuarter grant)
    then Some (mkStamp (orElse (closureDueYear grant) 0) (orElse (closureDueQuarter grant) 0))
    else None in
  let assigned := resolveStudents students (gAssignedStudentIds grant) in
  gain <- calcGrantPaperProgressGain assigned mentorStats (gTier grant) ;;
  let combinedProgress := clampValue (paperProgress grant + gain) 0 250 in
  let draftedCount := jsFloor (combinedProgress / 100) in
  let remainder := combinedProgress - inject_Z draftedCount * 100 in
  let nextGrant := setGrantPaperProgress grant remainder in
  let resolvedLeadId :=
    match gAssignedStudentIds grant with
    | _ :: _ => pickLeadStudentId students (gAssignedStudentIds grant)
    | [] => pickFallbackLeadId students
    end in
  let nextGrant :=
    match gAssignedStudentIds grant with
    | [] =>
        if truthyOptStr resolvedLeadId
        then setGrantAssigned nextGrant [orElse resolvedLeadId EmptyString]
        else nextGrant
    | _ :: _ => nextGrant
    end in
  drafted <-
    (if (0 <? draftedCount)%Z then
       d <- draftPapers (Z.to_nat draftedCount) decisionStamp resolvedLeadId acc nextGrant ;;
       ret (fst d,
            pushGrantEvent (snd d)
              (mkLogEvent "课题产出" (DetailGrantOutput (gTitle grant) draftedCount)))
     else ret (nextGrant, acc)) ;;
  let nextGrant := fst drafted in
  let acc := snd drafted in
  queued <-
    match closureDueStamp with
    | Some due =>
        if negb (isQuarterReached currentStamp due) then
          let alreadyQueued :=
            optEqQ (lastExecutionEventYear nextGrant) (year decisionStamp)
            && optEqQ (lastExecutionEventQuarter nextGrant) (quarter decisionStamp) in
          if alreadyQueued then ret (nextGrant, acc)
          else
            r <- random ;;
            if Qltb r (executionEventChance config) then
              let acc1 :=
                pushGrantRequest acc
                  (ReqGrantExecution nextGrant (year decisionStamp) (quarter decisionStamp)) in
              let acc2 :=
                pushGrantEvent acc1
                  (mkLogEvent "课题执行事件" (DetailGrantExecution (gTitle grant))) in
              ret (setLastExecutionEvent nextGrant (year decisionStamp) (quarter decisionStamp),
                   acc2)
            else ret (nextGrant, acc)
        else ret (nextGrant, acc)
    | None => ret (nextGrant, acc)
    end ;;
  let nextGrant := fst queued in
  let acc := snd queued in
  match closureDueStamp with
  | Some due =>
      if isQuarterReached currentStamp due
      then ret (closeGrant config projectPapers acc grant nextGrant)
      else ret (nextGrant, acc)
  | None => ret (nextGrant, acc)
  end.

(** The callback of [grants.map] in [settleGrants]. *)
Definition settleGrant (students : list StudentPersona) (mentorStats : MentorStats)
    (projectPapers : list ProjectPaper) (currentStamp decisionStamp : Stamp)
    (acc : GrantAcc) (grant : GrantState) : Rand (GrantState * GrantAcc) :=
  match getGrantConfig (gType grant) with
  | None => ret (grant, acc)
  | Some config =>
      match gStatus grant with
      | Reviewing => settleReviewingGrant config students currentStamp decisionStamp acc grant
      | Active =>
          settleActiveGrant config students mentorStats projectPapers
            currentStamp decisionStamp acc grant
      | _ => ret (grant, acc)
      end
  end.

Record GrantSettlement : Type := mkGrantSettlement {
  gsUpdatedGrants : list GrantState;
  gsStatDelta : StatDelta;
  gsDecisions : list DecisionEvent;
  gsDecisionRequests : list GrantDecisionRequest;
  gsEvents : list LogEvent;
  gsNewPapers : list ProjectPaper
}.

Definition settleGrants (grants : list GrantState) (students : list StudentPersona)
    (mentorStats : MentorStats) (projectPapers : list ProjectPaper)
    (currentStamp decisionStamp : Stamp) : Rand GrantSettlement :=
  r <- mapAccumM (settleGrant students mentorStats projectPapers currentStamp decisionStamp)
         (mkGrantAcc emptyStatDelta [] [] [] []) grants ;;
  let acc := snd r in
  ret (mkGrantSettlement (fst r) (gaStatDelta acc) (gaDecisions acc)
         (gaDecisionRequests acc) (gaEvents acc) (gaNewPapers acc)).

(* ------------------------------------------------------------------ *)
(** ** The session state and the resolution of a decision *)

Record EventItem : Type := mkEventItem { evtId : string; evtTitle : string; evtDetail : string }.

Inductive ResultChipTone : Type := TonePositive | ToneNegative | ToneNeutral.

(** The interpolated text of a result chip, one constructor per template. *)
Inductive ChipText : Type :=
| ChipFunding (label : string) (raw : Q)
| ChipStat (label : string) (raw : Q)
| ChipStudent (prefix label : string) (total : Q) (suffix : string)
| ChipScore (scoreDelta : Q)
| ChipReviewLuck (luckDelta : Q)
| ChipProgress (progressDelta : Q)
| ChipTeamMinusOne.

Record DecisionResultChip : Type := mkChip {
  chipId : string;
  chipText : ChipText;
  chipTone : ResultChipTone
}.

Record DecisionResult : Type := mkResult {
  resTitle : string;
  resHeadline : string;
  resDetail : string;
  resChips : list DecisionResultChip
}.

(** The pieces of React state [handleDecisionChoose] and
    [removeStudentFromAllAssignments] read or write. *)
Record Session : Type := mkSession {
  stats : MentorStats;
  teamMembers : list StudentPersona;
  projects : list ResearchProject;
  projectPapers : list ProjectPaper;
  grantApplications : list GrantState;
  eventLog : list EventItem;
  pendingDecisions : list DecisionEvent;
  activeDecisionId : option string;
  activeDecisionResult : option DecisionResult;
  teamMessage : option string;
  selectedMentorId : option string
}.

Definition setStats (s : Session) (v : MentorStats) : Session :=
  mkSession v (teamMembers s) (projects s) (projectPapers s) (grantApplications s)
    (eventLog s) (pendingDecisions s) (activeDecisionId s) (activeDecisionResult s)
    (teamMessage s) (selectedMentorId s).

Definition setTeamMembers (s : Session) (v : list StudentPersona) : Session :=
  mkSession (stats s) v (projects s) (projectPapers s) (grantApplications s)
    (eventLog s) (pendingDecisions s) (activeDecisionId s) (activeDecisionResult s)
    (teamMessage s) (selectedMentorId s).

Definition setProjects (s : Session) (v : list ResearchProject) : Session :=
  mkSession (stats s) (teamMembers s) v (projectPapers s) (grantApplications s)
    (eventLog s) (pendingDecisions s) (activeDecisionId s) (activeDecisionResult s)
    (teamMessage s) (selectedMentorId s).

Definition setProjectPapers (s : Session) (v : list ProjectPaper) : Session :=
  mkSession (stats s) (teamMembers s) (projects s) v (grantApplications s)
    (eventLog s) (pendingDecisions s) (activeDecisionId s) (activeDecisionResult s)
    (teamMessage s) (selectedMentorId s).

Definition setGrantApplications (s : Session) (v : list GrantState) : Session :=
  mkSession (stats s) (teamMembers s) (projects s) (projectPapers s) v
    (eventLog s) (pendingDecisions s) (activeDecisionId s) (activeDecisionResult s)
    (teamMessage s) (selectedMentorId s).

Definition setEventLog (s : Session) (v : list EventItem) : Session :=
  mkSession (stats s) (teamMembers s) (projects s) (projectPapers s) (grantApplications s)
    v (pendingDecisions s) (activeDecisionId s) (activeDecisionResult s)
    (teamMessage s) (selectedMentorId s).

Definition setTeamMessage (s : Session) (v : option string) : Session :=
  mkSession (stats s) (teamMembers s) (projects s) (projectPapers s) (grantApplications s)
    (eventLog s) (pendingDecisions s) (activeDecisionId s) (activeDecisionResult s)
    v (selectedMentorId s).

Definition setSelectedMentorId (s : Session) (v : option string) : Session :=
  mkSession (stats s) (teamMembers s) (projects s) (projectPapers s) (grantApplications s)
    (eventLog s) (pendingDecisions s) (activeDecisionId s) (activeDecisionResult s)
    (teamMessage s) v.

(** The three closing writes of [handleDecisionChoose]. *)
Definition setDecisionQueue (s : Session) (remaining : list DecisionEvent)
    (active : option string) (result : DecisionResult) : Session :=
  mkSession (stats s) (teamMembers s) (projects s) (projectPapers s) (grantApplications s)
    (eventLog s) remaining active (Some result) (teamMessage s) (selectedMentorId s).

Definition pushEvent (title detail : string) (s : Session) : Rand Session :=
  eid <- freshId "evt" 5 ;;
  ret (setEventLog s (eventLog s ++ [mkEventItem eid title detail])).

(** [a === b] for an optional string against a string. *)
Definition optEqStr (a : option string) (b : string) : bool :=
  match a with
  | Some v => String.eqb v b
  | None => false
  end.

Definition setProjectAssigned (p : ResearchProject) (ids : list string) : ResearchProject :=
  mkProject (projId p) (projTitle p) (projCategory p) (progress p) ids
            (projCreatedYear p) (projCreatedQuarter p) (completed p).

Definition setPaperLead (p : ProjectPaper) (lead : option string) : ProjectPaper :=
  mkPaper (paperId p) (projectId p) (projectTitle p) lead (grantId p) (venueType p)
          (venueTier p) (status p) (submittedYear p) (submittedQuarter p)
          (decisionDueYear p) (decisionDueQuarter p) (revisionRound p) (lastRevisionKind p).

(** The callback of the [.map] over the remaining team in
    [removeStudentFromAllAssignments]. *)
Definition dropMentorReference (studentId : string) (student : StudentPersona) : StudentPersona :=
  if String.eqb (studentType student) "YOUNG_TEACHER" then student
  else
    let mentorId' := if optEqStr (mentorId student) studentId then None else mentorId student in
    let isBeingMentored' := if truthyOptStr mentorId' then isBeingMentored student else false in
    setMentorship student isBeingMentored' mentorId'.

Definition removeStudentFromAllAssignments (studentId : string) (s : Session) : Session :=
  let s1 := setSelectedMentorId s None in
  let s2 :=
    setTeamMembers s1
      (map (dropMentorReference studentId)
           (filter (fun student => negb (String.eqb (id student) studentId)) (teamMembers s1))) in
  let s3 :=
    setProjects s2
      (map (fun project =>
              setProjectAssigned project
                (filter (fun i => negb (String.eqb i studentId)) (projAssignedStudentIds project)))
           (projects s2)) in
  let s4 :=
    setGrantApplications s3
      (map (fun grant =>
              setGrantAssigned grant
                (filter (fun i => negb (String.eqb i studentId)) (gAssignedStudentIds grant)))
           (grantApplications s3)) in
  setProjectPapers s4
    (map (fun paper =>
            if optEqStr (leadStudentId paper) studentId then setPaperLead paper None else paper)
         (projectPapers s4)).

Local Open Scope string_scope.

Definition chipToneOf (key : string) (v : Q) : ResultChipTone :=
  if negb (truthyQ v) then ToneNeutral
  else if String.eqb key "stress" then (if Qltb v 0 then TonePositive else ToneNegative)
  else if String.eqb key "morale" || String.eqb key "mentalState"
  then (if Qgtb v 0 then TonePositive else ToneNegative)
  else if String.eqb key "funding" then (if Qgtb v 0 then TonePositive else ToneNegative)
  else if String.eqb key "integrity" then (if Qltb v 0 then TonePositive else ToneNegative)
  else if String.eqb key "reputation" || String.eqb key "academia" || String.eqb key "admin"
  then (if Qgtb v 0 then TonePositive else ToneNegative)
  else if String.eqb key "totalPapers" then (if Qgtb v 0 then TonePositive else ToneNegative)
  else (if Qgtb v 0 then TonePositive else ToneNegative).

(** [Object.entries(delta)]; the entries are listed in the order of the
    fields of the delta type. *)
Definition statEntries (d : StatDelta) : list (string * string * option Q) :=
  [ ("morale", "心态", dMorale d); ("academia", "学术", dAcademia d);
    ("admin", "行政", dAdmin d); ("integrity", "学术不端嫌疑", dIntegrity d);
    ("funding", "经费", dFunding d); ("reputation", "声望", dReputation d) ].

Definition studentEntries (d : StudentDelta) : list (string * (string * string) * option Q) :=
  [ ("diligence", ("勤奋", EmptyString), dDiligence d);
    ("talent", ("天赋", EmptyString), dTalent d);
    ("luck", ("运势", EmptyString), dLuck d);
    ("stress", ("压力", EmptyString), dStress d);
    ("mentalState", ("心态", EmptyString), dMentalState d);
    ("contribution", ("论文进度", "%"), dContribution d);
    ("pendingPapers", ("在投", EmptyString), dPendingPapers d);
    ("totalPapers", ("发表", EmptyString), dTotalPapers d) ].

(** [option.meta?.[key]]. *)
Definition metaGet (o : DecisionOption) (key : string) : option JsValue :=
  match meta o with
  | Some m => mapGet m key
  | None => None
  end.

(** [typeof option.meta?.[key] === 'number' ? option.meta[key] : 0]. *)
Definition metaNumber (o : DecisionOption) (key : string) : Q :=
  match metaGet o key with
  | Some (VNum n) => n
  | _ => 0
  end.

Definition metaIs (o : DecisionOption) (key value : string) : bool :=
  match metaGet o key with
  | Some (VStr s) => String.eqb s value
  | _ => false
  end.

Definition metaVenueType (o : DecisionOption) : option PaperVenueType :=
  if metaIs o "venueType" "conference" then Some Conference
  else if metaIs o "venueType" "journal" then Some Journal
  else None.

Definition metaVenueTier (o : DecisionOption) : option PaperVenueTier :=
  if metaIs o "venueTier" "A" then Some TierA
  else if metaIs o "venueTier" "B" then Some TierB
  else if metaIs o "venueTier" "C" then Some TierC
  else None.

(** [typeof reviewQuarters === 'number' && reviewQuarters > 0 ? reviewQuarters : 1]. *)
Definition metaReviewOffset (o : DecisionOption) : Q :=
  match metaGet o "reviewQuarters" with
  | Some (VNum n) => if Qgtb n 0 then n else 1
  | _ => 1
  end.

Definition optionStats (o : DecisionOption) : option StatDelta :=
  match effects o with
  | Some e => effStats e
  | None => None
  end.

Definition optionStudent (o : DecisionOption) : option StudentDelta :=
  match effects o with
  | Some e => effStudent e
  | None => None
  end.

Definition downgradeVenueTier (tier : option PaperVenueTier) : PaperVenueTier :=
  match tier with
  | Some TierA => TierB
  | _ => TierC
  end.

(** [pushChip] for a batch of chips, in order. *)
Fixpoint pushChips (items : list (ChipText * ResultChipTone))
    (chips : list DecisionResultChip) : Rand (list DecisionResultChip) :=
  match items with
  | [] => ret chips
  | (text, tone) :: rest =>
      cid <- freshId "chip" 4 ;;
      pushChips rest (chips ++ [mkChip cid text tone])
  end.

Definition statChips (o : DecisionOption) : list (ChipText * ResultChipTone) :=
  match optionStats o with
  | None => []
  | Some d =>
      flat_map
        (fun entry =>
           let '(key, label, raw) := entry in
           match raw with
           | None => []
           | Some v =>
               if negb (truthyQ v) then []
               else if String.eqb key "funding"
               then [(ChipFunding label v, chipToneOf key v)]
               else [(ChipStat label v, chipToneOf key v)]
           end)
        (statEntries d)
  end.

Definition studentChips (o : DecisionOption) (targetCount : nat) (targetName : string)
  : list (ChipText * ResultChipTone) :=
  match targetCount, optionStudent o with
  | O, _ => []
  | _, None => []
  | _, Some d =>
      flat_map
        (fun entry =>
           let '(key, (label, suffix), raw) := entry in
           match raw with
           | None => []
           | Some v =>
               if negb (truthyQ v) then []
               else
                 let total :=
                   if (1 <? targetCount)%nat then v * inject_Z (Z.of_nat targetCount) else v in
                 let prefix := if (1 <? targetCount)%nat then "学生总" else targetName ++ " " in
                 [(ChipStudent prefix label total suffix, chipToneOf key total)]
           end)
        (studentEntries d)
  end.

Definition grantChips (decision : DecisionEvent) (o : DecisionOption)
  : list (ChipText * ResultChipTone) :=
  match context decision with
  | GrantReviewEvent _ =>
      let scoreDelta := metaNumber o "scoreDelta" in
      let luckDelta := metaNumber o "luckDelta" in
      (if truthyQ scoreDelta
       then [(ChipScore scoreDelta, if Qgtb scoreDelta 0 then TonePositive else ToneNegative)]
       else [])
      ++ (if truthyQ luckDelta
          then [(ChipReviewLuck luckDelta, if Qgtb luckDelta 0 then TonePositive else ToneNegative)]
          else [])
  | GrantExecutionEvent _ =>
      let progressDelta := metaNumber o "progressDelta" in
      if truthyQ progressDelta
      then [(ChipProgress progressDelta,
             if Qgtb progressDelta 0 then TonePositive else ToneNegative)]
      else []
  | _ => []
  end.

(** [paperLeadStudentId], read from the papers of the current render. *)
Definition paperLeadOf (s : Session) (decision : DecisionEvent) : option string :=
  match context decision with
  | ProjectVenue pid _ | ProjectRevision pid _ _ =>
      match find (fun paper => String.eqb (paperId paper) pid) (projectPapers s) with
      | Some paper => leadStudentId paper
      | None => None
      end
  | _ => None
  end.

Definition grantParticipantsOf (s : Session) (decision : DecisionEvent) : list string :=
  match context decision with
  | GrantReviewEvent gid | GrantExecutionEvent gid =>
      match find (fun grant => String.eqb (gId grant) gid) (grantApplications s) with
      | Some grant => gAssignedStudentIds grant
      | None => []
      end
  | _ => []
  end.

Definition studentTargetsOf (s : Session) (decision : DecisionEvent) : list string :=
  match context decision with
  | StudentPaperEvent sid => [sid]
  | ProjectVenue _ _ | ProjectRevision _ _ _ =>
      if truthyOptStr (paperLeadOf s decision)
      then [orElse (paperLeadOf s decision) EmptyString] else []
  | GrantReviewEvent _ | GrantExecutionEvent _ => grantParticipantsOf s decision
  | QuarterEvent sid => if truthyOptStr sid then [orElse sid EmptyString] else []
  end.

Definition nameOf (team : list StudentPersona) (sid : string) (fallback : string) : string :=
  match find (fun student => String.eqb (id student) sid) team with
  | Some student => name student
  | None => fallback
  end.

(** [setTeamMembers(prev => prev.map(s => s.id === target ? applyStudentDelta(s, d) : s))]. *)
Definition bumpStudent (target : string) (d : StudentDelta) (s : Session) : Session :=
  setTeamMembers s
    (map (fun student =>
            if String.eqb (id student) target then applyStudentDelta student d else student)
         (teamMembers s)).

Definition setGrantScore (g : GrantState) (scoreDelta' luck' : Q) : GrantState :=
  mkGrant (gId g) (gType g) (gTitle g) (appliedYear g) (appliedQuarter g) (reviewEndYear g)
    (reviewEndQuarter g) (gStatus g) (baseScore g) scoreDelta' luck'
    (lastReviewEventYear g) (lastReviewEventQuarter g) (lastExecutionEventYear g)
    (lastExecutionEventQuarter g) (gTier g) (fundingGranted g) (reputationGranted g)
    (activeStartYear g) (activeStartQuarter g) (closureDueYear g) (closureDueQuarter g)
    (gAssignedStudentIds g) (paperProgress g) (paperIds g).

(** The write of a [projectVenue] choice to the paper it is about. *)
Definition submitPaper (p : ProjectPaper) (vt : PaperVenueType) (tier : PaperVenueTier)
    (y q : Q) (due : Stamp) : ProjectPaper :=
  mkPaper (paperId p) (projectId p) (projectTitle p) (leadStudentId p) (grantId p)
          (Some vt) (Some tier) UnderReview (Some y) (Some q)
          (Some (year due)) (Some (quarter due)) (revisionRound p) (lastRevisionKind p).

(** The writes of a [projectRevision] choice to the paper it is about. *)
Definition revisePaper (o : DecisionOption) (kind : RevisionKind) (due : Stamp)
    (p : ProjectPaper) : ProjectPaper :=
  if metaIs o "action" "withdraw" then
    mkPaper (paperId p) (projectId p) (projectTitle p) (leadStudentId p) (grantId p)
            (venueType p) (venueTier p) Rejected (submittedYear p) (submittedQuarter p)
            None None (revisionRound p) (lastRevisionKind p)
  else if metaIs o "action" "downgrade" then
    mkPaper (paperId p) (projectId p) (projectTitle p) (leadStudentId p) (grantId p)
            (venueType p) (Some (downgradeVenueTier (venueTier p))) UnderReview
            (submittedYear p) (submittedQuarter p)
            (Some (year due)) (Some (quarter due)) (revisionRound p) (lastRevisionKind p)
  else if metaIs o "action" "revise" then
    mkPaper (paperId p) (projectId p) (projectTitle p) (leadStudentId p) (grantId p)
            (venueType p) (venueTier p) UnderReview (submittedYear p) (submittedQuarter p)
            (Some (year due)) (Some (quarter due)) (revisionRound p + 1) (Some kind)
  else p.

(** The kind-specific writes of [handleDecisionChoose] after the [leave]
    branch; [s0] is the state of the render the handler closed over. *)
Definition applyKindEffects (s0 : Session) (decision : DecisionEvent) (o : DecisionOption)
    (s : Session) : Session :=
  let paperLeadStudentId := paperLeadOf s0 decision in
  match context decision with
  | GrantReviewEvent gid =>
      let scoreDelta' := metaNumber o "scoreDelta" in
      let luckDelta := metaNumber o "luckDelta" in
      if truthyQ scoreDelta' || truthyQ luckDelta then
        setGrantApplications s
          (map (fun grant =>
                  if String.eqb (gId grant) gid
                  then setGrantScore grant (scoreDelta grant + scoreDelta') (gLuck grant + luckDelta)
                  else grant)
               (grantApplications s))
      else s
  | GrantExecutionEvent gid =>
      let progressDelta := metaNumber o "progressDelta" in
      if truthyQ progressDelta then
        setGrantApplications s
          (map (fun grant =>
                  if String.eqb (gId grant) gid
                  then setGrantPaperProgress grant
                         (clampValue (paperProgress grant + progressDelta) 0 250)
                  else grant)
               (grantApplications s))
      else s
  | ProjectVenue pid _ =>
      match metaVenueType o, metaVenueTier o with
      | Some vt, Some tier =>
          let due :=
            addQuarters (mkStamp (statsYear (stats s0)) (statsQuarter (stats s0)))
                        (metaReviewOffset o) in
          let s1 :=
            setProjectPapers s
              (map (fun paper =>
                      if String.eqb (paperId paper) pid
                      then submitPaper paper vt tier (statsYear (stats s0))
                             (statsQuarter (stats s0)) due
                      else paper)
                   (projectPapers s)) in
          if truthyOptStr paperLeadStudentId
          then bumpStudent (orElse paperLeadStudentId EmptyString)
                 (mkStudentDelta None None None (Some 3) (Some (-2)) None (Some 1) None) s1
          else s1
      | _, _ => setTeamMessage s (Some "投稿策略数据缺失，已跳过。")
      end
  | ProjectRevision pid _ kind =>
      let due :=
        addQuarters (mkStamp (statsYear (stats s0)) (statsQuarter (stats s0)))
                    (metaReviewOffset o) in
      let s1 :=
        setProjectPapers s
          (map (fun paper =>
                  if negb (String.eqb (paperId paper) pid) then paper
                  else revisePaper o kind due paper)
               (projectPapers s)) in
      if metaIs o "action" "withdraw" && truthyOptStr paperLeadStudentId
      then bumpStudent (orElse paperLeadStudentId EmptyString)
             (mkStudentDelta None None None (Some 2) (Some (-2)) None (Some (-1)) None) s1
      else s1
  | _ => s
  end.

(** [handleDecisionChoose(decision, optionId)] on the session [s0]. *)
Definition handleDecisionChoose (decision : DecisionEvent) (optionId : string) (s0 : Session)
  : Rand Session :=
  match find (fun item => String.eqb (optId item) optionId) (options decision) with
  | None => ret s0
  | Some o =>
      s1 <- pushEvent (decTitle decision) (outcome o) s0 ;;
      let s2 :=
        match optionStats o with
        | Some d => setStats s1 (applyMentorDelta (stats s1) d)
        | None => s1
        end in
      let studentTargetIds := studentTargetsOf s0 decision in
      let targetCount := List.length studentTargetIds in
      let targetName :=
        match studentTargetIds with
        | [only] => nameOf (teamMembers s0) only "学生"
        | _ => "学生"
        end in
      chips <- pushChips (statChips o ++ studentChips o targetCount targetName
                          ++ grantChips decision o) [] ;;
      let s3 :=
        match studentTargetIds, optionStudent o with
        | _ :: _, Some d =>
            setTeamMembers s2
              (map (fun student =>
                      if includes studentTargetIds (id student)
                      then applyStudentDelta student d else student)
                   (teamMembers s2))
        | _, _ => s2
        end in
      left <-
        match context decision with
        | QuarterEvent sid =>
            if metaIs o "studentAction" "leave" && truthyOptStr sid then
              let leavingId := orElse sid EmptyString in
              let leavingName := nameOf (teamMembers s0) leavingId "该学生" in
              s4 <- pushEvent "团队变动" (leavingName ++ " 已离开团队（离队事件）。")
                      (removeStudentFromAllAssignments leavingId s3) ;;
              chips' <- pushChips [(ChipTeamMinusOne, ToneNegative)] chips ;;
              ret (s4, chips')
            else ret (s3, chips)
        | _ => ret (s3, chips)
        end ;;
      let s5 := applyKindEffects s0 decision o (fst left) in
      let remaining :=
        filter (fun item => negb (String.eqb (decId item) (decId decision)))
               (pendingDecisions s0) in
      ret (setDecisionQueue s5 remaining
             (match remaining with
              | first :: _ => Some (decId first)
              | [] => None
              end)
             (mkResult "事件结局" (decTitle decision) (outcome o) (snd left)))
  end.

Local Close Scope string_scope.

End Platform.

(* ------------------------------------------------------------------ *)
(** ** Predicates and sample data used by the properties *)

(** A gauge within its declared bound. *)
Definition gaugeInBounds (g : Gauge) : Prop := 0 <= value g /\ value g <= max g.

(** Mentor statistics within bounds: every gauge in [0, max], funding not negative. *)
Definition mentorInBounds (st : MentorStats) : Prop :=
  gaugeInBounds (morale st) /\ gaugeInBounds (academia st)
  /\ gaugeInBounds (admin st) /\ gaugeInBounds (integrity st)
  /\ 0 <= funding st.

Definition inPercent (v : Q) : Prop := 0 <= v /\ v <= 100.

(** A student within bounds: the attributes and the progress accumulator in
    [0, 100], both paper counters not negative. *)
Definition studentInBounds (s : StudentPersona) : Prop :=
  inPercent (diligence s) /\ inPercent (talent s) /\ inPercent (luck s)
  /\ inPercent (stress s) /\ inPercent (mentalState s) /\ inPercent (contribution s)
  /\ 0 <= pendingPapers s /\ 0 <= totalPapers s.

(** The fields of a student no delta mentions. *)
Definition sameIdentity (a b : StudentPersona) : Prop :=
  id a = id b /\ name a = name b /\ studentType a = studentType b
  /\ studentYear a = studentYear b /\ hiddenLuck a = hiddenLuck b
  /\ isBeingMentored a = isBeingMentored b /\ isGenius a = isGenius b
  /\ recruitedYear a = recruitedYear b /\ isYoungTeacher a = isYoungTeacher b
  /\ personality a = personality b /\ bio a = bio b /\ traits a = traits b
  /\ whipReactions a = whipReactions b /\ comfortReactions a = comfortReactions b
  /\ department a = department b /\ mentorId a = mentorId b
  /\ hasWhippedThisQuarter a = hasWhippedThisQuarter b
  /\ hasComfortedThisQuarter a = hasComfortedThisQuarter b
  /\ isLoadingPersona a = isLoadingPersona b.

Definition sampleGauge (v : Q) : Gauge := mkGauge v 100 "#1d4ed8".

Definition sampleStats : MentorStats :=
  mkMentorStats (sampleGauge 60) (sampleGauge 55) (sampleGauge 40) (sampleGauge 5)
                50000 3 1 1.

Definition sampleStudent (sid : string) (mentor : option string) : StudentPersona :=
  mkStudent sid "student" "MASTER" 1 72 18 66 58 82 12 0 0 96
            false false 1 false "steady" "bio" []
            (mkReactions [] []) (mkReactions [] []) "dept"
            mentor (Some false) (Some false) (Some false).

(** Deltas with outliers of both signs. *)
Definition outlierStatDelta : StatDelta :=
  mkStatDelta (Some 1000000) (Some (-1000000)) (Some 0) None (Some (-99999999)) (Some (-7)).

Definition outlierStudentDelta : StudentDelta :=
  mkStudentDelta (Some 1000000) (Some (-1000000)) None (Some 250) (Some (-250))
                 (Some 0.5) (Some (-40)) (Some 3).

(** [g'] is [g] after some more draws and clock readings. *)
Definition advances (g g' : Rng) : Prop :=
  draws g' = draws g /\ clock g' = clock g
  /\ (cursor g <= cursor g')%nat /\ (ticks g <= ticks g')%nat.

Definition samplePaper (pid : string) (st : ProjectPaperStatus) (tier : option PaperVenueTier)
    (lead : option string) (dueYear dueQuarter : option Q) : ProjectPaper :=
  mkPaper pid "proj-1" "title" lead None (Some Journal) tier st
          (Some 1) (Some 1) dueYear dueQuarter 0 None.

(** A stream of draws that repeats one value, with a clock at zero. *)
Definition constRng (r : Q) : Rng := mkRng (fun _ => r) 0 (fun _ => 0%Z) 0.

(** The same grant with another [scoreDelta]. *)
Definition withScoreDelta (g : GrantState) (sd : Q) : GrantState :=
  setGrantScore g sd (gLuck g).

(** The order of review outcomes: rejected below funded, and among funded
    grants tier C below B below A. A grant still under review ranks with the
    rejected ones. *)
Definition outcomeRank (g : GrantState) : Z :=
  match gStatus g, gTier g with
  | Active, Some TierA => 3
  | Active, Some TierB => 2
  | Active, _ => 1
  | _, _ => 0
  end.

Definition sampleGrant (gid : string) (t : GrantType) (base delta luck0 : Q) : GrantState :=
  mkGrant gid t "grant" 1 1 1 3 Reviewing base delta luck0
          None None None None None None None None None None None [] 0 [].

(** Sample renderings of the platform's number formatting. *)
Definition sampleShowInt (z : Z) : string := "0".
Definition sampleShowBase36 (q : Q) : string := "0.abcdefgh".

Open Scope string_scope.

Definition sampleDecision : DecisionEvent :=
  buildProjectVenueDecision "pp-1" "proj-1" "title" 1 2.

Definition sampleSession : Session :=
  mkSession sampleStats
    [sampleStudent "s1" None; sampleStudent "s2" (Some "s1")]
    [mkProject "proj-1" "title" "cat" (mkProgress 10 20 30) ["s1"; "s2"] 1 1 false]
    [samplePaper "pp-1" AwaitingVenue None (Some "s1") None None]
    [sampleGrant "g1" GuoZiRan 70 0 0]
    [mkEventItem "evt-0" "start" "detail"]
    [sampleDecision]
    (Some "dec-project-venue-pp-1") None None None.

(** A young teacher of the team who is mentored by student [mentor]. *)
Definition youngTeacher (sid : string) (mentor : option string) : StudentPersona :=
  mkStudent sid "teacher" "YOUNG_TEACHER" 1 70 20 70 50 50 0 0 0 80
            true false 1 true "steady" "bio" []
            (mkReactions [] []) (mkReactions [] []) "dept"
            mentor (Some false) (Some false) (Some false).

(** The scenario of a dismissal: student [s1] is the only student of an
    active grant and leads its paper; [s1] also works on a project, and a
    young teacher is mentored by [s1]. *)
Definition dismissalSession : Session :=
  mkSession sampleStats
    [sampleStudent "s1" None; youngTeacher "t1" (Some "s1")]
    [mkProject "proj-1" "title" "cat" (mkProgress 10 20 30) ["s1"; "t1"] 1 1 false]
    [mkPaper "pp-1" "grant-g1" "grant" (Some "s1") (Some "g1") None None
             AwaitingVenue None None None None 0 None]
    [mkGrant "g1" GuoZiRan "grant" 1 1 1 3 Active 70 0 0
             None None None None (Some TierB) (Some 200000) (Some 3)
             (Some 1) (Some 3) (Some 2) (Some 4) ["s1"] 0 ["pp-1"]]
    [] [] None None None None.

Close Scope string_scope.

(** A student ten points short of a submission. *)
Definition nearlyDoneStudent : StudentPersona :=
  mkStudent "s1"%string "student"%string "MASTER"%string 1 72 18 66 58 82 90 0 0 96
            false false 1 false "steady"%string "bio"%string []
            (mkReactions [] []) (mkReactions [] []) "dept"%string
            None (Some false) (Some false) (Some false).

(** Does student [s] claim [X] as mentor, in the sense of the guards of
    [buildMentorshipPairs]: the mentor id is set and not empty, is not the
    student's own id, and names a student of the roster. *)
Definition claimsMentor (studentIds : list string) (X : string) (s : StudentPersona) : bool :=
  match mentorId s with
  | Some m =>
      String.eqb m X && truthyStr m && negb (String.eqb m (id s)) && includes studentIds m
  | None => false
  end.

(** The id of the first student of the roster, in order, who claims [X]. *)
Definition firstClaimant (students : list StudentPersona) (X : string) : option string :=
  option_map id (find (claimsMentor (map id students) X) students).

(** The id of the first student of the roster whose [mentorId] is [X]. *)
Definition firstHolder (students : list StudentPersona) (X : string) : option string :=
  option_map id (find (fun s => optEqStr (mentorId s) X) students).

(** The keys of a [Map], in insertion order. *)
Definition mapKeys {V : Type} (m : JsMap V) : list string := map fst m.

(** The state of the student map while the pairs are applied: every value
    sits under its own id, and a student who was the mentee of a pair
    applied so far is flagged and names the mentor of such a pair. *)
Definition pairsApplied (m : JsMap StudentPersona) (processed : list MentorshipPair) : Prop :=
  forall k v, In (k, v) m ->
    id v = k
    /\ (In k (map pairMenteeId processed) ->
        exists mm, mentorId v = Some mm /\ isBeingMentored v = true
                   /\ In (mkPair mm k) processed).

(** Two students who both name [s1] as mentor, after [s1] itself. *)
Definition rivalRoster : list StudentPersona :=
  [ sampleStudent "s1" None; sampleStudent "s2" (Some "s1"%string);
    sampleStudent "s3" (Some "s1"%string) ].

(** No two traits at different positions of the list conflict. *)
Definition conflictFree (table : list StudentTrait) (l : list string) : Prop :=
  forall i j a b,
    i <> j -> nth_error l i = Some a -> nth_error l j = Some b ->
    hasTraitConflict table a b = false.

(** A small trait table in the shape of [data/studentTraits]: one main trait
    and three sub traits, two of which exclude each other. *)
Definition sampleTraits : list StudentTrait :=
  [ mkTrait "workaholic" "workaholic" CatMain PolPositive (Some ["slacker"%string]) None;
    mkTrait "tidy" "tidy" CatSub PolPositive (Some ["namingchaos"%string]) None;
    mkTrait "namingchaos" "namingchaos" CatSub PolNegative (Some ["tidy"%string]) None;
    mkTrait "coffee" "coffee" CatSub PolNeutral None None ].

(** A trait list as a caller may supply it: a main trait and two sub traits
    that exclude each other. *)
Definition suppliedTraits : list string :=
  [ "workaholic"%string; "tidy"%string; "namingchaos"%string ].

(** No trait of the list conflicts with a later one. *)
Fixpoint noConflicts (table : list StudentTrait) (l : list string) : Prop :=
  match l with
  | [] => True
  | x :: xs => (forall y, In y xs -> hasTraitConflict table x y = false) /\ noConflicts table xs
  end.

(* ------------------------------------------------------------------ *)
(** ** Further predicates and sample data *)

(** The stamp of year [y], quarter [q], both integers. *)
Definition stampOf (y q : Z) : Stamp := mkStamp (inject_Z y) (inject_Z q).

(** The number of the quarter of an integral stamp, counted from year 1,
    quarter 1. *)
Definition quarterNumber (y q : Z) : Z := ((y - 1) * 4 + (q - 1))%Z.

(** Is the paper waiting for the author's revision? *)
Definition isAwaitingRevision (p : ProjectPaper) : bool :=
  ProjectPaperStatus_eqb (status p) AwaitingRevision.

(** The fields of a paper a verdict leaves alone. *)
Definition samePaperIdentity (a b : ProjectPaper) : Prop :=
  paperId a = paperId b /\ projectId a = projectId b /\ projectTitle a = projectTitle b
  /\ leadStudentId a = leadStudentId b /\ grantId a = grantId b
  /\ venueType a = venueType b /\ venueTier a = venueTier b
  /\ submittedYear a = submittedYear b /\ submittedQuarter a = submittedQuarter b
  /\ revisionRound a = revisionRound b.


(* ------------------------------------------------------------------ *)
(** ** Further predicates on grants *)

(** Is the grant closed for good (completed, rejected or failed)? *)
Definition isClosedGrant (g : GrantState) : bool :=
  match gStatus g with
  | Completed | GrantRejected | Failed => true
  | Reviewing | Active => false
  end.

(** The [closureDueStamp] of the active branch: set when both parts of the
    closure stamp are truthy. *)
Definition closureDueStampOf (grant : GrantState) : option Stamp :=
  if truthyOptQ (closureDueYear grant) && truthyOptQ (closureDueQuarter grant)
  then Some (mkStamp (orElse (closureDueYear grant) 0) (orElse (closureDueQuarter grant) 0))
  else None.

(** The papers of a list that are linked to a grant and have left
    [awaitingVenue]: the [submissions] of the closure evaluation. *)
Definition submittedFor (gid : string) (papers : list ProjectPaper) : nat :=
  countIf (fun paper => negb (ProjectPaperStatus_eqb (status paper) AwaitingVenue))
    (filter (fun paper =>
               match grantId paper with
               | Some g => String.eqb g gid
               | None => false
               end)
            papers).

(** The venue decision queued for a paper drafted by a grant. *)
Definition venueDecisionFor (decisionStamp : Stamp) (paper : ProjectPaper) : DecisionEvent :=
  buildProjectVenueDecision (paperId paper) (projectId paper) (projectTitle paper)
    (year decisionStamp) (quarter decisionStamp).

(** A paper as a grant drafts it: linked to the grant, waiting for a venue. *)
Definition draftedBy (grant : GrantState) (paper : ProjectPaper) : Prop :=
  grantId paper = Some (gId grant)
  /\ projectId paper = ("grant-" ++ gId grant)%string
  /\ projectTitle paper = gTitle grant
  /\ status paper = AwaitingVenue
  /\ venueType paper = None /\ venueTier paper = None.

(** An active grant of tier [tier] with progress [progress] and closure
    stamp [cy], [cq]. *)
Definition sampleActiveGrant (gid : string) (tier : GrantFundingTier) (progress : Q)
    (cy cq : option Q) (assigned : list string) : GrantState :=
  mkGrant gid GuoZiRan "grant"%string 1 1 1 3 Active 70 0 0
          None None None None (Some tier) (Some 200000) (Some 3) (Some 1) (Some 4)
          cy cq assigned progress [].

(** A closed grant. *)
Definition sampleClosedGrant (gid : string) (st : GrantStatus) : GrantState :=
  mkGrant gid GuoSheKe "grant"%string 1 2 1 4 st 50 0 0
          None None None None None None None None None None None [] 0 [].

(* ------------------------------------------------------------------ *)
(** ** Further predicates on traits and students *)

(** A resolved trait list in its intended shape: at most one main trait in
    front, then at most [maxSubs] sub traits. *)
Definition traitShape (table : list StudentTrait) (maxSubs : nat) (l : list string) : Prop :=
  exists mains subs,
    l = mains ++ subs
    /\ (List.length mains <= 1)%nat
    /\ Forall (fun i => hasCategory table CatMain i = true) mains
    /\ (List.length subs <= maxSubs)%nat
    /\ Forall (fun i => hasCategory table CatSub i = true) subs.

(** Everything of a student that mentoring leaves alone: all fields but the
    five attributes a mentor moves and the two mentorship fields. *)
Definition sameBesidesMentoring (a b : StudentPersona) : Prop :=
  id a = id b /\ name a = name b /\ studentType a = studentType b
  /\ studentYear a = studentYear b /\ hiddenLuck a = hiddenLuck b
  /\ contribution a = contribution b /\ pendingPapers a = pendingPapers b
  /\ totalPapers a = totalPapers b /\ isGenius a = isGenius b
  /\ recruitedYear a = recruitedYear b /\ isYoungTeacher a = isYoungTeacher b
  /\ personality a = personality b /\ bio a = bio b /\ traits a = traits b
  /\ whipReactions a = whipReactions b /\ comfortReactions a = comfortReactions b
  /\ department a = department b
  /\ hasWhippedThisQuarter a = hasWhippedThisQuarter b
  /\ hasComfortedThisQuarter a = hasComfortedThisQuarter b
  /\ isLoadingPersona a = isLoadingPersona b.

(** The five attributes a mentor moves lie within 0..100. *)
Definition mentoredAttributesInBounds (s : StudentPersona) : Prop :=
  (0 <= diligence s /\ diligence s <= 100)
  /\ (0 <= stress s /\ stress s <= 100)
  /\ (0 <= talent s /\ talent s <= 100)
  /\ (0 <= luck s /\ luck s <= 100)
  /\ (0 <= mentalState s /\ mentalState s <= 100).

(** The student map while the pairs are applied: every value descends from
    a student of the roster with the same id; the mentee of a pair applied so
    far has its attributes within bounds, everybody else is as in the roster. *)
Definition frameKept (students : list StudentPersona) (m : JsMap StudentPersona)
    (processed : list MentorshipPair) : Prop :=
  forall k v, In (k, v) m ->
    exists s0, In s0 students /\ id s0 = k /\ sameBesidesMentoring v s0
               /\ (In k (map pairMenteeId processed) -> mentoredAttributesInBounds v)
               /\ (~ In k (map pairMenteeId processed) -> v = s0).

(* ------------------------------------------------------------------ *)
(** ** Further predicates on sessions *)

(** A session within bounds: the mentor statistics and every team member. *)
Definition sessionInBounds (s : Session) : Prop :=
  mentorInBounds (stats s) /\ Forall studentInBounds (teamMembers s).

(** The option of a decision that carries an id, as [options.find] reads it. *)
Definition findOption (decision : DecisionEvent) (optionId : string) : option DecisionOption :=
  find (fun item => String.eqb (optId item) optionId) (options decision).

(** The backlog without a decision. *)
Definition withoutDecision (decision : DecisionEvent) (backlog : list DecisionEvent)
  : list DecisionEvent :=
  filter (fun item => negb (String.eqb (decId item) (decId decision))) backlog.

(* ------------------------------------------------------------------ *)
(** ** Projects: quarterly progress, lead student, assignment *)

(** [ids.map(id => studentMap.get(id)).filter(Boolean)]. *)
Fixpoint lookupStudents (studentMap : JsMap StudentPersona) (ids : list string)
  : list StudentPersona :=
  match ids with
  | [] => []
  | i :: rest =>
      match mapGet studentMap i with
      | Some s => s :: lookupStudents studentMap rest
      | None => lookupStudents studentMap rest
      end
  end.

(** What a project gains in a quarter: [base + boost] of [advanceProjects]. *)
Definition projectGain (memberStats : list StudentPersona) : Q :=
  let base := match memberStats with [] => 0 | _ :: _ => 4 end in
  let boost :=
    fold_left (fun sum member => sum + inject_Z (jsRound (diligence member / 40)))
              memberStats 0 in
  base + boost.

(** The callback of [source.map] in [advanceProjects], without its pushes. *)
Definition advanceProject (studentMap : JsMap StudentPersona) (project : ResearchProject)
  : ResearchProject :=
  if completed project then project
  else
    let memberStats := lookupStudents studentMap (projAssignedStudentIds project) in
    let base := match memberStats with [] => 0 | _ :: _ => 4 end in
    let boost :=
      fold_left (fun sum member => sum + inject_Z (jsRound (diligence member / 40)))
                memberStats 0 in
    let nextLiterature := clampValue (literature (progress project) + base + boost) 0 100 in
    let nextExperiment := clampValue (experiment (progress project) + base + boost) 0 100 in
    let nextResults := clampValue (results (progress project) + base + boost) 0 100 in
    let completed' :=
      Qgeb nextLiterature 100 && Qgeb nextExperiment 100 && Qgeb nextResults 100 in
    mkProject (projId project) (projTitle project) (projCategory project)
              (mkProgress nextLiterature nextExperiment nextResults)
              (projAssignedStudentIds project) (projCreatedYear project)
              (projCreatedQuarter project) completed'.

Record ProjectAdvance : Type := mkProjectAdvance {
  paUpdated : list ResearchProject;
  paCompletedTitles : list string;
  paCompletedProjects : list ResearchProject
}.

(** The [source.map] of [advanceProjects] with the two arrays its callback
    pushes to: a project that completes in this pass is reported once. *)
Fixpoint advanceAll (studentMap : JsMap StudentPersona) (source : list ResearchProject)
    (completedTitles : list string) (completedProjects : list ResearchProject)
  : ProjectAdvance :=
  match source with
  | [] => mkProjectAdvance [] completedTitles completedProjects
  | project :: rest =>
      let nextProject := advanceProject studentMap project in
      let r :=
        if completed nextProject && negb (completed project)
        then advanceAll studentMap rest (completedTitles ++ [projTitle project])
               (completedProjects ++ [nextProject])
        else advanceAll studentMap rest completedTitles completedProjects in
      mkProjectAdvance (nextProject :: paUpdated r) (paCompletedTitles r)
                       (paCompletedProjects r)
  end.

Definition advanceProjects (source : list ResearchProject) (students : list StudentPersona)
  : ProjectAdvance :=
  let studentMap := mapOfEntries (map (fun s => (id s, s)) students) in
  advanceAll studentMap source [] [].

(** [pickProjectLeadStudentId]: the assigned student of the roster with the
    highest [diligence + talent], the first one among equals; [null] when no
    assigned id names a student of the roster. *)
Definition pickProjectLeadStudentId (project : ResearchProject)
    (students : list StudentPersona) : option string :=
  pickBestId (resolveStudents students (projAssignedStudentIds project)).

(** The score [pickBestId] compares. *)
Definition leadScore (s : StudentPersona) : Q := diligence s + talent s.

(** The updater of [setProjects] in [handleAssignStudentToProject]. *)
Definition assignToProject (projectId studentId : string) (prev : list ResearchProject)
  : list ResearchProject :=
  map (fun project =>
         if negb (String.eqb (projId project) projectId) then project
         else if includes (projAssignedStudentIds project) studentId then project
         else setProjectAssigned project (projAssignedStudentIds project ++ [studentId]))
      prev.

(** The updater of [setProjects] in [handleRemoveStudentFromProject]. *)
Definition removeFromProject (projectId studentId : string) (prev : list ResearchProject)
  : list ResearchProject :=
  map (fun project =>
         if negb (String.eqb (projId project) projectId) then project
         else setProjectAssigned project
                (filter (fun i => negb (String.eqb i studentId))
                        (projAssignedStudentIds project)))
      prev.

(** [grant.status !== 'reviewing' && grant.status !== 'active'], negated. *)
Definition isOpenGrant (grant : GrantState) : bool :=
  match gStatus grant with
  | Reviewing | Active => true
  | _ => false
  end.

(** The updater of [setGrantApplications] in [handleAssignStudentToGrant]. *)
Definition assignToGrant (grantId studentId : string) (prev : list GrantState)
  : list GrantState :=
  map (fun grant =>
         if negb (String.eqb (gId grant) grantId) then grant
         else if negb (isOpenGrant grant) then grant
         else if includes (gAssignedStudentIds grant) studentId then grant
         else setGrantAssigned grant (gAssignedStudentIds grant ++ [studentId]))
      prev.

(** The updater of [setGrantApplications] in [handleRemoveStudentFromGrant]. *)
Definition removeFromGrant (grantId studentId : string) (prev : list GrantState)
  : list GrantState :=
  map (fun grant =>
         if negb (String.eqb (gId grant) grantId) then grant
         else setGrantAssigned grant
                (filter (fun i => negb (String.eqb i studentId)) (gAssignedStudentIds grant)))
      prev.

Section AssignmentHandlers.

Variable showInt : Z -> string.
Variable showBase36 : Q -> string.

Definition handleAssignStudentToProject (projectId studentId : string) (s : Session)
  : Rand Session :=
  let s1 := setProjects s (assignToProject projectId studentId (projects s)) in
  let studentName := nameOf (teamMembers s) studentId EmptyString in
  pushEvent showInt showBase36 "课题分配"%string (studentName ++ " 加入课题组。")%string s1.

Definition handleRemoveStudentFromProject (projectId studentId : string) (s : Session)
  : Session :=
  setProjects s (removeFromProject projectId studentId (projects s)).

Definition handleAssignStudentToGrant (grantId studentId : string) (s : Session)
  : Rand Session :=
  let s1 := setGrantApplications s (assignToGrant grantId studentId (grantApplications s)) in
  let studentName := nameOf (teamMembers s) studentId EmptyString in
  let grantTitle :=
    match find (fun grant => String.eqb (gId grant) grantId) (grantApplications s) with
    | Some grant => gTitle grant
    | None => EmptyString
    end in
  if truthyStr studentName && truthyStr grantTitle
  then pushEvent showInt showBase36 "课题分配"%string
         (studentName ++ " 加入「" ++ grantTitle ++ "」。")%string s1
  else ret s1.

Definition handleRemoveStudentFromGrant (grantId studentId : string) (s : Session)
  : Session :=
  setGrantApplications s (removeFromGrant grantId studentId (grantApplications s)).

End AssignmentHandlers.

(** The students assigned to the projects that are not completed, project
    by project. *)
Definition activeAssignments (projects : list ResearchProject) : list string :=
  flat_map projAssignedStudentIds (filter (fun p => negb (completed p)) projects).

(** The three tracks of a project's progress lie within 0..100. *)
Definition progressInBounds (p : ProjectProgress) : Prop :=
  (0 <= literature p /\ literature p <= 100)
  /\ (0 <= experiment p /\ experiment p <= 100)
  /\ (0 <= results p /\ results p <= 100).

(** A project with three tracks and no members of the roster. *)
Definition sampleProject (pid : string) (l e r : Q) (ids : list string) (done : bool)
  : ResearchProject :=
  mkProject pid "title"%string "cat"%string (mkProgress l e r) ids 1 1 done.

(** The counter a map of counts holds for a key, after a list of ids. *)
Definition countsAgree (counts : JsMap Q) (ids : list string) : Prop :=
  forall sid,
    match mapGet counts sid with
    | Some v => v == inject_Z (Z.of_nat (count_occ string_dec ids sid))
                /\ (0 < count_occ string_dec ids sid)%nat
    | None => count_occ string_dec ids sid = 0%nat
    end.

(* ------------------------------------------------------------------ *)
(** ** Sanitising the effects of a generated review decision *)

(** A value read from the JSON body of a response. [JNonFinite] stands for a
    number literal outside the range of a double, which parses to an
    infinity: it is a number, and it is not finite. *)
#[warnings="-register-all"] Inductive Json : Type :=
| JNull
| JBool (b : bool)
| JNum (n : Q)
| JNonFinite
| JStr (s : string)
| JArr (items : list Json)
| JObj (fields : list (string * Json)).

(** [obj[key]] for one of the fixed keys the normalisers read: the member of
    an object (the last one, if the text repeats the key), [undefined] on
    anything else. *)
Definition jsonGet (v : Json) (key : string) : option Json :=
  match v with
  | JObj fields =>
      match find (fun e => String.eqb (fst e) key) (rev fields) with
      | Some e => Some (snd e)
      | None => None
      end
  | _ => None
  end.

(** [v && typeof v === 'object' ? v : undefined]. *)
Definition asObject (v : option Json) : option Json :=
  match v with
  | Some (JObj fields) => Some (JObj fields)
  | Some (JArr items) => Some (JArr items)
  | _ => None
  end.

(** [raw?.[key]]. *)
Definition jsonGetOpt (v : option Json) (key : string) : option Json :=
  match v with
  | Some o => jsonGet o key
  | None => None
  end.

(** [asInt] of [requestGrantReviewDecision]. *)
Definition asInt (value : option Json) (min max : Q) : option Z :=
  match value with
  | Some (JNum n) => Some (jsRound (clampValue n min max))
  | _ => None
  end.

(** [if (v) delta.k = v]: the field is set for a number that is not zero. *)
Definition ifTruthy (v : option Z) : option Q :=
  match v with
  | Some z => if (z =? 0)%Z then None else Some (inject_Z z)
  | None => None
  end.

Definition isSome {A : Type} (x : option A) : bool :=
  match x with Some _ => true | None => false end.

(** [normalizeEffects] of [requestGrantReviewDecision]. *)
Definition normalizeEffects (raw : option Json) : option Effects :=
  match asObject raw with
  | None => None
  | Some obj =>
      let statsRaw := asObject (jsonGet obj "stats") in
      let studentRaw := asObject (jsonGet obj "student") in
      let statsDelta :=
        match statsRaw with
        | None => emptyStatDelta
        | Some _ =>
            let funding := asInt (jsonGetOpt statsRaw "funding") (-40000) 60000 in
            let reputation := asInt (jsonGetOpt statsRaw "reputation") (-5) 6 in
            let morale := asInt (jsonGetOpt statsRaw "morale") (-12) 12 in
            let academia := asInt (jsonGetOpt statsRaw "academia") (-8) 10 in
            let admin := asInt (jsonGetOpt statsRaw "admin") (-8) 10 in
            let integrity := asInt (jsonGetOpt statsRaw "integrity") (-8) 12 in
            mkStatDelta (ifTruthy morale) (ifTruthy academia) (ifTruthy admin)
                        (ifTruthy integrity) (ifTruthy funding) (ifTruthy reputation)
        end in
      let studentDelta :=
        match studentRaw with
        | None => mkStudentDelta None None None None None None None None
        | Some _ =>
            let stress := asInt (jsonGetOpt studentRaw "stress") (-15) 18 in
            let mentalState := asInt (jsonGetOpt studentRaw "mentalState") (-15) 15 in
            let contribution := asInt (jsonGetOpt studentRaw "contribution") (-30) 30 in
            let diligence := asInt (jsonGetOpt studentRaw "diligence") (-6) 6 in
            let talent := asInt (jsonGetOpt studentRaw "talent") (-6) 6 in
            let luck := asInt (jsonGetOpt studentRaw "luck") (-6) 6 in
            let pendingPapers := asInt (jsonGetOpt studentRaw "pendingPapers") (-1) 1 in
            let totalPapers := asInt (jsonGetOpt studentRaw "totalPapers") (-1) 1 in
            mkStudentDelta (ifTruthy diligence) (ifTruthy talent) (ifTruthy luck)
                           (ifTruthy stress) (ifTruthy mentalState) (ifTruthy contribution)
                           (ifTruthy pendingPapers) (ifTruthy totalPapers)
        end in
      let hasStats :=
        isSome (dMorale statsDelta) || isSome (dAcademia statsDelta)
        || isSome (dAdmin statsDelta) || isSome (dIntegrity statsDelta)
        || isSome (dFunding statsDelta) || isSome (dReputation statsDelta) in
      let hasStudent :=
        isSome (dDiligence studentDelta) || isSome (dTalent studentDelta)
        || isSome (dLuck studentDelta) || isSome (dStress studentDelta)
        || isSome (dMentalState studentDelta) || isSome (dContribution studentDelta)
        || isSome (dPendingPapers studentDelta) || isSome (dTotalPapers studentDelta) in
      if negb hasStats && negb hasStudent then None
      else Some (mkEffects (if hasStats then Some statsDelta else None)
                           (if hasStudent then Some studentDelta else None))
  end.

(** The [meta] of an option in [normalizeOption] of
    [requestGrantReviewDecision], from the raw option object. *)
Definition normalizeReviewMeta (obj : Json) : option (JsMap JsValue) :=
  let metaRaw := asObject (jsonGet obj "meta") in
  let scoreDelta := asInt (jsonGetOpt metaRaw "scoreDelta") (-18) 18 in
  let luckDelta := asInt (jsonGetOpt metaRaw "luckDelta") (-12) 12 in
  match ifTruthy scoreDelta, ifTruthy luckDelta with
  | None, None => None
  | sd, ld =>
      Some ((match sd with Some v => [("scoreDelta"%string, VNum v)] | None => [] end)
            ++ (match ld with Some v => [("luckDelta"%string, VNum v)] | None => [] end))
  end.

(** A field of a sanitised delta: absent, or an integer that is not zero
    within the range of the field. *)
Definition sanitised (lo hi : Z) (v : option Q) : Prop :=
  match v with
  | None => True
  | Some q => exists z, q = inject_Z z /\ z <> 0%Z /\ (lo <= z <= hi)%Z
  end.

(** A raw effects object as a model may send it: a funding far out of range,
    a fractional morale, a reputation that is no number, a zero admin. *)
Definition sampleRawEffects : Json :=
  JObj [ ("stats"%string,
          JObj [ ("funding"%string, JNum 1000000); ("morale"%string, JNum (-2.4));
                 ("reputation"%string, JStr "high"); ("admin"%string, JNum 0) ]);
         ("student"%string, JNull) ].

(* ------------------------------------------------------------------ *)
(** ** Applying for a grant *)

(** The two values of [GrantType], as the strings they are. *)
Definition grantTypeText (t : GrantType) : string :=
  match t with
  | GuoZiRan => "国自然"%string
  | GuoSheKe => "国社科"%string
  end.

Definition fallbackProjectTitles : list string :=
  [ "跨域数据稀疏建模与协同优化"%string;
    "复杂系统稳态调控与鲁棒推理"%string;
    "绿色算力调度与能耗协同机制"%string;
    "多源信息融合驱动的智能决策"%string;
    "非结构数据可信治理与评估"%string;
    "模型对齐与安全可控路径研究"%string;
    "高维表示压缩与快速检索方法"%string;
    "跨场景迁移学习与应用落地"%string ].

(** [fallbackProjectTitles[Math.floor(Math.random() * fallbackProjectTitles.length)]];
    an index outside the array gives [undefined]. *)
Definition pickFallbackProjectTitle : Rand (option string) :=
  r <- random ;;
  ret (jsIndex fallbackProjectTitles
         (jsFloor (r * inject_Z (Z.of_nat (List.length fallbackProjectTitles))))).

(** [`${type} · ${researchFocus}：${pickFallbackProjectTitle()}`]; an
    [undefined] title is interpolated as the text [undefined]. *)
Definition pickGrantTitle (t : GrantType) (researchFocus : string) : Rand string :=
  title <- pickFallbackProjectTitle ;;
  ret (grantTypeText t ++ " · " ++ researchFocus ++ "：" ++ orElse title "undefined")%string.

Definition calcGrantBaseScore (mentorStats : MentorStats) (t : GrantType) : Rand Q :=
  let academia' := value (academia mentorStats) in
  let admin' := value (admin mentorStats) in
  let integrity' := value (integrity mentorStats) in
  let morale' := value (morale mentorStats) in
  let reputation' := reputation mentorStats in
  let '(wAcademia, wAdmin, wIntegrity, wMorale) :=
    match t with
    | GuoZiRan => (0.6, 0.25, 0.1, 0.05)
    | GuoSheKe => (0.4, 0.35, 0.15, 0.05)
    end in
  let base :=
    30 + academia' * wAcademia + admin' * wAdmin + integrity' * wIntegrity
    + morale' * wMorale + reputation' * 0.6 in
  r <- random ;;
  let jitter := inject_Z (jsRound ((r * 2 - 1) * 5)) in
  ret (inject_Z (jsRound (clampValue (base + jitter) 30 95))).

Section GrantApplication.

Variable showInt : Z -> string.
Variable showBase36 : Q -> string.

(** The text of a number interpolated into a template string. *)
Variable showNumber : Q -> string.

(** [handleApplyGrant(type)] on the session [s], with the research focus of
    the mentor. The request for a review decision it fires at the end
    resolves in a later turn and is not part of this step. *)
Definition handleApplyGrant (t : GrantType) (researchFocus : string) (s : Session)
  : Rand Session :=
  match getGrantConfig t with
  | None => ret s
  | Some config =>
      if negb (Qeq_bool (statsQuarter (stats s)) (openQuarter config)) then
        ret (setTeamMessage s
               (Some (grantTypeText t ++ " 仅在第 " ++ showNumber (openQuarter config)
                      ++ " 季度开放申报。")%string))
      else if existsb (fun grant => GrantType_eqb (gType grant) t && isOpenGrant grant)
                      (grantApplications s) then
        ret (setTeamMessage s (Some (grantTypeText t ++ " 已有进行中的课题申请/执行中。")%string))
      else if existsb (fun grant => GrantType_eqb (gType grant) t
                                    && Qeq_bool (appliedYear grant) (statsYear (stats s)))
                      (grantApplications s) then
        ret (setTeamMessage s (Some (grantTypeText t ++ " 本年度已申报过。")%string))
      else
        gid <- freshId showInt showBase36 "grant" 4 ;;
        let reviewEnd :=
          addQuarters (mkStamp (statsYear (stats s)) (statsQuarter (stats s)))
                      (reviewOffsetQuarters config) in
        title <- pickGrantTitle t researchFocus ;;
        base <- calcGrantBaseScore (stats s) t ;;
        luck0 <- rollInRange (-6) 6 ;;
        let nextGrant :=
          mkGrant gid t title (statsYear (stats s)) (statsQuarter (stats s))
                  (year reviewEnd) (quarter reviewEnd) Reviewing base 0 luck0
                  (Some (statsYear (stats s))) (Some (statsQuarter (stats s)))
                  None None None None None None None None None [] 0 [] in
        let s1 := setGrantApplications s (nextGrant :: grantApplications s) in
        let detail :=
          ("已提交 " ++ grantTypeText t ++ " 申报（无申报费）。预计于第 "
           ++ showNumber (year reviewEnd) ++ " 年 Q" ++ showNumber (quarter reviewEnd)
           ++ " 出结果。")%string in
        pushEvent showInt showBase36 "课题申报" detail (setTeamMessage s1 (Some detail))
  end.

End GrantApplication.

(** At most one grant of each type is under review or active. *)
Definition oneOpenGrantPerType (grants : list GrantState) : Prop :=
  forall i j a b,
    nth_error grants i = Some a -> nth_error grants j = Some b ->
    isOpenGrant a = true -> isOpenGrant b = true -> gType a = gType b -> i = j.

(** Number formatting used by the examples. *)
Definition sampleShowNumber (q : Q) : string := "0"%string.
(* ================================================================== *)
(** * Properties *)

(** ** Clamping and rounding *)

Lemma clampValue_bounds (v lo hi : Q) : lo <= hi -> lo <= clampValue v lo hi /\ clampValue v lo hi <= hi.
Proof.
  intros Hle. unfold clampValue. split.
  - apply Q.le_max_l.
  - apply Q.max_lub; [exact Hle | apply Q.le_min_l].
Qed.

Lemma Qmax_zero_nonneg (a : Q) : 0 <= Qmax a 0.
Proof. apply Q.le_max_r. Qed.

Lemma Qltb_lt (a b : Q) : Qltb a b = true <-> a < b.
Proof.
  unfold Qltb. rewrite negb_true_iff. split; intros H.
  - apply Qnot_le_lt. intros Hle. apply Qle_bool_iff in Hle. congruence.
  - destruct (Qle_bool b a) eqn:E; [|reflexivity].
    apply Qle_bool_iff in E. exfalso. apply (Qlt_not_le _ _ H E).
Qed.

Lemma Qltb_ge (a b : Q) : Qltb a b = false <-> b <= a.
Proof.
  unfold Qltb. rewrite negb_false_iff. apply Qle_bool_iff.
Qed.

Lemma Qgeb_ge (a b : Q) : Qgeb a b = true <-> b <= a.
Proof. unfold Qgeb. apply Qle_bool_iff. Qed.

Lemma Qgeb_lt (a b : Q) : Qgeb a b = false <-> a < b.
Proof.
  unfold Qgeb. split; intros H.
  - apply Qnot_le_lt. intros Hle. apply Qle_bool_iff in Hle. congruence.
  - destruct (Qle_bool b a) eqn:E; [|reflexivity].
    apply Qle_bool_iff in E. exfalso. apply (Qlt_not_le _ _ H E).
Qed.

Lemma Qgtb_gt (a b : Q) : Qgtb a b = true <-> b < a.
Proof. unfold Qgtb. apply (Qltb_lt b a). Qed.

Lemma Qgtb_le (a b : Q) : Qgtb a b = false <-> a <= b.
Proof. unfold Qgtb. apply (Qltb_ge b a). Qed.

(** [Math.round] is monotone and fixes the integers. *)
Lemma jsRound_mono (x y : Q) : x <= y -> (jsRound x <= jsRound y)%Z.
Proof. intros H. unfold jsRound. apply Qfloor_resp_le. lra. Qed.

Lemma jsRound_inject (z : Z) : jsRound (inject_Z z) = z.
Proof.
  unfold jsRound.
  assert (Hlo : (z <= Qfloor (inject_Z z + (1 # 2)))%Z).
  { rewrite <- (Qfloor_Z z) at 1. apply Qfloor_resp_le. lra. }
  assert (Hhi : (Qfloor (inject_Z z + (1 # 2)) < z + 1)%Z).
  { rewrite Zlt_Qlt. eapply Qle_lt_trans; [apply Qfloor_le|].
    rewrite inject_Z_plus. change (inject_Z 1) with 1. lra. }
  lia.
Qed.

(** A roll of [rollInRange(lo, hi)] between two integers stays between them. *)
Lemma rollAt_range (lo hi : Z) (r : Q) :
  (lo <= hi)%Z -> 0 <= r -> r < 1 ->
  inject_Z lo <= rollAt (inject_Z lo) (inject_Z hi) r
  /\ rollAt (inject_Z lo) (inject_Z hi) r <= inject_Z hi.
Proof.
  intros Hle H0 H1. unfold rollAt.
  assert (Hq : inject_Z lo <= inject_Z hi) by (rewrite <- Zle_Qle; exact Hle).
  split; rewrite <- Zle_Qle.
  - rewrite <- (jsRound_inject lo) at 1. apply jsRound_mono. nra.
  - rewrite <- (jsRound_inject hi) at 2. apply jsRound_mono. nra.
Qed.

(* ------------------------------------------------------------------ *)
(** ** Stat and delta model *)

Lemma applyGaugeDelta_bounds (g : Gauge) (d : option Q) :
  gaugeInBounds g -> gaugeInBounds (applyGaugeDelta g d).
Proof.
  intros [H0 Hm]. unfold applyGaugeDelta.
  destruct (truthyOptQ d); [|split; assumption].
  unfold gaugeInBounds, bumpGauge; simpl.
  apply clampValue_bounds. eapply Qle_trans; eassumption.
Qed.

Lemma applyGaugeDelta_max (g : Gauge) (d : option Q) :
  max (applyGaugeDelta g d) = max g /\ color (applyGaugeDelta g d) = color g.
Proof. unfold applyGaugeDelta. destruct (truthyOptQ d); split; reflexivity. Qed.

Lemma applyAttrDelta_bounds (v : Q) (d : option Q) :
  inPercent v -> inPercent (applyAttrDelta v d).
Proof.
  intros H. destruct d as [x|]; simpl; [|exact H].
  apply clampValue_bounds. lra.
Qed.

Lemma applyCountDelta_bounds (v : Q) (d : option Q) :
  0 <= v -> 0 <= applyCountDelta v d.
Proof.
  intros H. destruct d as [x|]; simpl; [|exact H]. apply Qmax_zero_nonneg.
Qed.

Lemma truthyOptQ_false_zero (d : option Q) : truthyOptQ d = false -> orElse d 0 == 0.
Proof.
  destruct d as [x|]; simpl; [|reflexivity].
  unfold truthyQ. rewrite negb_false_iff. apply Qeq_bool_eq.
Qed.

Lemma applyGaugeDelta_present (g : Gauge) (d : option Q) :
  truthyOptQ d = true -> 0 <= max g -> gaugeInBounds (applyGaugeDelta g d).
Proof.
  intros Ht Hm. unfold applyGaugeDelta. rewrite Ht.
  unfold gaugeInBounds, bumpGauge; simpl. apply clampValue_bounds. exact Hm.
Qed.

Lemma applyAttrDelta_present (v x : Q) : inPercent (applyAttrDelta v (Some x)).
Proof. simpl. apply clampValue_bounds. lra. Qed.

(** C3. [applyMentorDelta] and [applyStudentDelta] keep a state within its
    bounds for a delta of any magnitude: every gauge stays in [0, max] (its
    [max] untouched), every student attribute and the progress accumulator in
    [0, 100], funding and both paper counters stay non-negative. Whatever
    the state was, a field the delta sets lands within its bound (a gauge
    whenever its [max] is not negative). Reputation is the plain sum; every
    field the delta leaves out is returned as it was, and so is every field
    no delta can mention. *)
Theorem applyDelta_stays_in_bounds (st : MentorStats) (sd : StatDelta)
    (s : StudentPersona) (d : StudentDelta) :
  let st' := applyMentorDelta st sd in
  let s' := applyStudentDelta s d in
  (mentorInBounds st -> mentorInBounds st')
  /\ (studentInBounds s -> studentInBounds s')
  /\ ((truthyOptQ (dMorale sd) = true -> 0 <= max (morale st) -> gaugeInBounds (morale st'))
      /\ (truthyOptQ (dAcademia sd) = true -> 0 <= max (academia st) ->
          gaugeInBounds (academia st'))
      /\ (truthyOptQ (dAdmin sd) = true -> 0 <= max (admin st) -> gaugeInBounds (admin st'))
      /\ (truthyOptQ (dIntegrity sd) = true -> 0 <= max (integrity st) ->
          gaugeInBounds (integrity st'))
      /\ (truthyOptQ (dFunding sd) = true -> 0 <= funding st'))
  /\ ((dDiligence d <> None -> inPercent (diligence s'))
      /\ (dTalent d <> None -> inPercent (talent s'))
      /\ (dLuck d <> None -> inPercent (luck s'))
      /\ (dStress d <> None -> inPercent (stress s'))
      /\ (dMentalState d <> None -> inPercent (mentalState s'))
      /\ (dContribution d <> None -> inPercent (contribution s'))
      /\ (dPendingPapers d <> None -> 0 <= pendingPapers s')
      /\ (dTotalPapers d <> None -> 0 <= totalPapers s'))
  /\ reputation st' == reputation st + orElse (dReputation sd) 0
  /\ (max (morale st') = max (morale st) /\ max (academia st') = max (academia st)
      /\ max (admin st') = max (admin st) /\ max (integrity st') = max (integrity st))
  /\ (dMorale sd = None -> morale st' = morale st)
  /\ (dAcademia sd = None -> academia st' = academia st)
  /\ (dAdmin sd = None -> admin st' = admin st)
  /\ (dIntegrity sd = None -> integrity st' = integrity st)
  /\ (dFunding sd = None -> funding st' = funding st)
  /\ (dReputation sd = None -> reputation st' = reputation st)
  /\ statsYear st' = statsYear st /\ statsQuarter st' = statsQuarter st
  /\ (dDiligence d = None -> diligence s' = diligence s)
  /\ (dTalent d = None -> talent s' = talent s)
  /\ (dLuck d = None -> luck s' = luck s)
  /\ (dStress d = None -> stress s' = stress s)
  /\ (dMentalState d = None -> mentalState s' = mentalState s)
  /\ (dContribution d = None -> contribution s' = contribution s)
  /\ (dPendingPapers d = None -> pendingPapers s' = pendingPapers s)
  /\ (dTotalPapers d = None -> totalPapers s' = totalPapers s)
  /\ sameIdentity s' s.
Proof.
  cbv zeta.
  split.
  { intros (Hmo & Hac & Had & Hin & Hfu).
    unfold mentorInBounds, applyMentorDelta; simpl.
    repeat split; try (apply applyGaugeDelta_bounds; assumption).
    destruct (truthyOptQ (dFunding sd)); [apply Qmax_zero_nonneg | exact Hfu]. }
  split.
  { intros (Hdi & Hta & Hlu & Hst & Hme & Hco & Hpe & Hto).
    unfold studentInBounds, applyStudentDelta; simpl.
    repeat (match goal with |- _ /\ _ => split end);
      first [ apply applyAttrDelta_bounds; assumption
            | apply applyCountDelta_bounds; assumption ]. }
  split.
  { unfold applyMentorDelta; simpl.
    repeat (match goal with |- _ /\ _ => split end);
      try (apply applyGaugeDelta_present).
    intros Ht. rewrite Ht. apply Qmax_zero_nonneg. }
  split.
  { unfold applyStudentDelta; simpl.
    repeat (match goal with |- _ /\ _ => split end);
      intros Hd;
      match goal with
      | H : ?x <> None |- _ => destruct x as [v|]; [|contradiction H; reflexivity]
      end;
      first [ apply applyAttrDelta_present | apply Qmax_zero_nonneg ]. }
  split.
  { unfold applyMentorDelta; simpl.
    destruct (truthyOptQ (dReputation sd)) eqn:E; [reflexivity|].
    apply truthyOptQ_false_zero in E. rewrite E. lra. }
  split.
  { unfold applyMentorDelta; simpl.
    repeat split; apply applyGaugeDelta_max. }
  unfold applyMentorDelta, applyStudentDelta, sameIdentity; simpl.
  repeat (match goal with |- _ /\ _ => split end);
    try reflexivity; intros E; rewrite E; reflexivity.
Qed.

Lemma sampleStats_in_bounds : mentorInBounds sampleStats.
Proof.
  unfold mentorInBounds, gaugeInBounds, sampleStats, sampleGauge; simpl.
  repeat split; apply Qle_bool_imp_le; reflexivity.
Defined.

Lemma sampleStudent_in_bounds (sid : string) (m : option string) :
  studentInBounds (sampleStudent sid m).
Proof.
  unfold studentInBounds, inPercent, sampleStudent; simpl.
  repeat split; apply Qle_bool_imp_le; reflexivity.
Defined.

(** The bounds survive outliers of both signs on a sample state. *)
Lemma applyDelta_stays_in_bounds_witness :
  mentorInBounds (applyMentorDelta sampleStats outlierStatDelta)
  /\ studentInBounds (applyStudentDelta (sampleStudent "s1" None) outlierStudentDelta).
Proof.
  pose proof (applyDelta_stays_in_bounds sampleStats outlierStatDelta
                (sampleStudent "s1" None) outlierStudentDelta) as H.
  cbv zeta in H. destruct H as (Hm & Hs & _).
  split; [exact (Hm sampleStats_in_bounds)
         | exact (Hs (sampleStudent_in_bounds "s1" None))].
Defined.

(* ------------------------------------------------------------------ *)
(** ** The oracle state only moves forward *)

Lemma advances_refl (g : Rng) : advances g g.
Proof. unfold advances. repeat split; lia. Qed.

Lemma advances_trans (g1 g2 g3 : Rng) : advances g1 g2 -> advances g2 g3 -> advances g1 g3.
Proof.
  unfold advances. intros (A1 & A2 & A3 & A4) (B1 & B2 & B3 & B4).
  repeat split; try congruence; lia.
Qed.

Lemma advances_fair (g g' : Rng) : advances g g' -> fairRng g -> fairRng g'.
Proof. intros (E & _) H n. rewrite E. apply H. Qed.

Lemma random_advances (g : Rng) : advances g (snd (random g)).
Proof. unfold advances, random; simpl. repeat split; lia. Qed.

Lemma dateNow_advances (g : Rng) : advances g (snd (dateNow g)).
Proof. unfold advances, dateNow; simpl. repeat split; lia. Qed.

Lemma bind_run {A B : Type} (m : Rand A) (k : A -> Rand B) (g : Rng) :
  bind m k g = k (fst (m g)) (snd (m g)).
Proof. unfold bind. destruct (m g); reflexivity. Qed.

Lemma rollInRange_advances (lo hi : Q) (g : Rng) : advances g (snd (rollInRange lo hi g)).
Proof. unfold rollInRange. rewrite bind_run. simpl. apply random_advances. Qed.

Lemma rollInRange_run (lo hi : Q) (g : Rng) :
  rollInRange lo hi g = (rollAt lo hi (draws g (cursor g)), snd (random g)).
Proof. reflexivity. Qed.

Lemma mapAccumM_cons {S A B : Type} (f : S -> A -> Rand (B * S)) (acc : S)
    (x : A) (xs : list A) (g : Rng) :
  mapAccumM f acc (x :: xs) g =
  (fst (fst (f acc x g)) :: fst (fst (mapAccumM f (snd (fst (f acc x g))) xs (snd (f acc x g)))),
   snd (fst (mapAccumM f (snd (fst (f acc x g))) xs (snd (f acc x g)))),
   snd (mapAccumM f (snd (fst (f acc x g))) xs (snd (f acc x g)))).
Proof.
  simpl. rewrite bind_run. rewrite bind_run. reflexivity.
Qed.

Lemma mapAccumM_length {S A B : Type} (f : S -> A -> Rand (B * S)) (l : list A) :
  forall acc g, List.length (fst (fst (mapAccumM f acc l g))) = List.length l.
Proof.
  induction l as [|x xs IH]; intros acc g; [reflexivity|].
  rewrite mapAccumM_cons. simpl. rewrite IH. reflexivity.
Qed.

Lemma mapAccumM_advances {S A B : Type} (f : S -> A -> Rand (B * S)) :
  (forall acc x g, advances g (snd (f acc x g))) ->
  forall l acc g, advances g (snd (mapAccumM f acc l g)).
Proof.
  intros Hf l. induction l as [|x xs IH]; intros acc g.
  - apply advances_refl.
  - rewrite mapAccumM_cons. simpl.
    eapply advances_trans; [apply Hf | apply IH].
Qed.

(** The element at position [i] of a mapped array is the callback's result
    on the element at position [i], run from some later oracle state. *)
Lemma mapAccumM_nth {S A B : Type} (f : S -> A -> Rand (B * S)) :
  (forall acc x g, advances g (snd (f acc x g))) ->
  forall l acc g i x,
    nth_error l i = Some x ->
    exists acc' g',
      advances g g'
      /\ nth_error (fst (fst (mapAccumM f acc l g))) i = Some (fst (fst (f acc' x g'))).
Proof.
  intros Hf l. induction l as [|y ys IH]; intros acc g i x Hnth.
  - destruct i; discriminate.
  - rewrite mapAccumM_cons. destruct i as [|i]; simpl in *.
    + inversion Hnth; subst. exists acc, g. split; [apply advances_refl | reflexivity].
    + destruct (IH (snd (fst (f acc y g))) (snd (f acc y g)) i x Hnth) as (acc' & g' & Hadv & Hn).
      exists acc', g'. split; [|exact Hn].
      eapply advances_trans; [apply Hf | exact Hadv].
Qed.

(* ------------------------------------------------------------------ *)
(** ** Verdicts of papers under review *)

Section PaperVerdicts.

Variable students : list StudentPersona.
Variable mentorStats : MentorStats.
Variables currentStamp decisionStamp : Stamp.

Lemma settlePaper_advances (acc : PaperAcc) (p : ProjectPaper) (g : Rng) :
  advances g (snd (settlePaper students mentorStats currentStamp decisionStamp acc p g)).
Proof.
  unfold settlePaper.
  destruct (negb (ProjectPaperStatus_eqb (status p) UnderReview)); [apply advances_refl|].
  destruct (negb (truthyOptQ (decisionDueYear p)) || negb (truthyOptQ (decisionDueQuarter p)));
    [apply advances_refl|].
  destruct (negb (isQuarterReached currentStamp _)); [apply advances_refl|].
  rewrite bind_run.
  destruct (Qltb _ _); [apply random_advances|].
  destruct (Qltb _ _).
  - rewrite bind_run. simpl.
    eapply advances_trans; [apply random_advances|].
    apply (random_advances (snd (random g))).
  - apply random_advances.
Qed.

(** A paper that is not under review passes through the callback untouched,
    and so do the accumulators and the oracle state. *)
Lemma settlePaper_not_under_review (acc : PaperAcc) (p : ProjectPaper) (g : Rng) :
  status p <> UnderReview ->
  settlePaper students mentorStats currentStamp decisionStamp acc p g = (p, acc, g).
Proof.
  intros H. unfold settlePaper.
  destruct (status p); try reflexivity. contradiction H; reflexivity.
Qed.

(** What the callback does with a paper that is due. *)
Lemma settlePaper_due (acc : PaperAcc) (p : ProjectPaper) (g : Rng) :
  paperIsDue currentStamp p = true ->
  let roll := draws g (cursor g) in
  let acceptChance := acceptChanceOf mentorStats (resolveLeadStudent students p) p in
  let revisionChance := revisionChanceOf acceptChance p in
  let p' := fst (fst (settlePaper students mentorStats currentStamp decisionStamp acc p g)) in
  (roll < acceptChance -> status p' = Accepted)
  /\ (acceptChance <= roll -> roll < acceptChance + revisionChance ->
      status p' = AwaitingRevision)
  /\ (acceptChance + revisionChance <= roll -> acceptChance <= roll -> status p' = Rejected).
Proof.
  unfold paperIsDue. intros Hdue.
  apply andb_prop in Hdue. destruct Hdue as [Hdue Hreached].
  apply andb_prop in Hdue. destruct Hdue as [Hdue Hq].
  apply andb_prop in Hdue. destruct Hdue as [Hst Hy].
  cbv zeta. unfold settlePaper.
  rewrite Hst, Hy, Hq, Hreached. cbn [negb orb].
  rewrite bind_run. simpl fst. simpl snd.
  set (roll := draws g (cursor g)).
  set (ac := acceptChanceOf mentorStats (resolveLeadStudent students p) p).
  set (rc := revisionChanceOf ac p).
  destruct (Qltb roll ac) eqn:E1.
  - apply Qltb_lt in E1. simpl. repeat split; intros; try reflexivity; exfalso; lra.
  - apply Qltb_ge in E1.
    destruct (Qltb roll (ac + rc)) eqn:E2.
    + apply Qltb_lt in E2. rewrite bind_run. simpl.
      repeat split; intros; try reflexivity; exfalso; lra.
    + apply Qltb_ge in E2. simpl.
      repeat split; intros; try reflexivity; exfalso; lra.
Qed.

End PaperVerdicts.

(** The acceptance chance is a probability band, and the renormalised
    revision chance never pushes the sum of the two above 0.95. *)
Lemma acceptChanceOf_bounds (ms : MentorStats) (lead : option StudentPersona) (p : ProjectPaper) :
  0.06 <= acceptChanceOf ms lead p /\ acceptChanceOf ms lead p <= 0.85.
Proof. unfold acceptChanceOf. apply clampValue_bounds. lra. Qed.

Lemma revisionChanceOf_spec (ac : Q) (p : ProjectPaper) :
  let raw := clampValue (baseRevision (venueTierOf p) - revisionRound p * 0.08) 0.15 0.75 in
  (0.95 < ac + raw -> revisionChanceOf ac p = 0.95 - ac)
  /\ (ac + raw <= 0.95 -> revisionChanceOf ac p = raw)
  /\ ac + revisionChanceOf ac p <= 0.95.
Proof.
  cbv zeta. unfold revisionChanceOf.
  set (raw := clampValue _ 0.15 0.75).
  destruct (Qgtb (ac + raw) 0.95) eqn:E.
  - apply Qgtb_gt in E. repeat split; intros; try reflexivity; try lra.
  - apply Qgtb_le in E. repeat split; intros; try reflexivity; try lra.
Qed.

(** C9. The decision-due settlement pass returns every paper that is not
    under review (in particular an accepted or a rejected one) exactly as it
    was, at the position it had; the pass keeps the number of papers. *)
Theorem settleProjectPapers_keeps_resolved (papers : list ProjectPaper)
    (students : list StudentPersona) (ms : MentorStats) (cur dec : Stamp) (g : Rng)
    (i : nat) (p : ProjectPaper) :
  nth_error papers i = Some p ->
  status p <> UnderReview ->
  let r := fst (settleProjectPapers papers students ms cur dec g) in
  nth_error (psUpdatedPapers r) i = Some p
  /\ List.length (psUpdatedPapers r) = List.length papers.
Proof.
  intros Hnth Hst. cbv zeta. unfold settleProjectPapers.
  rewrite bind_run. simpl. split; [|apply mapAccumM_length].
  destruct (mapAccumM_nth (settlePaper students ms cur dec)
              (settlePaper_advances students ms cur dec)
              papers (mkPaperAcc emptyStatDelta [] [] []) g i p Hnth)
    as (acc' & g' & _ & Hn).
  rewrite Hn. rewrite settlePaper_not_under_review by exact Hst. reflexivity.
Qed.

Lemma paperIsDue_intro (cur : Stamp) (p : ProjectPaper) (y q : Q) :
  status p = UnderReview ->
  decisionDueYear p = Some y -> decisionDueQuarter p = Some q ->
  ~ y == 0 -> ~ q == 0 ->
  isQuarterReached cur (mkStamp y q) = true ->
  paperIsDue cur p = true.
Proof.
  intros Hst Hy Hq Hy0 Hq0 Hr. unfold paperIsDue.
  rewrite Hst, Hy, Hq. simpl. rewrite Hr.
  unfold truthyQ.
  destruct (Qeq_bool y 0) eqn:Ey; [apply Qeq_bool_eq in Ey; contradiction|].
  destruct (Qeq_bool q 0) eqn:Eq; [apply Qeq_bool_eq in Eq; contradiction|].
  reflexivity.
Qed.

(** C1. A paper under review whose decision stamp is set and reached gets
    its verdict from one draw [roll] of the oracle: accepted when
    [roll < acceptChance], sent back for revision when
    [acceptChance <= roll < acceptChance + revisionChance], rejected
    otherwise, where [acceptChance] is the clamp to [0.06, 0.85] of
    [baseAcceptance[tier] + academiaBoost + leadBoost + revisionBoost - stressPenalty]
    with base rates A 0.18, B 0.28, C 0.42. The renormalisation leaves
    [acceptChance] as it is and lowers only the revision chance, to
    [0.95 - acceptChance], exactly when the two would exceed 0.95; the two
    chances sum to at most 0.95. *)
Theorem settleProjectPapers_verdict (papers : list ProjectPaper)
    (students : list StudentPersona) (ms : MentorStats) (cur dec : Stamp) (g : Rng)
    (i : nat) (p : ProjectPaper) (y q : Q) :
  nth_error papers i = Some p ->
  status p = UnderReview ->
  decisionDueYear p = Some y -> decisionDueQuarter p = Some q ->
  ~ y == 0 -> ~ q == 0 ->
  isQuarterReached cur (mkStamp y q) = true ->
  let lead := resolveLeadStudent students p in
  let tier := orElse (venueTier p) TierC in
  let acceptChance :=
    clampValue (baseAcceptance tier + academiaBoost ms + leadBoost lead
                + revisionBoost p - stressPenalty lead) 0.06 0.85 in
  let rawRevision := clampValue (baseRevision tier - revisionRound p * 0.08) 0.15 0.75 in
  let revisionChance := revisionChanceOf acceptChance p in
  (baseAcceptance TierA = 0.18 /\ baseAcceptance TierB = 0.28 /\ baseAcceptance TierC = 0.42)
  /\ (0.95 < acceptChance + rawRevision -> revisionChance = 0.95 - acceptChance)
  /\ (acceptChance + rawRevision <= 0.95 -> revisionChance = rawRevision)
  /\ acceptChance + revisionChance <= 0.95
  /\ exists (n : nat) (p' : ProjectPaper),
       (cursor g <= n)%nat
       /\ nth_error (psUpdatedPapers (fst (settleProjectPapers papers students ms cur dec g))) i
          = Some p'
       /\ (draws g n < acceptChance -> status p' = Accepted)
       /\ (acceptChance <= draws g n -> draws g n < acceptChance + revisionChance ->
           status p' = AwaitingRevision)
       /\ (acceptChance <= draws g n -> acceptChance + revisionChance <= draws g n ->
           status p' = Rejected).
Proof.
  intros Hnth Hst Hy Hq Hy0 Hq0 Hr. cbv zeta.
  pose proof (paperIsDue_intro cur p y q Hst Hy Hq Hy0 Hq0 Hr) as Hdue.
  set (ac := clampValue _ 0.06 0.85).
  pose proof (revisionChanceOf_spec ac p) as Hrev. cbv zeta in Hrev.
  destruct Hrev as (Hr1 & Hr2 & Hr3).
  split; [repeat split|].
  split; [exact Hr1|]. split; [exact Hr2|]. split; [exact Hr3|].
  destruct (mapAccumM_nth (settlePaper students ms cur dec)
              (settlePaper_advances students ms cur dec)
              papers (mkPaperAcc emptyStatDelta [] [] []) g i p Hnth)
    as (acc' & g' & Hadv & Hn).
  exists (cursor g'), (fst (fst (settlePaper students ms cur dec acc' p g'))).
  destruct Hadv as (Hd & _ & Hc & _).
  split; [exact Hc|].
  split.
  { unfold settleProjectPapers. rewrite bind_run. simpl. exact Hn. }
  pose proof (settlePaper_due students ms cur dec acc' p g' Hdue) as Hv.
  cbv zeta in Hv. rewrite Hd in Hv.
  destruct Hv as (V1 & V2 & V3).
  split; [exact V1|]. split; [exact V2|].
  intros A B. apply V3; assumption.
Qed.

(** A tier-A paper with a good draw is accepted. *)
Lemma settleProjectPapers_verdict_witness :
  exists p' : ProjectPaper,
    nth_error
      (psUpdatedPapers
         (fst (settleProjectPapers
                 [samplePaper "p1" UnderReview (Some TierA) None (Some 1) (Some 2)]
                 [] sampleStats (mkStamp 1 3) (mkStamp 1 4) (constRng 0.1))))
      0 = Some p'
    /\ status p' = Accepted.
Proof.
  destruct (settleProjectPapers_verdict
              [samplePaper "p1" UnderReview (Some TierA) None (Some 1) (Some 2)]
              [] sampleStats (mkStamp 1 3) (mkStamp 1 4) (constRng 0.1) 0
              (samplePaper "p1" UnderReview (Some TierA) None (Some 1) (Some 2)) 1 2
              eq_refl eq_refl eq_refl eq_refl
              Q_apart_0_1
              (fun H : 2 == 0 => Qlt_not_eq 0 2 eq_refl (Qeq_sym _ _ H))
              eq_refl)
    as (_ & _ & _ & _ & n & p' & _ & Hn & Hacc & _).
  exists p'. split; [exact Hn|].
  apply Hacc. reflexivity.
Defined.

(** A rejected paper at the head of the list comes back as it was. *)
Lemma settleProjectPapers_keeps_resolved_witness :
  nth_error
    (psUpdatedPapers
       (fst (settleProjectPapers
               [samplePaper "p0" Rejected (Some TierB) None None None;
                samplePaper "p1" UnderReview (Some TierA) None (Some 1) (Some 2)]
               [] sampleStats (mkStamp 1 3) (mkStamp 1 4) (constRng 0.1))))
    0 = Some (samplePaper "p0" Rejected (Some TierB) None None None).
Proof.
  apply (settleProjectPapers_keeps_resolved
           [samplePaper "p0" Rejected (Some TierB) None None None;
            samplePaper "p1" UnderReview (Some TierA) None (Some 1) (Some 2)]
           [] sampleStats (mkStamp 1 3) (mkStamp 1 4) (constRng 0.1) 0
           (samplePaper "p0" Rejected (Some TierB) None None None)).
  - reflexivity.
  - simpl. discriminate.
Defined.

(* ------------------------------------------------------------------ *)
(** ** Grant review *)

Lemma bind_advances_any {A B : Type} (m : Rand A) (k : A -> Rand B) (g : Rng) :
  advances g (snd (m g)) ->
  (forall a g', advances g' (snd (k a g'))) ->
  advances g (snd (bind m k g)).
Proof.
  intros Hm Hk. rewrite bind_run. eapply advances_trans; [exact Hm | apply Hk].
Qed.

(** Steps through a computation of [Rand] to show that it only advances
    the oracle state. *)
Ltac advance_step :=
  match goal with
  | |- advances ?g ?g => apply advances_refl
  | |- advances _ (snd (ret _ _)) => apply advances_refl
  | |- advances _ (snd (random _)) => apply random_advances
  | |- advances _ (snd (dateNow _)) => apply dateNow_advances
  | |- advances _ (snd (rollInRange _ _ _)) => apply rollInRange_advances
  | |- advances _ (snd (bind _ _ _)) => apply bind_advances_any; [|intros ? ?]
  | |- advances _ (snd ((if ?c then _ else _) _)) => destruct c
  | |- advances _ (snd ((match ?c with _ => _ end) _)) => destruct c
  | |- advances _ (snd (let (_, _) := ?c in _)) => destruct c
  | |- advances _ (snd (match ?c with _ => _ end)) => destruct c
  end.

Ltac advance := cbv beta zeta; repeat (advance_step; cbv beta zeta).

Lemma mapAccumM_app_nth {S A B : Type} (f : S -> A -> Rand (B * S)) (l1 : list A) :
  forall (x : A) (l2 : list A) (acc : S) (g : Rng),
    nth_error (fst (fst (mapAccumM f acc (l1 ++ x :: l2) g))) (List.length l1)
    = Some (fst (fst (f (snd (fst (mapAccumM f acc l1 g))) x (snd (mapAccumM f acc l1 g))))).
Proof.
  induction l1 as [|y ys IH]; intros x l2 acc g.
  - simpl app. rewrite mapAccumM_cons. reflexivity.
  - simpl app. rewrite !mapAccumM_cons. simpl. apply IH.
Qed.

Lemma getGrantConfig_total (t : GrantType) :
  exists config, getGrantConfig t = Some config
                 /\ scoreBands config = mkBands 55 65 80.
Proof. destruct t; eexists; split; reflexivity. Qed.

Section GrantReview.

Variable showInt : Z -> string.
Variable showBase36 : Q -> string.
Variable students : list StudentPersona.
Variable mentorStats : MentorStats.
Variable projectPapers : list ProjectPaper.
Variables currentStamp decisionStamp : Stamp.

Lemma freshId_advances (prefix : string) (n : nat) (g : Rng) :
  advances g (snd (freshId showInt showBase36 prefix n g)).
Proof. unfold freshId. advance. Qed.

Lemma buildGrantPaper_advances (acc : GrantAcc) (grant : GrantState)
    (lead : option string) (g : Rng) :
  advances g (snd (buildGrantPaper showInt showBase36 decisionStamp acc grant lead g)).
Proof.
  unfold buildGrantPaper. apply bind_advances_any; [apply freshId_advances|].
  intros. advance.
Qed.

Lemma settleReviewingGrant_advances (config : GrantConfig) (acc : GrantAcc)
    (grant : GrantState) (g : Rng) :
  advances g (snd (settleReviewingGrant showInt showBase36 config students
                     currentStamp decisionStamp acc grant g)).
Proof.
  unfold settleReviewingGrant.
  apply bind_advances_any; [apply rollInRange_advances|]. intros luckTick g1.
  cbv beta zeta.
  destruct (negb (isQuarterReached _ _)).
  - advance.
  - destruct (Qltb _ _); [advance|].
    apply bind_advances_any; [apply rollInRange_advances|]. intros repGain g2.
    cbv beta zeta.
    apply bind_advances_any; [apply buildGrantPaper_advances|]. intros. advance.
Qed.

Lemma draftPapers_advances (n : nat) (lead : option string) :
  forall (acc : GrantAcc) (grant : GrantState) (g : Rng),
    advances g (snd (draftPapers showInt showBase36 n decisionStamp lead acc grant g)).
Proof.
  induction n as [|n IH]; intros acc grant g; simpl.
  - apply advances_refl.
  - apply bind_advances_any; [apply buildGrantPaper_advances|]. intros. apply IH.
Qed.

Lemma calcGrantPaperProgressGain_advances (assigned : list StudentPersona)
    (tier : option GrantFundingTier) (g : Rng) :
  advances g (snd (calcGrantPaperProgressGain assigned mentorStats tier g)).
Proof. unfold calcGrantPaperProgressGain. advance. Qed.

Lemma settleActiveGrant_advances (config : GrantConfig) (acc : GrantAcc)
    (grant : GrantState) (g : Rng) :
  advances g (snd (settleActiveGrant showInt showBase36 config students mentorStats
                     projectPapers currentStamp decisionStamp acc grant g)).
Proof.
  unfold settleActiveGrant.
  apply bind_advances_any; [apply calcGrantPaperProgressGain_advances|]. intros gain g1.
  cbv beta zeta.
  apply bind_advances_any.
  { destruct (0 <? _)%Z; [|apply advances_refl].
    apply bind_advances_any; [apply draftPapers_advances|]. intros. advance. }
  intros drafted g2. cbv beta zeta.
  apply bind_advances_any.
  { advance. }
  intros. advance.
Qed.

Lemma settleGrant_advances (acc : GrantAcc) (grant : GrantState) (g : Rng) :
  advances g (snd (settleGrant showInt showBase36 students mentorStats projectPapers
                     currentStamp decisionStamp acc grant g)).
Proof.
  unfold settleGrant.
  destruct (getGrantConfig (gType grant)); [|apply advances_refl].
  destruct (gStatus grant); try apply advances_refl.
  - apply settleReviewingGrant_advances.
  - apply settleActiveGrant_advances.
Qed.

(** The outcome of a review once the deadline is reached: the final score is
    [baseScore + scoreDelta + luck] after the luck tick of the quarter. *)
Lemma settleReviewingGrant_deadline (config : GrantConfig) (acc : GrantAcc)
    (grant : GrantState) (g : Rng) :
  isQuarterReached currentStamp (mkStamp (reviewEndYear grant) (reviewEndQuarter grant)) = true ->
  let luckTick := rollAt (-3) 3 (draws g (cursor g)) in
  let finalScore := baseScore grant + scoreDelta grant + (gLuck grant + luckTick) in
  let grant' :=
    fst (fst (settleReviewingGrant showInt showBase36 config students
                currentStamp decisionStamp acc grant g)) in
  (finalScore < rejectBelow (scoreBands config) ->
   gStatus grant' = GrantRejected /\ gTier grant' = gTier grant)
  /\ (rejectBelow (scoreBands config) <= finalScore ->
      gStatus grant' = Active
      /\ gTier grant' = Some (tierForScore (scoreBands config) finalScore)).
Proof.
  intros Hr. cbv zeta. unfold settleReviewingGrant.
  rewrite bind_run. rewrite rollInRange_run. simpl fst. simpl snd. cbv beta zeta.
  simpl reviewEndYear. simpl reviewEndQuarter. rewrite Hr. cbn [negb].
  simpl baseScore. simpl scoreDelta. simpl gLuck.
  set (finalScore := baseScore grant + scoreDelta grant + _).
  destruct (Qltb finalScore (rejectBelow (scoreBands config))) eqn:E.
  - apply Qltb_lt in E. simpl. split; intros; [split; reflexivity | exfalso; lra].
  - apply Qltb_ge in E. rewrite bind_run. rewrite bind_run. simpl.
    split; intros; [exfalso; lra | split; reflexivity].
Qed.

End GrantReview.

Section GrantOutcomes.

Variable showInt : Z -> string.
Variable showBase36 : Q -> string.
Variable students : list StudentPersona.
Variable mentorStats : MentorStats.
Variable projectPapers : list ProjectPaper.
Variables currentStamp decisionStamp : Stamp.

(** Before the deadline a grant stays under review, whatever is drawn. *)
Lemma settleReviewingGrant_before_deadline (config : GrantConfig) (acc : GrantAcc)
    (grant : GrantState) (g : Rng) :
  isQuarterReached currentStamp (mkStamp (reviewEndYear grant) (reviewEndQuarter grant)) = false ->
  let grant' :=
    fst (fst (settleReviewingGrant showInt showBase36 config students
                currentStamp decisionStamp acc grant g)) in
  gStatus grant' = gStatus grant /\ gTier grant' = gTier grant.
Proof.
  intros Hr. cbv zeta. unfold settleReviewingGrant.
  rewrite bind_run. rewrite rollInRange_run. simpl fst. simpl snd. cbv beta zeta.
  simpl reviewEndYear. simpl reviewEndQuarter. rewrite Hr. cbn [negb].
  destruct (optEqQ _ _ && optEqQ _ _); [split; reflexivity|].
  rewrite bind_run. destruct (Qltb _ _); split; reflexivity.
Qed.

Lemma tierForScore_monotone (bands : ScoreBands) (a b : Q) (g1 g2 : GrantState) :
  a <= b ->
  gStatus g1 = Active -> gStatus g2 = Active ->
  gTier g1 = Some (tierForScore bands a) -> gTier g2 = Some (tierForScore bands b) ->
  (outcomeRank g1 <= outcomeRank g2)%Z.
Proof.
  intros Hab S1 S2 T1 T2. unfold outcomeRank. rewrite S1, S2, T1, T2.
  unfold tierForScore.
  destruct (Qgeb a (tierA bands)) eqn:Ea.
  - apply Qgeb_ge in Ea.
    destruct (Qgeb b (tierA bands)) eqn:Eb; [lia|].
    apply Qgeb_lt in Eb. exfalso. lra.
  - destruct (Qgeb a (tierB bands)) eqn:Ea2.
    + apply Qgeb_ge in Ea2.
      destruct (Qgeb b (tierA bands)); [lia|].
      destruct (Qgeb b (tierB bands)) eqn:Eb2; [lia|].
      apply Qgeb_lt in Eb2. exfalso. lra.
    + destruct (Qgeb b (tierA bands)); [lia|].
      destruct (Qgeb b (tierB bands)); lia.
Qed.

(** One reviewing grant, settled twice from the same accumulators and the
    same oracle state, the second time with a larger [scoreDelta]. *)
Lemma settleGrant_monotone (acc : GrantAcc) (grant : GrantState) (delta : Q) (g : Rng) :
  0 < delta ->
  gStatus grant = Reviewing ->
  let r1 := fst (fst (settleGrant showInt showBase36 students mentorStats projectPapers
                        currentStamp decisionStamp acc grant g)) in
  let r2 := fst (fst (settleGrant showInt showBase36 students mentorStats projectPapers
                        currentStamp decisionStamp acc
                        (withScoreDelta grant (scoreDelta grant + delta)) g)) in
  (outcomeRank r1 <= outcomeRank r2)%Z
  /\ (gStatus r1 = Active -> gStatus r2 = Active)
  /\ (gStatus r2 = GrantRejected -> gStatus r1 = GrantRejected)
  /\ (gStatus r1 = Reviewing <-> gStatus r2 = Reviewing).
Proof.
  intros Hd Hst. cbv zeta. unfold settleGrant.
  change (gType (withScoreDelta grant (scoreDelta grant + delta))) with (gType grant).
  change (gStatus (withScoreDelta grant (scoreDelta grant + delta))) with (gStatus grant).
  destruct (getGrantConfig_total (gType grant)) as (config & Hc & _).
  rewrite Hc, Hst.
  set (grant2 := withScoreDelta grant (scoreDelta grant + delta)).
  destruct (isQuarterReached currentStamp
              (mkStamp (reviewEndYear grant) (reviewEndQuarter grant))) eqn:Hr.
  - pose proof (settleReviewingGrant_deadline showInt showBase36 students
                  currentStamp decisionStamp config acc grant g Hr) as H1.
    pose proof (settleReviewingGrant_deadline showInt showBase36 students
                  currentStamp decisionStamp config acc grant2 g Hr) as H2.
    cbv zeta in H1, H2.
    change (baseScore grant2) with (baseScore grant) in H2.
    change (scoreDelta grant2) with (scoreDelta grant + delta) in H2.
    change (gLuck grant2) with (gLuck grant) in H2.
    change (gTier grant2) with (gTier grant) in H2.
    set (r1 := fst (fst (settleReviewingGrant _ _ _ _ _ _ acc grant g))) in *.
    set (r2 := fst (fst (settleReviewingGrant _ _ _ _ _ _ acc grant2 g))) in *.
    set (tick := rollAt (-3) 3 (draws g (cursor g))) in *.
    set (fs1 := baseScore grant + scoreDelta grant + (gLuck grant + tick)) in *.
    set (fs2 := baseScore grant + (scoreDelta grant + delta) + (gLuck grant + tick)) in *.
    assert (Hfs : fs1 <= fs2) by (unfold fs1, fs2; lra).
    destruct H1 as [R1 A1]. destruct H2 as [R2 A2].
    destruct (Qlt_le_dec fs1 (rejectBelow (scoreBands config))) as [L1|L1].
    + destruct (R1 L1) as [S1 T1].
      destruct (Qlt_le_dec fs2 (rejectBelow (scoreBands config))) as [L2|L2].
      * destruct (R2 L2) as [S2 T2].
        split; [unfold outcomeRank; rewrite S1, S2; cbn; lia|].
        repeat split; intros; congruence.
      * destruct (A2 L2) as [S2 T2].
        split.
        { unfold outcomeRank. rewrite S1, S2, T2.
          destruct (tierForScore (scoreBands config) fs2); cbn; lia. }
        repeat split; intros; congruence.
    + destruct (A1 L1) as [S1 T1].
      assert (L2 : rejectBelow (scoreBands config) <= fs2) by lra.
      destruct (A2 L2) as [S2 T2].
      split; [exact (tierForScore_monotone (scoreBands config) fs1 fs2 r1 r2 Hfs S1 S2 T1 T2)|].
      repeat split; intros; congruence.
  - pose proof (settleReviewingGrant_before_deadline config acc grant g Hr) as H1.
    pose proof (settleReviewingGrant_before_deadline config acc grant2 g Hr) as H2.
    cbv zeta in H1, H2.
    change (gStatus grant2) with (gStatus grant) in H2.
    destruct H1 as [S1 T1]. destruct H2 as [S2 T2].
    split; [unfold outcomeRank; rewrite S1, S2, Hst; cbn; lia|].
    repeat split; intros; congruence.
Qed.

End GrantOutcomes.

(** C2. A grant under review with [baseScore = 70], [scoreDelta = 0] and
    [luck = 0], settled at or after its review deadline, becomes active with
    tier B, for every grant type (both configurations have the score bands
    55 / 65 / 80) and every stream of draws of [Math.random]: the luck tick
    of the deadline quarter moves the final score within 67..73 only. *)
Theorem settleGrants_scenario_tier_B (showInt : Z -> string) (showBase36 : Q -> string)
    (grants : list GrantState) (students : list StudentPersona) (ms : MentorStats)
    (papers : list ProjectPaper) (cur dec : Stamp) (g : Rng) (i : nat) (gr : GrantState) :
  fairRng g ->
  nth_error grants i = Some gr ->
  gStatus gr = Reviewing ->
  baseScore gr == 70 -> scoreDelta gr == 0 -> gLuck gr == 0 ->
  isQuarterReached cur (mkStamp (reviewEndYear gr) (reviewEndQuarter gr)) = true ->
  (forall t, exists config,
      getGrantConfig t = Some config /\ scoreBands config = mkBands 55 65 80)
  /\ exists gr',
      nth_error
        (gsUpdatedGrants
           (fst (settleGrants showInt showBase36 grants students ms papers cur dec g))) i
      = Some gr'
      /\ gStatus gr' = Active /\ gTier gr' = Some TierB.
Proof.
  intros Hfair Hnth Hst Hb Hs Hl Hr.
  split; [apply getGrantConfig_total|].
  destruct (mapAccumM_nth (settleGrant showInt showBase36 students ms papers cur dec)
              (settleGrant_advances showInt showBase36 students ms papers cur dec)
              grants (mkGrantAcc emptyStatDelta [] [] [] []) g i gr Hnth)
    as (acc' & g' & Hadv & Hn).
  eexists. split.
  { unfold settleGrants. rewrite bind_run. simpl. exact Hn. }
  unfold settleGrant.
  destruct (getGrantConfig_total (gType gr)) as (config & Hc & Hbands).
  rewrite Hc, Hst.
  pose proof (settleReviewingGrant_deadline showInt showBase36 students cur dec
                config acc' gr g' Hr) as H.
  cbv zeta in H. rewrite Hbands in H. simpl rejectBelow in H.
  pose proof (advances_fair g g' Hadv Hfair (cursor g')) as [F0 F1].
  pose proof (rollAt_range (-3) 3 (draws g' (cursor g')) ltac:(lia) F0 F1) as [T0 T1].
  change (inject_Z (-3)) with (-3) in T0, T1. change (inject_Z 3) with 3 in T0, T1.
  set (tick := rollAt (-3) 3 (draws g' (cursor g'))) in *.
  destruct H as [_ H].
  destruct H as [S T]; [lra|].
  split; [exact S|]. rewrite T. f_equal.
  unfold tierForScore. simpl tierA. simpl tierB.
  destruct (Qgeb _ 80) eqn:E1; [apply Qgeb_ge in E1; exfalso; lra|].
  destruct (Qgeb _ 65) eqn:E2; [reflexivity|].
  apply Qgeb_lt in E2. exfalso. lra.
Qed.

(** C7. Two runs of [settleGrants] over the same inputs and the same
    oracle state, identical except that one grant under review has its
    [scoreDelta] larger by [delta > 0] in the second run: the second run
    never gives that grant a worse review outcome (rejected below tier C
    below tier B below tier A). A grant the first run funds is funded by the
    second, and the two runs agree on whether the review is still open. *)
Theorem settleGrants_monotone_in_scoreDelta (showInt : Z -> string)
    (showBase36 : Q -> string) (pre post : list GrantState) (gr : GrantState) (delta : Q)
    (students : list StudentPersona) (ms : MentorStats) (papers : list ProjectPaper)
    (cur dec : Stamp) (g : Rng) :
  0 < delta ->
  gStatus gr = Reviewing ->
  let gr2 := withScoreDelta gr (scoreDelta gr + delta) in
  let run1 := fst (settleGrants showInt showBase36 (pre ++ gr :: post)
                     students ms papers cur dec g) in
  let run2 := fst (settleGrants showInt showBase36 (pre ++ gr2 :: post)
                     students ms papers cur dec g) in
  exists r1 r2,
    nth_error (gsUpdatedGrants run1) (List.length pre) = Some r1
    /\ nth_error (gsUpdatedGrants run2) (List.length pre) = Some r2
    /\ (outcomeRank r1 <= outcomeRank r2)%Z
    /\ (gStatus r1 = Active -> gStatus r2 = Active)
    /\ (gStatus r2 = GrantRejected -> gStatus r1 = GrantRejected)
    /\ (gStatus r1 = Reviewing <-> gStatus r2 = Reviewing).
Proof.
  intros Hd Hst. cbv zeta.
  unfold settleGrants. rewrite !bind_run. simpl gsUpdatedGrants.
  do 2 eexists.
  split; [apply mapAccumM_app_nth|].
  split; [apply mapAccumM_app_nth|].
  apply settleGrant_monotone; assumption.
Qed.

Lemma constRng_fair (r : Q) : 0 <= r -> r < 1 -> fairRng (constRng r).
Proof. intros H0 H1 n. split; assumption. Defined.

(** The scenario on a one-grant list, settled in its deadline quarter. *)
Lemma settleGrants_scenario_tier_B_witness :
  exists gr',
    nth_error
      (gsUpdatedGrants
         (fst (settleGrants sampleShowInt sampleShowBase36
                 [sampleGrant "g1" GuoZiRan 70 0 0] [] sampleStats []
                 (mkStamp 1 3) (mkStamp 1 4) (constRng 0.99)))) 0
    = Some gr'
    /\ gStatus gr' = Active /\ gTier gr' = Some TierB.
Proof.
  apply (settleGrants_scenario_tier_B sampleShowInt sampleShowBase36
           [sampleGrant "g1" GuoZiRan 70 0 0] [] sampleStats []
           (mkStamp 1 3) (mkStamp 1 4) (constRng 0.99) 0
           (sampleGrant "g1" GuoZiRan 70 0 0)).
  - apply constRng_fair; [apply Qle_bool_imp_le|]; reflexivity.
  - reflexivity.
  - reflexivity.
  - reflexivity.
  - reflexivity.
  - reflexivity.
  - reflexivity.
Defined.

(** A grant rejected at score 50 and the same grant with twenty more points. *)
Lemma settleGrants_monotone_in_scoreDelta_witness :
  exists r1 r2,
    nth_error
      (gsUpdatedGrants
         (fst (settleGrants sampleShowInt sampleShowBase36
                 ([] ++ sampleGrant "g1" GuoSheKe 50 0 0 :: []) [] sampleStats []
                 (mkStamp 1 3) (mkStamp 1 4) (constRng 0.5)))) 0 = Some r1
    /\ nth_error
         (gsUpdatedGrants
            (fst (settleGrants sampleShowInt sampleShowBase36
                    ([] ++ withScoreDelta (sampleGrant "g1" GuoSheKe 50 0 0) (0 + 20) :: [])
                    [] sampleStats [] (mkStamp 1 3) (mkStamp 1 4) (constRng 0.5)))) 0
       = Some r2
    /\ (outcomeRank r1 <= outcomeRank r2)%Z.
Proof.
  destruct (settleGrants_monotone_in_scoreDelta sampleShowInt sampleShowBase36
              [] [] (sampleGrant "g1" GuoSheKe 50 0 0) 20 [] sampleStats []
              (mkStamp 1 3) (mkStamp 1 4) (constRng 0.5) eq_refl eq_refl)
    as (r1 & r2 & H1 & H2 & H3 & _).
  exists r1, r2. split; [exact H1|]. split; [exact H2 | exact H3].
Defined.

(* ------------------------------------------------------------------ *)
(** ** Resolving a decision and dismissing a student *)

Lemma find_none_of_all {A : Type} (f : A -> bool) (l : list A) :
  (forall x, In x l -> f x = false) -> find f l = None.
Proof.
  induction l as [|x xs IH]; intros H; [reflexivity|].
  simpl. rewrite (H x (or_introl eq_refl)). apply IH.
  intros y Hy. apply H. right. exact Hy.
Qed.

(** C10. Choosing an option id that no option of the decision carries
    changes nothing: the session (mentor statistics, roster, projects,
    papers, grants, event log, the backlog with the decision still in it, the
    active decision and its result, the team message, the selected mentor)
    and the oracle state are returned as they were. *)
Theorem handleDecisionChoose_unknown_option (showInt : Z -> string)
    (showBase36 : Q -> string) (decision : DecisionEvent) (optionId : string)
    (s : Session) (g : Rng) :
  (forall o, In o (options decision) -> optId o <> optionId) ->
  handleDecisionChoose showInt showBase36 decision optionId s g = (s, g).
Proof.
  intros H. unfold handleDecisionChoose.
  rewrite find_none_of_all; [reflexivity|].
  intros o Ho. apply String.eqb_neq. apply H. exact Ho.
Qed.

(** An id that is not among the three venue options of a venue decision. *)
Lemma handleDecisionChoose_unknown_option_witness :
  handleDecisionChoose sampleShowInt sampleShowBase36 sampleDecision "conf-z"
    sampleSession (constRng 0.5)
  = (sampleSession, constRng 0.5).
Proof.
  apply (handleDecisionChoose_unknown_option sampleShowInt sampleShowBase36
           sampleDecision "conf-z" sampleSession (constRng 0.5)).
  intros o Ho. simpl in Ho.
  destruct Ho as [E | [E | [E | []]]]; subst o; simpl; discriminate.
Defined.

Lemma filter_not_referenced (sid : string) (ids : list string) :
  ~ In sid ids -> filter (fun i => negb (String.eqb i sid)) ids = ids.
Proof.
  induction ids as [|x xs IH]; intros H; [reflexivity|].
  simpl. destruct (String.eqb x sid) eqn:E.
  - apply String.eqb_eq in E. exfalso. apply H. left. exact E.
  - simpl. f_equal. apply IH. intros Hin. apply H. right. exact Hin.
Qed.

Lemma nth_error_map_some {A B : Type} (f : A -> B) (l : list A) (i : nat) (x : A) :
  nth_error l i = Some x -> nth_error (map f l) i = Some (f x).
Proof. intros H. rewrite nth_error_map, H. reflexivity. Qed.

Lemma setGrantAssigned_same (g : GrantState) : setGrantAssigned g (gAssignedStudentIds g) = g.
Proof. destruct g; reflexivity. Qed.

Lemma setProjectAssigned_same (p : ResearchProject) :
  setProjectAssigned p (projAssignedStudentIds p) = p.
Proof. destruct p; reflexivity. Qed.

Lemma optEqStr_true (a : option string) (b : string) : optEqStr a b = true <-> a = Some b.
Proof.
  destruct a as [v|]; simpl; split; intros H; try discriminate.
  - apply String.eqb_eq in H. congruence.
  - inversion H. apply String.eqb_refl.
Qed.

Lemma dropMentorReference_spec (sid : string) (st : StudentPersona) :
  id (dropMentorReference sid st) = id st
  /\ studentType (dropMentorReference sid st) = studentType st
  /\ (studentType st <> "YOUNG_TEACHER"%string ->
      mentorId (dropMentorReference sid st) <> Some sid).
Proof.
  unfold dropMentorReference.
  destruct (String.eqb (studentType st) "YOUNG_TEACHER") eqn:E.
  - split; [reflexivity|]. split; [reflexivity|].
    intros H. apply String.eqb_eq in E. contradiction.
  - split; [reflexivity|]. split; [reflexivity|]. intros _. simpl.
    destruct (optEqStr (mentorId st) sid) eqn:E2; [discriminate|].
    intros H. apply optEqStr_true in H. congruence.
Qed.

(** What the [.map] over the remaining team does to one student: a young
    teacher is returned as it is; any other student who named [sid] as
    mentor loses the mentor and the flag; any other student keeps the mentor,
    and keeps the flag only when that mentor is a non-empty id. *)
Lemma dropMentorReference_cases (sid : string) (x : StudentPersona) :
  (studentType x = "YOUNG_TEACHER"%string -> dropMentorReference sid x = x)
  /\ (studentType x <> "YOUNG_TEACHER"%string -> mentorId x = Some sid ->
      dropMentorReference sid x = setMentorship x false None)
  /\ (studentType x <> "YOUNG_TEACHER"%string -> mentorId x <> Some sid ->
      truthyOptStr (mentorId x) = true -> dropMentorReference sid x = x)
  /\ (studentType x <> "YOUNG_TEACHER"%string -> mentorId x <> Some sid ->
      truthyOptStr (mentorId x) = false ->
      dropMentorReference sid x = setMentorship x false (mentorId x)).
Proof.
  unfold dropMentorReference.
  destruct (String.eqb (studentType x) "YOUNG_TEACHER") eqn:E.
  - apply String.eqb_eq in E.
    split; [reflexivity|]. repeat split; intros H; contradiction.
  - apply String.eqb_neq in E.
    split; [intros H; contradiction|].
    split; [|split]; intros _ Hm.
    + rewrite Hm. simpl. rewrite String.eqb_refl. reflexivity.
    + intros Ht. cbv zeta.
      destruct (optEqStr (mentorId x) sid) eqn:E2.
      * apply optEqStr_true in E2. contradiction.
      * rewrite Ht. destruct x; reflexivity.
    + intros Ht. cbv zeta.
      destruct (optEqStr (mentorId x) sid) eqn:E2.
      * apply optEqStr_true in E2. contradiction.
      * rewrite Ht. reflexivity.
Qed.

(** C8 (as amended). Dismissing student [sid] removes every student with
    that id from the roster and keeps the others in order; every grant and
    every project loses [sid] from its assigned students and nothing else
    (so a grant whose only student was [sid] ends with none, and a grant or
    project that did not list [sid] is unchanged); every paper led by [sid]
    gets a null lead and every other paper is unchanged; no grant, paper or
    project is added or dropped; mentor statistics, event log and backlog
    are untouched and the mentor selection is reset. Of the remaining
    students, taken in order: one of type [YOUNG_TEACHER] is returned as it
    was, whatever its mentor; any other student who named [sid] as mentor
    comes out with no mentor and [isBeingMentored = false] and is otherwise
    unchanged; any other student whose mentor is another non-empty id is
    unchanged; and any other student without a (non-empty) mentor keeps it
    and comes out with [isBeingMentored = false]. So no remaining student
    other than a young teacher keeps [sid] as mentor. *)
Theorem removeStudentFromAllAssignments_cascade (sid : string) (s : Session) :
  let s' := removeStudentFromAllAssignments sid s in
  map id (teamMembers s') = filter (fun i => negb (String.eqb i sid)) (map id (teamMembers s))
  /\ (forall st, In st (teamMembers s') ->
        id st <> sid
        /\ (studentType st <> "YOUNG_TEACHER"%string -> mentorId st <> Some sid))
  /\ Forall2
       (fun x y =>
          (studentType x = "YOUNG_TEACHER"%string -> y = x)
          /\ (studentType x <> "YOUNG_TEACHER"%string -> mentorId x = Some sid ->
              y = setMentorship x false None)
          /\ (studentType x <> "YOUNG_TEACHER"%string -> mentorId x <> Some sid ->
              truthyOptStr (mentorId x) = true -> y = x)
          /\ (studentType x <> "YOUNG_TEACHER"%string -> mentorId x <> Some sid ->
              truthyOptStr (mentorId x) = false ->
              y = setMentorship x false (mentorId x)))
       (filter (fun x => negb (String.eqb (id x) sid)) (teamMembers s))
       (teamMembers s')
  /\ (forall i g, nth_error (grantApplications s) i = Some g ->
        exists g', nth_error (grantApplications s') i = Some g'
          /\ g' = setGrantAssigned g
                    (filter (fun x => negb (String.eqb x sid)) (gAssignedStudentIds g))
          /\ (gAssignedStudentIds g = [sid] -> gAssignedStudentIds g' = [])
          /\ (~ In sid (gAssignedStudentIds g) -> g' = g))
  /\ (forall i p, nth_error (projectPapers s) i = Some p ->
        exists p', nth_error (projectPapers s') i = Some p'
          /\ (leadStudentId p = Some sid -> p' = setPaperLead p None)
          /\ (leadStudentId p <> Some sid -> p' = p))
  /\ (forall i pr, nth_error (projects s) i = Some pr ->
        exists pr', nth_error (projects s') i = Some pr'
          /\ pr' = setProjectAssigned pr
                     (filter (fun x => negb (String.eqb x sid)) (projAssignedStudentIds pr))
          /\ (~ In sid (projAssignedStudentIds pr) -> pr' = pr))
  /\ List.length (grantApplications s') = List.length (grantApplications s)
  /\ List.length (projectPapers s') = List.length (projectPapers s)
  /\ List.length (projects s') = List.length (projects s)
  /\ stats s' = stats s /\ eventLog s' = eventLog s
  /\ pendingDecisions s' = pendingDecisions s
  /\ selectedMentorId s' = None.
Proof.
  cbv zeta. unfold removeStudentFromAllAssignments. simpl.
  split.
  { induction (teamMembers s) as [|x xs IH]; [reflexivity|].
    simpl. destruct (String.eqb (id x) sid); simpl.
    - exact IH.
    - rewrite (proj1 (dropMentorReference_spec sid x)). f_equal. exact IH. }
  split.
  { intros st Hin. apply in_map_iff in Hin. destruct Hin as (x & Hx & Hin).
    apply filter_In in Hin. destruct Hin as [_ Hne].
    apply negb_true_iff in Hne. apply String.eqb_neq in Hne.
    destruct (dropMentorReference_spec sid x) as (Hid & Hty & Hm).
    subst st. split; [rewrite Hid; exact Hne|].
    rewrite Hty. exact Hm. }
  split.
  { induction (filter (fun x => negb (String.eqb (id x) sid)) (teamMembers s))
      as [|x xs IH]; simpl; constructor; [|exact IH].
    apply dropMentorReference_cases. }
  split.
  { intros i g Hn. eexists. split; [apply nth_error_map_some; exact Hn|].
    split; [reflexivity|]. split.
    - intros H. simpl. rewrite H. simpl. rewrite String.eqb_refl. reflexivity.
    - intros H. rewrite filter_not_referenced by exact H. apply setGrantAssigned_same. }
  split.
  { intros i p Hn. eexists. split; [apply nth_error_map_some; exact Hn|].
    split; intros H.
    - apply optEqStr_true in H. rewrite H. reflexivity.
    - destruct (optEqStr (leadStudentId p) sid) eqn:E; [|reflexivity].
      apply optEqStr_true in E. contradiction. }
  split.
  { intros i pr Hn. eexists. split; [apply nth_error_map_some; exact Hn|].
    split; [reflexivity|].
    intros H. rewrite filter_not_referenced by exact H. apply setProjectAssigned_same. }
  rewrite !length_map. repeat split.
Qed.

(** C8 as first stated fails in the dismissal scenario: the grant and its
    paper are as the claim describes, and the young teacher [t1] of the
    roster, whom the code returns untouched, still names the dismissed [s1]
    as mentor afterwards. (The client creates no member of type
    [YOUNG_TEACHER] itself; such a member is part of a roster read back from
    storage, which is the case the guard of the code provides for.) *)
Lemma removeStudentFromAllAssignments_keeps_teacher_reference :
  (exists g p,
      grantApplications dismissalSession = [g] /\ projectPapers dismissalSession = [p]
      /\ gStatus g = Active /\ gAssignedStudentIds g = ["s1"%string]
      /\ grantId p = Some (gId g) /\ leadStudentId p = Some "s1"%string)
  /\ (exists st,
        In st (teamMembers (removeStudentFromAllAssignments "s1" dismissalSession))
        /\ id st <> "s1"%string
        /\ studentType st = "YOUNG_TEACHER"%string
        /\ mentorId st = Some "s1"%string).
Proof.
  split.
  - do 2 eexists. repeat split; reflexivity.
  - exists (youngTeacher "t1" (Some "s1"%string)).
    split; [left; reflexivity|]. split; [discriminate|]. split; reflexivity.
Qed.

(* ------------------------------------------------------------------ *)
(** ** Progress accrual *)

Lemma Qmax_cases (x y : Q) : (Qmax x y = x /\ y <= x) \/ (Qmax x y = y /\ x < y).
Proof.
  unfold Qmax, GenericMinMax.gmax.
  destruct (Qcompare x y) eqn:E.
  - left. split; [reflexivity|]. apply Qeq_alt in E. rewrite E. apply Qle_refl.
  - right. split; [reflexivity|]. apply Qlt_alt. exact E.
  - left. split; [reflexivity|]. apply Qlt_le_weak. apply Qgt_alt. exact E.
Qed.

Lemma Qmin_cases (x y : Q) : (Qmin x y = x /\ x <= y) \/ (Qmin x y = y /\ y < x).
Proof.
  unfold Qmin, GenericMinMax.gmin.
  destruct (Qcompare x y) eqn:E.
  - left. split; [reflexivity|]. apply Qeq_alt in E. rewrite E. apply Qle_refl.
  - left. split; [reflexivity|]. apply Qlt_le_weak. apply Qlt_alt. exact E.
  - right. split; [reflexivity|]. apply Qgt_alt. exact E.
Qed.

(** Clamping an integer between two integers gives an integer between them. *)
Lemma clampValue_integer (n lo hi : Z) :
  (lo <= hi)%Z ->
  exists z, clampValue (inject_Z n) (inject_Z lo) (inject_Z hi) = inject_Z z
            /\ (lo <= z <= hi)%Z.
Proof.
  intros Hle. unfold clampValue.
  destruct (Qmin_cases (inject_Z hi) (inject_Z n)) as [[E H]|[E H]]; rewrite E.
  - destruct (Qmax_cases (inject_Z lo) (inject_Z hi)) as [[E2 H2]|[E2 H2]]; rewrite E2.
    + exists lo. split; [reflexivity|lia].
    + exists hi. split; [reflexivity|lia].
  - rewrite <- Zlt_Qlt in H.
    destruct (Qmax_cases (inject_Z lo) (inject_Z n)) as [[E2 H2]|[E2 H2]]; rewrite E2.
    + exists lo. split; [reflexivity|lia].
    + rewrite <- Zlt_Qlt in H2. exists n. split; [reflexivity|lia].
Qed.

Lemma inject_Z_shift (a k : Z) : inject_Z a + inject_Z k = inject_Z (a * 1 + k * 1).
Proof. reflexivity. Qed.

(** The quarterly progress gain is an integer between 20 and 40, except on
    the burst path, taken by an eligible student when the third draw falls
    below the burst chance, where it is an integer between 60 and 100. *)
Lemma calcPaperProgressGain_range (student : StudentPersona) (activeProjectCount : Q)
    (g : Rng) :
  exists z : Z,
    fst (calcPaperProgressGain student activeProjectCount g) = inject_Z z
    /\ (((20 <= z <= 40)%Z
         /\ (burstEligible student = false
             \/ burstChance student <= draws g (2 + cursor g)%nat))
        \/ ((60 <= z <= 100)%Z
            /\ burstEligible student = true
            /\ draws g (2 + cursor g)%nat < burstChance student)).
Proof.
  unfold calcPaperProgressGain.
  rewrite bind_run, rollInRange_run. simpl fst. simpl snd.
  rewrite bind_run, rollInRange_run. simpl fst. simpl snd. cbv beta zeta.
  set (base := progressBase student activeProjectCount).
  set (jitter := rollAt (-4) 4 _ + rollAt (-2) 2 _).
  destruct (clampValue_integer (jsRound (base + jitter)) 20 40 ltac:(lia))
    as (z & Ez & Hz).
  change (inject_Z 20) with 20 in Ez. change (inject_Z 40) with 40 in Ez.
  destruct (burstEligible student) eqn:Eb.
  - rewrite bind_run. simpl fst. simpl snd. simpl cursor. simpl draws.
    destruct (Qltb _ (burstChance student)) eqn:Ec.
    + apply Qltb_lt in Ec.
      rewrite bind_run, rollInRange_run. simpl fst.
      unfold rollAt at 1.
      change 80 with (inject_Z 80). rewrite inject_Z_shift.
      destruct (clampValue_integer
                  (80 * 1 + jsRound (-20 + draws g (S (S (S (cursor g)))) * (20 - -20)) * 1)
                  60 100 ltac:(lia)) as (b & Eb2 & Hb).
      change (inject_Z 60) with 60 in Eb2. change (inject_Z 100) with 100 in Eb2.
      exists b. split; [exact Eb2|]. right. repeat split; try lia. exact Ec.
    + apply Qltb_ge in Ec. exists z. split; [exact Ez|]. left. split; [lia|].
      right. exact Ec.
  - exists z. split; [exact Ez|]. left. split; [lia|]. left. reflexivity.
Qed.

(** The burst chance is the clamp of [0.06 + (luck - 85) / 220] to
    [0.06, 0.18] (on the student's luck clamped to a percentage). *)
Lemma burstChance_band (student : StudentPersona) :
  burstChance student
  = clampValue (0.06 + (clampValue (luck student) 0 100 - 85) / 220) 0.06 0.18
  /\ 0.06 <= burstChance student /\ burstChance student <= 0.18.
Proof. split; [reflexivity|]. unfold burstChance. apply clampValue_bounds. lra. Qed.

(** Whatever the progress of a quarter adds up to, the accumulator is
    clamped to 100 before the submissions are counted: at most one
    submission is spawned, and it leaves nothing in the accumulator. *)
Lemma accrueProgress_saturates (student : StudentPersona) (progressGain : Q) :
  100 <= contribution student + progressGain ->
  let student' := fst (accrueProgress student progressGain) in
  contribution student' == 0
  /\ pendingPapers student' == pendingPapers student + 1
  /\ mentalState student' == clampValue (mentalState student - 2) 0 100
  /\ stress student' == clampValue (stress student + 3) 0 100.
Proof.
  intros H. cbv zeta. unfold accrueProgress.
  assert (Hc : clampValue (contribution student + progressGain) 0 100 == 100).
  { unfold clampValue. rewrite (Q.min_l 100 _) by exact H. apply Q.max_r. lra. }
  assert (Hf : jsFloor (clampValue (contribution student + progressGain) 0 100 / 100) = 1%Z).
  { unfold jsFloor. rewrite (Qfloor_comp _ 1); [reflexivity|]. rewrite Hc. reflexivity. }
  rewrite Hf. simpl. rewrite Hc. repeat split; try reflexivity; try lra.
Qed.

(** C6, at an input where [settleResearchPapers] does not carry the
    remainder over. A student with 90 points of accumulated progress gains
    32 in the quarter: one submission is spawned (at the cost of 2 points of
    mental state and 3 of stress), and the accumulator restarts from 0, not
    from the 22 points left above the full hundred. *)
Theorem settleResearchPapers_overflow_is_dropped :
  fst (calcPaperProgressGain nearlyDoneStudent 0 (constRng 0.5)) == 32
  /\ exists s',
       rsUpdatedStudents
         (fst (settleResearchPapers [nearlyDoneStudent] sampleStats [] (constRng 0.5)))
       = [s']
       /\ contribution s' == 0
       /\ ~ contribution s' == 22
       /\ pendingPapers s' == 1
       /\ mentalState s' == 94 /\ stress s' == 21.
Proof.
  split; [vm_compute; reflexivity|].
  eexists. split; [vm_compute; reflexivity|].
  repeat split; try (vm_compute; reflexivity).
  intros H. vm_compute in H. discriminate H.
Qed.

(* ------------------------------------------------------------------ *)
(** ** Maps in insertion order *)

Lemma includes_In (l : list string) (x : string) : includes l x = true <-> In x l.
Proof.
  unfold includes. rewrite existsb_exists. split.
  - intros (y & Hy & E). apply String.eqb_eq in E. subst y. exact Hy.
  - intros H. exists x. split; [exact H | apply String.eqb_refl].
Qed.

Lemma includes_not_In (l : list string) (x : string) : includes l x = false <-> ~ In x l.
Proof.
  rewrite <- includes_In. destruct (includes l x); split; intros H; congruence.
Qed.

Lemma mapGet_In {V : Type} (m : JsMap V) (k : string) (v : V) :
  mapGet m k = Some v -> In (k, v) m.
Proof.
  induction m as [|[k' v'] rest IH]; simpl; [discriminate|].
  destruct (String.eqb k' k) eqn:E.
  - intros H. inversion H; subst. apply String.eqb_eq in E. subst. left. reflexivity.
  - intros H. right. apply IH. exact H.
Qed.

Lemma mapGet_present {V : Type} (m : JsMap V) (k : string) :
  In k (mapKeys m) -> exists v, mapGet m k = Some v.
Proof.
  induction m as [|[k' v'] rest IH]; simpl; [intros []|].
  intros H. destruct (String.eqb k' k) eqn:E; [eexists; reflexivity|].
  apply String.eqb_neq in E. destruct H as [H|H]; [contradiction|]. apply IH. exact H.
Qed.

Lemma mapSet_keys_present {V : Type} (m : JsMap V) (k : string) (v : V) :
  In k (mapKeys m) -> mapKeys (mapSet m k v) = mapKeys m.
Proof.
  induction m as [|[k' v'] rest IH]; simpl; [intros []|].
  intros H. destruct (String.eqb k' k) eqn:E; [reflexivity|].
  apply String.eqb_neq in E. simpl. f_equal. apply IH.
  destruct H as [H|H]; [contradiction | exact H].
Qed.

Lemma mapSet_keys_absent {V : Type} (m : JsMap V) (k : string) (v : V) :
  ~ In k (mapKeys m) -> mapKeys (mapSet m k v) = mapKeys m ++ [k].
Proof.
  induction m as [|[k' v'] rest IH]; simpl; [reflexivity|].
  intros H. destruct (String.eqb k' k) eqn:E.
  - apply String.eqb_eq in E. exfalso. apply H. left. exact E.
  - simpl. f_equal. apply IH. intros Hin. apply H. right. exact Hin.
Qed.

Lemma in_mapKeys {V : Type} (m : JsMap V) (k : string) (v : V) :
  In (k, v) m -> In k (mapKeys m).
Proof. intros H. apply (in_map fst) in H. exact H. Qed.

(** After [set], the entry of the key is the new one and the others stay. *)
Lemma mapSet_In {V : Type} (m : JsMap V) (k : string) (v : V) (k' : string) (v' : V) :
  NoDup (mapKeys m) ->
  In (k', v') (mapSet m k v) ->
  (k' = k /\ v' = v) \/ (k' <> k /\ In (k', v') m).
Proof.
  induction m as [|[k0 v0] rest IH]; simpl; intros Hnd Hin.
  - destruct Hin as [Hin|[]]. inversion Hin. left. split; reflexivity.
  - inversion Hnd as [|? ? Hnot Hnd']; subst.
    destruct (String.eqb k0 k) eqn:E.
    + apply String.eqb_eq in E. subst k0.
      destruct Hin as [Hin|Hin].
      * inversion Hin. left. split; reflexivity.
      * right. split; [|right; exact Hin].
        intros ->. apply Hnot. apply (in_mapKeys rest k v'). exact Hin.
    + apply String.eqb_neq in E.
      destruct Hin as [Hin|Hin].
      * inversion Hin; subst. right. split; [exact E | left; reflexivity].
      * destruct (IH Hnd' Hin) as [H|[H1 H2]]; [left; exact H|].
        right. split; [exact H1 | right; exact H2].
Qed.

Lemma mapSet_NoDup {V : Type} (m : JsMap V) (k : string) (v : V) :
  NoDup (mapKeys m) -> NoDup (mapKeys (mapSet m k v)).
Proof.
  intros Hnd. destruct (in_dec string_dec k (mapKeys m)) as [Hin|Hout].
  - rewrite mapSet_keys_present by exact Hin. exact Hnd.
  - rewrite mapSet_keys_absent by exact Hout.
    apply NoDup_app; [exact Hnd | constructor; [intros [] | constructor] |].
    intros x Hx [Hk|[]]. subst x. contradiction.
Qed.

Lemma mapSet_has_key {V : Type} (m : JsMap V) (k : string) (v : V) (k' : string) :
  In k' (mapKeys (mapSet m k v)) <-> k' = k \/ In k' (mapKeys m).
Proof.
  destruct (in_dec string_dec k (mapKeys m)) as [Hin|Hout].
  - rewrite mapSet_keys_present by exact Hin. split; [auto|].
    intros [->|H]; assumption.
  - rewrite mapSet_keys_absent by exact Hout. rewrite in_app_iff. simpl.
    split; intros H.
    + destruct H as [H|[H|[]]]; [right; exact H | left; symmetry; exact H].
    + destruct H as [H|H]; [right; left; symmetry; exact H | left; exact H].
Qed.

(** [new Map(entries)]: distinct keys, every entry comes from [entries], and
    the keys are those of [entries]. *)
Lemma mapOfEntries_spec {V : Type} (entries : list (string * V)) :
  NoDup (mapKeys (mapOfEntries entries))
  /\ (forall k v, In (k, v) (mapOfEntries entries) -> In (k, v) entries)
  /\ (forall k, In k (mapKeys (mapOfEntries entries)) <-> In k (map fst entries)).
Proof.
  unfold mapOfEntries.
  assert (H : forall (es : list (string * V)) (m : JsMap V),
             NoDup (mapKeys m) ->
             NoDup (mapKeys (fold_left (fun m e => mapSet m (fst e) (snd e)) es m))
             /\ (forall k v,
                    In (k, v) (fold_left (fun m e => mapSet m (fst e) (snd e)) es m) ->
                    In (k, v) m \/ In (k, v) es)
             /\ (forall k,
                    In k (mapKeys (fold_left (fun m e => mapSet m (fst e) (snd e)) es m)) <->
                    In k (mapKeys m) \/ In k (map fst es))).
  { induction es as [|[k0 v0] es IH]; intros m Hnd; simpl.
    - split; [exact Hnd|]. split; [auto|]. intros k. split; [auto|]. intros [H|[]]; exact H.
    - destruct (IH (mapSet m k0 v0) (mapSet_NoDup m k0 v0 Hnd)) as (I1 & I2 & I3).
      split; [exact I1|]. split.
      + intros k v Hin. destruct (I2 k v Hin) as [H|H]; [|right; right; exact H].
        destruct (mapSet_In m k0 v0 k v Hnd H) as [[-> ->]|[_ H']].
        * right. left. reflexivity.
        * left. exact H'.
      + intros k. rewrite I3, mapSet_has_key. split; intros H.
        * destruct H as [[H|H]|H]; [right; left; symmetry; exact H | left; exact H
                                   | right; right; exact H].
        * destruct H as [H|[H|H]]; [left; right; exact H | left; left; symmetry; exact H
                                   | right; exact H]. }
  destruct (H entries [] (NoDup_nil _)) as (H1 & H2 & H3).
  split; [exact H1|]. split.
  - intros k v Hin. destruct (H2 k v Hin) as [[]|Hin']. exact Hin'.
  - intros k. rewrite H3. simpl. split; [intros [[]|Hk]; exact Hk | auto].
Qed.

(* ------------------------------------------------------------------ *)
(** ** Mentorship pairs *)

Lemma claimsMentor_true (ids : list string) (X : string) (s : StudentPersona) :
  claimsMentor ids X s = true ->
  mentorId s = Some X /\ X <> EmptyString /\ X <> id s /\ In X ids.
Proof.
  unfold claimsMentor. destruct (mentorId s) as [m|]; [|discriminate].
  intros H.
  apply andb_prop in H. destruct H as [H H4].
  apply andb_prop in H. destruct H as [H H3].
  apply andb_prop in H. destruct H as [H1 H2].
  apply String.eqb_eq in H1. subst m.
  unfold truthyStr in H2. apply negb_true_iff in H2. apply String.eqb_neq in H2.
  apply negb_true_iff in H3. apply String.eqb_neq in H3.
  apply includes_In in H4. repeat split; assumption.
Qed.

(** One step of the pair rebuild: either the student adds nothing, and then
    whatever it claims is already taken, or it adds the pair of the one
    mentor it claims, who was free. *)
Lemma claimMentor_cases (ids : list string) (pairs : list MentorshipPair)
    (used : list string) (s : StudentPersona) :
  (claimMentor ids (pairs, used) s = (pairs, used)
   /\ forall X, claimsMentor ids X s = true -> In X used)
  \/ (exists m,
        claimsMentor ids m s = true /\ ~ In m used
        /\ claimMentor ids (pairs, used) s = (pairs ++ [mkPair m (id s)], used ++ [m])
        /\ forall X, claimsMentor ids X s = true -> X = m).
Proof.
  unfold claimMentor, claimsMentor.
  destruct (mentorId s) as [m|]; [|left; split; [reflexivity | discriminate]].
  destruct (truthyStr m) eqn:E1; simpl negb; cbv iota.
  2:{ left. split; [reflexivity|]. intros X H.
      rewrite andb_false_r in H. discriminate. }
  destruct (String.eqb m (id s)) eqn:E2.
  { left. split; [reflexivity|]. intros X H.
    simpl in H. rewrite andb_false_r in H. discriminate. }
  destruct (includes ids m) eqn:E3; simpl negb; cbv iota.
  2:{ left. split; [reflexivity|]. intros X H.
      rewrite andb_false_r in H. discriminate. }
  destruct (includes used m) eqn:E4.
  - left. split; [reflexivity|]. intros X H.
    apply andb_prop in H. destruct H as [H _].
    apply andb_prop in H. destruct H as [H _].
    apply andb_prop in H. destruct H as [H _].
    apply String.eqb_eq in H. subst X. apply includes_In. exact E4.
  - right. exists m. split; [rewrite String.eqb_refl; reflexivity|].
    split; [apply includes_not_In; exact E4|].
    split; [reflexivity|].
    intros X H.
    apply andb_prop in H. destruct H as [H _].
    apply andb_prop in H. destruct H as [H _].
    apply andb_prop in H. destruct H as [H _].
    apply String.eqb_eq in H. symmetry. exact H.
Qed.

Lemma claim_fold_spec (ids : list string) (l : list StudentPersona) :
  forall (pairs : list MentorshipPair) (used : list string),
    used = map pairMentorId pairs -> NoDup used ->
    let res := fold_left (claimMentor ids) l (pairs, used) in
    snd res = map pairMentorId (fst res)
    /\ NoDup (snd res)
    /\ forall p, In p (fst res) ->
         In p pairs
         \/ (~ In (pairMentorId p) used
             /\ option_map id (find (claimsMentor ids (pairMentorId p)) l)
                = Some (pairMenteeId p)).
Proof.
  induction l as [|s l IH]; intros pairs used Hu Hnd; cbv zeta.
  - simpl. split; [exact Hu|]. split; [exact Hnd|]. intros p Hp. left. exact Hp.
  - cbn [fold_left].
    destruct (claimMentor_cases ids pairs used s)
      as [[E Hall]|(m & Hm & Hfree & E & Honly)]; rewrite E.
    + destruct (IH pairs used Hu Hnd) as (I1 & I2 & I3).
      split; [exact I1|]. split; [exact I2|].
      intros p Hp. destruct (I3 p Hp) as [H|[Hn Hf]]; [left; exact H|].
      right. split; [exact Hn|]. simpl.
      destruct (claimsMentor ids (pairMentorId p) s) eqn:Ec; [|exact Hf].
      exfalso. apply Hn. apply Hall. exact Ec.
    + assert (Hu' : used ++ [m] = map pairMentorId (pairs ++ [mkPair m (id s)])).
      { rewrite map_app. simpl. rewrite Hu. reflexivity. }
      assert (Hnd' : NoDup (used ++ [m])).
      { apply NoDup_app; [exact Hnd | constructor; [intros [] | constructor] |].
        intros x Hx [Hk|[]]. subst x. contradiction. }
      destruct (IH (pairs ++ [mkPair m (id s)]) (used ++ [m]) Hu' Hnd') as (I1 & I2 & I3).
      split; [exact I1|]. split; [exact I2|].
      intros p Hp. destruct (I3 p Hp) as [H|[Hn Hf]].
      * apply in_app_iff in H. destruct H as [H|[H|[]]]; [left; exact H|].
        subst p. right. split; [exact Hfree|]. simpl. rewrite Hm. reflexivity.
      * right. split; [intros Hin; apply Hn; apply in_app_iff; left; exact Hin|].
        simpl. destruct (claimsMentor ids (pairMentorId p) s) eqn:Ec; [|exact Hf].
        exfalso. apply Hn. apply in_app_iff. right. left. symmetry. apply Honly. exact Ec.
Qed.

(** The pairs of a roster: no mentor twice, and the mentee of each pair is
    the first student of the roster who claims its mentor. *)
Lemma buildMentorshipPairs_spec (students : list StudentPersona) :
  NoDup (map pairMentorId (buildMentorshipPairs students))
  /\ forall p, In p (buildMentorshipPairs students) ->
       firstClaimant students (pairMentorId p) = Some (pairMenteeId p).
Proof.
  unfold buildMentorshipPairs, firstClaimant.
  destruct (claim_fold_spec (map id students) students [] [] eq_refl (NoDup_nil _))
    as (I1 & I2 & I3).
  split; [rewrite <- I1; exact I2|].
  intros p Hp. destruct (I3 p Hp) as [[]|[_ H]]. exact H.
Qed.

Lemma firstClaimant_ids (students : list StudentPersona) (X e : string) :
  firstClaimant students X = Some e ->
  In X (map id students) /\ In e (map id students) /\ X <> e.
Proof.
  unfold firstClaimant.
  destruct (find _ students) as [s|] eqn:E; [|discriminate].
  intros H. inversion H; subst e.
  apply find_some in E. destruct E as [Hin Hc].
  apply claimsMentor_true in Hc. destruct Hc as (_ & _ & Hne & HX).
  split; [exact HX|]. split; [apply in_map; exact Hin | exact Hne].
Qed.

Lemma find_holder_is_claimant (ids : list string) (X : string) (l : list StudentPersona) :
  X <> EmptyString -> In X ids ->
  (forall s, In s l -> mentorId s <> Some (id s)) ->
  find (fun s => optEqStr (mentorId s) X) l = find (claimsMentor ids X) l.
Proof.
  intros Hne HX. induction l as [|s l IH]; intros Hself; [reflexivity|].
  assert (Hrest : forall s', In s' l -> mentorId s' <> Some (id s')).
  { intros s' Hs'. apply Hself. right. exact Hs'. }
  simpl. unfold claimsMentor at 1.
  destruct (mentorId s) as [m|] eqn:Em; simpl; [|apply IH; exact Hrest].
  destruct (String.eqb m X) eqn:E1; simpl; [|apply IH; exact Hrest].
  apply String.eqb_eq in E1. subst m.
  assert (T : truthyStr X = true).
  { unfold truthyStr. apply negb_true_iff. apply String.eqb_neq. exact Hne. }
  assert (N : String.eqb X (id s) = false).
  { apply String.eqb_neq. intros Heq.
    apply (Hself s (or_introl eq_refl)). rewrite Em, Heq. reflexivity. }
  assert (I : includes ids X = true) by (apply includes_In; exact HX).
  rewrite T, N, I. reflexivity.
Qed.

(** Without self-references in the roster, the first student who claims [X]
    is simply the first student whose [mentorId] is [X]. *)
Lemma firstClaimant_firstHolder (students : list StudentPersona) (X e : string) :
  (forall s, In s students -> mentorId s <> Some (id s)) ->
  firstClaimant students X = Some e ->
  firstHolder students X = Some e.
Proof.
  intros Hself H.
  destruct (firstClaimant_ids students X e H) as (HX & _ & _).
  assert (Hne : X <> EmptyString).
  { unfold firstClaimant in H.
    destruct (find (claimsMentor _ X) students) as [s|] eqn:E; [|discriminate].
    apply find_some in E. destruct E as [_ Hc].
    apply claimsMentor_true in Hc. destruct Hc as (_ & Hne & _ & _). exact Hne. }
  unfold firstHolder.
  rewrite (find_holder_is_claimant (map id students) X students Hne HX Hself).
  exact H.
Qed.

Section Mentorship.

Variable table : list StudentTrait.

Lemma influencePair_step (m : JsMap StudentPersona) (processed : list MentorshipPair)
    (p : MentorshipPair) :
  NoDup (mapKeys m) -> pairsApplied m processed ->
  In (pairMentorId p) (mapKeys m) -> In (pairMenteeId p) (mapKeys m) ->
  mapKeys (influencePair table m p) = mapKeys m
  /\ pairsApplied (influencePair table m p) (processed ++ [p]).
Proof.
  intros Hnd Hinv Hmentor Hmentee. unfold influencePair.
  destruct (mapGet_present m _ Hmentor) as (mentor & Eg1).
  destruct (mapGet_present m _ Hmentee) as (mentee & Eg2).
  rewrite Eg1, Eg2.
  split; [apply mapSet_keys_present; exact Hmentee|].
  intros k v Hin.
  destruct (mapSet_In m _ _ k v Hnd Hin) as [[-> ->]|[Hne Hold]].
  - split.
    + simpl. apply (Hinv _ _ (mapGet_In m _ _ Eg2)).
    + intros _. exists (pairMentorId p). split; [reflexivity|]. split; [reflexivity|].
      apply in_app_iff. right. left. destruct p; reflexivity.
  - destruct (Hinv k v Hold) as [Hid Hm]. split; [exact Hid|].
    intros Hk. rewrite map_app in Hk. apply in_app_iff in Hk.
    destruct Hk as [Hk|[Hk|[]]]; [|exfalso; apply Hne; symmetry; exact Hk].
    destruct (Hm Hk) as (mm & E1 & E2 & E3).
    exists mm. split; [exact E1|]. split; [exact E2|].
    apply in_app_iff. left. exact E3.
Qed.

Lemma influence_fold_spec (pairs : list MentorshipPair) :
  forall (processed : list MentorshipPair) (m : JsMap StudentPersona),
    NoDup (mapKeys m) -> pairsApplied m processed ->
    (forall p, In p pairs ->
       In (pairMentorId p) (mapKeys m) /\ In (pairMenteeId p) (mapKeys m)) ->
    mapKeys (fold_left (influencePair table) pairs m) = mapKeys m
    /\ pairsApplied (fold_left (influencePair table) pairs m) (processed ++ pairs).
Proof.
  induction pairs as [|p rest IH]; intros processed m Hnd Hinv Hkeys.
  - simpl. rewrite app_nil_r. split; [reflexivity | exact Hinv].
  - cbn [fold_left].
    destruct (Hkeys p (or_introl eq_refl)) as [Hk1 Hk2].
    destruct (influencePair_step m processed p Hnd Hinv Hk1 Hk2) as [Ek Hinv'].
    destruct (IH (processed ++ [p]) (influencePair table m p)) as [Ek' Hinv''].
    + rewrite Ek. exact Hnd.
    + exact Hinv'.
    + intros q Hq. rewrite Ek. apply Hkeys. right. exact Hq.
    + split; [rewrite Ek'; exact Ek|].
      rewrite <- app_assoc in Hinv''. exact Hinv''.
Qed.

(** The student map after all pairs of the roster are applied. *)
Lemma studentMap_after_pairs (students : list StudentPersona) :
  let pairs := buildMentorshipPairs students in
  let m' := fold_left (influencePair table) pairs
              (mapOfEntries (map (fun s => (id s, s)) students)) in
  NoDup (mapKeys m') /\ pairsApplied m' pairs.
Proof.
  cbv zeta.
  destruct (mapOfEntries_spec (map (fun s => (id s, s)) students)) as (Hnd & Hfrom & Hkeys).
  destruct (buildMentorshipPairs_spec students) as [_ Hfirst].
  destruct (influence_fold_spec (buildMentorshipPairs students) []
              (mapOfEntries (map (fun s => (id s, s)) students)) Hnd) as [Ek Hinv].
  - intros k v Hin. split; [|intros []].
    apply Hfrom in Hin. apply in_map_iff in Hin. destruct Hin as (s & E & _).
    inversion E. reflexivity.
  - intros p Hp.
    destruct (firstClaimant_ids students _ _ (Hfirst p Hp)) as (H1 & H2 & _).
    rewrite !Hkeys. rewrite map_map. simpl. split; assumption.
  - split; [rewrite Ek; exact Hnd | exact Hinv].
Qed.

End Mentorship.

Lemma NoDup_map_injective {A B : Type} (f : A -> B) (l : list A) (a b : A) :
  NoDup (map f l) -> In a l -> In b l -> f a = f b -> a = b.
Proof.
  induction l as [|x xs IH]; intros Hnd Ha Hb E; [destruct Ha|].
  simpl in Hnd. inversion Hnd as [|? ? Hnot Hnd']; subst.
  destruct Ha as [->|Ha], Hb as [->|Hb].
  - reflexivity.
  - exfalso. apply Hnot. rewrite E. apply in_map. exact Hb.
  - exfalso. apply Hnot. rewrite <- E. apply in_map. exact Ha.
  - apply IH; assumption.
Qed.

Lemma claim_fold_keeps (ids : list string) (l : list StudentPersona) :
  forall (pairs : list MentorshipPair) (used : list string) (p : MentorshipPair),
    In p pairs -> In p (fst (fold_left (claimMentor ids) l (pairs, used))).
Proof.
  induction l as [|s l IH]; intros pairs used p Hp; [exact Hp|].
  cbn [fold_left].
  destruct (claimMentor_cases ids pairs used s)
    as [[E _]|(m & _ & _ & E & _)]; rewrite E.
  - apply IH. exact Hp.
  - apply IH. apply in_app_iff. left. exact Hp.
Qed.

(** Every mentor that some student of the list claims, and that is still
    free, ends up paired with the first such student. *)
Lemma claim_fold_complete (ids : list string) (l : list StudentPersona) :
  forall (pairs : list MentorshipPair) (used : list string) (X : string)
         (s : StudentPersona),
    find (claimsMentor ids X) l = Some s -> ~ In X used ->
    In (mkPair X (id s)) (fst (fold_left (claimMentor ids) l (pairs, used))).
Proof.
  induction l as [|s0 l IH]; intros pairs used X s Hf Hfree; [discriminate|].
  cbn [fold_left]. simpl in Hf.
  destruct (claimMentor_cases ids pairs used s0)
    as [[E Hall]|(m & Hm & _ & E & Honly)]; rewrite E.
  - destruct (claimsMentor ids X s0) eqn:Ec.
    + exfalso. apply Hfree. apply Hall. exact Ec.
    + apply IH; assumption.
  - destruct (claimsMentor ids X s0) eqn:Ec.
    + inversion Hf; subst s0. rewrite <- (Honly X Ec).
      apply claim_fold_keeps. apply in_app_iff. right. left. reflexivity.
    + apply IH; [exact Hf|].
      intros Hin. apply in_app_iff in Hin. destruct Hin as [Hin|[Hin|[]]].
      * contradiction.
      * subst m. rewrite Hm in Ec. discriminate.
Qed.

(** The first claimant of every mentor is the mentee of one of the pairs. *)
Lemma buildMentorshipPairs_complete (students : list StudentPersona) (X e : string) :
  firstClaimant students X = Some e ->
  In (mkPair X e) (buildMentorshipPairs students).
Proof.
  unfold firstClaimant, buildMentorshipPairs.
  destruct (find _ students) as [s|] eqn:E; [|discriminate].
  intros H. inversion H; subst e.
  apply claim_fold_complete; [exact E | intros []].
Qed.

(** Two students of a roster with distinct ids who are the first claimants
    of two mentors under the same id claim the same mentor. *)
Lemma firstClaimant_same_mentor (students : list StudentPersona) (X Y e : string) :
  NoDup (map id students) ->
  firstClaimant students X = Some e -> firstClaimant students Y = Some e -> X = Y.
Proof.
  unfold firstClaimant. intros Hnd HX HY.
  destruct (find (claimsMentor (map id students) X) students) as [a|] eqn:Ea;
    [|discriminate].
  destruct (find (claimsMentor (map id students) Y) students) as [b|] eqn:Eb;
    [|discriminate].
  simpl in HX, HY. inversion HX as [Ia]. inversion HY as [Ib].
  apply find_some in Ea. destruct Ea as [Ha Ca].
  apply find_some in Eb. destruct Eb as [Hb Cb].
  assert (a = b) by (apply (NoDup_map_injective id students); congruence).
  subst b.
  apply claimsMentor_true in Ca. apply claimsMentor_true in Cb.
  destruct Ca as [Ca _]. destruct Cb as [Cb _]. congruence.
Qed.

Section MentorshipKeys.

Variable table : list StudentTrait.

(** Every student of the roster still has an entry in the student map after
    all pairs are applied. *)
Lemma studentMap_has_students (students : list StudentPersona) (e : string) :
  In e (map id students) ->
  exists v,
    In (e, v) (fold_left (influencePair table) (buildMentorshipPairs students)
                 (mapOfEntries (map (fun s => (id s, s)) students))).
Proof.
  intros He.
  destruct (mapOfEntries_spec (map (fun s => (id s, s)) students)) as (Hnd & Hfrom & Hkeys).
  destruct (buildMentorshipPairs_spec students) as [_ Hfirst].
  destruct (influence_fold_spec table (buildMentorshipPairs students) []
              (mapOfEntries (map (fun s => (id s, s)) students)) Hnd) as [Ek _].
  - intros k v Hin. split; [|intros []].
    apply Hfrom in Hin. apply in_map_iff in Hin. destruct Hin as (s & E & _).
    inversion E. reflexivity.
  - intros p Hp.
    destruct (firstClaimant_ids students _ _ (Hfirst p Hp)) as (H1 & H2 & _).
    rewrite !Hkeys. rewrite map_map. simpl. split; assumption.
  - assert (Hk : In e (mapKeys (fold_left (influencePair table)
                                   (buildMentorshipPairs students)
                                   (mapOfEntries (map (fun s => (id s, s)) students))))).
    { rewrite Ek. apply Hkeys. rewrite map_map. simpl. exact He. }
    unfold mapKeys in Hk. apply in_map_iff in Hk.
    destruct Hk as ([k v] & E & Hin). simpl in E. subst k. exists v. exact Hin.
Qed.

End MentorshipKeys.

(** On a roster with distinct ids the first claimant of a mentor comes out
    of the pass holding that mentor, flagged as mentored. *)
Lemma applyMentorshipInfluence_first_claimant_kept (table : list StudentTrait)
    (students : list StudentPersona) (X e : string) :
  NoDup (map id students) ->
  firstClaimant students X = Some e ->
  exists a,
    In a (applyMentorshipInfluence table students)
    /\ id a = e /\ mentorId a = Some X /\ isBeingMentored a = true.
Proof.
  destruct (studentMap_after_pairs table students) as [Hnd Hinv].
  destruct (buildMentorshipPairs_spec students) as [Hmentors Hfirst].
  cbv zeta in Hnd, Hinv.
  intros Hdistinct Hfc.
  pose proof (buildMentorshipPairs_complete students X e Hfc) as Hpair.
  destruct (firstClaimant_ids students X e Hfc) as (_ & He & _).
  destruct (studentMap_has_students table students e He) as (v & Hv).
  destruct (Hinv e v Hv) as [Hid Hmentee].
  destruct Hmentee as (mm & Hm & Hflag & Hp).
  { apply in_map_iff. exists (mkPair X e). split; [reflexivity | exact Hpair]. }
  assert (mm = X).
  { apply (firstClaimant_same_mentor students mm X e Hdistinct); [|exact Hfc].
    apply (Hfirst (mkPair mm e)). exact Hp. }
  subst mm.
  exists v. split; [|split; [exact Hid|split; [exact Hm | exact Hflag]]].
  unfold applyMentorshipInfluence. cbv zeta.
  apply in_map_iff. exists v. split.
  - replace (includes (map pairMenteeId (buildMentorshipPairs students)) (id v)) with true;
      [reflexivity|].
    symmetry. apply includes_In. rewrite Hid.
    apply in_map_iff. exists (mkPair X e). split; [reflexivity | exact Hpair].
  - unfold mapValues. apply in_map_iff. exists (e, v). split; [reflexivity | exact Hv].
Qed.

(** C5. After [applyMentorshipInfluence] over any roster: no two students
    of the result hold the same [mentorId]; a student who holds [mentorId = X]
    is flagged as mentored and is the first student of the roster, in
    order, who claimed [X] (a claim being a [mentorId] that is set, is not
    the student's own id and names a student of the roster) -- and on a
    roster without self-references simply the first student whose
    [mentorId] was [X]; every student who is not the mentee of a rebuilt
    pair ends with [isBeingMentored = false] and no [mentorId]; and, on a
    roster whose ids are distinct, the first claimant of every mentor [X]
    does keep the relation: it comes out with [mentorId = X] and
    [isBeingMentored = true]. *)
Theorem applyMentorshipInfluence_one_mentee_per_mentor (table : list StudentTrait)
    (students : list StudentPersona) :
  let out := applyMentorshipInfluence table students in
  let pairs := buildMentorshipPairs students in
  (forall i j a b X,
      nth_error out i = Some a -> nth_error out j = Some b ->
      mentorId a = Some X -> mentorId b = Some X -> i = j)
  /\ (forall a X,
        In a out -> mentorId a = Some X ->
        isBeingMentored a = true
        /\ firstClaimant students X = Some (id a)
        /\ ((forall s, In s students -> mentorId s <> Some (id s)) ->
            firstHolder students X = Some (id a)))
  /\ (forall a,
        In a out -> ~ In (id a) (map pairMenteeId pairs) ->
        isBeingMentored a = false /\ mentorId a = None)
  /\ (NoDup (map id students) ->
      forall X e,
        firstClaimant students X = Some e ->
        exists a,
          In a out /\ id a = e /\ mentorId a = Some X /\ isBeingMentored a = true).
Proof.
  cbv zeta. unfold applyMentorshipInfluence.
  destruct (studentMap_after_pairs table students) as [Hnd Hinv]. cbv zeta in Hnd, Hinv.
  destruct (buildMentorshipPairs_spec students) as [Hmentors Hfirst].
  set (pairs := buildMentorshipPairs students) in *.
  set (m' := fold_left (influencePair table) pairs _) in *.
  set (fin := fun s : StudentPersona =>
                if includes (map pairMenteeId pairs) (id s) then s
                else setMentorship s false None).
  assert (Hkept : forall v X, mentorId (fin v) = Some X ->
                    fin v = v /\ In (id v) (map pairMenteeId pairs)).
  { intros v X H. unfold fin in *.
    destruct (includes (map pairMenteeId pairs) (id v)) eqn:E; [|discriminate].
    split; [reflexivity | apply includes_In; exact E]. }
  assert (Hpair : forall k v X, In (k, v) m' -> mentorId (fin v) = Some X ->
                    fin v = v /\ id v = k /\ isBeingMentored v = true
                    /\ In (mkPair X k) pairs).
  { intros k v X Hin H. destruct (Hkept v X H) as [E Hm].
    destruct (Hinv k v Hin) as [Hid Hrel]. rewrite Hid in Hm.
    destruct (Hrel Hm) as (mm & E1 & E2 & E3).
    rewrite E in H. rewrite H in E1. inversion E1; subst mm.
    repeat split; assumption. }
  split.
  { intros i j a b X Hi Hj Ha Hb.
    unfold mapValues in Hi, Hj. rewrite !nth_error_map in Hi, Hj.
    destruct (nth_error m' i) as [[ki vi]|] eqn:Ei; [|discriminate].
    destruct (nth_error m' j) as [[kj vj]|] eqn:Ej; [|discriminate].
    simpl in Hi, Hj. inversion Hi; subst a. inversion Hj; subst b.
    destruct (Hpair ki vi X (nth_error_In _ _ Ei) Ha) as (_ & _ & _ & Pi).
    destruct (Hpair kj vj X (nth_error_In _ _ Ej) Hb) as (_ & _ & _ & Pj).
    pose proof (NoDup_map_injective pairMentorId pairs _ _ Hmentors Pi Pj eq_refl) as E.
    inversion E; subst kj.
    assert (Eki : nth_error (mapKeys m') i = Some ki).
    { unfold mapKeys. rewrite nth_error_map, Ei. reflexivity. }
    assert (Ekj : nth_error (mapKeys m') j = Some ki).
    { unfold mapKeys. rewrite nth_error_map, Ej. reflexivity. }
    apply (proj1 (NoDup_nth_error (mapKeys m')) Hnd).
    - apply nth_error_Some. rewrite Eki. discriminate.
    - rewrite Eki, Ekj. reflexivity. }
  split.
  { intros a X Hin Ha.
    apply in_map_iff in Hin. destruct Hin as (v & Ev & Hv).
    unfold mapValues in Hv. apply in_map_iff in Hv. destruct Hv as ([k v'] & Ek & Hkv).
    simpl in Ek. subst v'. subst a.
    destruct (Hpair k v X Hkv Ha) as (E & Hid & Hflag & Hp).
    rewrite E. rewrite Hid.
    pose proof (Hfirst _ Hp) as Hf. simpl in Hf.
    split; [exact Hflag|]. split; [exact Hf|].
    intros Hself. apply firstClaimant_firstHolder; assumption. }
  split.
  { intros a Hin Hout.
    apply in_map_iff in Hin. destruct Hin as (v & Ev & _). subst a.
    unfold fin in *.
    destruct (includes (map pairMenteeId pairs) (id v)) eqn:E.
    - exfalso. apply Hout. apply includes_In. exact E.
    - split; reflexivity. }
  { intros Hdistinct X e Hfc.
    exact (applyMentorshipInfluence_first_claimant_kept table students X e Hdistinct Hfc). }
Qed.

(** Of two students who name [s1] as mentor, the first in the roster keeps
    the relation: whoever holds [s1] afterwards is that student, and that
    student does hold [s1] afterwards. *)
Lemma applyMentorshipInfluence_one_mentee_per_mentor_witness :
  (exists a,
      nth_error (applyMentorshipInfluence [] rivalRoster) 1 = Some a
      /\ mentorId a = Some "s1"%string
      /\ firstClaimant rivalRoster "s1" = Some (id a)
      /\ firstHolder rivalRoster "s1" = Some (id a))
  /\ (NoDup (map id rivalRoster)
      /\ firstClaimant rivalRoster "s1" = Some "s2"%string
      /\ exists a,
           In a (applyMentorshipInfluence [] rivalRoster)
           /\ id a = "s2"%string /\ mentorId a = Some "s1"%string
           /\ isBeingMentored a = true).
Proof.
  destruct (applyMentorshipInfluence_one_mentee_per_mentor [] rivalRoster)
    as (_ & H & _ & Hkeep).
  cbv zeta in H, Hkeep.
  assert (Hdistinct : NoDup (map id rivalRoster)).
  { repeat constructor; simpl; intuition discriminate. }
  split.
  - eexists. split; [reflexivity|]. split; [reflexivity|].
    match goal with
    | |- firstClaimant _ _ = Some (id ?a) /\ _ =>
        destruct (H a "s1"%string) as (_ & H1 & H2)
    end.
    + right. left. reflexivity.
    + reflexivity.
    + split; [exact H1|]. apply H2.
      intros s [E | [E | [E | []]]]; subst s; simpl; discriminate.
  - split; [exact Hdistinct|]. split; [reflexivity|].
    apply (Hkeep Hdistinct "s1"%string "s2"%string). reflexivity.
Defined.

(** In the dismissal scenario the grant ends without students and its paper
    without a lead. *)
Lemma removeStudentFromAllAssignments_cascade_witness :
  exists g' p',
    grantApplications (removeStudentFromAllAssignments "s1" dismissalSession) = [g']
    /\ projectPapers (removeStudentFromAllAssignments "s1" dismissalSession) = [p']
    /\ gAssignedStudentIds g' = [] /\ leadStudentId p' = None
    /\ map id (teamMembers (removeStudentFromAllAssignments "s1" dismissalSession))
       = ["t1"%string].
Proof.
  destruct (removeStudentFromAllAssignments_cascade "s1" dismissalSession)
    as (Hteam & _).
  cbv zeta in Hteam.
  do 2 eexists. split; [reflexivity|]. split; [reflexivity|].
  split; [reflexivity|]. split; [reflexivity|]. exact Hteam.
Defined.

(* ------------------------------------------------------------------ *)
(** ** Trait resolution *)

Section TraitResolution.

Variable table : list StudentTrait.

Lemma studentTraitById_id (i : string) (t : StudentTrait) :
  studentTraitById table i = Some t -> traitId t = i /\ In t table.
Proof.
  unfold studentTraitById. intros H. apply find_some in H. destruct H as [Hin E].
  apply String.eqb_eq in E. split; [exact E | apply in_rev; exact Hin].
Qed.

Lemma jsIndex_in_range {A : Type} (l : list A) (r : Q) :
  l <> [] -> 0 <= r -> r < 1 ->
  exists x, jsIndex l (jsFloor (r * inject_Z (Z.of_nat (List.length l)))) = Some x /\ In x l.
Proof.
  intros Hne H0 H1. unfold jsIndex, jsFloor.
  set (n := Z.of_nat (List.length l)).
  assert (Hn : (0 < n)%Z).
  { unfold n. destruct l; [contradiction|]. simpl List.length. lia. }
  assert (Hnq : 0 < inject_Z n) by (change 0 with (inject_Z 0); rewrite <- Zlt_Qlt; exact Hn).
  assert (Hlo : (0 <= Qfloor (r * inject_Z n))%Z).
  { rewrite <- (Qfloor_Z 0). apply Qfloor_resp_le. change (inject_Z 0) with 0. nra. }
  assert (Hhi : (Qfloor (r * inject_Z n) < n)%Z).
  { rewrite Zlt_Qlt. eapply Qle_lt_trans; [apply Qfloor_le|]. nra. }
  destruct (Qfloor (r * inject_Z n) <? 0)%Z eqn:E; [apply Z.ltb_lt in E; lia|].
  destruct (nth_error l (Z.to_nat (Qfloor (r * inject_Z n)))) as [x|] eqn:En.
  - exists x. split; [reflexivity|]. eapply nth_error_In. exact En.
  - apply nth_error_None in En. unfold n in *. lia.
Qed.

(** With nothing blocked, [pickWeightedTrait('main', [])] returns a main
    trait of the table whenever the table has one. *)
Lemma pickWeightedTraitLoop_main (fuel : nat) :
  (exists i, In i (studentTraitIds table) /\ hasCategory table CatMain i = true) ->
  forall g, fairRng g ->
    exists m,
      fst (pickWeightedTraitLoop table fuel CatMain [] g) = Some m
      /\ In m (studentTraitIds table) /\ hasCategory table CatMain m = true.
Proof.
  intros Hmain. induction fuel as [|fuel IH]; intros g Hfair.
  - simpl. unfold pickFallbackTrait.
    destruct Hmain as (i & Hi & Hc).
    destruct (find _ (studentTraitIds table)) as [m|] eqn:E.
    + apply find_some in E. destruct E as [Hin Hm].
      apply andb_prop in Hm. exists m. repeat split; tauto.
    + exfalso. pose proof (find_none _ _ E i Hi) as Hn. simpl in Hn.
      rewrite Hc in Hn. discriminate.
  - cbn [pickWeightedTraitLoop]. rewrite bind_run.
    assert (Hf1 : fairRng (snd (random g)))
      by (apply (advances_fair g); [apply random_advances | exact Hfair]).
    remember (snd (random g)) as g1 eqn:Eg1.
    change (fst (random g)) with (draws g (cursor g)). cbv beta zeta.
    set (pool := filter _ (poolOf _ _)).
    destruct pool as [|x xs] eqn:Ep; [apply IH; exact Hf1|].
    rewrite bind_run.
    change (fst (random g1)) with (draws g1 (cursor g1)). cbv beta.
    destruct (Hf1 (cursor g1)) as [R0 R1].
    destruct (jsIndex_in_range (x :: xs) (draws g1 (cursor g1)) ltac:(discriminate) R0 R1)
      as (m & Em & Hm).
    rewrite Em. cbn [existsb]. cbv iota. cbn [fst ret].
    exists m. split; [reflexivity|].
    rewrite <- Ep in Hm. unfold pool in Hm.
    apply filter_In in Hm. destruct Hm as [Hm _].
    assert (Hin : In m (filter (fun i => hasCategory table CatMain i) (studentTraitIds table))).
    { destruct (weightedPick CatMain (draws g (cursor g))); simpl in Hm;
        apply filter_In in Hm; destruct Hm as [H1 H2]; apply andb_prop in H2;
        apply filter_In; tauto. }
    apply filter_In in Hin. exact Hin.
Qed.

(** Whenever the table has a main trait and no trait with an empty id,
    [resolveStudentTraits] returns a list that starts with a main trait. *)
Lemma resolveStudentTraits_has_main (traits : option (list string)) (g : Rng) :
  (exists i, In i (studentTraitIds table) /\ hasCategory table CatMain i = true) ->
  (forall t, In t table -> traitId t <> EmptyString) ->
  fairRng g ->
  exists m rest,
    fst (resolveStudentTraits table traits g) = m :: rest
    /\ hasCategory table CatMain m = true.
Proof.
  intros Hmain Hids Hfair. unfold resolveStudentTraits.
  rewrite bind_run.
  assert (Hf1 : fairRng (snd (random g)))
    by (apply (advances_fair g); [apply random_advances | exact Hfair]).
  remember (snd (random g)) as g1 eqn:Eg1.
  change (fst (random g)) with (draws g (cursor g)). cbv beta zeta.
  set (unique := filter _ (dedup _)).
  rewrite bind_run.
  assert (Hres : exists m,
             fst (match find (hasCategory table CatMain) unique with
                  | Some m => ret (Some m)
                  | None => pickWeightedTrait table CatMain []
                  end g1) = Some m
             /\ hasCategory table CatMain m = true /\ truthyStr m = true).
  { assert (Htruthy : forall m, hasCategory table CatMain m = true -> truthyStr m = true).
    { intros m Hc. unfold hasCategory in Hc.
      destruct (studentTraitById table m) as [t|] eqn:Et; [|discriminate].
      apply studentTraitById_id in Et. destruct Et as [E Hin].
      unfold truthyStr. apply negb_true_iff. apply String.eqb_neq.
      rewrite <- E. apply Hids. exact Hin. }
    destruct (find (hasCategory table CatMain) unique) as [m|] eqn:Ef.
    - apply find_some in Ef. destruct Ef as [_ Hc].
      exists m. split; [reflexivity|]. split; [exact Hc | apply Htruthy; exact Hc].
    - destruct (pickWeightedTraitLoop_main 24 Hmain g1 Hf1) as (m & Em & _ & Hc).
      exists m. split; [exact Em|]. split; [exact Hc | apply Htruthy; exact Hc]. }
  destruct Hres as (m & Em & Hc & Ht).
  rewrite Em. cbv beta zeta.
  rewrite bind_run. cbv beta.
  unfold truthyTraits. cbn [truthyOptStr orElse]. rewrite Ht. cbn [app]. cbn [fst ret].
  exists m. eexists. split; [reflexivity | exact Hc].
Qed.

Lemma hasTraitConflict_sym (a b : string) :
  hasTraitConflict table a b = hasTraitConflict table b a.
Proof.
  unfold hasTraitConflict.
  destruct (studentTraitById table a), (studentTraitById table b); try reflexivity.
  apply orb_comm.
Qed.

Lemma noConflicts_snoc (l : list string) (i : string) :
  noConflicts table l ->
  (forall x, In x l -> hasTraitConflict table x i = false) ->
  noConflicts table (l ++ [i]).
Proof.
  induction l as [|x xs IH]; intros Hl Hi; simpl.
  - split; [intros y []|exact I].
  - destruct Hl as [Hx Hxs]. split.
    + intros y Hy. apply in_app_iff in Hy. destruct Hy as [Hy|[Hy|[]]].
      * apply Hx. exact Hy.
      * subst y. apply Hi. left. reflexivity.
    + apply IH; [exact Hxs|]. intros y Hy. apply Hi. right. exact Hy.
Qed.

Lemma noConflicts_filter (f : string -> bool) (l : list string) :
  noConflicts table l -> noConflicts table (filter f l).
Proof.
  induction l as [|x xs IH]; intros Hl; [exact I|].
  destruct Hl as [Hx Hxs]. simpl. destruct (f x); [|apply IH; exact Hxs].
  split; [|apply IH; exact Hxs].
  intros y Hy. apply filter_In in Hy. apply Hx. apply Hy.
Qed.

Lemma noConflicts_conflictFree (l : list string) :
  noConflicts table l -> conflictFree table l.
Proof.
  induction l as [|x xs IH]; intros Hl i j a b Hij Hi Hj.
  - destruct i; discriminate.
  - destruct Hl as [Hx Hxs]. destruct i as [|i], j as [|j]; simpl in Hi, Hj.
    + contradiction Hij; reflexivity.
    + inversion Hi; subst a. apply Hx. eapply nth_error_In. exact Hj.
    + inversion Hj; subst b. rewrite hasTraitConflict_sym.
      apply Hx. eapply nth_error_In. exact Hi.
    + apply (IH Hxs i j a b); [congruence | exact Hi | exact Hj].
Qed.

Lemma existsb_conflict_false (l : list string) (i : string) :
  existsb (fun selected => hasTraitConflict table selected i) l = false ->
  forall x, In x l -> hasTraitConflict table x i = false.
Proof.
  intros H x Hx.
  destruct (hasTraitConflict table x i) eqn:E; [|reflexivity].
  assert (Ht : existsb (fun selected => hasTraitConflict table selected i) l = true).
  { apply existsb_exists. exists x. split; assumption. }
  congruence.
Qed.

(** Every trait [pickWeightedTraits] adds is checked against the blocked
    traits and against the traits picked before it. *)
Lemma pickWeightedTraitsLoop_free (cat : TraitCategory) (count : Z) (blocked : list string)
    (fuel : nat) :
  forall (picked : list string) (g : Rng),
    (forall x y, In x blocked -> In y picked -> hasTraitConflict table x y = false) ->
    noConflicts table picked ->
    (forall x y, In x blocked ->
       In y (fst (pickWeightedTraitsLoop table fuel cat count blocked picked g)) ->
       hasTraitConflict table x y = false)
    /\ noConflicts table (fst (pickWeightedTraitsLoop table fuel cat count blocked picked g)).
Proof.
  induction fuel as [|fuel IH]; intros picked g Hb Hp.
  - simpl. split; assumption.
  - cbn [pickWeightedTraitsLoop].
    destruct (Z.of_nat (List.length picked) <? count)%Z; [|split; assumption].
    rewrite bind_run.
    set (t := fst (pickWeightedTrait table cat (blocked ++ picked) g)).
    set (g1 := snd (pickWeightedTrait table cat (blocked ++ picked) g)).
    destruct (negb (truthyOptStr t)); [split; assumption|].
    cbv zeta.
    destruct (includes picked (orElse t EmptyString)); [apply IH; assumption|].
    destruct (existsb _ blocked) eqn:E1; [apply IH; assumption|].
    destruct (existsb _ picked) eqn:E2; [apply IH; assumption|].
    apply IH.
    + intros x y Hx Hy. apply in_app_iff in Hy. destruct Hy as [Hy|[Hy|[]]].
      * apply Hb; assumption.
      * subst y. apply (existsb_conflict_false blocked _ E1). exact Hx.
    + apply noConflicts_snoc; [exact Hp|].
      apply (existsb_conflict_false picked _ E2).
Qed.

Lemma pickWeightedTraits_free (cat : TraitCategory) (count : Z) (blocked : list string)
    (g : Rng) :
  (forall x y, In x blocked ->
     In y (fst (pickWeightedTraits table cat count blocked g)) ->
     hasTraitConflict table x y = false)
  /\ noConflicts table (fst (pickWeightedTraits table cat count blocked g)).
Proof.
  unfold pickWeightedTraits.
  apply pickWeightedTraitsLoop_free; [intros x y _ [] | exact I].
Qed.

(** When the caller supplies no sub trait of the table, every sub trait of
    the result comes from [pickWeightedTraits], and the result holds no two
    conflicting traits. *)
Lemma resolveStudentTraits_fresh_conflict_free (traits : option (list string)) (g : Rng) :
  filter (hasCategory table CatSub)
    (filter (fun i => match studentTraitById table i with Some _ => true | None => false end)
            (dedup (orElse traits []))) = [] ->
  conflictFree table (fst (resolveStudentTraits table traits g)).
Proof.
  intros Hnone. apply noConflicts_conflictFree.
  pose proof (pickWeightedTraits_free CatSub) as Hsub.
  pose proof (pickWeightedTraits_free CatMain 1 []) as Hlast.
  unfold resolveStudentTraits. rewrite Hnone.
  revert Hsub Hlast.
  generalize (pickWeightedTraits table CatMain 1 []).
  generalize (pickWeightedTraits table CatSub).
  generalize (pickWeightedTrait table CatMain []).
  intros pickMain pickSubs pickLast Hsub Hlast.
  rewrite bind_run.
  remember (snd (random g)) as g1 eqn:Eg1.
  remember (fst (random g)) as roll eqn:Eroll.
  cbv beta zeta.
  remember (if Qltb roll 0.5 then 2%Z else 3%Z) as desired eqn:Ed.
  rewrite bind_run.
  remember (fst (match find (hasCategory table CatMain) _ with
                 | Some m => ret (Some m)
                 | None => pickMain
                 end g1)) as resolvedMain eqn:Em.
  remember (snd (match find (hasCategory table CatMain) _ with
                 | Some m => ret (Some m)
                 | None => pickMain
                 end g1)) as g2 eqn:Eg2.
  cbv beta.
  change (keepSuppliedSubs table desired resolvedMain []) with (@nil string).
  change (Z.of_nat (List.length (@nil string))) with 0%Z.
  assert (Hd : (0 <? desired)%Z = true) by (subst desired; destruct (Qltb roll 0.5); reflexivity).
  rewrite Hd. rewrite bind_run. rewrite bind_run.
  remember (if truthyOptStr resolvedMain then [orElse resolvedMain EmptyString] else [])
    as blocked eqn:Eb.
  destruct (Hsub (desired - 0)%Z blocked g2) as [Hb Hm].
  remember (fst (pickSubs (desired - 0)%Z blocked g2)) as more eqn:Emore.
  remember (snd (pickSubs (desired - 0)%Z blocked g2)) as g3 eqn:Eg3.
  change (fst (ret ([] ++ more) g3)) with more.
  change (snd (ret ([] ++ more) g3)) with g3.
  assert (Hpicked : noConflicts table (truthyTraits resolvedMain more)).
  { unfold truthyTraits. rewrite <- Eb.
    subst blocked. destruct (truthyOptStr resolvedMain).
    - cbn [app]. split; [|apply noConflicts_filter; exact Hm].
      intros y Hy. apply filter_In in Hy. apply Hb; [left; reflexivity | apply Hy].
    - cbn [app]. apply noConflicts_filter. exact Hm. }
  destruct (truthyTraits resolvedMain more) as [|x xs] eqn:Et.
  - apply (Hlast g3).
  - exact Hpicked.
Qed.

End TraitResolution.

(** C4, at an input where [resolveStudentTraits] returns two conflicting
    traits. The caller supplies a main trait and two sub traits that exclude
    each other; the supplied sub traits are checked against the main trait
    only, so both are kept and the resolved list is not free of conflicts. *)
Theorem resolveStudentTraits_keeps_supplied_conflict :
  fst (resolveStudentTraits sampleTraits (Some suppliedTraits) (constRng 0.3))
  = suppliedTraits
  /\ hasTraitConflict sampleTraits "tidy" "namingchaos" = true
  /\ ~ conflictFree sampleTraits
         (fst (resolveStudentTraits sampleTraits (Some suppliedTraits) (constRng 0.3))).
Proof.
  split; [vm_compute; reflexivity|].
  split; [vm_compute; reflexivity|].
  intros H.
  specialize (H 1%nat 2%nat "tidy"%string "namingchaos"%string ltac:(discriminate)).
  assert (E : hasTraitConflict sampleTraits "tidy" "namingchaos" = false).
  { apply H; vm_compute; reflexivity. }
  vm_compute in E. discriminate E.
Qed.

(* ================================================================== *)
(** * Further properties of the engine *)

(** ** Quarter arithmetic *)

Lemma toQuarterIndex_integral (y q : Z) :
  toQuarterIndex (inject_Z y) (inject_Z q) == inject_Z (quarterNumber y q).
Proof.
  unfold toQuarterIndex, quarterNumber.
  rewrite inject_Z_plus, inject_Z_mult, !Z.sub_1_r, <- !Z.sub_1_r.
  unfold Z.sub. rewrite !inject_Z_plus. simpl inject_Z. ring.
Qed.

Lemma jsTrunc_nonneg (x : Q) : 0 <= x -> jsTrunc x = Qfloor x.
Proof.
  intros H. unfold jsTrunc.
  destruct (Qle_bool 0 x) eqn:E; [reflexivity|].
  apply Qle_bool_iff in H. congruence.
Qed.

Lemma Qfloor_quarter (k : Z) : Qfloor (inject_Z k / 4) = (k / 4)%Z.
Proof. change 4 with (inject_Z 4). symmetry. apply Zdiv_Qdiv. Qed.

(** What [addQuarters] returns on an integral stamp and an integral offset
    that does not lead before year 1, quarter 1. *)
Lemma addQuarters_integral (y q n : Z) :
  (0 <= quarterNumber y q + n)%Z ->
  year (addQuarters (stampOf y q) (inject_Z n))
  == inject_Z ((quarterNumber y q + n) / 4 + 1)
  /\ quarter (addQuarters (stampOf y q) (inject_Z n))
     == inject_Z ((quarterNumber y q + n) mod 4 + 1).
Proof.
  intros Hk. set (k := (quarterNumber y q + n)%Z) in *.
  assert (Hnext : toQuarterIndex (inject_Z y) (inject_Z q) + inject_Z n == inject_Z k).
  { rewrite toQuarterIndex_integral. unfold k. rewrite inject_Z_plus. reflexivity. }
  assert (Hq : (toQuarterIndex (inject_Z y) (inject_Z q) + inject_Z n) / 4 == inject_Z k / 4).
  { rewrite Hnext. reflexivity. }
  assert (Hfl : Qfloor ((toQuarterIndex (inject_Z y) (inject_Z q) + inject_Z n) / 4)
                = (k / 4)%Z).
  { rewrite (Qfloor_comp _ _ Hq). apply Qfloor_quarter. }
  assert (Hpos : 0 <= (toQuarterIndex (inject_Z y) (inject_Z q) + inject_Z n) / 4).
  { rewrite Hq. apply Qle_shift_div_l; [reflexivity|].
    rewrite Qmult_0_l. change 0 with (inject_Z 0). rewrite <- Zle_Qle. exact Hk. }
  unfold addQuarters, stampOf. cbn [year quarter]. unfold jsFloor, jsRem.
  rewrite (jsTrunc_nonneg _ Hpos). rewrite Hfl. split.
  - rewrite inject_Z_plus. reflexivity.
  - rewrite Hnext. rewrite inject_Z_plus.
    rewrite (Z.mod_eq k 4) by lia.
    unfold Z.sub. rewrite inject_Z_plus, inject_Z_opp, inject_Z_mult.
    change (inject_Z 4) with 4. change (inject_Z 1) with 1. ring.
Qed.

Lemma addQuarters_index (y q n : Z) :
  (0 <= quarterNumber y q + n)%Z ->
  toQuarterIndex (year (addQuarters (stampOf y q) (inject_Z n)))
                 (quarter (addQuarters (stampOf y q) (inject_Z n)))
  == toQuarterIndex (inject_Z y) (inject_Z q) + inject_Z n.
Proof.
  intros Hk.
  destruct (addQuarters_integral y q n Hk) as [Hy Hq].
  unfold toQuarterIndex at 1. rewrite Hy, Hq.
  rewrite toQuarterIndex_integral.
  set (k := (quarterNumber y q + n)%Z) in *.
  rewrite <- inject_Z_plus. fold k.
  rewrite !inject_Z_plus.
  change (inject_Z 1) with 1.
  assert (E : inject_Z k == inject_Z (4 * (k / 4) + k mod 4)).
  { rewrite <- (Z.div_mod k 4) by lia. reflexivity. }
  rewrite E. rewrite inject_Z_plus, inject_Z_mult. change (inject_Z 4) with 4. ring.
Qed.

(** X1. On an integral stamp, adding an integral number of quarters that
    does not lead before year 1, quarter 1 moves the quarter index by
    exactly that number, and the stamp returned is again integral with its
    quarter among 1, 2, 3, 4. *)
Theorem addQuarters_moves_index (y q n : Z) :
  (0 <= quarterNumber y q + n)%Z ->
  let r := addQuarters (stampOf y q) (inject_Z n) in
  toQuarterIndex (year r) (quarter r)
  == toQuarterIndex (inject_Z y) (inject_Z q) + inject_Z n
  /\ exists y' q', year r == inject_Z y' /\ quarter r == inject_Z q' /\ (1 <= q' <= 4)%Z.
Proof.
  intros Hk. cbv zeta.
  destruct (addQuarters_integral y q n Hk) as [Hy Hq].
  split; [apply addQuarters_index; exact Hk|].
  exists ((quarterNumber y q + n) / 4 + 1)%Z, ((quarterNumber y q + n) mod 4 + 1)%Z.
  split; [exact Hy|]. split; [exact Hq|].
  pose proof (Z.mod_pos_bound (quarterNumber y q + n) 4 ltac:(lia)). lia.
Qed.

(** Year 2, quarter 3, three quarters later: year 3, quarter 2. *)
Lemma addQuarters_moves_index_witness :
  toQuarterIndex (year (addQuarters (stampOf 2 3) (inject_Z 3)))
                 (quarter (addQuarters (stampOf 2 3) (inject_Z 3)))
  == toQuarterIndex (inject_Z 2) (inject_Z 3) + inject_Z 3.
Proof.
  apply (addQuarters_moves_index 2 3 3). vm_compute. discriminate.
Defined.

Lemma isQuarterReached_iff (a b : Stamp) :
  isQuarterReached a b = true
  <-> toQuarterIndex (year b) (quarter b) <= toQuarterIndex (year a) (quarter a).
Proof. unfold isQuarterReached. apply Qgeb_ge. Qed.

(** X2. From an integral stamp, a date [n] quarters ahead is reached at the
    date [m] quarters ahead exactly when [n <= m] (offsets that do not lead
    before year 1, quarter 1); in particular a date at least one quarter
    ahead is not reached in the current quarter. *)
Theorem isQuarterReached_after_offsets (y q n m : Z) :
  (0 <= quarterNumber y q + n)%Z -> (0 <= quarterNumber y q + m)%Z ->
  (isQuarterReached (addQuarters (stampOf y q) (inject_Z m))
                    (addQuarters (stampOf y q) (inject_Z n)) = true
   <-> (n <= m)%Z)
  /\ (isQuarterReached (stampOf y q) (addQuarters (stampOf y q) (inject_Z n)) = true
      <-> (n <= 0)%Z).
Proof.
  intros Hn Hm.
  pose proof (addQuarters_index y q n Hn) as In.
  pose proof (addQuarters_index y q m Hm) as Im.
  split.
  - rewrite isQuarterReached_iff, In, Im.
    rewrite Zle_Qle. split; intros H; lra.
  - rewrite isQuarterReached_iff, In. unfold stampOf. cbn [year quarter].
    rewrite Zle_Qle. change (inject_Z 0) with 0. split; intros H; lra.
Qed.

(** A decision due two quarters after year 1, quarter 3 is not reached in
    that quarter and is reached two quarters later. *)
Lemma isQuarterReached_after_offsets_witness :
  isQuarterReached (stampOf 1 3) (addQuarters (stampOf 1 3) (inject_Z 2)) = false
  /\ isQuarterReached (addQuarters (stampOf 1 3) (inject_Z 2))
                      (addQuarters (stampOf 1 3) (inject_Z 2)) = true.
Proof.
  destruct (isQuarterReached_after_offsets 1 3 2 2) as [H1 H2];
    [vm_compute; discriminate | vm_compute; discriminate |].
  split.
  - destruct (isQuarterReached (stampOf 1 3) (addQuarters (stampOf 1 3) (inject_Z 2))) eqn:E;
      [|reflexivity].
    exfalso. assert (2 <= 0)%Z by (apply H2; reflexivity). lia.
  - apply H1. lia.
Defined.

(* ------------------------------------------------------------------ *)
(** ** The decision-due pass over papers *)

Lemma mapAccumM_idle {S A : Type} (f : S -> A -> Rand (A * S)) (l : list A) :
  forall acc g,
    (forall x, In x l -> f acc x g = (x, acc, g)) ->
    mapAccumM f acc l g = (l, acc, g).
Proof.
  induction l as [|x xs IH]; intros acc g H; [reflexivity|].
  rewrite mapAccumM_cons. rewrite (H x (or_introl eq_refl)). simpl.
  rewrite (IH acc g); [reflexivity|]. intros y Hy. apply H. right. exact Hy.
Qed.

Lemma mapAccumM_Forall {S A B : Type} (f : S -> A -> Rand (B * S)) (P : B -> Prop) :
  (forall acc x g, P (fst (fst (f acc x g)))) ->
  forall l acc g, Forall P (fst (fst (mapAccumM f acc l g))).
Proof.
  intros Hf l. induction l as [|x xs IH]; intros acc g.
  - constructor.
  - rewrite mapAccumM_cons. simpl. constructor; [apply Hf | apply IH].
Qed.

(** A count kept by the accumulator moves with the elements: if every step
    adds to the measure [mu] of the accumulator the weight of its output
    minus the weight of its input, so does the whole map. *)
Lemma mapAccumM_measure {S A B : Type} (f : S -> A -> Rand (B * S))
    (mu : S -> nat) (wA : A -> nat) (wB : B -> nat) :
  (forall acc x g,
      (mu (snd (fst (f acc x g))) + wA x = mu acc + wB (fst (fst (f acc x g))))%nat) ->
  forall l acc g,
    (mu (snd (fst (mapAccumM f acc l g))) + list_sum (map wA l)
     = mu acc + list_sum (map wB (fst (fst (mapAccumM f acc l g)))))%nat.
Proof.
  intros Hf l. induction l as [|x xs IH]; intros acc g.
  - simpl. reflexivity.
  - rewrite mapAccumM_cons. simpl.
    pose proof (Hf acc x g) as H1.
    pose proof (IH (snd (fst (f acc x g))) (snd (f acc x g))) as H2. lia.
Qed.

Lemma countIf_sum {A : Type} (f : A -> bool) (l : list A) :
  countIf f l = list_sum (map (fun x => if f x then 1%nat else 0%nat) l).
Proof.
  unfold countIf. induction l as [|x xs IH]; [reflexivity|].
  simpl. destruct (f x); simpl; rewrite IH; reflexivity.
Qed.

Lemma list_sum_ones {A : Type} (l : list A) :
  list_sum (map (fun _ => 1%nat) l) = List.length l.
Proof.
  induction l as [|x xs IH]; [reflexivity | simpl; rewrite IH; reflexivity].
Qed.

Lemma list_sum_split {A : Type} (f : A -> bool) (l : list A) :
  (list_sum (map (fun x => if f x then 0 else 1) l)
   + list_sum (map (fun x => if f x then 1 else 0) l) = List.length l)%nat.
Proof.
  induction l as [|x xs IH]; [reflexivity|].
  simpl. destruct (f x); simpl; lia.
Qed.

Section PaperPass.

Variable students : list StudentPersona.
Variable mentorStats : MentorStats.
Variables currentStamp decisionStamp : Stamp.

(** A paper that is not due passes through the callback untouched, and so
    do the accumulators and the oracle state. *)
Lemma settlePaper_not_due (acc : PaperAcc) (p : ProjectPaper) (g : Rng) :
  paperIsDue currentStamp p = false ->
  settlePaper students mentorStats currentStamp decisionStamp acc p g = (p, acc, g).
Proof.
  unfold paperIsDue, settlePaper. intros H.
  destruct (ProjectPaperStatus_eqb (status p) UnderReview); [|reflexivity].
  destruct (truthyOptQ (decisionDueYear p)); [|reflexivity].
  destruct (truthyOptQ (decisionDueQuarter p)); [|reflexivity].
  simpl in H. rewrite H. reflexivity.
Qed.

(** A paper that is due leaves the callback with a verdict, its due stamp
    cleared and everything that identifies it kept. *)
Lemma settlePaper_resolves (acc : PaperAcc) (p : ProjectPaper) (g : Rng) :
  paperIsDue currentStamp p = true ->
  let p' := fst (fst (settlePaper students mentorStats currentStamp decisionStamp acc p g)) in
  (status p' = Accepted \/ status p' = AwaitingRevision \/ status p' = Rejected)
  /\ decisionDueYear p' = None /\ decisionDueQuarter p' = None
  /\ samePaperIdentity p' p
  /\ (status p' <> AwaitingRevision -> lastRevisionKind p' = lastRevisionKind p)
  /\ (status p' = AwaitingRevision -> lastRevisionKind p' <> None).
Proof.
  unfold paperIsDue. intros Hdue.
  apply andb_prop in Hdue. destruct Hdue as [Hdue Hreached].
  apply andb_prop in Hdue. destruct Hdue as [Hdue Hq].
  apply andb_prop in Hdue. destruct Hdue as [Hst Hy].
  cbv zeta. unfold settlePaper.
  rewrite Hst, Hy, Hq, Hreached. cbn [negb orb].
  rewrite bind_run.
  destruct (Qltb _ _).
  - cbn [ret fst resolvePaper status decisionDueYear decisionDueQuarter lastRevisionKind].
    unfold samePaperIdentity. cbn.
    repeat split; try (left; reflexivity); intros; discriminate.
  - destruct (Qltb _ _).
    + rewrite bind_run.
      cbn [ret fst resolvePaper status decisionDueYear decisionDueQuarter lastRevisionKind].
      unfold samePaperIdentity. cbn.
      repeat split; try (right; left; reflexivity); intros; try discriminate.
      contradiction H; reflexivity.
    + cbn [ret fst resolvePaper status decisionDueYear decisionDueQuarter lastRevisionKind].
      unfold samePaperIdentity. cbn.
      repeat split; try (right; right; reflexivity); intros; discriminate.
Qed.

Lemma settlePaper_output_not_due (acc : PaperAcc) (p : ProjectPaper) (g : Rng) :
  paperIsDue currentStamp
    (fst (fst (settlePaper students mentorStats currentStamp decisionStamp acc p g))) = false.
Proof.
  destruct (paperIsDue currentStamp p) eqn:E.
  - destruct (settlePaper_resolves acc p g E) as (Hs & _). cbv zeta in Hs.
    unfold paperIsDue.
    destruct Hs as [Hs|[Hs|Hs]]; rewrite Hs; reflexivity.
  - rewrite settlePaper_not_due by exact E. exact E.
Qed.

(** What each step adds to the decisions and to the log. *)
Lemma settlePaper_counts (acc : PaperAcc) (p : ProjectPaper) (g : Rng) :
  let r := fst (settlePaper students mentorStats currentStamp decisionStamp acc p g) in
  (List.length (paDecisions (snd r)) + (if isAwaitingRevision p then 1 else 0)
   = List.length (paDecisions acc) + (if isAwaitingRevision (fst r) then 1 else 0))%nat
  /\ (List.length (paEvents (snd r)) + 0
      = List.length (paEvents acc) + (if paperIsDue currentStamp p then 1 else 0))%nat.
Proof.
  cbv zeta. destruct (paperIsDue currentStamp p) eqn:E.
  - assert (Hnot : isAwaitingRevision p = false).
    { unfold paperIsDue in E. unfold isAwaitingRevision.
      destruct (status p); try reflexivity; discriminate. }
    rewrite Hnot.
    unfold paperIsDue in E.
    apply andb_prop in E. destruct E as [E Hreached].
    apply andb_prop in E. destruct E as [E Hq].
    apply andb_prop in E. destruct E as [Hst Hy].
    unfold settlePaper. rewrite Hst, Hy, Hq, Hreached. cbn [negb orb].
    rewrite bind_run.
    destruct (Qltb _ _).
    + cbn. rewrite length_app. cbn. lia.
    + destruct (Qltb _ _).
      * rewrite bind_run. cbn. rewrite !length_app. cbn. lia.
      * cbn. rewrite length_app. cbn. lia.
  - rewrite settlePaper_not_due by exact E. cbn. lia.
Qed.

End PaperPass.

(** X3. The decision-due pass returns every paper that is not due -- not
    under review, or with no decision stamp, or with a decision stamp that
    is not reached yet -- exactly as it was, at its position. *)
Theorem settleProjectPapers_keeps_undue (papers : list ProjectPaper)
    (students : list StudentPersona) (ms : MentorStats) (cur dec : Stamp) (g : Rng)
    (i : nat) (p : ProjectPaper) :
  nth_error papers i = Some p ->
  paperIsDue cur p = false ->
  nth_error (psUpdatedPapers (fst (settleProjectPapers papers students ms cur dec g))) i
  = Some p.
Proof.
  intros Hnth Hdue. unfold settleProjectPapers. rewrite bind_run. simpl.
  destruct (mapAccumM_nth (settlePaper students ms cur dec)
              (settlePaper_advances students ms cur dec)
              papers (mkPaperAcc emptyStatDelta [] [] []) g i p Hnth)
    as (acc' & g' & _ & Hn).
  rewrite Hn. rewrite settlePaper_not_due by exact Hdue. reflexivity.
Qed.

(** A paper under review that is due next quarter stays as it is. *)
Lemma settleProjectPapers_keeps_undue_witness :
  nth_error
    (psUpdatedPapers
       (fst (settleProjectPapers
               [samplePaper "p1" UnderReview (Some TierA) None (Some 1) (Some 4)]
               [] sampleStats (mkStamp 1 3) (mkStamp 1 4) (constRng 0.1))))
    0 = Some (samplePaper "p1" UnderReview (Some TierA) None (Some 1) (Some 4)).
Proof.
  apply (settleProjectPapers_keeps_undue
           [samplePaper "p1" UnderReview (Some TierA) None (Some 1) (Some 4)]
           [] sampleStats (mkStamp 1 3) (mkStamp 1 4) (constRng 0.1) 0
           (samplePaper "p1" UnderReview (Some TierA) None (Some 1) (Some 4)));
    reflexivity.
Defined.

Lemma map_mapGet_nil (students : list StudentPersona) :
  map (fun student =>
         match mapGet (@nil (string * StudentDelta)) (id student) with
         | Some delta => applyStudentDelta student delta
         | None => student
         end) students = students.
Proof.
  induction students as [|s l IH]; [reflexivity|]. simpl. f_equal. exact IH.
Qed.

Lemma settleProjectPapers_nothing_due (papers : list ProjectPaper)
    (students : list StudentPersona) (ms : MentorStats) (cur dec : Stamp) (g : Rng) :
  (forall p, In p papers -> paperIsDue cur p = false) ->
  settleProjectPapers papers students ms cur dec g
  = (mkPaperSettlement papers students emptyStatDelta [] [], g).
Proof.
  intros H. unfold settleProjectPapers. rewrite bind_run.
  rewrite mapAccumM_idle.
  - cbn [fst snd ret paStudentDeltaById paStatDelta paDecisions paEvents].
    rewrite map_mapGet_nil. reflexivity.
  - intros p Hp. apply settlePaper_not_due. apply H. exact Hp.
Qed.

(** X4. When no paper of the list is due, the decision-due pass does
    nothing at all: papers and students come back as they were, the stat
    delta is empty, no decision and no log entry is produced and no random
    number is drawn. *)
Theorem settleProjectPapers_idle (papers : list ProjectPaper)
    (students : list StudentPersona) (ms : MentorStats) (cur dec : Stamp) (g : Rng) :
  (forall p, In p papers -> paperIsDue cur p = false) ->
  settleProjectPapers papers students ms cur dec g
  = (mkPaperSettlement papers students emptyStatDelta [] [], g).
Proof. apply settleProjectPapers_nothing_due. Qed.

(** A list with an accepted paper and a paper due next quarter. *)
Lemma settleProjectPapers_idle_witness :
  settleProjectPapers
    [samplePaper "p0" Accepted (Some TierB) None None None;
     samplePaper "p1" UnderReview (Some TierA) None (Some 1) (Some 4)]
    [sampleStudent "s1" None] sampleStats (mkStamp 1 3) (mkStamp 1 4) (constRng 0.1)
  = (mkPaperSettlement
       [samplePaper "p0" Accepted (Some TierB) None None None;
        samplePaper "p1" UnderReview (Some TierA) None (Some 1) (Some 4)]
       [sampleStudent "s1" None] emptyStatDelta [] [], constRng 0.1).
Proof.
  apply (settleProjectPapers_idle
           [samplePaper "p0" Accepted (Some TierB) None None None;
            samplePaper "p1" UnderReview (Some TierA) None (Some 1) (Some 4)]
           [sampleStudent "s1" None] sampleStats (mkStamp 1 3) (mkStamp 1 4) (constRng 0.1)).
  intros p [E | [E | []]]; subst p; reflexivity.
Defined.

(** X5. The decision-due pass settles a quarter once: run again on its own
    output for the same current quarter (whatever the students, the mentor
    statistics, the decision stamp and the oracle state of the second run)
    it changes no paper and produces no stat delta, decision or log entry. *)
Theorem settleProjectPapers_settles_once (papers : list ProjectPaper)
    (students students2 : list StudentPersona) (ms ms2 : MentorStats)
    (cur dec dec2 : Stamp) (g g2 : Rng) :
  let first := fst (settleProjectPapers papers students ms cur dec g) in
  settleProjectPapers (psUpdatedPapers first) students2 ms2 cur dec2 g2
  = (mkPaperSettlement (psUpdatedPapers first) students2 emptyStatDelta [] [], g2).
Proof.
  cbv zeta. apply settleProjectPapers_nothing_due.
  unfold settleProjectPapers. rewrite bind_run. cbn [fst ret psUpdatedPapers].
  apply Forall_forall.
  apply (mapAccumM_Forall (settlePaper students ms cur dec)
           (fun p => paperIsDue cur p = false)).
  intros acc x g0. apply settlePaper_output_not_due.
Qed.

(** X6. A verdict touches only the status, the decision stamp and the kind
    of the last revision: whatever the pass does with a paper, the paper
    returned at its position keeps its id, project, title, lead student,
    grant, venue, submission stamp and revision round; a paper that was due
    comes back accepted, awaiting revision or rejected, with its decision
    stamp cleared. *)
Theorem settleProjectPapers_paper_frame (papers : list ProjectPaper)
    (students : list StudentPersona) (ms : MentorStats) (cur dec : Stamp) (g : Rng)
    (i : nat) (p : ProjectPaper) :
  nth_error papers i = Some p ->
  exists p',
    nth_error (psUpdatedPapers (fst (settleProjectPapers papers students ms cur dec g))) i
    = Some p'
    /\ samePaperIdentity p' p
    /\ (paperIsDue cur p = true ->
        (status p' = Accepted \/ status p' = AwaitingRevision \/ status p' = Rejected)
        /\ decisionDueYear p' = None /\ decisionDueQuarter p' = None).
Proof.
  intros Hnth. unfold settleProjectPapers. rewrite bind_run. simpl.
  destruct (mapAccumM_nth (settlePaper students ms cur dec)
              (settlePaper_advances students ms cur dec)
              papers (mkPaperAcc emptyStatDelta [] [] []) g i p Hnth)
    as (acc' & g' & _ & Hn).
  eexists. split; [exact Hn|].
  destruct (paperIsDue cur p) eqn:E.
  - destruct (settlePaper_resolves students ms cur dec acc' p g' E)
      as (H1 & H2 & H3 & H4 & _).
    split; [exact H4|]. intros _. repeat split; assumption.
  - rewrite settlePaper_not_due by exact E. split; [|discriminate].
    unfold samePaperIdentity. repeat split.
Qed.

(** A due paper keeps its identity through the verdict. *)
Lemma settleProjectPapers_paper_frame_witness :
  exists p',
    nth_error
      (psUpdatedPapers
         (fst (settleProjectPapers
                 [samplePaper "p1" UnderReview (Some TierA) (Some "s1"%string) (Some 1) (Some 2)]
                 [] sampleStats (mkStamp 1 3) (mkStamp 1 4) (constRng 0.99)))) 0
    = Some p'
    /\ paperId p' = "p1"%string /\ leadStudentId p' = Some "s1"%string.
Proof.
  destruct (settleProjectPapers_paper_frame
              [samplePaper "p1" UnderReview (Some TierA) (Some "s1"%string) (Some 1) (Some 2)]
              [] sampleStats (mkStamp 1 3) (mkStamp 1 4) (constRng 0.99) 0
              (samplePaper "p1" UnderReview (Some TierA) (Some "s1"%string) (Some 1) (Some 2))
              eq_refl)
    as (p' & Hn & Hid & _).
  exists p'. split; [exact Hn|].
  destruct Hid as (H1 & _ & _ & H4 & _). split; [exact H1 | exact H4].
Defined.

(** X7. The pass writes one log entry per paper that was due, and one
    revision decision per paper it sends back for revision: the papers
    awaiting revision afterwards are those that awaited it before plus one
    per decision. *)
Theorem settleProjectPapers_counts (papers : list ProjectPaper)
    (students : list StudentPersona) (ms : MentorStats) (cur dec : Stamp) (g : Rng) :
  let r := fst (settleProjectPapers papers students ms cur dec g) in
  List.length (psEvents r) = countIf (paperIsDue cur) papers
  /\ (List.length (psDecisions r) + countIf isAwaitingRevision papers
      = countIf isAwaitingRevision (psUpdatedPapers r))%nat.
Proof.
  cbv zeta. unfold settleProjectPapers. rewrite bind_run.
  cbn [fst ret psEvents psDecisions psUpdatedPapers].
  split.
  - pose proof (mapAccumM_measure (settlePaper students ms cur dec)
                  (fun acc => List.length (paEvents acc))
                  (fun p => if paperIsDue cur p then 0%nat else 1%nat)
                  (fun _ => 1%nat)) as H1.
    cbv beta in H1.
    assert (Hstep : forall acc x g0,
               (List.length (paEvents (snd (fst (settlePaper students ms cur dec acc x g0))))
                + (if paperIsDue cur x then 0 else 1)
                = List.length (paEvents acc) + 1)%nat).
    { intros acc x g0.
      pose proof (proj2 (settlePaper_counts students ms cur dec acc x g0)) as Hc.
      cbv zeta in Hc. destruct (paperIsDue cur x); lia. }
    specialize (H1 Hstep papers (mkPaperAcc emptyStatDelta [] [] []) g).
    cbn [paEvents List.length] in H1.
    rewrite countIf_sum.
    rewrite list_sum_ones in H1.
    rewrite (mapAccumM_length (settlePaper students ms cur dec) papers
               (mkPaperAcc emptyStatDelta [] [] []) g) in H1.
    pose proof (list_sum_split (paperIsDue cur) papers) as Hsplit.
    lia.
  - pose proof (mapAccumM_measure (settlePaper students ms cur dec)
                  (fun acc => List.length (paDecisions acc))
                  (fun p => if isAwaitingRevision p then 1%nat else 0%nat)
                  (fun p => if isAwaitingRevision p then 1%nat else 0%nat)
                  (fun acc x g0 => proj1 (settlePaper_counts students ms cur dec acc x g0))
                  papers (mkPaperAcc emptyStatDelta [] [] []) g) as H.
    cbn [paDecisions List.length] in H.
    rewrite !countIf_sum. lia.
Qed.

(* ------------------------------------------------------------------ *)
(** ** The quarterly pass over grants *)

Section GrantPass.

Variable showInt : Z -> string.
Variable showBase36 : Q -> string.
Variable students : list StudentPersona.
Variable mentorStats : MentorStats.
Variable projectPapers : list ProjectPaper.
Variables currentStamp decisionStamp : Stamp.

(** What drafting a paper does: one paper linked to the grant, one venue
    decision for it, one log entry. *)
Lemma buildGrantPaper_spec (acc : GrantAcc) (grant : GrantState) (lead : option string)
    (g : Rng) :
  let r := fst (buildGrantPaper showInt showBase36 decisionStamp acc grant lead g) in
  draftedBy grant (fst r)
  /\ leadStudentId (fst r) = lead
  /\ gaNewPapers (snd r) = gaNewPapers acc ++ [fst r]
  /\ gaDecisions (snd r) = gaDecisions acc ++ [venueDecisionFor decisionStamp (fst r)]
  /\ gaStatDelta (snd r) = gaStatDelta acc
  /\ gaDecisionRequests (snd r) = gaDecisionRequests acc.
Proof.
  cbv zeta. unfold buildGrantPaper. rewrite bind_run.
  cbn [ret fst snd gaNewPapers gaDecisions gaStatDelta gaDecisionRequests].
  unfold draftedBy, venueDecisionFor. cbn.
  repeat split.
Qed.

(** The drafting loop appends [n] papers to the grant and to the new papers. *)
Lemma draftPapers_spec (n : nat) (lead : option string) :
  forall (acc : GrantAcc) (grant : GrantState) (g : Rng),
    let r := fst (draftPapers showInt showBase36 n decisionStamp lead acc grant g) in
    exists news,
      List.length news = n
      /\ fst r = setGrantPaperIds grant (paperIds grant ++ map paperId news)
      /\ gaNewPapers (snd r) = gaNewPapers acc ++ news
      /\ gaDecisions (snd r) = gaDecisions acc ++ map (venueDecisionFor decisionStamp) news
      /\ gaStatDelta (snd r) = gaStatDelta acc
      /\ gaDecisionRequests (snd r) = gaDecisionRequests acc
      /\ Forall (draftedBy grant) news.
Proof.
  induction n as [|n IH]; intros acc grant g; cbv zeta.
  - exists []. simpl. rewrite !app_nil_r. repeat split; try constructor.
    destruct grant; reflexivity.
  - simpl draftPapers. rewrite bind_run.
    destruct (buildGrantPaper_spec acc grant lead g) as (Hd & _ & Hn & Hdec & Hs & Hr).
    cbv zeta in *.
    remember (buildGrantPaper showInt showBase36 decisionStamp acc grant lead g) as bp.
    destruct (IH (snd (fst bp))
                 (setGrantPaperIds grant (paperIds grant ++ [paperId (fst (fst bp))]))
                 (snd bp)) as (news & Hlen & Hg & Hn2 & Hdec2 & Hs2 & Hr2 & Hall).
    cbv zeta in *.
    exists (fst (fst bp) :: news).
    split; [simpl; rewrite Hlen; reflexivity|].
    split.
    { rewrite Hg. cbn [paperIds setGrantPaperIds map]. rewrite <- app_assoc. reflexivity. }
    split; [rewrite Hn2, Hn, <- app_assoc; reflexivity|].
    split; [rewrite Hdec2, Hdec, <- app_assoc; reflexivity|].
    split; [rewrite Hs2; exact Hs|].
    split; [rewrite Hr2; exact Hr|].
    constructor; [exact Hd|].
    eapply Forall_impl; [|exact Hall]. intros p Hp. exact Hp.
Qed.

Lemma addStatDelta_frame (acc : GrantAcc) (key : StatKey) (delta : Q) :
  gaNewPapers (addStatDelta acc key delta) = gaNewPapers acc
  /\ gaDecisions (addStatDelta acc key delta) = gaDecisions acc
  /\ gaDecisionRequests (addStatDelta acc key delta) = gaDecisionRequests acc
  /\ gaEvents (addStatDelta acc key delta) = gaEvents acc.
Proof. unfold addStatDelta. destruct (negb (truthyQ delta)); repeat split. Qed.

(** The closure evaluation closes the grant and touches nothing else of it. *)
Lemma closeGrant_frame (config : GrantConfig) (acc : GrantAcc) (grant ng : GrantState) :
  let r := closeGrant config projectPapers acc grant ng in
  (gStatus (fst r) = Completed \/ gStatus (fst r) = Failed)
  /\ fst r = setGrantStatus ng (gStatus (fst r))
  /\ gaNewPapers (snd r) = gaNewPapers acc
  /\ gaDecisions (snd r) = gaDecisions acc
  /\ gaDecisionRequests (snd r) = gaDecisionRequests acc.
Proof.
  cbv zeta. unfold closeGrant.
  destruct (_ && _ && _).
  - cbn [fst snd gStatus setGrantStatus pushGrantEvent gaNewPapers gaDecisions gaDecisionRequests].
    destruct (addStatDelta_frame acc SReputation
                match orElse (gTier ng) TierC with TierA => 2 | TierB => 1 | TierC => 0 end)
      as (H1 & H2 & H3 & _).
    repeat split; try assumption. left; reflexivity.
  - cbn [fst snd gStatus setGrantStatus pushGrantEvent gaNewPapers gaDecisions gaDecisionRequests].
    set (acc1 := addStatDelta acc SReputation _).
    destruct (addStatDelta_frame acc1 SMorale (-3)) as (H1 & H2 & H3 & _).
    destruct (addStatDelta_frame acc SReputation
                match orElse (gTier ng) TierC with TierA => -2 | TierB => -1 | TierC => 0 end)
      as (K1 & K2 & K3 & _).
    fold acc1 in K1, K2, K3.
    repeat split; try congruence. right; reflexivity.
Qed.

(** A grant completes only with the submissions its tier requires, and
    every tier of every programme requires at least one. *)
Lemma closeGrant_needs_submission (config : GrantConfig) (acc : GrantAcc)
    (grant ng : GrantState) :
  In config grantConfigs ->
  gStatus (fst (closeGrant config projectPapers acc grant ng)) = Completed ->
  (1 <= submittedFor (gId ng) projectPapers)%nat.
Proof.
  intros Hin. unfold closeGrant. fold (submittedFor (gId ng) projectPapers).
  destruct (Qgeb (inject_Z (Z.of_nat (submittedFor (gId ng) projectPapers))) _) eqn:E.
  - intros _. apply Qgeb_ge in E.
    assert (Hreq : 1 <= requiredSubmissions
                          (requirement (tiers config (orElse (gTier ng) TierC)))).
    { destruct Hin as [H|[H|[]]]; subst config;
        destruct (orElse (gTier ng) TierC); cbn; lra. }
    assert (H1 : inject_Z 1 <= inject_Z (Z.of_nat (submittedFor (gId ng) projectPapers))).
    { change (inject_Z 1) with 1. lra. }
    rewrite <- Zle_Qle in H1. lia.
  - cbn [andb fst gStatus setGrantStatus]. discriminate.
Qed.

Lemma getGrantConfig_In (t : GrantType) (config : GrantConfig) :
  getGrantConfig t = Some config -> In config grantConfigs /\ cfgType config = t.
Proof.
  unfold getGrantConfig. intros H. split.
  - apply find_some in H. apply H.
  - apply find_some in H. destruct H as (_ & H).
    destruct (cfgType config), t; try reflexivity; discriminate.
Qed.

(** The active branch, phase by phase. *)
Lemma settleActiveGrant_step (config : GrantConfig) (acc : GrantAcc) (grant : GrantState)
    (g : Rng) :
  let gain := fst (calcGrantPaperProgressGain
                     (resolveStudents students (gAssignedStudentIds grant))
                     mentorStats (gTier grant) g) in
  let combined := clampValue (paperProgress grant + gain) 0 250 in
  let d := jsFloor (combined / 100) in
  let r := fst (settleActiveGrant showInt showBase36 config students mentorStats
                  projectPapers currentStamp decisionStamp acc grant g) in
  exists news ng acc1,
    List.length news = Z.to_nat d
    /\ gaNewPapers (snd r) = gaNewPapers acc ++ news
    /\ gaDecisions (snd r) = gaDecisions acc ++ map (venueDecisionFor decisionStamp) news
    /\ Forall (draftedBy grant) news
    /\ paperIds ng = paperIds grant ++ map paperId news
    /\ paperProgress ng = combined - inject_Z d * 100
    /\ gId ng = gId grant /\ gTier ng = gTier grant /\ gStatus ng = gStatus grant
    /\ fst r = match closureDueStampOf grant with
               | Some due =>
                   if isQuarterReached currentStamp due
                   then fst (closeGrant config projectPapers acc1 grant ng)
                   else ng
               | None => ng
               end
    /\ gType ng = gType grant.
Proof.
  cbv zeta. unfold settleActiveGrant. rewrite bind_run.
  fold (closureDueStampOf grant).
  remember (calcGrantPaperProgressGain (resolveStudents students (gAssignedStudentIds grant))
              mentorStats (gTier grant) g) as gainRun.
  clear HeqgainRun.
  set (combined := clampValue (paperProgress grant + fst gainRun) 0 250).
  set (d := jsFloor (combined / 100)).
  set (lead := match gAssignedStudentIds grant with
               | [] => pickFallbackLeadId students
               | _ :: _ => pickLeadStudentId students (gAssignedStudentIds grant)
               end).
  set (ng0 := match gAssignedStudentIds grant with
              | [] => if truthyOptStr lead then _ else _
              | _ :: _ => _
              end).
  assert (H0 : paperIds ng0 = paperIds grant
               /\ paperProgress ng0 = combined - inject_Z d * 100
               /\ gId ng0 = gId grant /\ gTier ng0 = gTier grant
               /\ gStatus ng0 = gStatus grant /\ gTitle ng0 = gTitle grant
               /\ gType ng0 = gType grant).
  { unfold ng0. destruct (gAssignedStudentIds grant); [destruct (truthyOptStr lead)|];
      repeat split. }
  clearbody ng0. destruct H0 as (Hids & Hprog & Hid & Htier & Hst & Htitle & Hty).
  rewrite bind_run.
  match goal with
  | |- context [ (if (0 <? d)%Z then ?a else ?b) (snd gainRun) ] =>
      remember ((if (0 <? d)%Z then a else b) (snd gainRun)) as dr eqn:Hdr
  end.
  assert (Hd : exists news,
             List.length news = Z.to_nat d
             /\ gaNewPapers (snd (fst dr)) = gaNewPapers acc ++ news
             /\ gaDecisions (snd (fst dr))
                = gaDecisions acc ++ map (venueDecisionFor decisionStamp) news
             /\ Forall (draftedBy grant) news
             /\ fst (fst dr) = setGrantPaperIds ng0 (paperIds ng0 ++ map paperId news)).
  { subst dr. destruct (0 <? d)%Z eqn:Ed.
    - rewrite bind_run.
      destruct (draftPapers_spec (Z.to_nat d) lead acc ng0 (snd gainRun))
        as (news & Hlen & Hg & Hn & Hdec & _ & _ & Hall).
      cbv zeta in *. exists news.
      cbn [ret fst snd pushGrantEvent gaNewPapers gaDecisions].
      repeat split; try assumption.
      eapply Forall_impl; [|exact Hall].
      intros p (P1 & P2 & P3 & P4). unfold draftedBy. rewrite <- Hid, <- Htitle.
      repeat split; try assumption; apply P4.
    - exists []. apply Z.ltb_ge in Ed.
      cbn [ret fst snd map List.length]. rewrite !app_nil_r.
      repeat split; try constructor.
      + destruct d; try reflexivity. lia.
      + destruct ng0; reflexivity. }
  clear Hdr. destruct Hd as (news & Hlen & Hn & Hdec & Hall & Hg).
  exists news.
  remember (fst (fst dr)) as ng1. remember (snd (fst dr)) as acc1.
  assert (H1 : paperIds ng1 = paperIds grant ++ map paperId news
               /\ paperProgress ng1 = combined - inject_Z d * 100
               /\ gId ng1 = gId grant /\ gTier ng1 = gTier grant
               /\ gStatus ng1 = gStatus grant /\ gType ng1 = gType grant).
  { rewrite Hg. cbn [setGrantPaperIds paperIds paperProgress gId gTier gStatus gType].
    rewrite Hids. repeat split; assumption. }
  clear Hg Heqng1. destruct H1 as (Jids & Jprog & Jid & Jtier & Jst & Jty).
  rewrite bind_run.
  destruct (closureDueStampOf grant) as [due|].
  - destruct (isQuarterReached currentStamp due) eqn:Er; cbn [negb].
    + cbn [ret fst snd]. exists ng1, acc1.
      destruct (closeGrant_frame config acc1 grant ng1) as (_ & _ & C1 & C2 & _).
      cbv zeta in C1, C2. rewrite C1, C2.
      repeat split; assumption.
    + destruct (optEqQ _ _ && optEqQ _ _).
      * cbn [ret fst snd]. exists ng1, acc1. repeat split; assumption.
      * rewrite bind_run. destruct (Qltb _ _).
        -- cbn [ret fst snd pushGrantEvent pushGrantRequest gaNewPapers gaDecisions].
           exists (setLastExecutionEvent ng1 (year decisionStamp) (quarter decisionStamp)), acc1.
           cbn [setLastExecutionEvent paperIds paperProgress gId gTier gStatus gType].
           repeat split; assumption.
        -- cbn [ret fst snd]. exists ng1, acc1. repeat split; assumption.
  - cbn [ret fst snd]. exists ng1, acc1. repeat split; assumption.
Qed.

(** The reviewing branch, case by case. *)
Lemma settleReviewingGrant_step (config : GrantConfig) (acc : GrantAcc) (grant : GrantState)
    (g : Rng) :
  let tick := rollAt (-3) 3 (draws g (cursor g)) in
  let ng := setGrantLuck grant (gLuck grant + tick) in
  let final := baseScore grant + scoreDelta grant + (gLuck grant + tick) in
  let r := fst (settleReviewingGrant showInt showBase36 config students
                  currentStamp decisionStamp acc grant g) in
  if isQuarterReached currentStamp (mkStamp (reviewEndYear grant) (reviewEndQuarter grant))
  then
    if Qltb final (rejectBelow (scoreBands config))
    then fst r = setGrantStatus ng GrantRejected
         /\ gaNewPapers (snd r) = gaNewPapers acc /\ gaDecisions (snd r) = gaDecisions acc
    else
      exists paper resolved,
        let tier := tierForScore (scoreBands config) final in
        let range := reputationRange (tiers config tier) in
        fst r = activateGrant ng tier (tcFunding (tiers config tier))
                  (rollAt (fst range) (snd range) (draws g (S (cursor g))))
                  decisionStamp
                  (addQuarters decisionStamp (executionDurationQuarters config - 1))
                  resolved (paperId paper)
        /\ gaNewPapers (snd r) = gaNewPapers acc ++ [paper]
        /\ gaDecisions (snd r) = gaDecisions acc ++ [venueDecisionFor decisionStamp paper]
        /\ draftedBy grant paper
        /\ (gAssignedStudentIds grant <> [] -> resolved = gAssignedStudentIds grant)
        /\ (gAssignedStudentIds grant = [] ->
            resolved = match pickFallbackLeadId students with
                       | Some sid => if truthyStr sid then [sid] else []
                       | None => []
                       end)
  else
    (fst r = ng \/ fst r = setLastReviewEvent ng (year decisionStamp) (quarter decisionStamp))
    /\ gaNewPapers (snd r) = gaNewPapers acc /\ gaDecisions (snd r) = gaDecisions acc.
Proof.
  cbv zeta. unfold settleReviewingGrant.
  rewrite bind_run. rewrite rollInRange_run.
  change (fst (rollAt (-3) 3 (draws g (cursor g)), snd (random g)))
    with (rollAt (-3) 3 (draws g (cursor g))).
  change (snd (rollAt (-3) 3 (draws g (cursor g)), snd (random g))) with (snd (random g)).
  cbv beta zeta.
  generalize (rollAt (-3) 3 (draws g (cursor g))). intros tick.
  cbn [reviewEndYear reviewEndQuarter baseScore scoreDelta gLuck setGrantLuck
       lastReviewEventYear lastReviewEventQuarter gAssignedStudentIds].
  destruct (isQuarterReached currentStamp _); cbn [negb].
  - destruct (Qltb _ (rejectBelow (scoreBands config))).
    + cbn [ret fst snd pushGrantEvent gaNewPapers gaDecisions]. repeat split.
    + rewrite bind_run. rewrite rollInRange_run.
      change (draws (snd (random g)) (cursor (snd (random g)))) with (draws g (S (cursor g))).
      cbn [fst snd]. rewrite bind_run.
      set (tier := tierForScore (scoreBands config) _).
      set (rep := rollAt _ _ (draws g (S (cursor g)))).
      set (acc2 := addStatDelta (addStatDelta acc SFunding _) SReputation rep).
      assert (Hacc2 : gaNewPapers acc2 = gaNewPapers acc /\ gaDecisions acc2 = gaDecisions acc).
      { unfold acc2.
        destruct (addStatDelta_frame (addStatDelta acc SFunding (tcFunding (tiers config tier)))
                    SReputation rep) as (A1 & A2 & _).
        destruct (addStatDelta_frame acc SFunding (tcFunding (tiers config tier)))
          as (B1 & B2 & _).
        split; congruence. }
      clearbody acc2. destruct Hacc2 as (A1 & A2).
      match goal with
      | |- context [ buildGrantPaper showInt showBase36 decisionStamp acc2 ?gr ?ld ?gg ] =>
          destruct (buildGrantPaper_spec acc2 gr ld gg) as (Hd & _ & Hn & Hdec & _);
          remember (buildGrantPaper showInt showBase36 decisionStamp acc2 gr ld gg) as bp
      end.
      cbv zeta in Hd, Hn, Hdec.
      cbn [ret fst snd pushGrantEvent gaNewPapers gaDecisions].
      eexists (fst (fst bp)), _.
      split; [reflexivity|].
      split; [rewrite Hn, A1; reflexivity|].
      split; [rewrite Hdec, A2; reflexivity|].
      split.
      { destruct Hd as (D1 & D2 & D3 & D4). unfold draftedBy. repeat split; try assumption;
          apply D4. }
      split.
      * intros Hne. destruct (gAssignedStudentIds grant); [contradiction Hne|]; reflexivity.
      * intros He. rewrite He. destruct (pickFallbackLeadId students) as [sid|]; cbn.
        -- destruct (truthyStr sid); reflexivity.
        -- reflexivity.
  - destruct (optEqQ _ _ && optEqQ _ _).
    + cbn [ret fst snd]. repeat split. left; reflexivity.
    + rewrite bind_run. destruct (Qltb _ _).
      * cbn [ret fst snd pushGrantEvent pushGrantRequest gaNewPapers gaDecisions].
        repeat split. right; reflexivity.
      * cbn [ret fst snd]. repeat split. left; reflexivity.
Qed.

(** Every paper a step adds to the new papers is a draft of the grant of
    that step, recorded in the grant, with one venue decision of its own. *)
Lemma settleGrant_linkage (acc : GrantAcc) (grant : GrantState) (g : Rng) :
  let r := fst (settleGrant showInt showBase36 students mentorStats projectPapers
                  currentStamp decisionStamp acc grant g) in
  exists news,
    gaNewPapers (snd r) = gaNewPapers acc ++ news
    /\ gaDecisions (snd r) = gaDecisions acc ++ map (venueDecisionFor decisionStamp) news
    /\ paperIds (fst r) = paperIds grant ++ map paperId news
    /\ gId (fst r) = gId grant
    /\ Forall (draftedBy grant) news.
Proof.
  cbv zeta. unfold settleGrant.
  destruct (getGrantConfig (gType grant)) as [config|].
  2:{ exists []. cbn. rewrite !app_nil_r. repeat split. constructor. }
  destruct (gStatus grant) eqn:Est.
  - pose proof (settleReviewingGrant_step config acc grant g) as H. cbv zeta in H.
    destruct (isQuarterReached currentStamp _).
    + destruct (Qltb _ _).
      * destruct H as (H1 & H2 & H3). exists [].
        rewrite H1, H2, H3. cbn. rewrite !app_nil_r. repeat split. constructor.
      * destruct H as (paper & resolved & H1 & H2 & H3 & H4 & _). exists [paper].
        rewrite H1, H2, H3. cbn. repeat split. constructor; [exact H4 | constructor].
    + destruct H as (H1 & H2 & H3). exists [].
      rewrite H2, H3.
      destruct H1 as [H1|H1]; rewrite H1; cbn; rewrite !app_nil_r; repeat split; constructor.
  - destruct (settleActiveGrant_step config acc grant g)
      as (news & ng & acc1 & _ & H2 & H3 & H4 & H5 & _ & H7 & _ & _ & H10 & _).
    cbv zeta in *. exists news. rewrite H2, H3, H10.
    split; [reflexivity|]. split; [reflexivity|].
    assert (Hc : paperIds (fst (closeGrant config projectPapers acc1 grant ng)) = paperIds ng
                 /\ gId (fst (closeGrant config projectPapers acc1 grant ng)) = gId ng).
    { destruct (closeGrant_frame config acc1 grant ng) as (_ & E & _). cbv zeta in E.
      rewrite E. split; reflexivity. }
    destruct Hc as (C1 & C2).
    destruct (closureDueStampOf grant) as [due|];
      [destruct (isQuarterReached currentStamp due)|];
      repeat split; try assumption; congruence.
  - exists []. cbn. rewrite !app_nil_r. repeat split. constructor.
  - exists []. cbn. rewrite !app_nil_r. repeat split. constructor.
  - exists []. cbn. rewrite !app_nil_r. repeat split. constructor.
Qed.

End GrantPass.

Lemma sumOver_integer {A : Type} (f : A -> Q) (l : list A) :
  (forall x, exists z, f x == inject_Z z) ->
  exists z, sumOver f l == inject_Z z.
Proof.
  intros Hf. unfold sumOver.
  assert (H : forall acc0 z0, acc0 == inject_Z z0 ->
                exists z, fold_left (fun sum x => sum + f x) l acc0 == inject_Z z).
  { induction l as [|x xs IH]; intros acc0 z0 H0.
    - exists z0. exact H0.
    - simpl. destruct (Hf x) as (zx & Hx).
      apply (IH (acc0 + f x) (z0 + zx)%Z).
      rewrite H0, Hx, inject_Z_plus. reflexivity. }
  apply (H 0 0%Z). reflexivity.
Qed.

Lemma clampValue_inside (v lo hi : Q) : lo <= v -> v <= hi -> clampValue v lo hi == v.
Proof.
  intros H1 H2. unfold clampValue.
  destruct (Qmin_cases hi v) as [[E H]|[E H]]; rewrite E;
    destruct (Qmax_cases lo hi) as [[E' H']|[E' H']];
    destruct (Qmax_cases lo v) as [[E'' H'']|[E'' H'']];
    try rewrite E'; try rewrite E''; lra.
Qed.

Lemma clampValue_integer_eq (v : Q) (n lo hi : Z) :
  v == inject_Z n -> (lo <= hi)%Z ->
  exists z, clampValue v (inject_Z lo) (inject_Z hi) == inject_Z z /\ (lo <= z <= hi)%Z.
Proof.
  intros Hv Hle. unfold clampValue.
  assert (Hq : inject_Z lo <= inject_Z hi) by (rewrite <- Zle_Qle; exact Hle).
  destruct (Qmin_cases (inject_Z hi) v) as [[E H]|[E H]]; rewrite E.
  - destruct (Qmax_cases (inject_Z lo) (inject_Z hi)) as [[E' H']|[E' H']]; rewrite E'.
    + exists lo. split; [reflexivity | lia].
    + exists hi. split; [reflexivity | lia].
  - destruct (Qmax_cases (inject_Z lo) v) as [[E' H']|[E' H']]; rewrite E'.
    + exists lo. split; [reflexivity | lia].
    + exists n. split; [exact Hv|].
      rewrite Hv in H, H'. rewrite <- Zlt_Qlt in H, H'. lia.
Qed.

(** The quarterly progress of a grant is an integer between 2 and 50: between
    2 and 8 without students on the grant, between 4 and 50 with students. *)
Lemma calcGrantPaperProgressGain_integer (assigned : list StudentPersona)
    (ms : MentorStats) (tier : option GrantFundingTier) (g : Rng) :
  exists z, fst (calcGrantPaperProgressGain assigned ms tier g) == inject_Z z
            /\ (2 <= z <= 50)%Z
            /\ (assigned = [] -> (z <= 8)%Z)
            /\ (assigned <> [] -> (4 <= z)%Z).
Proof.
  unfold calcGrantPaperProgressGain.
  set (a := jsRound (value (academia ms) / 30)).
  set (b := jsRound (value (admin ms) / 60)).
  destruct assigned as [|s0 rest].
  - cbn [ret fst].
    destruct (clampValue_integer_eq (2 + (inject_Z a + inject_Z b)) (2 + a + b) 2 8)
      as (z & Hz & Hr).
    { rewrite !inject_Z_plus. change (inject_Z 2) with 2. ring. }
    { lia. }
    exists z. split; [exact Hz|]. split; [lia|]. split; [lia | intros H; contradiction H; reflexivity].
  - rewrite bind_run, rollInRange_run. cbn [ret fst snd].
    set (l := s0 :: rest).
    destruct (sumOver_integer
                (fun s => inject_Z (jsRound (diligence s / 20))
                          + inject_Z (jsRound (talent s / 25))) l) as (zb & Hb).
    { intros x. eexists. rewrite <- inject_Z_plus. reflexivity. }
    destruct (sumOver_integer (fun s => inject_Z (jsRound (stress s / 50))) l) as (zs & Hs).
    { intros x. eexists. reflexivity. }
    destruct (sumOver_integer (fun s => if Qltb (mentalState s) 50 then 1 else 0) l)
      as (zm & Hm).
    { intros x. destruct (Qltb _ _); [exists 1%Z | exists 0%Z]; reflexivity. }
    unfold rollAt. set (j := jsRound _).
    set (tb := match tier with Some TierA => 4 | Some TierB => 2 | _ => 0 end).
    assert (Htb : exists zt, tb == inject_Z zt).
    { unfold tb. destruct tier as [[| |]|]; eexists; reflexivity. }
    destruct Htb as (zt & Ht).
    destruct (clampValue_integer_eq
                (12 + sumOver (fun s => inject_Z (jsRound (diligence s / 20))
                                        + inject_Z (jsRound (talent s / 25))) l
                 + tb + (inject_Z a + inject_Z b) + inject_Z j
                 - sumOver (fun s => inject_Z (jsRound (stress s / 50))) l
                 - sumOver (fun s => if Qltb (mentalState s) 50 then 1 else 0) l)
                (12 + zb + zt + (a + b) + j - zs - zm) 4 50) as (z & Hz & Hr).
    { rewrite Hb, Hs, Hm, Ht. unfold Z.sub.
      rewrite !inject_Z_plus, !inject_Z_opp. change (inject_Z 12) with 12. ring. }
    { lia. }
    exists z. split; [exact Hz|]. split; [lia|].
    split; [intros H; discriminate H | intros _; lia].
Qed.

(** X8. A grant that is completed, rejected or failed is returned by the
    quarterly pass exactly as it was, at its position. *)
Theorem settleGrants_keeps_closed (showInt : Z -> string) (showBase36 : Q -> string)
    (grants : list GrantState) (students : list StudentPersona) (ms : MentorStats)
    (papers : list ProjectPaper) (cur dec : Stamp) (g : Rng) (i : nat) (gr : GrantState) :
  nth_error grants i = Some gr ->
  isClosedGrant gr = true ->
  nth_error
    (gsUpdatedGrants (fst (settleGrants showInt showBase36 grants students ms papers cur dec g)))
    i = Some gr.
Proof.
  intros Hnth Hc.
  destruct (mapAccumM_nth (settleGrant showInt showBase36 students ms papers cur dec)
              (settleGrant_advances showInt showBase36 students ms papers cur dec)
              grants (mkGrantAcc emptyStatDelta [] [] [] []) g i gr Hnth)
    as (acc' & g' & _ & Hn).
  unfold settleGrants. rewrite bind_run. cbn [ret fst gsUpdatedGrants]. rewrite Hn.
  unfold settleGrant. destruct (getGrantConfig (gType gr)); [|reflexivity].
  unfold isClosedGrant in Hc. destruct (gStatus gr); try discriminate; reflexivity.
Qed.

(** A failed grant after a grant under review. *)
Lemma settleGrants_keeps_closed_witness :
  nth_error
    (gsUpdatedGrants
       (fst (settleGrants sampleShowInt sampleShowBase36
               [sampleGrant "g1" GuoZiRan 70 0 0; sampleClosedGrant "g0" Failed]
               [] sampleStats [] (mkStamp 1 3) (mkStamp 1 4) (constRng 0.5))))
    1 = Some (sampleClosedGrant "g0" Failed).
Proof.
  apply (settleGrants_keeps_closed sampleShowInt sampleShowBase36
           [sampleGrant "g1" GuoZiRan 70 0 0; sampleClosedGrant "g0" Failed]
           [] sampleStats [] (mkStamp 1 3) (mkStamp 1 4) (constRng 0.5) 1
           (sampleClosedGrant "g0" Failed)); reflexivity.
Defined.

Lemma reputationRange_roll (config : GrantConfig) (tier : GrantFundingTier) (r : Q) :
  In config grantConfigs -> 0 <= r -> r < 1 ->
  let range := reputationRange (tiers config tier) in
  fst range <= rollAt (fst range) (snd range) r
  /\ rollAt (fst range) (snd range) r <= snd range.
Proof.
  intros Hin H0 H1. cbv zeta.
  destruct Hin as [H|[H|[]]]; subst config; destruct tier; cbn [tiers reputationRange fst snd].
  - exact (rollAt_range 4 7 r ltac:(lia) H0 H1).
  - exact (rollAt_range 2 4 r ltac:(lia) H0 H1).
  - exact (rollAt_range 1 3 r ltac:(lia) H0 H1).
  - exact (rollAt_range 3 6 r ltac:(lia) H0 H1).
  - exact (rollAt_range 2 4 r ltac:(lia) H0 H1).
  - exact (rollAt_range 1 3 r ltac:(lia) H0 H1).
Qed.

(** X9. The verdict on a grant under review whose review deadline is
    reached. The luck of the grant first moves by an integer tick between -3
    and 3; the final score is base score + score delta + luck. Below the
    rejection band the grant is rejected and nothing else of it changes but
    the luck. Otherwise it becomes active with the tier of the band of its
    final score, the funding of that tier, a reputation gain within the
    range of that tier, the decision stamp as start, a closure deadline
    (execution duration - 1) quarters after the decision stamp, progress 0
    and exactly one new paper id. *)
Theorem settleGrants_review_verdict (showInt : Z -> string) (showBase36 : Q -> string)
    (grants : list GrantState) (students : list StudentPersona) (ms : MentorStats)
    (papers : list ProjectPaper) (cur dec : Stamp) (g : Rng) (i : nat) (gr : GrantState) :
  fairRng g ->
  nth_error grants i = Some gr ->
  gStatus gr = Reviewing ->
  isQuarterReached cur (mkStamp (reviewEndYear gr) (reviewEndQuarter gr)) = true ->
  exists gr' tick config,
    nth_error
      (gsUpdatedGrants (fst (settleGrants showInt showBase36 grants students ms papers cur dec g)))
      i = Some gr'
    /\ getGrantConfig (gType gr) = Some config
    /\ (-3 <= tick <= 3)%Z
    /\ gLuck gr' = gLuck gr + inject_Z tick
    /\ baseScore gr' = baseScore gr /\ scoreDelta gr' = scoreDelta gr
    /\ let final := baseScore gr + scoreDelta gr + (gLuck gr + inject_Z tick) in
       (final < rejectBelow (scoreBands config) ->
        gStatus gr' = GrantRejected
        /\ gr' = setGrantStatus (setGrantLuck gr (gLuck gr + inject_Z tick)) GrantRejected)
       /\ (rejectBelow (scoreBands config) <= final ->
           let tier := tierForScore (scoreBands config) final in
           let closure := addQuarters dec (executionDurationQuarters config - 1) in
           gStatus gr' = Active
           /\ gTier gr' = Some tier
           /\ fundingGranted gr' = Some (tcFunding (tiers config tier))
           /\ (exists rep, reputationGranted gr' = Some rep
                           /\ fst (reputationRange (tiers config tier)) <= rep
                           /\ rep <= snd (reputationRange (tiers config tier)))
           /\ activeStartYear gr' = Some (year dec)
           /\ activeStartQuarter gr' = Some (quarter dec)
           /\ closureDueYear gr' = Some (year closure)
           /\ closureDueQuarter gr' = Some (quarter closure)
           /\ paperProgress gr' = 0
           /\ exists pid, paperIds gr' = paperIds gr ++ [pid]).
Proof.
  intros Hfair Hnth Hst Hr.
  destruct (mapAccumM_nth (settleGrant showInt showBase36 students ms papers cur dec)
              (settleGrant_advances showInt showBase36 students ms papers cur dec)
              grants (mkGrantAcc emptyStatDelta [] [] [] []) g i gr Hnth)
    as (acc' & g' & Hadv & Hn).
  pose proof (advances_fair g g' Hadv Hfair) as Hfair'.
  destruct (getGrantConfig_total (gType gr)) as (config & Hc & _).
  destruct (getGrantConfig_In (gType gr) config Hc) as (Hin & _).
  eexists. exists (jsRound (-3 + draws g' (cursor g') * (3 - -3))), config.
  split.
  { unfold settleGrants. rewrite bind_run. cbn [ret fst gsUpdatedGrants]. exact Hn. }
  split; [exact Hc|].
  split.
  { destruct (Hfair' (cursor g')) as (F0 & F1).
    destruct (rollAt_range (-3) 3 (draws g' (cursor g')) ltac:(lia) F0 F1) as (R1 & R2).
    unfold rollAt in R1, R2. rewrite <- Zle_Qle in R1, R2. split; assumption. }
  unfold settleGrant. rewrite Hc, Hst.
  pose proof (settleReviewingGrant_step showInt showBase36 students cur dec config acc' gr g')
    as H.
  cbv zeta in H. rewrite Hr in H. unfold rollAt in H at 1 2 3 4.
  fold (rollAt (-3) 3 (draws g' (cursor g'))) in H.
  unfold rollAt in H at 1.
  set (tick := jsRound (-3 + draws g' (cursor g') * (3 - -3))) in *.
  cbv zeta.
  destruct (Qltb (baseScore gr + scoreDelta gr + (gLuck gr + inject_Z tick))
              (rejectBelow (scoreBands config))) eqn:E.
  - apply Qltb_lt in E. destruct H as (H1 & _). rewrite H1.
    cbn [setGrantStatus setGrantLuck gLuck baseScore scoreDelta gStatus].
    repeat split; intros; try reflexivity; exfalso; lra.
  - apply Qltb_ge in E. destruct H as (paper & resolved & H1 & _). rewrite H1.
    cbn [activateGrant setGrantLuck gLuck baseScore scoreDelta gStatus gTier fundingGranted
         reputationGranted activeStartYear activeStartQuarter closureDueYear closureDueQuarter
         paperProgress paperIds].
    split; [reflexivity|]. split; [reflexivity|]. split; [reflexivity|].
    split; [intros; exfalso; lra|]. intros _.
    repeat split.
    + eexists. split; [reflexivity|].
      destruct (Hfair' (S (cursor g'))) as (F0 & F1).
      apply (reputationRange_roll config _ _ Hin F0 F1).
    + eexists. reflexivity.
Qed.

(** A grant with base score 70 at its review deadline. *)
Lemma settleGrants_review_verdict_witness :
  exists gr',
    nth_error
      (gsUpdatedGrants
         (fst (settleGrants sampleShowInt sampleShowBase36
                 [sampleGrant "g1" GuoZiRan 70 0 0] [] sampleStats []
                 (mkStamp 1 3) (mkStamp 1 4) (constRng 0.5))))
      0 = Some gr'
    /\ baseScore gr' = 70.
Proof.
  destruct (settleGrants_review_verdict sampleShowInt sampleShowBase36
              [sampleGrant "g1" GuoZiRan 70 0 0] [] sampleStats []
              (mkStamp 1 3) (mkStamp 1 4) (constRng 0.5) 0
              (sampleGrant "g1" GuoZiRan 70 0 0))
    as (gr' & tick & config & Hn & _ & _ & _ & Hb & _).
  - apply constRng_fair; lra.
  - reflexivity.
  - reflexivity.
  - reflexivity.
  - exists gr'. split; [exact Hn | exact Hb].
Defined.

(** The new papers of a run of the map, and the grants that drafted them. *)
Lemma settleGrants_linkage_gen (showInt : Z -> string) (showBase36 : Q -> string)
    (students : list StudentPersona) (ms : MentorStats) (papers : list ProjectPaper)
    (cur dec : Stamp) (grants : list GrantState) :
  forall (acc : GrantAcc) (g : Rng),
    let r := fst (mapAccumM (settleGrant showInt showBase36 students ms papers cur dec)
                    acc grants g) in
    exists news,
      gaNewPapers (snd r) = gaNewPapers acc ++ news
      /\ gaDecisions (snd r) = gaDecisions acc ++ map (venueDecisionFor dec) news
      /\ (forall p, In p news ->
            exists i gr gr',
              nth_error grants i = Some gr /\ nth_error (fst r) i = Some gr'
              /\ draftedBy gr p /\ gId gr' = gId gr /\ In (paperId p) (paperIds gr'))
      /\ (forall i gr gr' pid,
            nth_error grants i = Some gr -> nth_error (fst r) i = Some gr' ->
            In pid (paperIds gr') ->
            In pid (paperIds gr) \/ exists p, In p news /\ paperId p = pid).
Proof.
  induction grants as [|x xs IH]; intros acc g; cbv zeta.
  - exists []. cbn. rewrite !app_nil_r. repeat split.
    + intros p [].
    + intros i gr gr' pid H. destruct i; discriminate.
  - rewrite mapAccumM_cons. cbn [fst snd].
    destruct (settleGrant_linkage showInt showBase36 students ms papers cur dec acc x g)
      as (n1 & A1 & A2 & A3 & A4 & A5).
    cbv zeta in A1, A2, A3, A4.
    remember (settleGrant showInt showBase36 students ms papers cur dec acc x g) as step.
    destruct (IH (snd (fst step)) (snd step)) as (n2 & B1 & B2 & B3 & B4).
    cbv zeta in B1, B2, B3, B4.
    exists (n1 ++ n2).
    split; [rewrite B1, A1, app_assoc; reflexivity|].
    split; [rewrite B2, A2, map_app, app_assoc; reflexivity|].
    split.
    + intros p Hp. apply in_app_or in Hp. destruct Hp as [Hp|Hp].
      * exists 0%nat, x, (fst (fst step)). cbn [nth_error].
        split; [reflexivity|]. split; [reflexivity|].
        split; [exact (proj1 (Forall_forall _ _) A5 p Hp)|].
        split; [exact A4|].
        rewrite A3. apply in_or_app. right. apply in_map. exact Hp.
      * destruct (B3 p Hp) as (i & gr & gr' & C1 & C2 & C3).
        exists (S i), gr, gr'. cbn [nth_error]. split; [exact C1|]. split; [exact C2 | exact C3].
    + intros i gr gr' pid Hi Ho Hin. destruct i as [|i]; cbn [nth_error] in Hi, Ho.
      * inversion Hi; subst gr. inversion Ho; subst gr'.
        rewrite A3 in Hin. apply in_app_or in Hin. destruct Hin as [Hin|Hin].
        -- left. exact Hin.
        -- right. apply in_map_iff in Hin. destruct Hin as (p & E & Hp).
           exists p. split; [apply in_or_app; left; exact Hp | exact E].
      * destruct (B4 i gr gr' pid Hi Ho Hin) as [H|(p & Hp & E)].
        -- left. exact H.
        -- right. exists p. split; [apply in_or_app; right; exact Hp | exact E].
Qed.

(** X10. The papers a quarterly pass drafts and the grants are linked both
    ways. Every new paper is a draft of one grant of the list (linked to it
    by [grantId], titled after it, awaiting a venue), and its id is among the
    paper ids of that grant after the pass. Every paper id a grant has after
    the pass is one it had before or the id of a new paper. The decisions of
    the pass are the venue decisions of the new papers, one each, in order. *)
Theorem settleGrants_papers_linked (showInt : Z -> string) (showBase36 : Q -> string)
    (grants : list GrantState) (students : list StudentPersona) (ms : MentorStats)
    (papers : list ProjectPaper) (cur dec : Stamp) (g : Rng) :
  let r := fst (settleGrants showInt showBase36 grants students ms papers cur dec g) in
  (forall p, In p (gsNewPapers r) ->
     exists i gr gr',
       nth_error grants i = Some gr /\ nth_error (gsUpdatedGrants r) i = Some gr'
       /\ draftedBy gr p /\ gId gr' = gId gr /\ In (paperId p) (paperIds gr'))
  /\ (forall i gr gr' pid,
        nth_error grants i = Some gr -> nth_error (gsUpdatedGrants r) i = Some gr' ->
        In pid (paperIds gr') ->
        In pid (paperIds gr) \/ exists p, In p (gsNewPapers r) /\ paperId p = pid)
  /\ gsDecisions r = map (venueDecisionFor dec) (gsNewPapers r).
Proof.
  cbv zeta. unfold settleGrants. rewrite bind_run.
  cbn [ret fst gsNewPapers gsUpdatedGrants gsDecisions].
  destruct (settleGrants_linkage_gen showInt showBase36 students ms papers cur dec grants
              (mkGrantAcc emptyStatDelta [] [] [] []) g) as (news & H1 & H2 & H3 & H4).
  cbv zeta in H1, H2, H3, H4. cbn [gaNewPapers gaDecisions app] in H1, H2.
  rewrite H1, H2. split; [exact H3|]. split; [exact H4 | reflexivity].
Qed.

(** X11. An active grant loses no progress. With an integral progress
    [k] in 0..99, the quarterly gain is an integer between 2 and 50; the
    grant drafts [(k + gain) / 100] papers (none or one), appending their
    ids, and carries the remainder [(k + gain) mod 100] over as its new
    progress. *)
Theorem settleGrants_active_progress (showInt : Z -> string) (showBase36 : Q -> string)
    (grants : list GrantState) (students : list StudentPersona) (ms : MentorStats)
    (papers : list ProjectPaper) (cur dec : Stamp) (g : Rng) (i : nat) (gr : GrantState)
    (k : Z) :
  nth_error grants i = Some gr ->
  gStatus gr = Active ->
  paperProgress gr == inject_Z k ->
  (0 <= k < 100)%Z ->
  exists gr' gain ids,
    nth_error
      (gsUpdatedGrants (fst (settleGrants showInt showBase36 grants students ms papers cur dec g)))
      i = Some gr'
    /\ (2 <= gain <= 50)%Z
    /\ paperProgress gr' == inject_Z ((k + gain) mod 100)
    /\ paperIds gr' = paperIds gr ++ ids
    /\ List.length ids = Z.to_nat ((k + gain) / 100)
    /\ (List.length ids <= 1)%nat.
Proof.
  intros Hnth Hst Hk Hrange.
  destruct (mapAccumM_nth (settleGrant showInt showBase36 students ms papers cur dec)
              (settleGrant_advances showInt showBase36 students ms papers cur dec)
              grants (mkGrantAcc emptyStatDelta [] [] [] []) g i gr Hnth)
    as (acc' & g' & _ & Hn).
  destruct (getGrantConfig_total (gType gr)) as (config & Hc & _).
  destruct (calcGrantPaperProgressGain_integer
              (resolveStudents students (gAssignedStudentIds gr)) ms (gTier gr) g')
    as (z & Hz & Hzr & _).
  destruct (settleActiveGrant_step showInt showBase36 students ms papers cur dec
              config acc' gr g')
    as (news & ng & acc1 & Hlen & _ & _ & _ & Hids & Hprog & _ & _ & _ & Hout & _).
  cbv zeta in Hlen, Hprog, Hout.
  remember (fst (calcGrantPaperProgressGain
                   (resolveStudents students (gAssignedStudentIds gr)) ms (gTier gr) g'))
    as gain eqn:Hgain.
  clear Hgain.
  assert (Hcomb : clampValue (paperProgress gr + gain) 0 250 == inject_Z (k + z)).
  { rewrite clampValue_inside.
    - rewrite Hk, Hz, inject_Z_plus. reflexivity.
    - rewrite Hk, Hz, <- inject_Z_plus. change 0 with (inject_Z 0).
      rewrite <- Zle_Qle. lia.
    - rewrite Hk, Hz, <- inject_Z_plus. change 250 with (inject_Z 250).
      rewrite <- Zle_Qle. lia. }
  assert (Hd : jsFloor (clampValue (paperProgress gr + gain) 0 250 / 100) = ((k + z) / 100)%Z).
  { unfold jsFloor. rewrite Hcomb. change 100 with (inject_Z 100).
    symmetry. apply Zdiv_Qdiv. }
  rewrite Hd in Hlen, Hprog.
  assert (Hfields : paperProgress
                      (fst (fst (settleGrant showInt showBase36 students ms papers cur dec
                                   acc' gr g'))) = paperProgress ng
                    /\ paperIds
                         (fst (fst (settleGrant showInt showBase36 students ms papers cur dec
                                      acc' gr g'))) = paperIds ng).
  { unfold settleGrant. rewrite Hc, Hst. rewrite Hout.
    destruct (closeGrant_frame papers config acc1 gr ng) as (_ & E & _). cbv zeta in E.
    destruct (closureDueStampOf gr) as [due|]; [destruct (isQuarterReached cur due)|];
      try (split; reflexivity).
    rewrite E. split; reflexivity. }
  destruct Hfields as (F1 & F2).
  eexists. exists z, (map paperId news).
  split.
  { unfold settleGrants. rewrite bind_run. cbn [ret fst gsUpdatedGrants]. exact Hn. }
  split; [exact Hzr|].
  split.
  { rewrite F1, Hprog, Hcomb.
    rewrite (Z.mod_eq (k + z) 100) by lia.
    unfold Z.sub. rewrite !inject_Z_plus, inject_Z_opp, inject_Z_mult.
    change (inject_Z 100) with 100. ring. }
  split; [rewrite F2; exact Hids|].
  rewrite length_map, Hlen.
  split; [reflexivity|].
  assert (((k + z) / 100 <= 1)%Z).
  { apply Z.lt_succ_r. apply Z.div_lt_upper_bound; lia. }
  assert ((0 <= (k + z) / 100)%Z) by (apply Z.div_pos; lia).
  lia.
Qed.

(** An active grant at progress 95: whatever the gain, the progress wraps. *)
Lemma settleGrants_active_progress_witness :
  exists gr' gain ids,
    nth_error
      (gsUpdatedGrants
         (fst (settleGrants sampleShowInt sampleShowBase36
                 [sampleActiveGrant "g1" TierB 95 (Some 3) (Some 1) []]
                 [] sampleStats [] (mkStamp 2 1) (mkStamp 2 2) (constRng 0.5))))
      0 = Some gr'
    /\ (2 <= gain <= 50)%Z
    /\ paperProgress gr' == inject_Z ((95 + gain) mod 100)
    /\ paperIds gr' = ids.
Proof.
  destruct (settleGrants_active_progress sampleShowInt sampleShowBase36
              [sampleActiveGrant "g1" TierB 95 (Some 3) (Some 1) []]
              [] sampleStats [] (mkStamp 2 1) (mkStamp 2 2) (constRng 0.5) 0
              (sampleActiveGrant "g1" TierB 95 (Some 3) (Some 1) []) 95)
    as (gr' & gain & ids & H1 & H2 & H3 & H4 & _).
  - reflexivity.
  - reflexivity.
  - reflexivity.
  - lia.
  - exists gr', gain, ids. repeat split; try assumption; lia.
Defined.

(** X12. An active grant is closed at its closure deadline and not before.
    With no closure stamp, or before it, the grant stays active. At or after
    it the grant ends completed or failed, and it completes only if at least
    one paper linked to it in the paper list has left [awaitingVenue]. *)
Theorem settleGrants_closure (showInt : Z -> string) (showBase36 : Q -> string)
    (grants : list GrantState) (students : list StudentPersona) (ms : MentorStats)
    (papers : list ProjectPaper) (cur dec : Stamp) (g : Rng) (i : nat) (gr : GrantState) :
  nth_error grants i = Some gr ->
  gStatus gr = Active ->
  exists gr',
    nth_error
      (gsUpdatedGrants (fst (settleGrants showInt showBase36 grants students ms papers cur dec g)))
      i = Some gr'
    /\ gId gr' = gId gr /\ gTier gr' = gTier gr
    /\ match closureDueStampOf gr with
       | Some due =>
           if isQuarterReached cur due
           then (gStatus gr' = Completed \/ gStatus gr' = Failed)
                /\ (gStatus gr' = Completed -> (1 <= submittedFor (gId gr) papers)%nat)
           else gStatus gr' = Active
       | None => gStatus gr' = Active
       end.
Proof.
  intros Hnth Hst.
  destruct (mapAccumM_nth (settleGrant showInt showBase36 students ms papers cur dec)
              (settleGrant_advances showInt showBase36 students ms papers cur dec)
              grants (mkGrantAcc emptyStatDelta [] [] [] []) g i gr Hnth)
    as (acc' & g' & _ & Hn).
  destruct (getGrantConfig_total (gType gr)) as (config & Hc & _).
  destruct (getGrantConfig_In (gType gr) config Hc) as (Hin & _).
  destruct (settleActiveGrant_step showInt showBase36 students ms papers cur dec
              config acc' gr g')
    as (news & ng & acc1 & _ & _ & _ & _ & _ & _ & Hid & Htier & Hstat & Hout & _).
  cbv zeta in Hout.
  eexists. split.
  { unfold settleGrants. rewrite bind_run. cbn [ret fst gsUpdatedGrants]. exact Hn. }
  unfold settleGrant. rewrite Hc, Hst. rewrite Hout.
  destruct (closeGrant_frame papers config acc1 gr ng) as (Hcl & E & _). cbv zeta in Hcl, E.
  pose proof (closeGrant_needs_submission papers config acc1 gr ng Hin) as Hsub.
  rewrite Hid in Hsub.
  destruct (closureDueStampOf gr) as [due|]; [destruct (isQuarterReached cur due)|].
  - split; [rewrite E; exact Hid|]. split; [rewrite E; exact Htier|].
    split; [exact Hcl | exact Hsub].
  - split; [exact Hid|]. split; [exact Htier|]. congruence.
  - split; [exact Hid|]. split; [exact Htier|]. congruence.
Qed.

(** An active grant with no paper, at its closure deadline: it fails. *)
Lemma settleGrants_closure_witness :
  exists gr',
    nth_error
      (gsUpdatedGrants
         (fst (settleGrants sampleShowInt sampleShowBase36
                 [sampleActiveGrant "g1" TierB 10 (Some 2) (Some 1) []]
                 [] sampleStats [] (mkStamp 2 1) (mkStamp 2 2) (constRng 0.5))))
      0 = Some gr'
    /\ gStatus gr' = Failed.
Proof.
  destruct (settleGrants_closure sampleShowInt sampleShowBase36
              [sampleActiveGrant "g1" TierB 10 (Some 2) (Some 1) []]
              [] sampleStats [] (mkStamp 2 1) (mkStamp 2 2) (constRng 0.5) 0
              (sampleActiveGrant "g1" TierB 10 (Some 2) (Some 1) []))
    as (gr' & Hn & _ & _ & Hcl).
  - reflexivity.
  - reflexivity.
  - exists gr'. split; [exact Hn|].
    cbn in Hcl. destruct Hcl as ([Hc|Hf] & Hsub); [|exact Hf].
    exfalso. specialize (Hsub Hc). cbn in Hsub. lia.
Defined.

(** X13. Before its review deadline a grant stays under review: the pass
    moves its luck by an integer tick between -3 and 3, may stamp it with the
    decision quarter of a queued review letter, and changes nothing else. *)
Theorem settleGrants_review_wait (showInt : Z -> string) (showBase36 : Q -> string)
    (grants : list GrantState) (students : list StudentPersona) (ms : MentorStats)
    (papers : list ProjectPaper) (cur dec : Stamp) (g : Rng) (i : nat) (gr : GrantState) :
  fairRng g ->
  nth_error grants i = Some gr ->
  gStatus gr = Reviewing ->
  isQuarterReached cur (mkStamp (reviewEndYear gr) (reviewEndQuarter gr)) = false ->
  exists gr' tick,
    nth_error
      (gsUpdatedGrants (fst (settleGrants showInt showBase36 grants students ms papers cur dec g)))
      i = Some gr'
    /\ (-3 <= tick <= 3)%Z
    /\ (gr' = setGrantLuck gr (gLuck gr + inject_Z tick)
        \/ gr' = setLastReviewEvent (setGrantLuck gr (gLuck gr + inject_Z tick))
                   (year dec) (quarter dec)).
Proof.
  intros Hfair Hnth Hst Hr.
  destruct (mapAccumM_nth (settleGrant showInt showBase36 students ms papers cur dec)
              (settleGrant_advances showInt showBase36 students ms papers cur dec)
              grants (mkGrantAcc emptyStatDelta [] [] [] []) g i gr Hnth)
    as (acc' & g' & Hadv & Hn).
  pose proof (advances_fair g g' Hadv Hfair) as Hfair'.
  destruct (getGrantConfig_total (gType gr)) as (config & Hc & _).
  eexists. exists (jsRound (-3 + draws g' (cursor g') * (3 - -3))).
  split.
  { unfold settleGrants. rewrite bind_run. cbn [ret fst gsUpdatedGrants]. exact Hn. }
  split.
  { destruct (Hfair' (cursor g')) as (F0 & F1).
    destruct (rollAt_range (-3) 3 (draws g' (cursor g')) ltac:(lia) F0 F1) as (R1 & R2).
    unfold rollAt in R1, R2. rewrite <- Zle_Qle in R1, R2. split; assumption. }
  unfold settleGrant. rewrite Hc, Hst.
  pose proof (settleReviewingGrant_step showInt showBase36 students cur dec config acc' gr g')
    as H.
  cbv zeta in H. rewrite Hr in H. destruct H as (H & _). exact H.
Qed.

(** A grant under review one quarter before its deadline. *)
Lemma settleGrants_review_wait_witness :
  exists gr',
    nth_error
      (gsUpdatedGrants
         (fst (settleGrants sampleShowInt sampleShowBase36
                 [sampleGrant "g1" GuoZiRan 70 0 0] [] sampleStats []
                 (mkStamp 1 2) (mkStamp 1 3) (constRng 0.5))))
      0 = Some gr'
    /\ gStatus gr' = Reviewing.
Proof.
  destruct (settleGrants_review_wait sampleShowInt sampleShowBase36
              [sampleGrant "g1" GuoZiRan 70 0 0] [] sampleStats []
              (mkStamp 1 2) (mkStamp 1 3) (constRng 0.5) 0
              (sampleGrant "g1" GuoZiRan 70 0 0))
    as (gr' & tick & Hn & _ & Hg).
  - apply constRng_fair; lra.
  - reflexivity.
  - reflexivity.
  - reflexivity.
  - exists gr'. split; [exact Hn|]. destruct Hg as [E|E]; rewrite E; reflexivity.
Defined.

(* ------------------------------------------------------------------ *)
(** ** Picking traits *)

Section TraitPicking.

Variable table : list StudentTrait.

Lemma includes_app_false (a b : list string) (x : string) :
  includes (a ++ b) x = false -> includes a x = false /\ includes b x = false.
Proof.
  unfold includes. rewrite existsb_app. intros H. apply orb_false_iff in H. exact H.
Qed.

Lemma poolOf_category (cat : TraitCategory) (bucket : TraitPolarity) (i : string) :
  In i (poolOf (getTraitPoolsByCategory table cat) bucket) ->
  In i (studentTraitIds table) /\ hasCategory table cat i = true.
Proof.
  unfold getTraitPoolsByCategory.
  destruct bucket; cbn [poolOf poolPositive poolNegative poolNeutral];
    intros H; apply filter_In in H; destruct H as [Hin Hc];
    apply andb_prop in Hc; tauto.
Qed.

(** A trait returned by [pickWeightedTrait] is a trait of the table, of the
    category asked for and not among the blocked ones. *)
Lemma pickWeightedTraitLoop_sound (cat : TraitCategory) (blocked : list string) (fuel : nat) :
  forall (g : Rng) (i : string),
    fst (pickWeightedTraitLoop table fuel cat blocked g) = Some i ->
    In i (studentTraitIds table) /\ hasCategory table cat i = true
    /\ includes blocked i = false.
Proof.
  induction fuel as [|fuel IH]; intros g i.
  - cbn [pickWeightedTraitLoop ret fst]. unfold pickFallbackTrait. intros H.
    apply find_some in H. destruct H as [Hin Hc]. apply andb_prop in Hc.
    destruct Hc as [Hc Hb]. apply negb_true_iff in Hb. tauto.
  - cbn [pickWeightedTraitLoop]. rewrite bind_run.
    remember (snd (random g)) as g1. remember (fst (random g)) as roll.
    cbv beta zeta.
    remember (filter (fun i0 => negb (includes blocked i0))
                (poolOf (getTraitPoolsByCategory table cat) (weightedPick cat roll)))
      as pool eqn:Hpool.
    destruct pool as [|p0 ps] eqn:Ep.
    + apply IH.
    + rewrite bind_run.
      destruct (jsIndex (p0 :: ps) _) as [j|] eqn:Ej.
      * destruct (existsb _ blocked).
        -- apply IH.
        -- cbn [ret fst]. intros H. inversion H; subst j.
           unfold jsIndex in Ej. destruct (_ <? 0)%Z; [discriminate|].
           apply nth_error_In in Ej. rewrite Hpool in Ej.
           apply filter_In in Ej. destruct Ej as [Hin Hb].
           apply negb_true_iff in Hb.
           destruct (poolOf_category cat _ i Hin). tauto.
      * cbn [ret fst]. discriminate.
Qed.

Lemma pickWeightedTrait_sound (cat : TraitCategory) (blocked : list string) (g : Rng)
    (i : string) :
  fst (pickWeightedTrait table cat blocked g) = Some i ->
  In i (studentTraitIds table) /\ hasCategory table cat i = true
  /\ includes blocked i = false.
Proof. unfold pickWeightedTrait. apply pickWeightedTraitLoop_sound. Qed.

(** The invariant of the loop of [pickWeightedTraits]. *)
Lemma pickWeightedTraitsLoop_sound (cat : TraitCategory) (count : Z) (blocked : list string)
    (fuel : nat) :
  forall (picked : list string) (g : Rng),
    NoDup picked ->
    (forall i, In i picked ->
       In i (studentTraitIds table) /\ hasCategory table cat i = true
       /\ ~ In i blocked /\ i <> EmptyString) ->
    let out := fst (pickWeightedTraitsLoop table fuel cat count blocked picked g) in
    NoDup out
    /\ (forall i, In i out ->
          In i (studentTraitIds table) /\ hasCategory table cat i = true
          /\ ~ In i blocked /\ i <> EmptyString)
    /\ (Z.of_nat (List.length out) <= Z.max count (Z.of_nat (List.length picked)))%Z.
Proof.
  induction fuel as [|fuel IH]; intros picked g Hnd Hall; cbv zeta.
  - cbn [pickWeightedTraitsLoop ret fst]. split; [exact Hnd|]. split; [exact Hall | lia].
  - cbn [pickWeightedTraitsLoop].
    destruct (Z.of_nat (List.length picked) <? count)%Z eqn:Elt.
    2:{ cbn [ret fst]. split; [exact Hnd|]. split; [exact Hall | lia]. }
    apply Z.ltb_lt in Elt.
    rewrite bind_run.
    pose proof (pickWeightedTrait_sound cat (blocked ++ picked) g) as Hs.
    remember (pickWeightedTrait table cat (blocked ++ picked) g) as pick eqn:Hpick.
    clear Hpick.
    destruct (fst pick) as [i|] eqn:Ei.
    2:{ cbn [truthyOptStr negb ret fst]. split; [exact Hnd|]. split; [exact Hall | lia]. }
    cbn [truthyOptStr orElse].
    destruct (truthyStr i) eqn:Et; cbn [negb].
    2:{ cbn [ret fst]. split; [exact Hnd|]. split; [exact Hall | lia]. }
    assert (Hkeep : forall gg,
               let out := fst (pickWeightedTraitsLoop table fuel cat count blocked picked gg) in
               NoDup out
               /\ (forall i0, In i0 out ->
                     In i0 (studentTraitIds table) /\ hasCategory table cat i0 = true
                     /\ ~ In i0 blocked /\ i0 <> EmptyString)
               /\ (Z.of_nat (List.length out) <= Z.max count (Z.of_nat (List.length picked)))%Z).
    { intros gg. apply IH; assumption. }
    destruct (includes picked i) eqn:Einc; [apply Hkeep|].
    destruct (existsb _ blocked); [apply Hkeep|].
    destruct (existsb _ picked); [apply Hkeep|].
    destruct (Hs i eq_refl) as (S1 & S2 & S3).
    apply includes_app_false in S3. destruct S3 as [S3 _].
    destruct (IH (picked ++ [i]) (snd pick)) as (I1 & I2 & I3).
    + apply NoDup_app.
      * exact Hnd.
      * constructor; [intros []|constructor].
      * intros x Hx [Hx'|[]]. subst x. apply includes_not_In in Einc. contradiction.
    + intros x Hx. apply in_app_or in Hx. destruct Hx as [Hx|[Hx|[]]]; [apply Hall; exact Hx|].
      subst x. split; [exact S1|]. split; [exact S2|].
      split; [apply includes_not_In; exact S3|].
      intros E. subst i. discriminate Et.
    + cbv zeta in I1, I2, I3. split; [exact I1|]. split; [exact I2|].
      rewrite length_app in I3. cbn [List.length] in I3. lia.
Qed.

Lemma pickWeightedTraits_members (cat : TraitCategory) (count : Z) (blocked : list string)
    (g : Rng) :
  NoDup (fst (pickWeightedTraits table cat count blocked g))
  /\ (forall i, In i (fst (pickWeightedTraits table cat count blocked g)) ->
        In i (studentTraitIds table) /\ hasCategory table cat i = true
        /\ ~ In i blocked /\ i <> EmptyString)
  /\ (Z.of_nat (List.length (fst (pickWeightedTraits table cat count blocked g)))
      <= Z.max count 0)%Z.
Proof.
  unfold pickWeightedTraits.
  apply (pickWeightedTraitsLoop_sound cat count blocked 24 [] g (NoDup_nil _)).
  intros i [].
Qed.

End TraitPicking.

(** X14. What [pickWeightedTraits] returns: distinct traits of the table,
    all of the category asked for, none of them blocked or empty, at most
    [count] of them, none in conflict with a blocked trait and no two in
    conflict with each other. *)
Theorem pickWeightedTraits_sound (table : list StudentTrait) (cat : TraitCategory)
    (count : Z) (blocked : list string) (g : Rng) :
  let picked := fst (pickWeightedTraits table cat count blocked g) in
  NoDup picked
  /\ (Z.of_nat (List.length picked) <= Z.max count 0)%Z
  /\ (forall i, In i picked ->
        In i (studentTraitIds table) /\ hasCategory table cat i = true
        /\ ~ In i blocked /\ i <> EmptyString
        /\ forall b, In b blocked -> hasTraitConflict table b i = false)
  /\ conflictFree table picked.
Proof.
  cbv zeta.
  destruct (pickWeightedTraits_free table cat count blocked g) as [F1 F2].
  destruct (pickWeightedTraits_members table cat count blocked g) as (H1 & H2 & H3).
  revert F1 F2 H1 H2 H3.
  generalize (fst (pickWeightedTraits table cat count blocked g)).
  intros picked F1 F2 H1 H2 H3.
  split; [exact H1|]. split; [exact H3|].
  split.
  - intros i Hi. destruct (H2 i Hi) as (A & B & C & D).
    repeat split; try assumption. intros b Hb. apply F1; assumption.
  - apply noConflicts_conflictFree. exact F2.
Qed.

Section TraitShape.

Variable table : list StudentTrait.

Lemma keepSuppliedSubs_spec (desired : Z) (resolvedMain : option string)
    (subTraits : list string) :
  (Z.of_nat (List.length (keepSuppliedSubs table desired resolvedMain subTraits))
   <= Z.max desired 0)%Z
  /\ forall i, In i (keepSuppliedSubs table desired resolvedMain subTraits) -> In i subTraits.
Proof.
  unfold keepSuppliedSubs.
  set (step := fun (resolvedSubs : list string) (i : string) => _).
  assert (H : forall l acc,
             (Z.of_nat (List.length acc) <= Z.max desired 0)%Z ->
             (Z.of_nat (List.length (fold_left step l acc)) <= Z.max desired 0)%Z
             /\ forall i, In i (fold_left step l acc) -> In i acc \/ In i l).
  { induction l as [|x xs IH]; intros acc Hacc.
    - simpl. split; [exact Hacc | intros i Hi; left; exact Hi].
    - cbn [fold_left].
      assert (Hstep : (Z.of_nat (List.length (step acc x)) <= Z.max desired 0)%Z
                      /\ forall i, In i (step acc x) -> In i acc \/ i = x).
      { unfold step. destruct (desired <=? Z.of_nat (List.length acc))%Z eqn:E.
        - split; [exact Hacc | intros i Hi; left; exact Hi].
        - apply Z.leb_gt in E.
          destruct (truthyOptStr resolvedMain && hasTraitConflict table _ x).
          + split; [exact Hacc | intros i Hi; left; exact Hi].
          + split.
            * rewrite length_app. cbn [List.length]. lia.
            * intros i Hi. apply in_app_or in Hi. destruct Hi as [Hi|[Hi|[]]];
                [left; exact Hi | right; symmetry; exact Hi]. }
      destruct Hstep as [S1 S2].
      destruct (IH (step acc x) S1) as [I1 I2].
      split; [exact I1|].
      intros i Hi. destruct (I2 i Hi) as [Hi'|Hi'].
      + destruct (S2 i Hi') as [Ha|Ha]; [left; exact Ha | right; left; symmetry; exact Ha].
      + right. right. exact Hi'. }
  destruct (H subTraits [] ltac:(cbn; lia)) as [H1 H2].
  split; [exact H1|].
  intros i Hi. destruct (H2 i Hi) as [[]|Hi']. exact Hi'.
Qed.

Lemma filter_length_le {A : Type} (f : A -> bool) (l : list A) :
  (List.length (filter f l) <= List.length l)%nat.
Proof.
  induction l as [|x xs IH]; [apply Nat.le_refl|].
  simpl. destruct (f x); simpl; lia.
Qed.

Lemma resolveStudentTraits_traitShape (traits : option (list string)) (g : Rng) :
  traitShape table 3 (fst (resolveStudentTraits table traits g)).
Proof.
  pose proof (fun g i => pickWeightedTrait_sound table CatMain [] g i) as Hmain.
  pose proof (pickWeightedTraits_members table CatSub) as Hsub.
  pose proof (pickWeightedTraits_members table CatMain 1 []) as Hlast.
  unfold resolveStudentTraits.
  revert Hmain Hsub Hlast.
  generalize (pickWeightedTraits table CatMain 1 []).
  generalize (pickWeightedTraits table CatSub).
  generalize (pickWeightedTrait table CatMain []).
  intros pickMain pickSubs pickLast Hmain Hsub Hlast.
  rewrite bind_run.
  remember (snd (random g)) as g1 eqn:Eg1.
  remember (fst (random g)) as roll eqn:Eroll.
  cbv beta zeta.
  remember (if Qltb roll 0.5 then 2%Z else 3%Z) as desired eqn:Ed.
  assert (Hdes : (0 <= desired <= 3)%Z) by (subst desired; destruct (Qltb roll 0.5); lia).
  clear Ed.
  set (unique := filter _ (dedup (orElse traits []))).
  rewrite bind_run.
  remember (match find (hasCategory table CatMain) unique with
            | Some m => ret (Some m)
            | None => pickMain
            end g1) as mainRun eqn:Em.
  assert (HmainCat : forall m, fst mainRun = Some m -> hasCategory table CatMain m = true).
  { intros m Hm. subst mainRun.
    destruct (find (hasCategory table CatMain) unique) as [m0|] eqn:Ef.
    - cbn [ret fst] in Hm. inversion Hm; subst m0.
      apply find_some in Ef. apply Ef.
    - apply (Hmain g1 m Hm). }
  clear Em. cbv beta.
  destruct (keepSuppliedSubs_spec desired (fst mainRun)
              (filter (hasCategory table CatSub) unique)) as [Hklen Hkin].
  remember (keepSuppliedSubs table desired (fst mainRun)
              (filter (hasCategory table CatSub) unique)) as resolvedSubs eqn:Ers.
  clear Ers.
  assert (HkCat : Forall (fun i => hasCategory table CatSub i = true) resolvedSubs).
  { apply Forall_forall. intros i Hi. apply Hkin in Hi. apply filter_In in Hi. apply Hi. }
  rewrite bind_run.
  remember ((if (Z.of_nat (List.length resolvedSubs) <? desired)%Z
             then
               more <- pickSubs (desired - Z.of_nat (List.length resolvedSubs))%Z
                         (if truthyOptStr (fst mainRun)
                          then [orElse (fst mainRun) EmptyString] else []) ;;
               ret (resolvedSubs ++ more)
             else ret resolvedSubs) (snd mainRun)) as subsRun eqn:Es.
  assert (Hsubs : (List.length (fst subsRun) <= 3)%nat
                  /\ Forall (fun i => hasCategory table CatSub i = true) (fst subsRun)).
  { subst subsRun. destruct (Z.of_nat (List.length resolvedSubs) <? desired)%Z eqn:Elt.
    - apply Z.ltb_lt in Elt. rewrite bind_run. cbn [ret fst].
      destruct (Hsub (desired - Z.of_nat (List.length resolvedSubs))%Z
                  (if truthyOptStr (fst mainRun) then [orElse (fst mainRun) EmptyString] else [])
                  (snd mainRun)) as (_ & M2 & M3).
      split.
      + rewrite length_app. lia.
      + apply Forall_app. split; [exact HkCat|].
        apply Forall_forall. intros i Hi. apply (M2 i Hi).
    - apply Z.ltb_ge in Elt. cbn [ret fst]. split; [lia | exact HkCat]. }
  clear Es. destruct Hsubs as [Hslen HsCat].
  unfold truthyTraits.
  destruct ((if truthyOptStr (fst mainRun) then [orElse (fst mainRun) EmptyString] else [])
            ++ filter truthyStr (fst subsRun)) as [|x xs] eqn:Ep.
  - destruct (Hlast (snd subsRun)) as (_ & L2 & L3).
    exists (fst (pickLast (snd subsRun))), [].
    rewrite app_nil_r. split; [reflexivity|].
    split; [lia|].
    split; [apply Forall_forall; intros i Hi; apply (L2 i Hi)|].
    split; [cbn; lia | constructor].
  - cbn [ret fst]. rewrite <- Ep.
    exists (if truthyOptStr (fst mainRun) then [orElse (fst mainRun) EmptyString] else []),
           (filter truthyStr (fst subsRun)).
    split; [reflexivity|].
    split; [destruct (truthyOptStr (fst mainRun)); cbn; lia|].
    split.
    { destruct (fst mainRun) as [m|] eqn:Efm; cbn [truthyOptStr orElse].
      - destruct (truthyStr m); constructor; [apply HmainCat; reflexivity | constructor].
      - constructor. }
    split.
    { pose proof (filter_length_le truthyStr (fst subsRun)). lia. }
    apply Forall_forall. intros i Hi. apply filter_In in Hi.
    apply (proj1 (Forall_forall _ _) HsCat i (proj1 Hi)).
Qed.

End TraitShape.

(** X15. The list [resolveStudentTraits] returns has the intended shape
    whatever the caller supplies and whatever is drawn: at most one main
    trait, in front, followed by at most three sub traits, all of them
    traits of the table; so it never holds more than four traits. *)
Theorem resolveStudentTraits_shape (table : list StudentTrait)
    (traits : option (list string)) (g : Rng) :
  let out := fst (resolveStudentTraits table traits g) in
  traitShape table 3 out
  /\ (List.length out <= 4)%nat
  /\ (forall i, In i out -> exists t, studentTraitById table i = Some t).
Proof.
  cbv zeta.
  pose proof (resolveStudentTraits_traitShape table traits g) as H.
  revert H. generalize (fst (resolveStudentTraits table traits g)). intros out H.
  split; [exact H|].
  destruct H as (mains & subs & E & H1 & H2 & H3 & H4). subst out.
  split; [rewrite length_app; lia|].
  intros i Hi. apply in_app_or in Hi.
  assert (Hc : exists c, hasCategory table c i = true).
  { destruct Hi as [Hi|Hi].
    - exists CatMain. apply (proj1 (Forall_forall _ _) H2 i Hi).
    - exists CatSub. apply (proj1 (Forall_forall _ _) H4 i Hi). }
  destruct Hc as (c & Hc). unfold hasCategory in Hc.
  destruct (studentTraitById table i) as [t|]; [exists t; reflexivity | discriminate].
Qed.

(** X16. Resolving traits from scratch. When the caller supplies no sub
    trait of the table, the table has a main trait and no trait with an empty
    id, and the draws lie in [0, 1), the resolved list starts with a main
    trait and no two of its traits are in conflict. *)
Theorem resolveStudentTraits_fresh (table : list StudentTrait)
    (traits : option (list string)) (g : Rng) :
  (exists i, In i (studentTraitIds table) /\ hasCategory table CatMain i = true) ->
  (forall t, In t table -> traitId t <> EmptyString) ->
  fairRng g ->
  (forall i, In i (orElse traits []) -> hasCategory table CatSub i = false) ->
  let out := fst (resolveStudentTraits table traits g) in
  (exists m rest, out = m :: rest /\ hasCategory table CatMain m = true)
  /\ conflictFree table out.
Proof.
  intros Hmain Hids Hfair Hnosub. cbv zeta. split.
  - apply resolveStudentTraits_has_main; assumption.
  - apply resolveStudentTraits_fresh_conflict_free.
    destruct (filter (hasCategory table CatSub) _) as [|x xs] eqn:E; [reflexivity|].
    exfalso.
    assert (Hx : In x (x :: xs)) by (left; reflexivity).
    rewrite <- E in Hx. apply filter_In in Hx. destruct Hx as [Hx Hc].
    apply filter_In in Hx. destruct Hx as [Hx _].
    assert (Hin : In x (orElse traits [])).
    { clear - Hx. remember (orElse traits []) as l eqn:El. clear El.
      unfold dedup in Hx. revert Hx. generalize (@nil string).
      induction l as [|y ys IH]; intros seen Hx; [simpl in Hx; contradiction|].
      simpl in Hx. destruct (includes seen y).
      - right. apply (IH seen Hx).
      - destruct Hx as [Hx|Hx]; [left; exact Hx | right; apply (IH _ Hx)]. }
    rewrite (Hnosub x Hin) in Hc. discriminate.
Qed.

(** A student generated with no traits, over the sample table. *)
Lemma resolveStudentTraits_fresh_witness :
  (exists m rest,
      fst (resolveStudentTraits sampleTraits None (constRng 0.3)) = m :: rest
      /\ hasCategory sampleTraits CatMain m = true)
  /\ conflictFree sampleTraits (fst (resolveStudentTraits sampleTraits None (constRng 0.3))).
Proof.
  apply (resolveStudentTraits_fresh sampleTraits None (constRng 0.3)).
  - exists "workaholic"%string. split; [left; reflexivity | reflexivity].
  - intros t Ht. cbn in Ht.
    repeat (destruct Ht as [Ht|Ht]; [subst t; discriminate|]). contradiction.
  - apply constRng_fair; lra.
  - intros i [].
Defined.

(* ------------------------------------------------------------------ *)
(** ** Mentoring: who is touched, and how *)

Lemma mapOfEntries_keys_distinct {V : Type} (entries : list (string * V)) :
  NoDup (map fst entries) -> mapKeys (mapOfEntries entries) = map fst entries.
Proof.
  unfold mapOfEntries.
  assert (H : forall (es : list (string * V)) (m : JsMap V),
             NoDup (mapKeys m ++ map fst es) ->
             mapKeys (fold_left (fun m e => mapSet m (fst e) (snd e)) es m)
             = mapKeys m ++ map fst es).
  { induction es as [|[k v] es IH]; intros m Hnd.
    - simpl. rewrite app_nil_r. reflexivity.
    - cbn [fold_left fst snd map] in *.
      assert (Hout : ~ In k (mapKeys m)).
      { intros Hin. apply NoDup_remove_2 in Hnd. apply Hnd.
        apply in_or_app. left. exact Hin. }
      rewrite IH.
      + rewrite mapSet_keys_absent by exact Hout. rewrite <- app_assoc. reflexivity.
      + rewrite mapSet_keys_absent by exact Hout. rewrite <- app_assoc. exact Hnd. }
  intros Hnd. apply (H entries []). exact Hnd.
Qed.

Lemma sameBesidesMentoring_refl (a : StudentPersona) : sameBesidesMentoring a a.
Proof. unfold sameBesidesMentoring. repeat split. Qed.

Lemma sameBesidesMentoring_trans (a b c : StudentPersona) :
  sameBesidesMentoring a b -> sameBesidesMentoring b c -> sameBesidesMentoring a c.
Proof.
  unfold sameBesidesMentoring. intros H1 H2.
  repeat match goal with H : _ /\ _ |- _ => destruct H end.
  repeat split; congruence.
Qed.

Lemma setMentorship_same (s : StudentPersona) (b : bool) (m : option string) :
  sameBesidesMentoring (setMentorship s b m) s.
Proof. unfold sameBesidesMentoring. repeat split. Qed.

Section MentoringFrame.

Variable table : list StudentTrait.

Lemma applyMentorInfluence_same (mentee mentor : StudentPersona) :
  sameBesidesMentoring (applyMentorInfluence table mentee mentor) mentee
  /\ mentoredAttributesInBounds (applyMentorInfluence table mentee mentor)
  /\ isBeingMentored (applyMentorInfluence table mentee mentor) = isBeingMentored mentee
  /\ mentorId (applyMentorInfluence table mentee mentor) = mentorId mentee.
Proof.
  unfold applyMentorInfluence, sameBesidesMentoring, mentoredAttributesInBounds.
  cbn [id name studentType studentYear hiddenLuck contribution pendingPapers totalPapers
       isGenius recruitedYear isYoungTeacher personality bio traits whipReactions
       comfortReactions department hasWhippedThisQuarter hasComfortedThisQuarter
       isLoadingPersona diligence stress talent luck mentalState isBeingMentored mentorId].
  assert (Hb : forall v, 0 <= clampValue v 0 100 /\ clampValue v 0 100 <= 100).
  { intros v. apply clampValue_bounds. lra. }
  repeat split; try apply Hb.
Qed.

Variable students : list StudentPersona.

Lemma influencePair_frame (m : JsMap StudentPersona) (processed : list MentorshipPair)
    (p : MentorshipPair) :
  NoDup (mapKeys m) -> frameKept students m processed ->
  In (pairMentorId p) (mapKeys m) -> In (pairMenteeId p) (mapKeys m) ->
  frameKept students (influencePair table m p) (processed ++ [p]).
Proof.
  intros Hnd Hinv Hmentor Hmentee. unfold influencePair.
  destruct (mapGet_present m _ Hmentor) as (mentor & Eg1).
  destruct (mapGet_present m _ Hmentee) as (mentee & Eg2).
  rewrite Eg1, Eg2.
  intros k v Hin.
  destruct (mapSet_In m _ _ k v Hnd Hin) as [[-> ->]|[Hne Hold]].
  - destruct (Hinv _ _ (mapGet_In m _ _ Eg2)) as (s0 & H1 & H2 & H3 & _).
    destruct (applyMentorInfluence_same mentee mentor) as (A1 & A2 & _).
    exists s0. split; [exact H1|]. split; [exact H2|].
    split.
    { eapply sameBesidesMentoring_trans; [apply setMentorship_same|].
      eapply sameBesidesMentoring_trans; [exact A1 | exact H3]. }
    split.
    + intros _. exact A2.
    + intros Hn. exfalso. apply Hn. rewrite map_app. apply in_or_app. right. left. reflexivity.
  - destruct (Hinv k v Hold) as (s0 & H1 & H2 & H3 & H4 & H5).
    exists s0. split; [exact H1|]. split; [exact H2|]. split; [exact H3|].
    split.
    + intros Hk. rewrite map_app in Hk. apply in_app_or in Hk.
      destruct Hk as [Hk|[Hk|[]]]; [apply H4; exact Hk|].
      exfalso. apply Hne. symmetry. exact Hk.
    + intros Hn. apply H5. intros Hk. apply Hn. rewrite map_app. apply in_or_app.
      left. exact Hk.
Qed.

Lemma influence_fold_frame (pairs : list MentorshipPair) :
  forall (processed : list MentorshipPair) (m : JsMap StudentPersona),
    NoDup (mapKeys m) -> frameKept students m processed ->
    (forall p, In p pairs ->
       In (pairMentorId p) (mapKeys m) /\ In (pairMenteeId p) (mapKeys m)) ->
    frameKept students (fold_left (influencePair table) pairs m) (processed ++ pairs).
Proof.
  induction pairs as [|p rest IH]; intros processed m Hnd Hinv Hkeys.
  - simpl. rewrite app_nil_r. exact Hinv.
  - cbn [fold_left].
    destruct (Hkeys p (or_introl eq_refl)) as [Hk1 Hk2].
    pose proof (influencePair_frame m processed p Hnd Hinv Hk1 Hk2) as Hinv'.
    assert (Ek : mapKeys (influencePair table m p) = mapKeys m).
    { unfold influencePair.
      destruct (mapGet m (pairMentorId p)); [|reflexivity].
      destruct (mapGet m (pairMenteeId p)); [|reflexivity].
      apply mapSet_keys_present. exact Hk2. }
    replace (processed ++ p :: rest) with ((processed ++ [p]) ++ rest)
      by (rewrite <- app_assoc; reflexivity).
    apply IH.
    + rewrite Ek. exact Hnd.
    + exact Hinv'.
    + intros q Hq. rewrite Ek. apply Hkeys. right. exact Hq.
Qed.

(** The student map after all pairs of the roster are applied. *)
Lemma studentMap_frame :
  let pairs := buildMentorshipPairs students in
  let m0 := mapOfEntries (map (fun s => (id s, s)) students) in
  let m' := fold_left (influencePair table) pairs m0 in
  mapKeys m' = mapKeys m0 /\ frameKept students m' pairs.
Proof.
  cbv zeta.
  destruct (mapOfEntries_spec (map (fun s => (id s, s)) students)) as (Hnd & Hfrom & Hkeys).
  destruct (buildMentorshipPairs_spec students) as [_ Hfirst].
  assert (Hpairs : forall p, In p (buildMentorshipPairs students) ->
                     In (pairMentorId p)
                        (mapKeys (mapOfEntries (map (fun s => (id s, s)) students)))
                     /\ In (pairMenteeId p)
                           (mapKeys (mapOfEntries (map (fun s => (id s, s)) students)))).
  { intros p Hp.
    destruct (firstClaimant_ids students _ _ (Hfirst p Hp)) as (H1 & H2 & _).
    rewrite !Hkeys. rewrite map_map. simpl. split; assumption. }
  split.
  - destruct (influence_fold_spec table (buildMentorshipPairs students) []
                (mapOfEntries (map (fun s => (id s, s)) students)) Hnd) as [Ek _].
    + intros k v Hin. split; [|intros []].
      apply Hfrom in Hin. apply in_map_iff in Hin. destruct Hin as (s & E & _).
      inversion E. reflexivity.
    + exact Hpairs.
    + exact Ek.
  - apply (influence_fold_frame (buildMentorshipPairs students) []
             (mapOfEntries (map (fun s => (id s, s)) students)) Hnd); [|exact Hpairs].
    intros k v Hin. apply Hfrom in Hin. apply in_map_iff in Hin.
    destruct Hin as (s & E & Hs). inversion E; subst k v.
    exists s. split; [exact Hs|]. split; [reflexivity|].
    split; [apply sameBesidesMentoring_refl|]. split; [intros []|reflexivity].
Qed.

End MentoringFrame.

(** X17. [applyMentorshipInfluence] keeps the roster: the result holds
    each id of the roster exactly once, and on a roster of distinct ids it
    holds the same ids in the same order. *)
Theorem applyMentorshipInfluence_keeps_roster (table : list StudentTrait)
    (students : list StudentPersona) :
  let out := applyMentorshipInfluence table students in
  NoDup (map id out)
  /\ (forall k, In k (map id out) <-> In k (map id students))
  /\ (NoDup (map id students) -> map id out = map id students).
Proof.
  cbv zeta. unfold applyMentorshipInfluence.
  destruct (studentMap_after_pairs table students) as [Hnd Hinv]. cbv zeta in Hnd, Hinv.
  destruct (studentMap_frame table students) as [Ek _]. cbv zeta in Ek.
  destruct (mapOfEntries_spec (map (fun s => (id s, s)) students)) as (_ & _ & Hkeys).
  set (pairs := buildMentorshipPairs students) in *.
  set (m0 := mapOfEntries (map (fun s => (id s, s)) students)) in *.
  set (m' := fold_left (influencePair table) pairs m0) in *.
  assert (Hids : map id
                   (map (fun s => if includes (map pairMenteeId pairs) (id s) then s
                                  else setMentorship s false None) (mapValues m'))
                 = mapKeys m').
  { unfold mapValues, mapKeys. rewrite !map_map. apply map_ext_in.
    intros [k v] Hin. cbn [fst snd]. destruct (Hinv k v Hin) as [Hid _].
    destruct (includes _ (id v)); exact Hid. }
  rewrite Hids.
  split; [exact Hnd|].
  split.
  - intros k. rewrite Ek. rewrite Hkeys. rewrite map_map. cbn [fst]. reflexivity.
  - intros Hdist. rewrite Ek. unfold m0.
    rewrite mapOfEntries_keys_distinct; rewrite map_map; cbn [fst]; [reflexivity | exact Hdist].
Qed.

(** The roster of the rivals keeps its three ids. *)
Lemma applyMentorshipInfluence_keeps_roster_witness :
  map id (applyMentorshipInfluence sampleTraits rivalRoster) = map id rivalRoster.
Proof.
  destruct (applyMentorshipInfluence_keeps_roster sampleTraits rivalRoster) as (_ & _ & H).
  apply H. cbn.
  repeat constructor; cbn; intuition discriminate.
Defined.

(** X18. Mentoring touches mentees only. Every student of the result
    descends from a student of the roster with the same id and keeps
    everything but the five mentored attributes and the mentorship fields.
    The mentee of a rebuilt pair ends flagged as mentored with diligence,
    stress, talent, luck and mental state within 0..100; every other student
    is the roster's student with the flag cleared and no mentor. *)
Theorem applyMentorshipInfluence_frame (table : list StudentTrait)
    (students : list StudentPersona) (a : StudentPersona) :
  In a (applyMentorshipInfluence table students) ->
  exists s0,
    In s0 students /\ sameBesidesMentoring a s0
    /\ if includes (map pairMenteeId (buildMentorshipPairs students)) (id a)
       then mentoredAttributesInBounds a /\ isBeingMentored a = true
            /\ exists m, mentorId a = Some m /\ In m (map id students) /\ m <> id a
       else a = setMentorship s0 false None.
Proof.
  unfold applyMentorshipInfluence.
  destruct (studentMap_after_pairs table students) as [Hnd Hinv]. cbv zeta in Hnd, Hinv.
  destruct (studentMap_frame table students) as [_ Hframe]. cbv zeta in Hframe.
  destruct (buildMentorshipPairs_spec students) as [_ Hfirst].
  set (pairs := buildMentorshipPairs students) in *.
  set (m' := fold_left (influencePair table) pairs _) in *.
  intros Hin. apply in_map_iff in Hin. destruct Hin as (v & Ea & Hv).
  unfold mapValues in Hv. apply in_map_iff in Hv. destruct Hv as ([k v'] & Ev & Hkv).
  cbn [snd] in Ev. subst v'.
  destruct (Hinv k v Hkv) as [Hid Hmentee].
  destruct (Hframe k v Hkv) as (s0 & H1 & H2 & H3 & H4 & H5).
  exists s0. split; [exact H1|].
  assert (Hida : id a = k).
  { subst a. destruct (includes _ (id v)); [exact Hid | exact Hid]. }
  rewrite Hida. rewrite Hid in Ea.
  destruct (includes (map pairMenteeId pairs) k) eqn:Einc.
  - subst a. split; [exact H3|].
    apply includes_In in Einc.
    destruct (Hmentee Einc) as (mm & M1 & M2 & M3).
    split; [apply H4; exact Einc|]. split; [exact M2|].
    exists mm. split; [exact M1|].
    destruct (firstClaimant_ids students _ _ (Hfirst _ M3)) as (F1 & _ & F3).
    cbn [pairMentorId pairMenteeId] in F1, F3. split; [exact F1 | exact F3].
  - apply includes_not_In in Einc. rewrite (H5 Einc) in Ea. subst a.
    split; [apply setMentorship_same | reflexivity].
Qed.

(** The first rival is mentored by [s1]. *)
Lemma applyMentorshipInfluence_frame_witness :
  exists a s0,
    In a (applyMentorshipInfluence sampleTraits rivalRoster)
    /\ In s0 rivalRoster /\ id a = "s2"%string /\ sameBesidesMentoring a s0.
Proof.
  assert (Hin : In (setMentorship
                      (applyMentorInfluence sampleTraits (sampleStudent "s2" (Some "s1"%string))
                         (sampleStudent "s1" None)) true (Some "s1"%string))
                   (applyMentorshipInfluence sampleTraits rivalRoster)).
  { right. left. reflexivity. }
  destruct (applyMentorshipInfluence_frame sampleTraits rivalRoster _ Hin)
    as (s0 & H1 & H2 & _).
  eexists. exists s0. split; [exact Hin|]. split; [exact H1|]. split; [reflexivity | exact H2].
Defined.

(* ------------------------------------------------------------------ *)
(** ** The quarterly progress of the students' papers *)

Lemma mapAccumM_nth_any {S A B : Type} (f : S -> A -> Rand (B * S)) :
  forall l acc g i x,
    nth_error l i = Some x ->
    exists acc' g', nth_error (fst (fst (mapAccumM f acc l g))) i = Some (fst (fst (f acc' x g'))).
Proof.
  induction l as [|y ys IH]; intros acc g i x Hnth.
  - destruct i; discriminate.
  - rewrite mapAccumM_cons. destruct i as [|i]; cbn [nth_error fst] in *.
    + inversion Hnth; subst. exists acc, g. reflexivity.
    + apply (IH _ _ i x Hnth).
Qed.

Lemma Qfloor_unit (x : Q) : 0 <= x -> x < 1 -> Qfloor x = 0%Z.
Proof.
  intros H0 H1.
  pose proof (Qfloor_le x) as Hle. pose proof (Qlt_floor x) as Hlt.
  assert (A : (Qfloor x < 1)%Z).
  { rewrite Zlt_Qlt. eapply Qle_lt_trans; [exact Hle|]. exact H1. }
  assert (B : (0 < Qfloor x + 1)%Z).
  { rewrite Zlt_Qlt. eapply Qle_lt_trans; [exact H0|]. exact Hlt. }
  lia.
Qed.

(** Below the full hundred the accumulator just grows. *)
Lemma accrueProgress_accumulates (student : StudentPersona) (progressGain : Q) :
  0 <= contribution student + progressGain ->
  contribution student + progressGain < 100 ->
  let student' := fst (accrueProgress student progressGain) in
  contribution student' == contribution student + progressGain
  /\ pendingPapers student' = pendingPapers student
  /\ mentalState student' = mentalState student
  /\ stress student' = stress student
  /\ snd (accrueProgress student progressGain) = [].
Proof.
  intros H0 H1. cbv zeta. unfold accrueProgress.
  assert (Hc : clampValue (contribution student + progressGain) 0 100
               == contribution student + progressGain).
  { apply clampValue_inside; lra. }
  assert (Hf : jsFloor (clampValue (contribution student + progressGain) 0 100 / 100) = 0%Z).
  { unfold jsFloor. apply Qfloor_unit.
    - rewrite Hc. apply Qle_shift_div_l; lra.
    - rewrite Hc. apply Qlt_shift_div_r; lra. }
  rewrite Hf. cbn [Z.eqb fst snd setPaperProgress contribution pendingPapers mentalState stress].
  repeat split. rewrite Hc. change (inject_Z 0) with 0. ring.
Qed.

Lemma accrueProgress_only_progress (student : StudentPersona) (progressGain : Q) :
  let student' := fst (accrueProgress student progressGain) in
  student' = setPaperProgress student (contribution student') (pendingPapers student')
               (mentalState student') (stress student').
Proof.
  cbv zeta. unfold accrueProgress. destruct (_ =? 0)%Z; reflexivity.
Qed.

(** X19. The progress of one student through [settleResearchPapers], for
    a student with a non-negative accumulator. The gain of the quarter is an
    integer between 20 and 100. While accumulator plus gain stays below 100
    the accumulator takes the sum and nothing else of the student changes;
    from 100 on the student submits exactly one paper, the accumulator
    restarts from 0, mental state drops by 2 and stress rises by 3 (both kept
    within 0..100). No other field of the student changes. *)
Theorem settleResearchPapers_student_step (students : list StudentPersona)
    (ms : MentorStats) (projects : list ResearchProject) (g : Rng)
    (i : nat) (s : StudentPersona) :
  nth_error students i = Some s ->
  0 <= contribution s ->
  exists s' gain,
    nth_error (rsUpdatedStudents (fst (settleResearchPapers students ms projects g))) i
    = Some s'
    /\ (20 <= gain <= 100)%Z
    /\ s' = setPaperProgress s (contribution s') (pendingPapers s') (mentalState s') (stress s')
    /\ (contribution s + inject_Z gain < 100 ->
        contribution s' == contribution s + inject_Z gain
        /\ pendingPapers s' = pendingPapers s
        /\ mentalState s' = mentalState s /\ stress s' = stress s)
    /\ (100 <= contribution s + inject_Z gain ->
        contribution s' == 0
        /\ pendingPapers s' == pendingPapers s + 1
        /\ mentalState s' == clampValue (mentalState s - 2) 0 100
        /\ stress s' == clampValue (stress s + 3) 0 100).
Proof.
  intros Hnth Hc.
  unfold settleResearchPapers. rewrite bind_run.
  set (cb := fun (events : list LogEvent) (student : StudentPersona) => _).
  destruct (mapAccumM_nth_any cb students [] g i s Hnth) as (acc' & g' & Hn).
  remember (mapAccumM cb [] students g) as run eqn:Erun.
  cbv beta zeta. rewrite bind_run. rewrite bind_run.
  cbn [ret fst rsUpdatedStudents].
  rewrite Hn. unfold cb. rewrite bind_run. cbn [ret fst].
  destruct (calcPaperProgressGain_range s
              (orElse (mapGet (buildActiveProjectCountByStudentId projects) (id s)) 0) g')
    as (z & Ez & Hz).
  rewrite Ez.
  eexists. exists z.
  split; [reflexivity|].
  split; [destruct Hz as [[Hz _]|[Hz _]]; lia|].
  split; [apply accrueProgress_only_progress|].
  assert (Hz0 : 0 <= inject_Z z).
  { change 0 with (inject_Z 0). rewrite <- Zle_Qle. destruct Hz as [[Hz _]|[Hz _]]; lia. }
  split.
  - intros Hlt.
    destruct (accrueProgress_accumulates s (inject_Z z)) as (A1 & A2 & A3 & A4 & _);
      [lra | exact Hlt |].
    cbv zeta in A1, A2, A3, A4. repeat split; assumption.
  - intros Hge. apply (accrueProgress_saturates s (inject_Z z) Hge).
Qed.

(** A student with 90 points of progress. *)
Lemma settleResearchPapers_student_step_witness :
  exists s',
    nth_error
      (rsUpdatedStudents
         (fst (settleResearchPapers [nearlyDoneStudent] sampleStats [] (constRng 0.5)))) 0
    = Some s'
    /\ id s' = id nearlyDoneStudent.
Proof.
  destruct (settleResearchPapers_student_step [nearlyDoneStudent] sampleStats []
              (constRng 0.5) 0 nearlyDoneStudent)
    as (s' & gain & H1 & _ & H3 & _).
  - reflexivity.
  - vm_compute. discriminate.
  - exists s'. split; [exact H1|]. rewrite H3. reflexivity.
Defined.

Lemma filterCandidates_spec (decisionChance : Q) (l : list StudentPersona) :
  forall (g : Rng) (s : StudentPersona),
    In s (fst (filterCandidates decisionChance l g)) ->
    In s l /\ 0 < pendingPapers s.
Proof.
  induction l as [|x xs IH]; intros g s Hin.
  - contradiction.
  - cbn [filterCandidates] in Hin.
    destruct (Qgtb (pendingPapers x) 0) eqn:E.
    + rewrite bind_run in Hin. rewrite bind_run in Hin. cbn [ret fst] in Hin.
      destruct (Qltb _ decisionChance).
      * destruct Hin as [Hin|Hin].
        -- subst s. split; [left; reflexivity|]. apply Qgtb_gt. exact E.
        -- destruct (IH _ s Hin). split; [right|]; assumption.
      * destruct (IH _ s Hin). split; [right|]; assumption.
    + destruct (IH _ s Hin). split; [right|]; assumption.
Qed.

Lemma walkCursor_spec (l : list StudentPersona) :
  forall (cur : Q) (sid : string),
    walkCursor cur l = Some sid -> exists s, In s l /\ id s = sid.
Proof.
  induction l as [|x xs IH]; intros cur sid H; [discriminate|].
  cbn [walkCursor] in H. destruct (Qle_bool _ 0).
  - inversion H. exists x. split; [left; reflexivity | reflexivity].
  - destruct (IH _ _ H) as (s & Hs & E). exists s. split; [right; exact Hs | exact E].
Qed.

(** X20. [settleResearchPapers] raises a paper decision only for a
    student who has a paper pending: the [decisionStudentId] it returns, if
    any, is the id of a student of the updated list with [pendingPapers > 0].
    The reputation and funding deltas it returns are always 0. *)
Theorem settleResearchPapers_decision_student (students : list StudentPersona)
    (ms : MentorStats) (projects : list ResearchProject) (g : Rng) :
  let r := fst (settleResearchPapers students ms projects g) in
  (forall sid, rsDecisionStudentId r = Some sid ->
     exists s, In s (rsUpdatedStudents r) /\ id s = sid /\ 0 < pendingPapers s)
  /\ rsReputationDelta r = 0 /\ rsFundingDelta r = 0
  /\ List.length (rsUpdatedStudents r) = List.length students.
Proof.
  cbv zeta. unfold settleResearchPapers. rewrite bind_run.
  set (cb := fun (events : list LogEvent) (student : StudentPersona) => _).
  pose proof (mapAccumM_length cb students [] g) as Hlen.
  remember (mapAccumM cb [] students g) as run eqn:Erun. clear Erun.
  cbv beta zeta. rewrite bind_run.
  pose proof (filterCandidates_spec (calcPaperDecisionChance ms) (fst (fst run)) (snd run))
    as Hcand.
  remember (filterCandidates (calcPaperDecisionChance ms) (fst (fst run)) (snd run))
    as cands eqn:Ec. clear Ec.
  rewrite bind_run. cbn [ret fst rsDecisionStudentId rsUpdatedStudents rsReputationDelta
                             rsFundingDelta].
  split; [|repeat split; exact Hlen].
  intros sid Hsid.
  destruct (fst cands) as [|first rest] eqn:Ef.
  - cbn [ret fst] in Hsid. discriminate.
  - rewrite bind_run in Hsid. cbn [ret fst] in Hsid.
    destruct (walkCursor _ (first :: rest)) as [found|] eqn:Ew.
    + cbn [truthyOptStr] in Hsid. destruct (truthyStr found).
      * inversion Hsid; subst found.
        destruct (walkCursor_spec _ _ _ Ew) as (s & Hs & E).
        destruct (Hcand s Hs) as [H1 H2]. exists s. repeat split; assumption.
      * inversion Hsid; subst sid.
        destruct (Hcand first (or_introl eq_refl)) as [H1 H2].
        exists first. repeat split; assumption.
    + cbn [truthyOptStr] in Hsid. inversion Hsid; subst sid.
      destruct (Hcand first (or_introl eq_refl)) as [H1 H2].
      exists first. repeat split; assumption.
Qed.

(* ------------------------------------------------------------------ *)
(** ** Resolving a decision *)

Lemma applyMentorDelta_inBounds (st : MentorStats) (sd : StatDelta) :
  mentorInBounds st -> mentorInBounds (applyMentorDelta st sd).
Proof.
  intros (Hmo & Hac & Had & Hin & Hfu).
  unfold mentorInBounds, applyMentorDelta.
  cbn [morale academia admin integrity funding].
  repeat split; try (apply applyGaugeDelta_bounds; assumption).
  destruct (truthyOptQ (dFunding sd)); [apply Q.le_max_r | exact Hfu].
Qed.

Lemma applyStudentDelta_inBounds (s : StudentPersona) (d : StudentDelta) :
  studentInBounds s -> studentInBounds (applyStudentDelta s d).
Proof.
  intros (H1 & H2 & H3 & H4 & H5 & H6 & H7 & H8).
  unfold studentInBounds, applyStudentDelta.
  cbn [diligence talent luck stress mentalState contribution pendingPapers totalPapers].
  repeat split; try (apply applyAttrDelta_bounds; assumption);
    apply applyCountDelta_bounds; assumption.
Qed.

Lemma Forall_map_if {A : Type} (P : A -> Prop) (c : A -> bool) (f : A -> A) (l : list A) :
  (forall x, P x -> P (f x)) -> Forall P l ->
  Forall P (map (fun x => if c x then f x else x) l).
Proof.
  intros Hf Hl. induction Hl as [|x xs Hx Hxs IH]; [constructor|].
  simpl. constructor; [destruct (c x); [apply Hf|]; exact Hx | exact IH].
Qed.

Lemma map_id_map_if (c : StudentPersona -> bool) (f : StudentPersona -> StudentPersona)
    (l : list StudentPersona) :
  (forall x, id (f x) = id x) ->
  map id (map (fun x => if c x then f x else x) l) = map id l.
Proof.
  intros Hf. rewrite map_map. apply map_ext. intros x. destruct (c x); [apply Hf | reflexivity].
Qed.

Lemma dropMentorReference_inBounds (sid : string) (s : StudentPersona) :
  studentInBounds s -> studentInBounds (dropMentorReference sid s).
Proof.
  unfold dropMentorReference. destruct (String.eqb (studentType s) "YOUNG_TEACHER");
    intros H; exact H.
Qed.

Lemma dropMentorReference_id (sid : string) (s : StudentPersona) :
  id (dropMentorReference sid s) = id s.
Proof.
  unfold dropMentorReference. destruct (String.eqb (studentType s) "YOUNG_TEACHER");
    reflexivity.
Qed.

Lemma removeStudent_fields (sid : string) (s : Session) :
  stats (removeStudentFromAllAssignments sid s) = stats s
  /\ eventLog (removeStudentFromAllAssignments sid s) = eventLog s
  /\ (Forall studentInBounds (teamMembers s) ->
      Forall studentInBounds (teamMembers (removeStudentFromAllAssignments sid s)))
  /\ incl (map id (teamMembers (removeStudentFromAllAssignments sid s)))
          (map id (teamMembers s)).
Proof.
  unfold removeStudentFromAllAssignments.
  cbn [stats eventLog teamMembers setSelectedMentorId setTeamMembers setProjects
       setGrantApplications setProjectPapers projects grantApplications projectPapers].
  split; [reflexivity|]. split; [reflexivity|]. split.
  - intros H. apply Forall_forall. intros x Hx. apply in_map_iff in Hx.
    destruct Hx as (y & E & Hy). subst x. apply filter_In in Hy.
    apply dropMentorReference_inBounds.
    apply (proj1 (Forall_forall _ _) H y (proj1 Hy)).
  - intros k Hk. rewrite map_map in Hk. apply in_map_iff in Hk.
    destruct Hk as (y & E & Hy). rewrite dropMentorReference_id in E. subst k.
    apply filter_In in Hy. apply in_map. apply Hy.
Qed.

Lemma bumpStudent_fields (target : string) (d : StudentDelta) (s : Session) :
  stats (bumpStudent target d s) = stats s
  /\ eventLog (bumpStudent target d s) = eventLog s
  /\ (Forall studentInBounds (teamMembers s) ->
      Forall studentInBounds (teamMembers (bumpStudent target d s)))
  /\ map id (teamMembers (bumpStudent target d s)) = map id (teamMembers s).
Proof.
  unfold bumpStudent. cbn [stats eventLog teamMembers setTeamMembers].
  split; [reflexivity|]. split; [reflexivity|]. split.
  - intros H.
    apply (Forall_map_if studentInBounds (fun student => String.eqb (id student) target)
             (fun student => applyStudentDelta student d)); [|exact H].
    intros x Hx. apply applyStudentDelta_inBounds. exact Hx.
  - apply (map_id_map_if (fun student => String.eqb (id student) target)
             (fun student => applyStudentDelta student d)).
    intros x. reflexivity.
Qed.

Lemma applyKindEffects_fields (s0 : Session) (decision : DecisionEvent)
    (o : DecisionOption) (s : Session) :
  stats (applyKindEffects s0 decision o s) = stats s
  /\ eventLog (applyKindEffects s0 decision o s) = eventLog s
  /\ (Forall studentInBounds (teamMembers s) ->
      Forall studentInBounds (teamMembers (applyKindEffects s0 decision o s)))
  /\ map id (teamMembers (applyKindEffects s0 decision o s)) = map id (teamMembers s).
Proof.
  unfold applyKindEffects.
  destruct (context decision) as [pid pj|pid pj kind|gid|gid|sid|sid].
  - destruct (metaVenueType o); [destruct (metaVenueTier o)|].
    + destruct (truthyOptStr (paperLeadOf s0 decision)).
      * match goal with
        | |- context [ bumpStudent ?t ?d ?ss ] =>
            destruct (bumpStudent_fields t d ss) as (B1 & B2 & B3 & B4)
        end.
        rewrite B1, B2, B4. repeat split. exact B3.
      * repeat split. intros H; exact H.
    + repeat split. intros H; exact H.
    + repeat split. intros H; exact H.
  - destruct (metaIs o "action" "withdraw" && truthyOptStr (paperLeadOf s0 decision)).
    + match goal with
      | |- context [ bumpStudent ?t ?d ?ss ] =>
          destruct (bumpStudent_fields t d ss) as (B1 & B2 & B3 & B4)
      end.
      rewrite B1, B2, B4. repeat split. exact B3.
    + repeat split. intros H; exact H.
  - destruct (truthyQ _ || truthyQ _); repeat split; intros H; exact H.
  - destruct (truthyQ _); repeat split; intros H; exact H.
  - repeat split. intros H; exact H.
  - repeat split. intros H; exact H.
Qed.

Section DecisionHandler.

Variable showInt : Z -> string.
Variable showBase36 : Q -> string.

Lemma pushEvent_run (title detail : string) (s : Session) (g : Rng) :
  fst (pushEvent showInt showBase36 title detail s g)
  = setEventLog s
      (eventLog s ++ [mkEventItem (fst (freshId showInt showBase36 "evt" 5 g)) title detail]).
Proof. unfold pushEvent. rewrite bind_run. reflexivity. Qed.

(** The session a valid choice leads to, before the closing writes. *)
Lemma handleDecisionChoose_trace (decision : DecisionEvent) (optionId : string)
    (s0 : Session) (g : Rng) (o : DecisionOption) :
  findOption decision optionId = Some o ->
  exists s5 chips eid more,
    fst (handleDecisionChoose showInt showBase36 decision optionId s0 g)
    = setDecisionQueue s5 (withoutDecision decision (pendingDecisions s0))
        (match withoutDecision decision (pendingDecisions s0) with
         | first :: _ => Some (decId first)
         | [] => None
         end)
        (mkResult "事件结局" (decTitle decision) (outcome o) chips)
    /\ stats s5 = match optionStats o with
                  | Some d => applyMentorDelta (stats s0) d
                  | None => stats s0
                  end
    /\ eventLog s5 = eventLog s0 ++ mkEventItem eid (decTitle decision) (outcome o) :: more
    /\ (Forall studentInBounds (teamMembers s0) -> Forall studentInBounds (teamMembers s5))
    /\ incl (map id (teamMembers s5)) (map id (teamMembers s0)).
Proof.
  unfold findOption, withoutDecision. intros Hfind. unfold handleDecisionChoose.
  rewrite Hfind. rewrite bind_run. rewrite pushEvent_run.
  set (eid := fst (freshId showInt showBase36 "evt" 5 g)).
  remember (snd (pushEvent showInt showBase36 (decTitle decision) (outcome o) s0 g)) as g1.
  cbv zeta.
  set (s1 := setEventLog s0 _).
  set (s2 := match optionStats o with
             | Some d => setStats s1 (applyMentorDelta (stats s1) d)
             | None => s1
             end).
  assert (H2 : stats s2 = match optionStats o with
                          | Some d => applyMentorDelta (stats s0) d
                          | None => stats s0
                          end
               /\ eventLog s2 = eventLog s0 ++ [mkEventItem eid (decTitle decision) (outcome o)]
               /\ teamMembers s2 = teamMembers s0).
  { unfold s2. destruct (optionStats o); repeat split. }
  clearbody s2. clear s1. destruct H2 as (S2 & E2 & T2).
  rewrite bind_run.
  match goal with
  | |- context [ pushChips showInt showBase36 ?items [] g1 ] =>
      remember (pushChips showInt showBase36 items [] g1) as chipRun eqn:Echips
  end.
  clear Echips.
  set (s3 := match studentTargetsOf s0 decision, optionStudent o with
             | _ :: _, Some d => setTeamMembers s2 _
             | _, _ => s2
             end).
  assert (H3 : stats s3 = stats s2 /\ eventLog s3 = eventLog s2
               /\ (Forall studentInBounds (teamMembers s0) ->
                   Forall studentInBounds (teamMembers s3))
               /\ map id (teamMembers s3) = map id (teamMembers s0)).
  { unfold s3. destruct (studentTargetsOf s0 decision) as [|t ts].
    - rewrite T2. repeat split. intros H; exact H.
    - destruct (optionStudent o) as [d|].
      + cbn [stats eventLog teamMembers setTeamMembers]. rewrite T2.
        split; [reflexivity|]. split; [reflexivity|]. split.
        * intros H.
          apply (Forall_map_if studentInBounds
                   (fun student => includes (t :: ts) (id student))
                   (fun student => applyStudentDelta student d)); [|exact H].
          intros x Hx. apply applyStudentDelta_inBounds. exact Hx.
        * apply (map_id_map_if (fun student => includes (t :: ts) (id student))
                   (fun student => applyStudentDelta student d)).
          intros x. reflexivity.
      + rewrite T2. repeat split. intros H; exact H. }
  clearbody s3. destruct H3 as (S3 & E3 & B3 & I3).
  rewrite bind_run.
  match goal with
  | |- context [ fst (fst (?m (snd chipRun))) ] =>
      remember (m (snd chipRun)) as leftRun eqn:Eleft
  end.
  assert (H4 : stats (fst (fst leftRun)) = stats s3
               /\ (exists more,
                      eventLog (fst (fst leftRun)) = eventLog s3 ++ more)
               /\ (Forall studentInBounds (teamMembers s0) ->
                   Forall studentInBounds (teamMembers (fst (fst leftRun))))
               /\ incl (map id (teamMembers (fst (fst leftRun)))) (map id (teamMembers s0))).
  { subst leftRun.
    assert (Hstay : stats s3 = stats s3
                    /\ (exists more, eventLog s3 = eventLog s3 ++ more)
                    /\ (Forall studentInBounds (teamMembers s0) ->
                        Forall studentInBounds (teamMembers s3))
                    /\ incl (map id (teamMembers s3)) (map id (teamMembers s0))).
    { split; [reflexivity|]. split; [exists []; rewrite app_nil_r; reflexivity|].
      split; [exact B3|]. rewrite I3. apply incl_refl. }
    destruct (context decision) as [pid pj|pid pj kind|gid|gid|sid|sid];
      try (cbn [ret fst]; exact Hstay).
    destruct (metaIs o "studentAction" "leave" && truthyOptStr sid);
      [|cbn [ret fst]; exact Hstay].
    rewrite bind_run. rewrite pushEvent_run. rewrite bind_run. cbn [ret fst].
    destruct (removeStudent_fields (orElse sid EmptyString) s3) as (R1 & R2 & R3 & R4).
    cbn [stats eventLog teamMembers setEventLog].
    split; [exact R1|]. split; [rewrite R2; eexists; reflexivity|].
    split; [intros H; apply R3; apply B3; exact H|].
    rewrite <- I3. exact R4. }
  clear Eleft. destruct H4 as (S4 & (more & E4) & B4 & I4).
  destruct (applyKindEffects_fields s0 decision o (fst (fst leftRun)))
    as (K1 & K2 & K3 & K4).
  cbn [ret fst].
  exists (applyKindEffects s0 decision o (fst (fst leftRun))), (snd (fst leftRun)), eid, more.
  split; [reflexivity|].
  split; [rewrite K1, S4, S3; exact S2|].
  split; [rewrite K2, E4, E3, E2, <- app_assoc; reflexivity|].
  split; [intros H; apply K3; apply B4; exact H|].
  rewrite K4. exact I4.
Qed.

End DecisionHandler.

(** X21. Choosing an option a decision carries resolves the decision. The
    decision leaves the backlog, the other decisions stay in order and the
    first of them becomes the active one; the result shown names the
    decision and the outcome of the option; the event log keeps its entries
    and gets an entry with the title of the decision and the outcome of the
    option; the mentor statistics are the old ones with the stat delta of the
    option applied. *)
Theorem handleDecisionChoose_resolves (showInt : Z -> string) (showBase36 : Q -> string)
    (decision : DecisionEvent) (optionId : string) (s0 : Session) (g : Rng)
    (o : DecisionOption) :
  findOption decision optionId = Some o ->
  let s' := fst (handleDecisionChoose showInt showBase36 decision optionId s0 g) in
  pendingDecisions s' = withoutDecision decision (pendingDecisions s0)
  /\ ~ In (decId decision) (map decId (pendingDecisions s'))
  /\ activeDecisionId s' = match pendingDecisions s' with
                           | first :: _ => Some (decId first)
                           | [] => None
                           end
  /\ (exists chips,
         activeDecisionResult s'
         = Some (mkResult "事件结局" (decTitle decision) (outcome o) chips))
  /\ (exists eid more,
         eventLog s'
         = eventLog s0 ++ mkEventItem eid (decTitle decision) (outcome o) :: more)
  /\ stats s' = match optionStats o with
                | Some d => applyMentorDelta (stats s0) d
                | None => stats s0
                end.
Proof.
  intros Hfind. cbv zeta.
  destruct (handleDecisionChoose_trace showInt showBase36 decision optionId s0 g o Hfind)
    as (s5 & chips & eid & more & E & S & L & _ & _).
  rewrite E. cbn [pendingDecisions activeDecisionId activeDecisionResult eventLog stats
                  setDecisionQueue].
  split; [reflexivity|]. split.
  { intros Hin. apply in_map_iff in Hin. destruct Hin as (d & Ed & Hd).
    unfold withoutDecision in Hd. apply filter_In in Hd. destruct Hd as [_ Hd].
    rewrite Ed, String.eqb_refl in Hd. discriminate. }
  split; [reflexivity|]. split; [exists chips; reflexivity|].
  split; [exists eid, more; exact L | exact S].
Qed.

(** The first venue option of the sample decision, the only one pending. *)
Lemma handleDecisionChoose_resolves_witness :
  pendingDecisions
    (fst (handleDecisionChoose sampleShowInt sampleShowBase36 sampleDecision "conf-a"
            sampleSession (constRng 0.5)))
  = [].
Proof.
  destruct (findOption sampleDecision "conf-a") as [o|] eqn:E; [|discriminate E].
  destruct (handleDecisionChoose_resolves sampleShowInt sampleShowBase36 sampleDecision
              "conf-a" sampleSession (constRng 0.5) o E) as (H & _).
  rewrite H. reflexivity.
Defined.

(** X22. No choice can push the session out of bounds or add a team
    member. If the mentor statistics and every team member are within bounds
    before [handleDecisionChoose], they are within bounds after it, whatever
    the decision, the option id and the deltas the option carries; and every
    team member after it was a team member before. *)
Theorem handleDecisionChoose_keeps_bounds (showInt : Z -> string)
    (showBase36 : Q -> string) (decision : DecisionEvent) (optionId : string)
    (s0 : Session) (g : Rng) :
  sessionInBounds s0 ->
  let s' := fst (handleDecisionChoose showInt showBase36 decision optionId s0 g) in
  sessionInBounds s'
  /\ incl (map id (teamMembers s')) (map id (teamMembers s0)).
Proof.
  intros [Hst Hteam]. cbv zeta.
  destruct (findOption decision optionId) as [o|] eqn:Hfind.
  - destruct (handleDecisionChoose_trace showInt showBase36 decision optionId s0 g o Hfind)
      as (s5 & chips & eid & more & E & S & _ & B & I).
    rewrite E. unfold sessionInBounds. cbn [stats teamMembers setDecisionQueue].
    split; [|exact I]. split; [|apply B; exact Hteam].
    rewrite S. destruct (optionStats o); [apply applyMentorDelta_inBounds|]; exact Hst.
  - unfold handleDecisionChoose. unfold findOption in Hfind. rewrite Hfind.
    cbn [ret fst]. split; [split; assumption | apply incl_refl].
Qed.

Lemma sampleSession_inBounds : sessionInBounds sampleSession.
Proof.
  unfold sessionInBounds, sampleSession. cbn [stats teamMembers]. split.
  - unfold mentorInBounds, gaugeInBounds, sampleStats, sampleGauge. cbn. repeat split; lra.
  - repeat constructor; cbn; lra.
Defined.

(** The sample session stays within bounds after the first venue option. *)
Lemma handleDecisionChoose_keeps_bounds_witness :
  sessionInBounds
    (fst (handleDecisionChoose sampleShowInt sampleShowBase36 sampleDecision "conf-a"
            sampleSession (constRng 0.5))).
Proof.
  apply (handleDecisionChoose_keeps_bounds sampleShowInt sampleShowBase36 sampleDecision
           "conf-a" sampleSession (constRng 0.5)).
  exact sampleSession_inBounds.
Defined.

(* ------------------------------------------------------------------ *)
(** ** Projects: quarterly progress *)

Lemma advanceAll_updated (studentMap : JsMap StudentPersona) (source : list ResearchProject) :
  forall titles comps,
    paUpdated (advanceAll studentMap source titles comps)
    = map (advanceProject studentMap) source.
Proof.
  induction source as [|p rest IH]; intros titles comps; [reflexivity|].
  cbn [advanceAll map]. destruct (completed _ && negb _); cbn [paUpdated]; rewrite IH;
    reflexivity.
Qed.

Lemma advanceAll_reports (studentMap : JsMap StudentPersona) (source : list ResearchProject) :
  forall titles comps,
    let newly :=
      filter (fun project =>
                completed (advanceProject studentMap project) && negb (completed project))
             source in
    paCompletedTitles (advanceAll studentMap source titles comps)
    = titles ++ map projTitle newly
    /\ paCompletedProjects (advanceAll studentMap source titles comps)
       = comps ++ map (advanceProject studentMap) newly.
Proof.
  induction source as [|p rest IH]; intros titles comps; cbv zeta.
  - cbn. rewrite !app_nil_r. split; reflexivity.
  - cbn [advanceAll filter].
    destruct (completed (advanceProject studentMap p) && negb (completed p)).
    + cbn [paCompletedTitles paCompletedProjects map].
      destruct (IH (titles ++ [projTitle p]) (comps ++ [advanceProject studentMap p]))
        as [H1 H2].
      cbv zeta in H1, H2. rewrite H1, H2, <- !app_assoc. split; reflexivity.
    + cbn [paCompletedTitles paCompletedProjects]. apply IH.
Qed.

Lemma jsRound_nonneg (x : Q) : 0 <= x -> (0 <= jsRound x)%Z.
Proof.
  intros H. rewrite <- (jsRound_inject 0). apply jsRound_mono. exact H.
Qed.

Lemma boost_nonneg (members : list StudentPersona) :
  (forall s, In s members -> 0 <= diligence s) ->
  0 <= fold_left (fun sum member => sum + inject_Z (jsRound (diligence member / 40)))
         members 0.
Proof.
  assert (H : forall l acc, 0 <= acc ->
                (forall s, In s l -> 0 <= diligence s) ->
                0 <= fold_left (fun sum member =>
                                  sum + inject_Z (jsRound (diligence member / 40))) l acc).
  { induction l as [|x xs IH]; intros acc Hacc Hl; [exact Hacc|].
    cbn [fold_left]. apply IH.
    - assert (0 <= inject_Z (jsRound (diligence x / 40))).
      { change 0 with (inject_Z 0). rewrite <- Zle_Qle. apply jsRound_nonneg.
        apply Qle_shift_div_l; [reflexivity|].
        assert (0 <= diligence x) by (apply Hl; left; reflexivity). lra. }
      lra.
    - intros s Hs. apply Hl. right. exact Hs. }
  intros Hl. apply H; [apply Qle_refl | exact Hl].
Qed.

Lemma lookupStudents_In (studentMap : JsMap StudentPersona) (ids : list string)
    (s : StudentPersona) :
  In s (lookupStudents studentMap ids) ->
  exists k, In k ids /\ In (k, s) studentMap.
Proof.
  induction ids as [|i rest IH]; [intros []|].
  cbn [lookupStudents]. destruct (mapGet studentMap i) as [v|] eqn:E.
  - intros [H|H].
    + subst v. exists i. split; [left; reflexivity | apply mapGet_In; exact E].
    + destruct (IH H) as (k & Hk & Hin). exists k. split; [right; exact Hk | exact Hin].
  - intros H. destruct (IH H) as (k & Hk & Hin). exists k. split; [right; exact Hk | exact Hin].
Qed.

Lemma lookupStudents_none (studentMap : JsMap StudentPersona) (ids : list string) :
  (forall k, In k ids -> ~ In k (mapKeys studentMap)) ->
  lookupStudents studentMap ids = [].
Proof.
  induction ids as [|i rest IH]; intros H; [reflexivity|].
  cbn [lookupStudents]. destruct (mapGet studentMap i) as [v|] eqn:E.
  - exfalso. apply (H i (or_introl eq_refl)).
    apply (in_mapKeys studentMap i v). apply mapGet_In. exact E.
  - apply IH. intros k Hk. apply H. right. exact Hk.
Qed.

Lemma clampValue_above (v x : Q) :
  0 <= v -> v <= 100 -> v <= x -> v <= clampValue x 0 100.
Proof.
  intros H0 H1 Hx. unfold clampValue.
  destruct (Qmin_cases 100 x) as [[E H]|[E H]]; rewrite E;
    destruct (Qmax_cases 0 100) as [[E' H']|[E' H']];
    destruct (Qmax_cases 0 x) as [[E'' H'']|[E'' H'']];
    try rewrite E'; try rewrite E''; lra.
Qed.

Lemma clampValue_full (v : Q) :
  Qgeb (clampValue v 0 100) 100 = true <-> clampValue v 0 100 == 100.
Proof.
  destruct (clampValue_bounds v 0 100 ltac:(lra)) as [H0 H1].
  rewrite Qgeb_ge. split; intros H; lra.
Qed.

(** X23. One project through [advanceProjects]. A completed project is
    returned as it was. A project that is not completed keeps its id, title,
    category, students and creation stamp; its three tracks end within 0..100
    and it is completed exactly when all three reach 100. From tracks within
    0..100 and with students of non-negative diligence, no track goes down;
    and while none of its assigned ids names a student of the roster, the
    project makes no progress at all. *)
Theorem advanceProjects_project (source : list ResearchProject)
    (students : list StudentPersona) (i : nat) (p : ResearchProject) :
  nth_error source i = Some p ->
  exists p',
    nth_error (paUpdated (advanceProjects source students)) i = Some p'
    /\ (completed p = true -> p' = p)
    /\ (completed p = false ->
        progressInBounds (progress p')
        /\ p' = mkProject (projId p) (projTitle p) (projCategory p) (progress p')
                  (projAssignedStudentIds p) (projCreatedYear p) (projCreatedQuarter p)
                  (completed p')
        /\ (completed p' = true <->
            literature (progress p') == 100 /\ experiment (progress p') == 100
            /\ results (progress p') == 100)
        /\ (progressInBounds (progress p) ->
            (forall s, In s students -> 0 <= diligence s) ->
            literature (progress p) <= literature (progress p')
            /\ experiment (progress p) <= experiment (progress p')
            /\ results (progress p) <= results (progress p'))
        /\ (progressInBounds (progress p) ->
            (forall sid, In sid (projAssignedStudentIds p) -> ~ In sid (map id students)) ->
            literature (progress p') == literature (progress p)
            /\ experiment (progress p') == experiment (progress p)
            /\ results (progress p') == results (progress p))).
Proof.
  intros Hnth. unfold advanceProjects. rewrite advanceAll_updated.
  set (studentMap := mapOfEntries (map (fun s => (id s, s)) students)).
  exists (advanceProject studentMap p).
  split; [apply map_nth_error; exact Hnth|].
  destruct (mapOfEntries_spec (map (fun s => (id s, s)) students)) as (_ & Hfrom & Hkeys).
  fold studentMap in Hfrom, Hkeys.
  split.
  { intros Hc. unfold advanceProject. rewrite Hc. reflexivity. }
  intros Hc. unfold advanceProject. rewrite Hc.
  set (members := lookupStudents studentMap (projAssignedStudentIds p)).
  set (base := match members with [] => 0 | _ :: _ => 4 end).
  set (boost := fold_left _ members 0).
  cbn [progress literature experiment results projId projTitle projCategory
       projAssignedStudentIds projCreatedYear projCreatedQuarter completed].
  assert (Hb : forall v, 0 <= clampValue v 0 100 /\ clampValue v 0 100 <= 100).
  { intros v. apply clampValue_bounds. lra. }
  split; [unfold progressInBounds; cbn [literature experiment results]; repeat split; apply Hb|].
  split; [reflexivity|].
  split.
  { rewrite !andb_true_iff. rewrite !clampValue_full. tauto. }
  split.
  - intros ((L0 & L1) & (E0 & E1) & (R0 & R1)) Hdil.
    assert (Hbase : 0 <= base) by (unfold base; destruct members; lra).
    assert (Hboost : 0 <= boost).
    { apply boost_nonneg. intros s Hs.
      destruct (lookupStudents_In studentMap _ s Hs) as (k & _ & Hin).
      apply Hfrom in Hin. apply in_map_iff in Hin. destruct Hin as (s0 & E & Hs0).
      inversion E; subst. apply Hdil. exact Hs0. }
    repeat split.
    + apply clampValue_above; lra.
    + apply clampValue_above; lra.
    + apply clampValue_above; lra.
  - intros ((L0 & L1) & (E0 & E1) & (R0 & R1)) Hnone.
    assert (Hm : members = []).
    { apply lookupStudents_none. intros k Hk Hin. apply (Hnone k Hk).
      apply Hkeys in Hin. rewrite map_map in Hin. exact Hin. }
    unfold boost, base. rewrite Hm. cbn [fold_left].
    assert (Hl : clampValue (literature (progress p) + 0 + 0) 0 100 == literature (progress p)).
    { rewrite clampValue_inside; lra. }
    assert (He : clampValue (experiment (progress p) + 0 + 0) 0 100 == experiment (progress p)).
    { rewrite clampValue_inside; lra. }
    assert (Hr : clampValue (results (progress p) + 0 + 0) 0 100 == results (progress p)).
    { rewrite clampValue_inside; lra. }
    split; [exact Hl|]. split; [exact He | exact Hr].
Qed.

(** A project of two students of the roster, and one nobody works on. *)
Lemma advanceProjects_project_witness :
  exists p',
    nth_error
      (paUpdated (advanceProjects
                    [sampleProject "p1" 10 20 30 ["s1"%string] false;
                     sampleProject "p2" 50 50 50 [] false]
                    [sampleStudent "s1" None])) 1 = Some p'
    /\ progressInBounds (progress p')
    /\ literature (progress p') == 50.
Proof.
  destruct (advanceProjects_project
              [sampleProject "p1" 10 20 30 ["s1"%string] false;
               sampleProject "p2" 50 50 50 [] false]
              [sampleStudent "s1" None] 1 (sampleProject "p2" 50 50 50 [] false) eq_refl)
    as (p' & Hn & _ & H).
  destruct (H eq_refl) as (Hb & _ & _ & _ & Hnone).
  exists p'. split; [exact Hn|]. split; [exact Hb|].
  destruct Hnone as (Hl & _).
  - unfold progressInBounds. cbn. repeat split; lra.
  - intros sid [].
  - exact Hl.
Defined.

(** X24. What [advanceProjects] reports. It returns one project per
    project of the source, in order. The completed projects it reports are
    exactly the projects that were not completed before the pass and are
    completed after it, in order, each with its title; so a project is
    reported at most once, in the pass in which it completes. *)
Theorem advanceProjects_reports (source : list ResearchProject)
    (students : list StudentPersona) :
  let r := advanceProjects source students in
  let newly :=
    filter (fun pr => completed (snd pr) && negb (completed (fst pr)))
           (combine source (paUpdated r)) in
  List.length (paUpdated r) = List.length source
  /\ paCompletedProjects r = map snd newly
  /\ paCompletedTitles r = map (fun pr => projTitle (fst pr)) newly
  /\ paCompletedTitles r = map projTitle (paCompletedProjects r)
  /\ (forall q, In q (paCompletedProjects r) -> completed q = true /\ In q (paUpdated r))
  /\ (forall i p, nth_error source i = Some p -> completed p = true ->
        nth_error (paUpdated r) i = Some p /\ ~ In p (map fst newly)).
Proof.
  cbv zeta. unfold advanceProjects.
  set (studentMap := mapOfEntries (map (fun s => (id s, s)) students)).
  rewrite advanceAll_updated.
  destruct (advanceAll_reports studentMap source [] []) as [Ht Hc]. cbv zeta in Ht, Hc.
  cbn [app] in Ht, Hc. rewrite Ht, Hc.
  assert (Hcomb : forall l,
             filter (fun pr : ResearchProject * ResearchProject =>
                       completed (snd pr) && negb (completed (fst pr)))
                    (combine l (map (advanceProject studentMap) l))
             = map (fun p => (p, advanceProject studentMap p))
                   (filter (fun project =>
                              completed (advanceProject studentMap project)
                              && negb (completed project)) l)).
  { induction l as [|x xs IH]; [reflexivity|].
    cbn [map combine filter fst snd].
    destruct (completed (advanceProject studentMap x) && negb (completed x));
      cbn [map]; rewrite IH; reflexivity. }
  rewrite Hcomb. rewrite !map_map. cbn [fst snd].
  split; [apply length_map|].
  split; [reflexivity|]. split; [reflexivity|].
  split.
  { apply map_ext_in. intros p Hp. apply filter_In in Hp.
    destruct Hp as [_ Hp]. apply andb_prop in Hp. destruct Hp as [_ Hp].
    apply negb_true_iff in Hp. unfold advanceProject. rewrite Hp. reflexivity. }
  split.
  - intros q Hq. apply in_map_iff in Hq. destruct Hq as (p & E & Hp). subst q.
    apply filter_In in Hp. destruct Hp as [Hin Hp]. apply andb_prop in Hp.
    split; [apply Hp | apply in_map; exact Hin].
  - intros i p Hnth Hdone. split.
    + rewrite (map_nth_error _ _ _ Hnth). unfold advanceProject. rewrite Hdone. reflexivity.
    + rewrite map_id. intros Hin. apply filter_In in Hin. destruct Hin as [_ Hin].
      rewrite Hdone in Hin. rewrite andb_false_r in Hin. discriminate.
Qed.

(* ------------------------------------------------------------------ *)
(** ** Assigning students to projects and grants *)

Lemma filter_drop_app (sid : string) (ids : list string) :
  ~ In sid ids ->
  filter (fun i => negb (String.eqb i sid)) (ids ++ [sid]) = ids.
Proof.
  intros H. rewrite filter_app. cbn [filter]. rewrite String.eqb_refl. cbn [negb].
  rewrite app_nil_r. apply filter_not_referenced. exact H.
Qed.

Lemma filter_drop_gone (sid : string) (ids : list string) :
  ~ In sid (filter (fun i => negb (String.eqb i sid)) ids).
Proof.
  intros H. apply filter_In in H. destruct H as [_ H].
  rewrite String.eqb_refl in H. discriminate.
Qed.

Lemma setProjectAssigned_idem (p : ResearchProject) :
  setProjectAssigned p (projAssignedStudentIds p) = p.
Proof. destruct p; reflexivity. Qed.

(** X25. Assigning a student to a project and taking the student off
    again. After [handleAssignStudentToProject] the student is on every
    project with that id, once if the list had no duplicates; projects with
    another id, the team, the papers and the grants are untouched, and the
    log gets one entry. Assigning twice is assigning once.
    [handleRemoveStudentFromProject] leaves no project with that id holding
    the student, and undoes an assignment of a student who was not on the
    project before. *)
Theorem handleAssignStudentToProject_round_trip (showInt : Z -> string)
    (showBase36 : Q -> string) (projectId studentId : string) (s : Session) (g : Rng) :
  let s' := fst (handleAssignStudentToProject showInt showBase36 projectId studentId s g) in
  (forall i p, nth_error (projects s) i = Some p ->
     exists p',
       nth_error (projects s') i = Some p'
       /\ (projId p <> projectId -> p' = p)
       /\ (projId p = projectId ->
           In studentId (projAssignedStudentIds p')
           /\ p' = setProjectAssigned p (projAssignedStudentIds p')
           /\ (forall k, In k (projAssignedStudentIds p') <->
                         k = studentId \/ In k (projAssignedStudentIds p))
           /\ (NoDup (projAssignedStudentIds p) -> NoDup (projAssignedStudentIds p'))))
  /\ teamMembers s' = teamMembers s /\ projectPapers s' = projectPapers s
  /\ grantApplications s' = grantApplications s /\ stats s' = stats s
  /\ List.length (eventLog s') = S (List.length (eventLog s))
  /\ assignToProject projectId studentId (projects s') = projects s'
  /\ (forall p, In p (projects (handleRemoveStudentFromProject projectId studentId s')) ->
        projId p = projectId -> ~ In studentId (projAssignedStudentIds p))
  /\ ((forall p, In p (projects s) -> projId p = projectId ->
         ~ In studentId (projAssignedStudentIds p)) ->
      projects (handleRemoveStudentFromProject projectId studentId s') = projects s).
Proof.
  cbv zeta. unfold handleAssignStudentToProject. rewrite pushEvent_run.
  cbn [projects teamMembers projectPapers grantApplications stats eventLog
       setEventLog setProjects handleRemoveStudentFromProject].
  split.
  { intros i p Hnth. eexists. split.
    { unfold assignToProject. apply map_nth_error. exact Hnth. }
    cbv beta.
    destruct (String.eqb (projId p) projectId) eqn:E; cbn [negb].
    - apply String.eqb_eq in E. split; [intros H; contradiction|]. intros _.
      destruct (includes (projAssignedStudentIds p) studentId) eqn:Ei.
      + apply includes_In in Ei.
        split; [exact Ei|]. split; [symmetry; apply setProjectAssigned_idem|].
        split; [intros k; split; [intros H; right; exact H | intros [->|H]; assumption]|].
        intros H; exact H.
      + apply includes_not_In in Ei. cbn [setProjectAssigned projAssignedStudentIds].
        split; [apply in_or_app; right; left; reflexivity|].
        split; [reflexivity|].
        split.
        * intros k. rewrite in_app_iff. cbn [In]. split.
          -- intros [H|[H|[]]]; [right; exact H | left; symmetry; exact H].
          -- intros [H|H]; [right; left; symmetry; exact H | left; exact H].
        * intros Hnd. apply NoDup_app; [exact Hnd | repeat constructor; intros [] |].
          intros x Hx [Hx'|[]]. subst x. contradiction.
    - apply String.eqb_neq in E. split; [reflexivity | intros H; contradiction]. }
  split; [reflexivity|]. split; [reflexivity|]. split; [reflexivity|]. split; [reflexivity|].
  split; [rewrite length_app; cbn [List.length]; lia|].
  split.
  { unfold assignToProject. rewrite map_map. apply map_ext. intros p.
    destruct (String.eqb (projId p) projectId) eqn:E; cbn [negb]; [|rewrite E; reflexivity].
    destruct (includes (projAssignedStudentIds p) studentId) eqn:Ei.
    - rewrite E. cbn [negb]. rewrite Ei. reflexivity.
    - cbn [projId setProjectAssigned projAssignedStudentIds]. rewrite E. cbn [negb].
      assert (Hin : includes (projAssignedStudentIds p ++ [studentId]) studentId = true).
      { apply includes_In. apply in_or_app. right. left. reflexivity. }
      rewrite Hin. reflexivity. }
  split.
  { intros p Hp Hid. unfold removeFromProject in Hp. apply in_map_iff in Hp.
    destruct Hp as (q & E & _). subst p.
    destruct (String.eqb (projId q) projectId) eqn:Eq; cbn [negb].
    - cbn [setProjectAssigned projAssignedStudentIds]. apply filter_drop_gone.
    - cbn [negb] in Hid. apply String.eqb_neq in Eq. contradiction. }
  intros Hfree. unfold removeFromProject, assignToProject. rewrite map_map.
  rewrite <- (map_id (projects s)) at 2. apply map_ext_in. intros p Hp.
  destruct (String.eqb (projId p) projectId) eqn:E; cbn [negb]; [|rewrite E; reflexivity].
  apply String.eqb_eq in E. pose proof (Hfree p Hp E) as Hout.
  assert (Ei : includes (projAssignedStudentIds p) studentId = false)
    by (apply includes_not_In; exact Hout).
  rewrite Ei. cbn [projId setProjectAssigned projAssignedStudentIds].
  rewrite E, String.eqb_refl. cbn [negb].
  rewrite filter_drop_app by exact Hout. destruct p; reflexivity.
Qed.

Lemma setGrantAssigned_idem (gr : GrantState) :
  setGrantAssigned gr (gAssignedStudentIds gr) = gr.
Proof. destruct gr; reflexivity. Qed.

(** X26. Assigning a student to a grant. [handleAssignStudentToGrant]
    touches only grants with the given id that are under review or active: a
    completed, rejected or failed grant never gets a student, and grants with
    another id, the team, the projects and the papers are untouched. An open
    grant with that id ends with the student on it (once, if it had no
    duplicates) and is otherwise unchanged. [handleRemoveStudentFromGrant]
    undoes the assignment of a student who was on no grant with that id. *)
Theorem handleAssignStudentToGrant_guarded (showInt : Z -> string)
    (showBase36 : Q -> string) (grantId studentId : string) (s : Session) (g : Rng) :
  let s' := fst (handleAssignStudentToGrant showInt showBase36 grantId studentId s g) in
  (forall i gr, nth_error (grantApplications s) i = Some gr ->
     exists gr',
       nth_error (grantApplications s') i = Some gr'
       /\ (gId gr <> grantId \/ isOpenGrant gr = false -> gr' = gr)
       /\ (gId gr = grantId -> isOpenGrant gr = true ->
           In studentId (gAssignedStudentIds gr')
           /\ gr' = setGrantAssigned gr (gAssignedStudentIds gr')
           /\ (forall k, In k (gAssignedStudentIds gr') <->
                         k = studentId \/ In k (gAssignedStudentIds gr))
           /\ (NoDup (gAssignedStudentIds gr) -> NoDup (gAssignedStudentIds gr'))))
  /\ teamMembers s' = teamMembers s /\ projects s' = projects s
  /\ projectPapers s' = projectPapers s /\ stats s' = stats s
  /\ ((forall gr, In gr (grantApplications s) -> gId gr = grantId ->
         ~ In studentId (gAssignedStudentIds gr)) ->
      grantApplications (handleRemoveStudentFromGrant grantId studentId s')
      = grantApplications s).
Proof.
  cbv zeta.
  assert (Hfields : forall s1 : Session,
             let r := fst ((if truthyStr (nameOf (teamMembers s) studentId EmptyString)
                               && truthyStr
                                    match find (fun grant => String.eqb (gId grant) grantId)
                                                (grantApplications s) with
                                    | Some grant => gTitle grant
                                    | None => EmptyString
                                    end
                            then pushEvent showInt showBase36 "课题分配"
                                   (nameOf (teamMembers s) studentId EmptyString ++ " 加入「"
                                    ++ match find (fun grant => String.eqb (gId grant) grantId)
                                                   (grantApplications s) with
                                       | Some grant => gTitle grant
                                       | None => EmptyString
                                       end ++ "」。") s1
                            else ret s1) g) in
             grantApplications r = grantApplications s1 /\ teamMembers r = teamMembers s1
             /\ projects r = projects s1 /\ projectPapers r = projectPapers s1
             /\ stats r = stats s1).
  { intros s1. cbv zeta. destruct (_ && _).
    - rewrite pushEvent_run. repeat split.
    - repeat split. }
  unfold handleAssignStudentToGrant. cbv zeta.
  destruct (Hfields (setGrantApplications s
                       (assignToGrant grantId studentId (grantApplications s))))
    as (F1 & F2 & F3 & F4 & F5).
  cbv zeta in F1, F2, F3, F4, F5.
  unfold handleRemoveStudentFromGrant. cbn [grantApplications setGrantApplications].
  rewrite F1, F2, F3, F4, F5.
  cbn [grantApplications teamMembers projects projectPapers stats setGrantApplications].
  split.
  { intros i gr Hnth. eexists. split.
    { unfold assignToGrant. apply map_nth_error. exact Hnth. }
    cbv beta.
    destruct (String.eqb (gId gr) grantId) eqn:E; cbn [negb].
    - apply String.eqb_eq in E.
      destruct (isOpenGrant gr) eqn:Eo; cbn [negb].
      + split; [intros [H|H]; [contradiction | discriminate]|]. intros _ _.
        destruct (includes (gAssignedStudentIds gr) studentId) eqn:Ei.
        * apply includes_In in Ei.
          split; [exact Ei|]. split; [symmetry; apply setGrantAssigned_idem|].
          split; [intros k; split; [intros H; right; exact H | intros [->|H]; assumption]|].
          intros H; exact H.
        * apply includes_not_In in Ei. cbn [setGrantAssigned gAssignedStudentIds].
          split; [apply in_or_app; right; left; reflexivity|].
          split; [reflexivity|].
          split.
          -- intros k. rewrite in_app_iff. cbn [In]. split.
             ++ intros [H|[H|[]]]; [right; exact H | left; symmetry; exact H].
             ++ intros [H|H]; [right; left; symmetry; exact H | left; exact H].
          -- intros Hnd. apply NoDup_app; [exact Hnd | repeat constructor; intros [] |].
             intros x Hx [Hx'|[]]. subst x. contradiction.
      + split; [reflexivity | intros _ H; discriminate].
    - apply String.eqb_neq in E. split; [reflexivity | intros H; contradiction]. }
  split; [reflexivity|]. split; [reflexivity|]. split; [reflexivity|]. split; [reflexivity|].
  intros Hfree. unfold removeFromGrant, assignToGrant. rewrite map_map.
  rewrite <- (map_id (grantApplications s)) at 2. apply map_ext_in. intros gr Hgr.
  destruct (String.eqb (gId gr) grantId) eqn:E; cbn [negb]; [|rewrite E; reflexivity].
  apply String.eqb_eq in E. pose proof (Hfree gr Hgr E) as Hout.
  assert (Ei : includes (gAssignedStudentIds gr) studentId = false)
    by (apply includes_not_In; exact Hout).
  destruct (isOpenGrant gr); cbn [negb].
  - rewrite Ei. cbn [gId setGrantAssigned gAssignedStudentIds].
    rewrite E, String.eqb_refl. cbn [negb].
    rewrite filter_drop_app by exact Hout. destruct gr; reflexivity.
  - rewrite E, String.eqb_refl. cbn [negb].
    rewrite filter_not_referenced by exact Hout. apply setGrantAssigned_idem.
Qed.

(** Student [s3] joins and leaves the project of the sample session. *)
Lemma handleAssignStudentToProject_round_trip_witness :
  projects
    (handleRemoveStudentFromProject "proj-1" "s3"
       (fst (handleAssignStudentToProject sampleShowInt sampleShowBase36 "proj-1" "s3"
               sampleSession (constRng 0.5))))
  = projects sampleSession.
Proof.
  destruct (handleAssignStudentToProject_round_trip sampleShowInt sampleShowBase36
              "proj-1" "s3" sampleSession (constRng 0.5))
    as (_ & _ & _ & _ & _ & _ & _ & _ & H).
  apply H. intros p [E|[]] _. subst p. cbn. intros [H1|[H1|[]]]; discriminate H1.
Defined.

(** Student [s3] joins the grant under review of the sample session. *)
Lemma handleAssignStudentToGrant_guarded_witness :
  exists gr',
    nth_error
      (grantApplications
         (fst (handleAssignStudentToGrant sampleShowInt sampleShowBase36 "g1" "s3"
                 sampleSession (constRng 0.5)))) 0 = Some gr'
    /\ In "s3"%string (gAssignedStudentIds gr').
Proof.
  destruct (handleAssignStudentToGrant_guarded sampleShowInt sampleShowBase36
              "g1" "s3" sampleSession (constRng 0.5)) as (H & _).
  destruct (H 0%nat (sampleGrant "g1" GuoZiRan 70 0 0) eq_refl) as (gr' & Hn & _ & Hopen).
  exists gr'. split; [exact Hn|].
  destruct (Hopen eq_refl eq_refl) as (Hin & _). exact Hin.
Defined.

(* ------------------------------------------------------------------ *)
(** ** Counting active projects, picking a lead *)

Lemma mapGet_mapSet {V : Type} (m : JsMap V) (k : string) (v : V) (k' : string) :
  mapGet (mapSet m k v) k' = if String.eqb k k' then Some v else mapGet m k'.
Proof.
  induction m as [|[k0 v0] rest IH]; cbn [mapSet mapGet].
  - destruct (String.eqb k k'); reflexivity.
  - destruct (String.eqb k0 k) eqn:E; cbn [mapGet].
    + apply String.eqb_eq in E. rewrite E.
      destruct (String.eqb k k'); reflexivity.
    + destruct (String.eqb k0 k') eqn:E'.
      * apply String.eqb_eq in E'. rewrite <- E'. rewrite String.eqb_sym, E. reflexivity.
      * exact IH.
Qed.

Lemma countsAgree_push (counts : JsMap Q) (ids : list string) (x : string) :
  countsAgree counts ids ->
  countsAgree (mapSet counts x (orElse (mapGet counts x) 0 + 1)) (ids ++ [x]).
Proof.
  intros H sid. rewrite mapGet_mapSet. rewrite count_occ_app. cbn [count_occ].
  pose proof (H sid) as Hs. pose proof (H x) as Hx.
  destruct (String.eqb x sid) eqn:E.
  - apply String.eqb_eq in E. subst sid.
    destruct (string_dec x x) as [_|n]; [|contradiction n; reflexivity].
    split; [|lia].
    destruct (mapGet counts x) as [v|]; cbn [orElse].
    + destruct Hx as [Hv _]. rewrite Hv.
      rewrite Nat2Z.inj_add, inject_Z_plus. reflexivity.
    + rewrite Hx. reflexivity.
  - apply String.eqb_neq in E.
    destruct (string_dec x sid) as [e|_]; [contradiction|].
    rewrite Nat.add_0_r. exact Hs.
Qed.

Lemma countsAgree_fold (ids : list string) :
  forall (counts : JsMap Q) (before : list string),
    countsAgree counts before ->
    countsAgree
      (fold_left (fun c studentId => mapSet c studentId (orElse (mapGet c studentId) 0 + 1))
                 ids counts)
      (before ++ ids).
Proof.
  induction ids as [|x xs IH]; intros counts before H.
  - cbn [fold_left]. rewrite app_nil_r. exact H.
  - cbn [fold_left].
    replace (before ++ x :: xs) with ((before ++ [x]) ++ xs)
      by (rewrite <- app_assoc; reflexivity).
    apply IH. apply countsAgree_push. exact H.
Qed.

Lemma buildActiveProjectCount_agrees (projects : list ResearchProject) :
  countsAgree (buildActiveProjectCountByStudentId projects) (activeAssignments projects).
Proof.
  unfold buildActiveProjectCountByStudentId, activeAssignments.
  assert (H : forall l counts before,
             countsAgree counts before ->
             countsAgree
               (fold_left
                  (fun counts0 project =>
                     if completed project then counts0
                     else fold_left
                            (fun c studentId =>
                               mapSet c studentId (orElse (mapGet c studentId) 0 + 1))
                            (projAssignedStudentIds project) counts0)
                  l counts)
               (before ++ flat_map projAssignedStudentIds
                            (filter (fun p => negb (completed p)) l))).
  { induction l as [|p rest IH]; intros counts before Hc.
    - cbn. rewrite app_nil_r. exact Hc.
    - cbn [fold_left filter]. destruct (completed p); cbn [negb].
      + apply IH. exact Hc.
      + cbn [flat_map]. rewrite app_assoc. apply IH. apply countsAgree_fold. exact Hc. }
  apply (H projects [] []). intros sid. reflexivity.
Qed.

(** X27. [buildActiveProjectCountByStudentId] counts, for every student
    id, the projects that are not completed and list the id (an id listed
    twice by a project counts twice): the map holds that number under the id,
    and holds nothing under an id no such project lists. What
    [settleResearchPapers] reads from it for a student is therefore the
    number of active projects of the student. *)
Theorem buildActiveProjectCountByStudentId_counts (projects : list ResearchProject)
    (sid : string) :
  let n := count_occ string_dec (activeAssignments projects) sid in
  orElse (mapGet (buildActiveProjectCountByStudentId projects) sid) 0
  == inject_Z (Z.of_nat n)
  /\ (mapGet (buildActiveProjectCountByStudentId projects) sid = None <-> n = 0%nat).
Proof.
  cbv zeta. pose proof (buildActiveProjectCount_agrees projects sid) as H.
  split.
  - destruct (mapGet _ sid) as [v|]; cbn [orElse]; [apply H | rewrite H; reflexivity].
  - destruct (mapGet _ sid) as [v|].
    + destruct H as [_ H]. split; [intros E; discriminate | intros E; lia].
    + split; [intros _; exact H | reflexivity].
Qed.

(** Student [s1] is on the one active project of the sample session. *)
Lemma buildActiveProjectCountByStudentId_counts_witness :
  orElse (mapGet (buildActiveProjectCountByStudentId (projects sampleSession)) "s1") 0 == 1.
Proof.
  destruct (buildActiveProjectCountByStudentId_counts (projects sampleSession) "s1")
    as (H & _).
  exact H.
Defined.

Lemma pickBest_fold (rest : list StudentPersona) :
  forall (before : list StudentPersona) (b : StudentPersona) (mid : list StudentPersona),
    (forall s, In s before -> leadScore s < leadScore b) ->
    (forall s, In s mid -> leadScore s <= leadScore b) ->
    let r := fold_left
               (fun best current =>
                  if Qgtb (diligence current + talent current)
                          (diligence best + talent best)
                  then current else best)
               rest b in
    exists before' after',
      before ++ b :: mid ++ rest = before' ++ r :: after'
      /\ (forall s, In s before' -> leadScore s < leadScore r)
      /\ (forall s, In s after' -> leadScore s <= leadScore r).
Proof.
  induction rest as [|x xs IH]; intros before b mid Hb Hm; cbv zeta.
  - cbn [fold_left]. exists before, mid. rewrite app_nil_r. repeat split; assumption.
  - cbn [fold_left].
    destruct (Qgtb (diligence x + talent x) (diligence b + talent b)) eqn:E.
    + apply Qgtb_gt in E. fold (leadScore x) in E. fold (leadScore b) in E.
      destruct (IH (before ++ b :: mid) x []) as (b' & a' & H1 & H2 & H3).
      * intros s Hs. apply in_app_or in Hs. destruct Hs as [Hs|[Hs|Hs]].
        -- pose proof (Hb s Hs). lra.
        -- subst s. exact E.
        -- pose proof (Hm s Hs). lra.
      * intros s [].
      * cbv zeta in H1, H2, H3. exists b', a'.
        split; [|split; assumption].
        rewrite <- H1. cbn [app]. rewrite <- app_assoc. reflexivity.
    + apply Qgtb_le in E. fold (leadScore x) in E. fold (leadScore b) in E.
      destruct (IH before b (mid ++ [x])) as (b' & a' & H1 & H2 & H3).
      * exact Hb.
      * intros s Hs. apply in_app_or in Hs. destruct Hs as [Hs|[Hs|[]]].
        -- apply Hm. exact Hs.
        -- subst s. exact E.
      * cbv zeta in H1, H2, H3. exists b', a'.
        split; [|split; assumption].
        rewrite <- H1. rewrite <- app_assoc. reflexivity.
Qed.

Lemma resolveStudents_none (students : list StudentPersona) (ids : list string) :
  resolveStudents students ids = [] <->
  (forall sid, In sid ids -> ~ In sid (map id students)).
Proof.
  induction ids as [|i rest IH]; cbn [resolveStudents].
  - split; [intros _ sid [] | reflexivity].
  - destruct (find (fun s => String.eqb (id s) i) students) as [s|] eqn:E.
    + split; [discriminate|]. intros H. exfalso.
      apply find_some in E. destruct E as [Hin He]. apply String.eqb_eq in He.
      apply (H i (or_introl eq_refl)). rewrite <- He. apply in_map. exact Hin.
    + rewrite IH. split.
      * intros H sid [Hs|Hs]; [|apply H; exact Hs]. subst sid. intros Hin.
        apply in_map_iff in Hin. destruct Hin as (s & Es & Hs).
        pose proof (find_none _ _ E s Hs) as Hn. cbv beta in Hn.
        rewrite Es, String.eqb_refl in Hn. discriminate.
      * intros H sid Hs. apply H. right. exact Hs.
Qed.

(** X28. The lead of a project. [pickProjectLeadStudentId] returns [null]
    exactly when no assigned id names a student of the roster. Otherwise it
    returns the id of the assigned student with the highest
    [diligence + talent]: every assigned student listed before the lead
    scores strictly less, every one listed after scores at most as much. *)
Theorem pickProjectLeadStudentId_best (project : ResearchProject)
    (students : list StudentPersona) :
  let pool := resolveStudents students (projAssignedStudentIds project) in
  match pickProjectLeadStudentId project students with
  | None =>
      pool = []
      /\ forall sid, In sid (projAssignedStudentIds project) -> ~ In sid (map id students)
  | Some lead =>
      exists before b after,
        pool = before ++ b :: after
        /\ id b = lead /\ In b students
        /\ In lead (projAssignedStudentIds project)
        /\ (forall s, In s before -> leadScore s < leadScore b)
        /\ (forall s, In s after -> leadScore s <= leadScore b)
  end.
Proof.
  cbv zeta. unfold pickProjectLeadStudentId, pickBestId.
  destruct (resolveStudents students (projAssignedStudentIds project)) as [|first rest] eqn:E.
  - split; [reflexivity|]. apply resolveStudents_none. exact E.
  - destruct (pickBest_fold rest [] first []) as (before & after & H1 & H2 & H3).
    + intros s [].
    + intros s [].
    + cbv zeta in H1, H2, H3. cbn [app] in H1.
      set (b := fold_left _ rest first) in *.
      exists before, b, after.
      split; [exact H1|]. split; [reflexivity|].
      assert (Hb : In b (resolveStudents students (projAssignedStudentIds project))).
      { rewrite E, H1. apply in_or_app. right. left. reflexivity. }
      assert (Hres : forall ids s, In s (resolveStudents students ids) ->
                       In s students /\ In (id s) ids).
      { clear. induction ids as [|i l IH]; [intros s []|]. intros s Hs.
        cbn [resolveStudents] in Hs.
        destruct (find (fun s0 => String.eqb (id s0) i) students) as [s0|] eqn:Ef.
        - destruct Hs as [Hs|Hs].
          + subst s0. apply find_some in Ef. destruct Ef as [Hin He].
            apply String.eqb_eq in He. split; [exact Hin | left; symmetry; exact He].
          + destruct (IH s Hs). split; [|right]; assumption.
        - destruct (IH s Hs). split; [|right]; assumption. }
      destruct (Hres _ _ Hb) as [R1 R2].
      split; [exact R1|]. split; [exact R2|]. split; assumption.
Qed.

(** The lead of the project of the sample session is one of its students. *)
Lemma pickProjectLeadStudentId_best_witness :
  exists lead,
    pickProjectLeadStudentId
      (sampleProject "p1" 10 20 30 ["s1"%string; "s2"%string] false)
      (teamMembers sampleSession) = Some lead
    /\ In lead ["s1"%string; "s2"%string].
Proof.
  pose proof (pickProjectLeadStudentId_best
                (sampleProject "p1" 10 20 30 ["s1"%string; "s2"%string] false)
                (teamMembers sampleSession)) as H.
  cbv zeta in H.
  destruct (pickProjectLeadStudentId _ _) as [lead|].
  - destruct H as (before & b & after & _ & _ & _ & Hin & _).
    exists lead. split; [reflexivity | exact Hin].
  - destruct H as (_ & H). exfalso.
    apply (H "s1"%string (or_introl eq_refl)). left. reflexivity.
Defined.

(* ------------------------------------------------------------------ *)
(** ** Further examples *)

(** The decisions of a pass over a grant at its review deadline. *)
Lemma settleGrants_papers_linked_witness :
  gsDecisions
    (fst (settleGrants sampleShowInt sampleShowBase36
            [sampleGrant "g1" GuoZiRan 70 0 0] [] sampleStats []
            (mkStamp 1 3) (mkStamp 1 4) (constRng 0.5)))
  = map (venueDecisionFor (mkStamp 1 4))
        (gsNewPapers
           (fst (settleGrants sampleShowInt sampleShowBase36
                   [sampleGrant "g1" GuoZiRan 70 0 0] [] sampleStats []
                   (mkStamp 1 3) (mkStamp 1 4) (constRng 0.5)))).
Proof.
  destruct (settleGrants_papers_linked sampleShowInt sampleShowBase36
              [sampleGrant "g1" GuoZiRan 70 0 0] [] sampleStats []
              (mkStamp 1 3) (mkStamp 1 4) (constRng 0.5)) as (_ & _ & H).
  exact H.
Defined.

(** Two sub traits picked from the sample table. *)
Lemma pickWeightedTraits_sound_witness :
  NoDup (fst (pickWeightedTraits sampleTraits CatSub 2 [] (constRng 0.3))).
Proof.
  destruct (pickWeightedTraits_sound sampleTraits CatSub 2 [] (constRng 0.3)) as (H & _).
  exact H.
Defined.

(** The conflicting traits a caller supplies are kept, in shape. *)
Lemma resolveStudentTraits_shape_witness :
  (List.length (fst (resolveStudentTraits sampleTraits (Some suppliedTraits) (constRng 0.3)))
   <= 4)%nat.
Proof.
  destruct (resolveStudentTraits_shape sampleTraits (Some suppliedTraits) (constRng 0.3))
    as (_ & H & _).
  exact H.
Defined.

(** One student in, one student out, and no stat delta from this pass. *)
Lemma settleResearchPapers_decision_student_witness :
  rsReputationDelta
    (fst (settleResearchPapers [nearlyDoneStudent] sampleStats [] (constRng 0.5))) = 0
  /\ List.length
       (rsUpdatedStudents
          (fst (settleResearchPapers [nearlyDoneStudent] sampleStats [] (constRng 0.5))))
     = 1%nat.
Proof.
  destruct (settleResearchPapers_decision_student [nearlyDoneStudent] sampleStats []
              (constRng 0.5)) as (_ & H1 & _ & H3).
  split; [exact H1 | exact H3].
Defined.

(** A project at 98 on every track completes and is reported once. *)
Lemma advanceProjects_reports_witness :
  paCompletedTitles
    (advanceProjects [sampleProject "p1" 98 98 98 ["s1"%string] false]
                     [sampleStudent "s1" None])
  = map projTitle
        (paCompletedProjects
           (advanceProjects [sampleProject "p1" 98 98 98 ["s1"%string] false]
                            [sampleStudent "s1" None])).
Proof.
  destruct (advanceProjects_reports [sampleProject "p1" 98 98 98 ["s1"%string] false]
              [sampleStudent "s1" None]) as (_ & _ & _ & H & _).
  exact H.
Defined.

(* ------------------------------------------------------------------ *)
(** ** Sanitised effects *)

Lemma asInt_range (value : option Json) (lo hi : Z) (z : Z) :
  (lo <= hi)%Z ->
  asInt value (inject_Z lo) (inject_Z hi) = Some z -> (lo <= z <= hi)%Z.
Proof.
  intros Hle H. unfold asInt in H.
  destruct value as [[| |n| | | |]|]; try discriminate.
  inversion H; subst z.
  assert (Hq : inject_Z lo <= inject_Z hi) by (rewrite <- Zle_Qle; exact Hle).
  destruct (clampValue_bounds n (inject_Z lo) (inject_Z hi) Hq) as [H0 H1].
  split.
  - rewrite <- (jsRound_inject lo) at 1. apply jsRound_mono. exact H0.
  - rewrite <- (jsRound_inject hi) at 2. apply jsRound_mono. exact H1.
Qed.

Lemma ifTruthy_sanitised (value : option Json) (lo hi : Z) :
  (lo <= hi)%Z ->
  sanitised lo hi (ifTruthy (asInt value (inject_Z lo) (inject_Z hi))).
Proof.
  intros Hle. unfold ifTruthy.
  destruct (asInt value (inject_Z lo) (inject_Z hi)) as [z|] eqn:E; [|exact I].
  destruct (z =? 0)%Z eqn:Ez; [exact I|].
  apply Z.eqb_neq in Ez. exists z. split; [reflexivity|]. split; [exact Ez|].
  apply (asInt_range value lo hi z Hle E).
Qed.

(** X29. Whatever [normalizeEffects] lets through is sanitised. If it
    returns effects, they carry a stat delta or a student delta, neither of
    them empty, and every field set is an integer that is not zero within the
    range of the field (funding -40000..60000, reputation -5..6, morale
    -12..12, academia and admin -8..10, integrity -8..12; stress -15..18,
    mental state -15..15, progress -30..30, diligence, talent and luck -6..6,
    both paper counters -1..1). Anything that is no object gives no effects.
    The score and luck deltas kept in the [meta] of an option are integers
    within -18..18 and -12..12. *)
Theorem normalizeEffects_sanitised (raw : option Json) (obj : Json) :
  (forall e, normalizeEffects raw = Some e ->
     (effStats e <> None \/ effStudent e <> None)
     /\ (forall d, effStats e = Some d ->
           d <> emptyStatDelta
           /\ sanitised (-40000) 60000 (dFunding d) /\ sanitised (-5) 6 (dReputation d)
           /\ sanitised (-12) 12 (dMorale d) /\ sanitised (-8) 10 (dAcademia d)
           /\ sanitised (-8) 10 (dAdmin d) /\ sanitised (-8) 12 (dIntegrity d))
     /\ (forall d, effStudent e = Some d ->
           d <> mkStudentDelta None None None None None None None None
           /\ sanitised (-15) 18 (dStress d) /\ sanitised (-15) 15 (dMentalState d)
           /\ sanitised (-30) 30 (dContribution d) /\ sanitised (-6) 6 (dDiligence d)
           /\ sanitised (-6) 6 (dTalent d) /\ sanitised (-6) 6 (dLuck d)
           /\ sanitised (-1) 1 (dPendingPapers d) /\ sanitised (-1) 1 (dTotalPapers d)))
  /\ (asObject raw = None -> normalizeEffects raw = None)
  /\ (forall i l h out eff,
        let o := mkOption i l h out eff (normalizeReviewMeta obj) in
        (exists z, metaNumber o "scoreDelta" = inject_Z z /\ (-18 <= z <= 18)%Z)
        /\ (exists z, metaNumber o "luckDelta" = inject_Z z /\ (-12 <= z <= 12)%Z)).
Proof.
  split; [|split].
  - intros e He. unfold normalizeEffects in He.
    destruct (asObject raw) as [o|]; [|discriminate].
    cbv zeta in He.
    set (statsRaw := asObject (jsonGet o "stats")) in *.
    set (studentRaw := asObject (jsonGet o "student")) in *.
    set (sd := match statsRaw with None => emptyStatDelta | Some _ => _ end) in *.
    set (td := match studentRaw with
               | None => mkStudentDelta None None None None None None None None
               | Some _ => _
               end) in *.
    assert (Hsd : sanitised (-40000) 60000 (dFunding sd) /\ sanitised (-5) 6 (dReputation sd)
                  /\ sanitised (-12) 12 (dMorale sd) /\ sanitised (-8) 10 (dAcademia sd)
                  /\ sanitised (-8) 10 (dAdmin sd) /\ sanitised (-8) 12 (dIntegrity sd)).
    { unfold sd. destruct statsRaw.
      - cbn [dFunding dReputation dMorale dAcademia dAdmin dIntegrity].
        repeat split;
          match goal with
          | |- sanitised ?lo ?hi (ifTruthy (asInt ?v _ _)) =>
              exact (ifTruthy_sanitised v lo hi ltac:(lia))
          end.
      - cbn. repeat split. }
    assert (Htd : sanitised (-15) 18 (dStress td) /\ sanitised (-15) 15 (dMentalState td)
                  /\ sanitised (-30) 30 (dContribution td) /\ sanitised (-6) 6 (dDiligence td)
                  /\ sanitised (-6) 6 (dTalent td) /\ sanitised (-6) 6 (dLuck td)
                  /\ sanitised (-1) 1 (dPendingPapers td)
                  /\ sanitised (-1) 1 (dTotalPapers td)).
    { unfold td. destruct studentRaw.
      - cbn [dStress dMentalState dContribution dDiligence dTalent dLuck dPendingPapers
             dTotalPapers].
        repeat split;
          match goal with
          | |- sanitised ?lo ?hi (ifTruthy (asInt ?v _ _)) =>
              exact (ifTruthy_sanitised v lo hi ltac:(lia))
          end.
      - cbn. repeat split. }
    clearbody sd td.
    set (hasStats := _ || _ || _ || _ || _ || isSome (dReputation sd)) in *.
    set (hasStudent := _ || _ || _ || _ || _ || _ || _ || isSome (dTotalPapers td)) in *.
    assert (Hs : hasStats = true -> sd <> emptyStatDelta).
    { intros H E. subst sd. discriminate H. }
    assert (Ht : hasStudent = true ->
                 td <> mkStudentDelta None None None None None None None None).
    { intros H E. subst td. discriminate H. }
    clearbody hasStats hasStudent.
    destruct hasStats, hasStudent; cbn [negb andb] in He; try discriminate;
      inversion He; subst e; cbn [effStats effStudent].
    + split; [left; discriminate|]. split.
      * intros d Hd. inversion Hd; subst d. split; [apply Hs; reflexivity | exact Hsd].
      * intros d Hd. inversion Hd; subst d. split; [apply Ht; reflexivity | exact Htd].
    + split; [left; discriminate|]. split.
      * intros d Hd. inversion Hd; subst d. split; [apply Hs; reflexivity | exact Hsd].
      * intros d Hd. discriminate Hd.
    + split; [right; discriminate|]. split.
      * intros d Hd. discriminate Hd.
      * intros d Hd. inversion Hd; subst d. split; [apply Ht; reflexivity | exact Htd].
  - intros H. unfold normalizeEffects. rewrite H. reflexivity.
  - intros i l h out eff. cbv zeta. unfold metaNumber, metaGet. cbn [meta].
    unfold normalizeReviewMeta.
    set (metaRaw := asObject (jsonGet obj "meta")).
    pose proof (ifTruthy_sanitised (jsonGetOpt metaRaw "scoreDelta") (-18) 18 ltac:(lia))
      as Hsc.
    pose proof (ifTruthy_sanitised (jsonGetOpt metaRaw "luckDelta") (-12) 12 ltac:(lia))
      as Hlk.
    change (inject_Z (-18)) with (-18) in Hsc. change (inject_Z 18) with 18 in Hsc.
    change (inject_Z (-12)) with (-12) in Hlk. change (inject_Z 12) with 12 in Hlk.
    destruct (ifTruthy (asInt (jsonGetOpt metaRaw "scoreDelta") (-18) 18)) as [sv|];
      destruct (ifTruthy (asInt (jsonGetOpt metaRaw "luckDelta") (-12) 12)) as [lv|];
      cbn.
    + destruct Hsc as (z1 & E1 & _ & R1). destruct Hlk as (z2 & E2 & _ & R2).
      split; [exists z1 | exists z2]; split; assumption.
    + destruct Hsc as (z1 & E1 & _ & R1).
      split; [exists z1; split; assumption | exists 0%Z; split; [reflexivity | lia]].
    + destruct Hlk as (z2 & E2 & _ & R2).
      split; [exists 0%Z; split; [reflexivity | lia] | exists z2; split; assumption].
    + split; exists 0%Z; (split; [reflexivity | lia]).
Qed.

(** A raw effects object with a funding of a million and a morale of -2.4:
    the funding is capped at 60000 and the morale rounded to -2. *)
Lemma normalizeEffects_sanitised_witness :
  exists d,
    normalizeEffects (Some sampleRawEffects) = Some (mkEffects (Some d) None)
    /\ sanitised (-40000) 60000 (dFunding d) /\ sanitised (-12) 12 (dMorale d).
Proof.
  destruct (normalizeEffects_sanitised (Some sampleRawEffects) JNull) as (H & _).
  destruct (normalizeEffects (Some sampleRawEffects)) as [e|] eqn:E;
    [|vm_compute in E; discriminate E].
  destruct (H e eq_refl) as (_ & Hs & _).
  destruct (effStats e) as [d|] eqn:Ed.
  - destruct (Hs d eq_refl) as (_ & Hf & _ & Hm & _).
    exists d. split; [|split; assumption].
    destruct e as [es et]. cbn [effStats] in Ed. subst es.
    f_equal. f_equal. vm_compute in E. inversion E. reflexivity.
  - exfalso. vm_compute in E. inversion E; subst e. discriminate Ed.
Defined.

(* ------------------------------------------------------------------ *)
(** ** Applying for a grant *)

Lemma settleGrant_keeps_type (showInt : Z -> string) (showBase36 : Q -> string)
    (students : list StudentPersona) (ms : MentorStats) (papers : list ProjectPaper)
    (cur dec : Stamp) (acc : GrantAcc) (grant : GrantState) (g : Rng) :
  let out := fst (fst (settleGrant showInt showBase36 students ms papers cur dec acc grant g)) in
  gType out = gType grant /\ (isOpenGrant out = true -> isOpenGrant grant = true).
Proof.
  cbv zeta. unfold settleGrant.
  destruct (getGrantConfig (gType grant)) as [config|]; [|split; [reflexivity | tauto]].
  destruct (gStatus grant) eqn:Est.
  - pose proof (settleReviewingGrant_step showInt showBase36 students cur dec config
                  acc grant g) as H.
    cbv zeta in H.
    assert (Ho : isOpenGrant grant = true) by (unfold isOpenGrant; rewrite Est; reflexivity).
    destruct (isQuarterReached cur _).
    + destruct (Qltb _ _).
      * destruct H as (H1 & _). rewrite H1. split; [reflexivity | intros _; exact Ho].
      * destruct H as (paper & resolved & H1 & _). rewrite H1.
        split; [reflexivity | intros _; exact Ho].
    + destruct H as ([H1|H1] & _); rewrite H1; (split; [reflexivity | intros _; exact Ho]).
  - assert (Ho : isOpenGrant grant = true) by (unfold isOpenGrant; rewrite Est; reflexivity).
    destruct (settleActiveGrant_step showInt showBase36 students ms papers cur dec
                config acc grant g)
      as (news & ng & acc1 & _ & _ & _ & _ & _ & _ & _ & _ & _ & Hout & Hty).
    cbv zeta in Hout. rewrite Hout.
    destruct (closeGrant_frame papers config acc1 grant ng) as (_ & E & _). cbv zeta in E.
    split; [|intros _; exact Ho].
    destruct (closureDueStampOf grant) as [due|]; [destruct (isQuarterReached cur due)|];
      try exact Hty.
    rewrite E. exact Hty.
  - split; [reflexivity | tauto].
  - split; [reflexivity | tauto].
  - split; [reflexivity | tauto].
Qed.

Lemma mapAccumM_nth_back {S A B : Type} (f : S -> A -> Rand (B * S)) :
  forall l acc g i y,
    nth_error (fst (fst (mapAccumM f acc l g))) i = Some y ->
    exists x acc' g', nth_error l i = Some x /\ y = fst (fst (f acc' x g')).
Proof.
  induction l as [|x xs IH]; intros acc g i y Hnth.
  - destruct i; discriminate.
  - rewrite mapAccumM_cons in Hnth. destruct i as [|i]; cbn [nth_error fst] in *.
    + inversion Hnth. exists x, acc, g. split; reflexivity.
    + apply (IH _ _ i y Hnth).
Qed.

Lemma existsb_false_all {A : Type} (f : A -> bool) (l : list A) :
  existsb f l = false -> forall x, In x l -> f x = false.
Proof.
  intros H x Hx. destruct (f x) eqn:E; [|reflexivity].
  assert (Ht : existsb f l = true) by (apply existsb_exists; exists x; split; assumption).
  congruence.
Qed.

Lemma jsRound_clamp_range (x : Q) (lo hi : Z) :
  (lo <= hi)%Z ->
  (lo <= jsRound (clampValue x (inject_Z lo) (inject_Z hi)) <= hi)%Z.
Proof.
  intros Hle.
  assert (Hq : inject_Z lo <= inject_Z hi) by (rewrite <- Zle_Qle; exact Hle).
  destruct (clampValue_bounds x (inject_Z lo) (inject_Z hi) Hq) as [H0 H1].
  split.
  - rewrite <- (jsRound_inject lo) at 1. apply jsRound_mono. exact H0.
  - rewrite <- (jsRound_inject hi) at 2. apply jsRound_mono. exact H1.
Qed.

(** X30. At most one grant of a type is ever open. If no two grants of the
    same type are under review or active, this is still so after
    [handleApplyGrant] and after [settleGrants]. [handleApplyGrant] either
    leaves the grants, the statistics, the team, the projects and the papers
    as they were, or puts one new grant in front: of the type applied for,
    under review, applied in the opening quarter of the programme, with a
    review deadline [reviewOffsetQuarters] after the current quarter, an
    integral base score within 30..95, an integral luck within -6..6, no
    score delta, no students, no progress and no papers; and then no grant of
    that type was open or applied for in the same year. *)
Theorem handleApplyGrant_one_open_per_type (showInt : Z -> string)
    (showBase36 : Q -> string) (showNumber : Q -> string) (t : GrantType)
    (researchFocus : string) (s : Session) (g : Rng) :
  fairRng g ->
  oneOpenGrantPerType (grantApplications s) ->
  let s' := fst (handleApplyGrant showInt showBase36 showNumber t researchFocus s g) in
  oneOpenGrantPerType (grantApplications s')
  /\ (grantApplications s' = grantApplications s
      \/ exists gr config,
           getGrantConfig t = Some config
           /\ grantApplications s' = gr :: grantApplications s
           /\ gType gr = t /\ gStatus gr = Reviewing
           /\ statsQuarter (stats s) == openQuarter config
           /\ appliedYear gr = statsYear (stats s)
           /\ appliedQuarter gr = statsQuarter (stats s)
           /\ mkStamp (reviewEndYear gr) (reviewEndQuarter gr)
              = addQuarters (mkStamp (statsYear (stats s)) (statsQuarter (stats s)))
                            (reviewOffsetQuarters config)
           /\ (exists z, baseScore gr = inject_Z z /\ (30 <= z <= 95)%Z)
           /\ (exists z, gLuck gr = inject_Z z /\ (-6 <= z <= 6)%Z)
           /\ scoreDelta gr = 0 /\ paperProgress gr = 0
           /\ gAssignedStudentIds gr = [] /\ paperIds gr = []
           /\ (forall old, In old (grantApplications s) -> gType old = t ->
                 isOpenGrant old = false /\ ~ appliedYear old == statsYear (stats s)))
  /\ stats s' = stats s /\ teamMembers s' = teamMembers s
  /\ projects s' = projects s /\ projectPapers s' = projectPapers s
  /\ (forall students ms papers cur dec g2,
        oneOpenGrantPerType
          (gsUpdatedGrants
             (fst (settleGrants showInt showBase36 (grantApplications s') students ms papers
                     cur dec g2)))).
Proof.
  intros Hfair Hinv. cbv zeta.
  assert (Hsettle : forall grants students ms papers cur dec g2,
             oneOpenGrantPerType grants ->
             oneOpenGrantPerType
               (gsUpdatedGrants
                  (fst (settleGrants showInt showBase36 grants students ms papers cur dec g2)))).
  { intros grants students ms papers cur dec g2 H i j a b Hi Hj Oa Ob Hab.
    unfold settleGrants in Hi, Hj. rewrite bind_run in Hi, Hj.
    cbn [ret fst gsUpdatedGrants] in Hi, Hj.
    destruct (mapAccumM_nth_back _ _ _ _ _ _ Hi) as (x & acc1 & g1 & Hx & Ea).
    destruct (mapAccumM_nth_back _ _ _ _ _ _ Hj) as (y & acc2 & g3 & Hy & Eb).
    destruct (settleGrant_keeps_type showInt showBase36 students ms papers cur dec acc1 x g1)
      as [Tx Ox].
    destruct (settleGrant_keeps_type showInt showBase36 students ms papers cur dec acc2 y g3)
      as [Ty Oy].
    cbv zeta in Tx, Ox, Ty, Oy. rewrite <- Ea in Tx, Ox. rewrite <- Eb in Ty, Oy.
    apply (H i j x y Hx Hy (Ox Oa) (Oy Ob)). congruence. }
  assert (Hsame : forall s1 : Session,
             grantApplications s1 = grantApplications s -> stats s1 = stats s ->
             teamMembers s1 = teamMembers s -> projects s1 = projects s ->
             projectPapers s1 = projectPapers s ->
             oneOpenGrantPerType (grantApplications s1)
             /\ (grantApplications s1 = grantApplications s
                 \/ exists gr config,
                      getGrantConfig t = Some config
                      /\ grantApplications s1 = gr :: grantApplications s
                      /\ gType gr = t /\ gStatus gr = Reviewing
                      /\ statsQuarter (stats s) == openQuarter config
                      /\ appliedYear gr = statsYear (stats s)
                      /\ appliedQuarter gr = statsQuarter (stats s)
                      /\ mkStamp (reviewEndYear gr) (reviewEndQuarter gr)
                         = addQuarters (mkStamp (statsYear (stats s)) (statsQuarter (stats s)))
                                       (reviewOffsetQuarters config)
                      /\ (exists z, baseScore gr = inject_Z z /\ (30 <= z <= 95)%Z)
                      /\ (exists z, gLuck gr = inject_Z z /\ (-6 <= z <= 6)%Z)
                      /\ scoreDelta gr = 0 /\ paperProgress gr = 0
                      /\ gAssignedStudentIds gr = [] /\ paperIds gr = []
                      /\ (forall old, In old (grantApplications s) -> gType old = t ->
                            isOpenGrant old = false
                            /\ ~ appliedYear old == statsYear (stats s)))
             /\ stats s1 = stats s /\ teamMembers s1 = teamMembers s
             /\ projects s1 = projects s /\ projectPapers s1 = projectPapers s
             /\ (forall students ms papers cur dec g2,
                   oneOpenGrantPerType
                     (gsUpdatedGrants
                        (fst (settleGrants showInt showBase36 (grantApplications s1)
                                students ms papers cur dec g2))))).
  { intros s1 E1 E2 E3 E4 E5. rewrite E1.
    split; [exact Hinv|]. split; [left; reflexivity|].
    repeat (split; [assumption|]).
    intros. apply Hsettle. exact Hinv. }
  unfold handleApplyGrant.
  destruct (getGrantConfig t) as [config|] eqn:Ec; [|apply Hsame; reflexivity].
  destruct (Qeq_bool (statsQuarter (stats s)) (openQuarter config)) eqn:Eq; cbn [negb];
    [|apply Hsame; reflexivity].
  destruct (existsb (fun grant => GrantType_eqb (gType grant) t && isOpenGrant grant)
              (grantApplications s)) eqn:Eopen; [apply Hsame; reflexivity|].
  destruct (existsb (fun grant => GrantType_eqb (gType grant) t
                                  && Qeq_bool (appliedYear grant) (statsYear (stats s)))
              (grantApplications s)) eqn:Eyear; [apply Hsame; reflexivity|].
  clear Hsame.
  rewrite bind_run.
  pose proof (freshId_advances showInt showBase36 "grant" 4 g) as A1.
  remember (freshId showInt showBase36 "grant" 4 g) as idRun eqn:Eid. clear Eid.
  cbv zeta. rewrite bind_run.
  assert (A2 : advances (snd idRun) (snd (pickGrantTitle t researchFocus (snd idRun)))).
  { unfold pickGrantTitle, pickFallbackProjectTitle. advance. }
  remember (pickGrantTitle t researchFocus (snd idRun)) as titleRun eqn:Et. clear Et.
  rewrite bind_run.
  assert (A3 : advances (snd titleRun) (snd (calcGrantBaseScore (stats s) t (snd titleRun)))).
  { unfold calcGrantBaseScore. destruct t; advance. }
  assert (Hbase : exists z, fst (calcGrantBaseScore (stats s) t (snd titleRun)) = inject_Z z
                            /\ (30 <= z <= 95)%Z).
  { unfold calcGrantBaseScore. destruct t; rewrite bind_run; cbn [ret fst];
      eexists; (split; [reflexivity|]); apply (jsRound_clamp_range _ 30 95); lia. }
  remember (calcGrantBaseScore (stats s) t (snd titleRun)) as baseRun eqn:Eb. clear Eb.
  rewrite bind_run. rewrite rollInRange_run. cbn [fst snd].
  assert (Hf : fairRng (snd baseRun)).
  { apply (advances_fair g); [|exact Hfair].
    eapply advances_trans; [exact A1|]. eapply advances_trans; [exact A2 | exact A3]. }
  assert (Hluck : exists z, rollAt (-6) 6 (draws (snd baseRun) (cursor (snd baseRun)))
                            = inject_Z z /\ (-6 <= z <= 6)%Z).
  { destruct (Hf (cursor (snd baseRun))) as (F0 & F1).
    destruct (rollAt_range (-6) 6 _ ltac:(lia) F0 F1) as (R1 & R2).
    unfold rollAt in *. eexists. split; [reflexivity|].
    rewrite <- Zle_Qle in R1, R2. split; assumption. }
  rewrite pushEvent_run.
  cbn [grantApplications stats teamMembers projects projectPapers setEventLog
       setTeamMessage setGrantApplications].
  set (nextGrant := mkGrant _ _ _ _ _ _ _ _ _ _ _ _ _ _ _ _ _ _ _ _ _ _ _ _ _).
  assert (Hold : forall old, In old (grantApplications s) -> gType old = t ->
                   isOpenGrant old = false /\ ~ appliedYear old == statsYear (stats s)).
  { intros old Hin Hty.
    assert (Hte : GrantType_eqb (gType old) t = true) by (rewrite Hty; destruct t; reflexivity).
    split.
    - pose proof (existsb_false_all _ _ Eopen old Hin) as H.
      cbv beta in H. rewrite Hte in H. exact H.
    - pose proof (existsb_false_all _ _ Eyear old Hin) as H.
      cbv beta in H. rewrite Hte in H. cbn [andb] in H.
      intros Hq. apply Qeq_bool_iff in Hq. congruence. }
  assert (Hnew : oneOpenGrantPerType (nextGrant :: grantApplications s)).
  { intros i j a b Hi Hj Oa Ob Hab.
    destruct i as [|i], j as [|j]; cbn [nth_error] in Hi, Hj.
    - reflexivity.
    - inversion Hi; subst a. apply nth_error_In in Hj.
      destruct (Hold b Hj (eq_sym Hab)) as [Hc _]. congruence.
    - inversion Hj; subst b. apply nth_error_In in Hi.
      destruct (Hold a Hi Hab) as [Hc _]. congruence.
    - f_equal. apply (Hinv i j a b Hi Hj Oa Ob Hab). }
  split; [exact Hnew|].
  split.
  { right. exists nextGrant, config.
    split; [reflexivity|]. split; [reflexivity|].
    split; [reflexivity|]. split; [reflexivity|].
    split; [apply Qeq_bool_iff; exact Eq|].
    split; [reflexivity|]. split; [reflexivity|].
    split; [reflexivity|].
    split; [exact Hbase|]. split; [exact Hluck|].
    repeat (split; [reflexivity|]). exact Hold. }
  repeat (split; [reflexivity|]).
  intros. apply Hsettle. exact Hnew.
Qed.

(** A first application, in the opening quarter of the programme. *)
Lemma handleApplyGrant_one_open_per_type_witness :
  exists gr,
    grantApplications
      (fst (handleApplyGrant sampleShowInt sampleShowBase36 sampleShowNumber GuoZiRan
              "focus" (setGrantApplications sampleSession []) (constRng 0.5)))
    = [gr]
    /\ gType gr = GuoZiRan /\ gStatus gr = Reviewing.
Proof.
  destruct (handleApplyGrant_one_open_per_type sampleShowInt sampleShowBase36
              sampleShowNumber GuoZiRan "focus" (setGrantApplications sampleSession [])
              (constRng 0.5))
    as (_ & [Hl | (gr & config & _ & Hg & Hty & Hst & _)] & _).
  - apply constRng_fair; lra.
  - intros i j a b Hi. destruct i; discriminate Hi.
  - vm_compute in Hl. discriminate Hl.
  - exists gr. split; [exact Hg|]. split; [exact Hty | exact Hst].
Defined.
